(** * ProjectGabriel web UI: the memory manager and the control panel

    A shallow embedding of the two page controllers
    [api/webui/memory.js] and [api/webui/script.js], and the properties
    of their filtering, sorting, debouncing, reconnect back-off, speech
    buffering, form submission, refresh guard and console trimming.

    Conventions of the embedding.
    - A JavaScript string is a [string]: a sequence of code units, of
      which the model covers the range 0..255.  [toLowerCase], [trim]
      and the string comparison are those of ECMAScript on that range.
    - A JavaScript number that the scripts use as a counter, a delay or a
      time stamp is a [Z].  A number that comes with a record of the API
      is the double nearest to its integer, and [String] and [parseInt]
      treat it as such.
    - An [async] function is a function of the state and of the answers
      the environment gives at its [await] points; it returns the state it
      leaves and the list of effects it caused, in order.  The methods of
      the control panel around a [fetch] are given in two parts, before
      the first [await] and after the answer, so that other handlers can
      run in between.
    - A thrown exception is a value of type [Completion]. *)

From Stdlib Require Import ZArith List String Ascii Bool Lia.
From Stdlib Require Import Permutation Sorted DecimalString DecimalPos.
Import ListNotations.

Local Open Scope string_scope.
Local Open Scope list_scope.
Local Open Scope Z_scope.

(* ================================================================== *)
(** * The ECMAScript built-ins the scripts call *)
(* ================================================================== *)

Module Js.

(** Code unit of a character. *)
Definition code (c : ascii) : N := N_of_ascii c.

(** [WhiteSpace] and [LineTerminator] code units below 256: TAB, LF,
    VT, FF, CR, SP and NBSP. *)
Definition isWhiteSpace (c : ascii) : bool :=
  let n := code c in
  (((9 <=? n) && (n <=? 13)) || (n =? 32) || (n =? 160))%N.

Fixpoint trimStart (s : string) : string :=
  match s with
  | EmptyString => EmptyString
  | String c s' => if isWhiteSpace c then trimStart s' else s
  end.

Fixpoint trimEnd (s : string) : string :=
  match s with
  | EmptyString => EmptyString
  | String c s' =>
      match trimEnd s' with
      | EmptyString => if isWhiteSpace c then EmptyString else String c EmptyString
      | t => String c t
      end
  end.

(** [String.prototype.trim]. *)
Definition trim (s : string) : string := trimEnd (trimStart s).

(** Lower-case mapping of one code unit: A..Z and the Latin-1 capitals
    U+00C0..U+00DE except the multiplication sign U+00D7. *)
Definition toLowerCaseChar (c : ascii) : ascii :=
  let n := code c in
  if (((65 <=? n) && (n <=? 90))
      || ((192 <=? n) && (n <=? 222) && negb (n =? 215)))%N
  then ascii_of_N (n + 32) else c.

(** [String.prototype.toLowerCase]. *)
Fixpoint toLowerCase (s : string) : string :=
  match s with
  | EmptyString => EmptyString
  | String c s' => String (toLowerCaseChar c) (toLowerCase s')
  end.

(** [s.includes(t)]: [t] occurs in [s] as a contiguous substring. *)
Fixpoint includes (s t : string) : bool :=
  prefix t s ||
  match s with
  | EmptyString => false
  | String _ s' => includes s' t
  end.

(** Truthiness of a string: every string but the empty one. *)
Definition truthy (s : string) : bool := negb (s =? "")%string.

(** [s.split(sep)] for a separator of one code unit. *)
Fixpoint split (sep : ascii) (s : string) : list string :=
  match s with
  | EmptyString => [EmptyString]
  | String c s' =>
      if Ascii.eqb c sep then EmptyString :: split sep s'
      else match split sep s' with
           | w :: ws => String c w :: ws
           | [] => [String c EmptyString]
           end
  end.

(** [l.join(sep)]. *)
Definition join (sep : string) (l : list string) : string :=
  String.concat sep l.

(** [s.replace(pat, rep)] for a string pattern: the first occurrence
    only.  The replacement strings of the scripts contain no [$]. *)
Fixpoint replace (pat rep s : string) : string :=
  if prefix pat s
  then rep ++ substring (String.length pat) (String.length s) s
  else match s with
       | EmptyString => EmptyString
       | String c s' => String c (replace pat rep s')
       end.

(** Decimal text of an integer, as [String(n)] gives for a number
    that is an integer of magnitude below 2^53. *)
Definition ofZ (n : Z) : string := NilZero.string_of_int (Z.to_int n).

(** ** Numbers beyond the safe integers

    A number that is an integer is its value in [Z]; [infinity] stands
    for [Infinity] and its opposite for [-Infinity]: every finite
    double is below 2^1024 in magnitude. *)
Definition infinity : Z := 2 ^ 1024.

(** The Number value of a mathematical integer: the nearest double,
    which has a significand of 53 bits; a tie goes to the even
    significand, and from 2^1024 - 2^970 on the value is [infinity]. *)
Definition toDouble (n : Z) : Z :=
  let a := Z.abs n in
  if a <? 2 ^ 53 then n
  else
    let e := Z.log2 a - 52 in
    let q := Z.shiftr a e in
    let r := a - Z.shiftl q e in
    let half := Z.shiftl 1 (e - 1) in
    let q := if r <? half then q
             else if half <? r then q + 1
             else if Z.even q then q else q + 1 in
    let v := Z.shiftl q e in
    Z.sgn n * (if infinity <=? v then infinity else v).

Definition decimalLength (v : Z) : Z := Z.of_nat (String.length (ofZ v)).

(** [Number::toString] writes the fewest significant digits that read
    back as the number.  For a positive double [v] of [len] decimal
    digits, [shortestAt v len k] is the integer of [k] significant
    digits that reads back as [v], when there is one: of the two next
    to [v] the closer one, and on a tie the one whose last significant
    digit is even. *)
Definition shortestAt (v len k : Z) : option Z :=
  let unit := 10 ^ (len - k) in
  let lo := v / unit * unit in
  let hi := lo + unit in
  match toDouble lo =? v, toDouble hi =? v with
  | true, true =>
      Some (if v - lo <? hi - v then lo
            else if hi - v <? v - lo then hi
            else if Z.even (lo / unit) then lo else hi)
  | true, false => Some lo
  | false, true => Some hi
  | false, false => None
  end.

Fixpoint shortestFrom (fuel : nat) (v len k : Z) : Z :=
  match fuel with
  | O => v
  | S fuel' =>
      match shortestAt v len k with
      | Some c => c
      | None => shortestFrom fuel' v len (k + 1)
      end
  end.

(** The digits [Number::toString] writes for a positive double,
    followed by the zeros that fill it up to an integer. *)
Definition shortest (v : Z) : Z :=
  let len := decimalLength v in
  shortestFrom (Z.to_nat len) v len 1.

Fixpoint stripZeros (s : string) : string :=
  match s with
  | EmptyString => EmptyString
  | String c s' =>
      match stripZeros s' with
      | EmptyString => if Ascii.eqb c "0" then EmptyString else String c EmptyString
      | t => String c t
      end
  end.

(** [Number::toString] of a positive number that is an integer or
    [infinity]: the digits up to 21 of them, the exponent notation
    beyond. *)
Definition positiveToString (v : Z) : string :=
  if v =? infinity then "Infinity"
  else if v <? 2 ^ 53 then ofZ v
  else
    let c := shortest v in
    if c <? 10 ^ 21 then ofZ c
    else
      let exponent := String.append "e+" (ofZ (decimalLength c - 1)) in
      match stripZeros (ofZ c) with
      | EmptyString => "0"
      | String d EmptyString => String d exponent
      | String d rest => String d (String.append "." (String.append rest exponent))
      end.

(** [String(v)] for a number [v] that is an integer or infinite. *)
Definition numberToString (v : Z) : string :=
  if v =? 0 then "0"
  else if v <? 0 then String.append "-" (positiveToString (- v))
  else positiveToString v.

(** [Math.floor(x / y)] for a number [x] that is an integer or
    infinite and an integer [y] with 0 < y < 2^53: the quotient is
    rounded to a double, [q * 2^e] with [q] of 53 bits, before the floor
    is taken. *)
Definition floorOfQuotient (x y : Z) : Z :=
  let a := Z.abs x in
  if a =? 0 then 0
  else if a =? infinity then x
  else
    let e0 := Z.log2 a - Z.log2 y - 52 in
    let num e := Z.shiftl a (Z.max 0 (- e)) in
    let den e := Z.shiftl y (Z.max 0 e) in
    let e := if Z.shiftl (den e0) 52 <=? num e0 then e0 else e0 - 1 in
    let q := num e / den e in
    let r := num e mod den e in
    let q := if 2 * r <? den e then q
             else if den e <? 2 * r then q + 1
             else if Z.even q then q else q + 1 in
    if 0 <=? e then Z.sgn x * Z.shiftl q e
    else if 0 <? x then Z.shiftr q (- e)
    else - ((q + Z.shiftl 1 (- e) - 1) / Z.shiftl 1 (- e)).

(** The values a field of a record of the API can hold.  [Num n] is
    the number the JSON text of the integer [n] is read as: the double
    [toDouble n].  [parseInt] and the comparison of strings see a value
    only through [String], so a value of another kind (a number with a
    fraction, say) acts there as the string that [String] gives for
    it. *)
Inductive Val : Type :=
| Undefined
| Null
| Num (n : Z)
| Str (s : string)
| Arr (l : list string).

(** [String(v)]. *)
Definition toString (v : Val) : string :=
  match v with
  | Undefined => "undefined"
  | Null => "null"
  | Num n => numberToString (toDouble n)
  | Str s => s
  | Arr l => join "," l
  end.

Definition digitValue (c : ascii) : option N :=
  let n := code c in
  if ((48 <=? n) && (n <=? 57))%N then Some (n - 48)%N
  else if ((97 <=? n) && (n <=? 122))%N then Some (n - 87)%N
  else if ((65 <=? n) && (n <=? 90))%N then Some (n - 55)%N
  else None.

(** The longest prefix of digits of the radix; [None] when it is
    empty. *)
Fixpoint parseDigits (radix : N) (s : string) (acc : option N) : option N :=
  match s with
  | EmptyString => acc
  | String c s' =>
      match digitValue c with
      | Some d =>
          if (d <? radix)%N
          then parseDigits radix s'
                 (Some (match acc with Some a => a * radix + d | None => d end)%N)
          else acc
      | None => acc
      end
  end.

(** [parseInt(s)] of a string, without a radix argument: the digits
    are read as a mathematical integer, and the result is its Number
    value; [None] is [NaN]. *)
Definition parseIntString (s : string) : option Z :=
  let s := trimStart s in
  let '(sign, s) :=
    match s with
    | String "-" s' => (-1, s')
    | String "+" s' => (1, s')
    | _ => (1, s)
    end in
  let '(radix, s) :=
    match s with
    | String "0" (String "x" s') => (16%N, s')
    | String "0" (String "X" s') => (16%N, s')
    | _ => (10%N, s)
    end in
  option_map (fun n => toDouble (sign * Z.of_N n)) (parseDigits radix s None).

(** [parseInt(v)]: the argument is converted to a string first, a
    number too, so that a number written with an exponent gives its
    first digit and an infinite one gives [NaN]. *)
Definition parseInt (v : Val) : option Z := parseIntString (toString v).

(** [x || 0] for a number [x]: [NaN] and zero are falsy. *)
Definition orZero (x : option Z) : Z :=
  match x with Some n => n | None => 0 end.

(** Relational comparison of two numbers that may be [NaN]. *)
Definition numGt (a b : option Z) : bool :=
  match a, b with Some x, Some y => y <? x | _, _ => false end.
Definition numLt (a b : option Z) : bool :=
  match a, b with Some x, Some y => x <? y | _, _ => false end.

(** Relational comparison of two strings: by code units. *)
Definition strGt (a b : string) : bool :=
  match String.compare a b with Gt => true | _ => false end.
Definition strLt (a b : string) : bool :=
  match String.compare a b with Lt => true | _ => false end.

(** [Array.prototype.sort(cmp)].  ECMAScript leaves the sequence of
    calls of [cmp] to the engine and requires the sort to be stable.
    For a comparison that is consistent on the elements of the list
    (the values that compare equal form classes) this fixes the result:
    it is the one list that is in order and keeps the elements of a
    class in the order they had, and the stable insertion sort below
    computes it: an element goes before the first element it does not
    compare greater than.  For a comparison that is not consistent the
    order of the result is left to the engine, and the list below is
    one rearrangement among those an engine may return. *)
Section Sort.
Context {A : Type} (cmp : A -> A -> Z).

Fixpoint insert (x : A) (l : list A) : list A :=
  match l with
  | [] => [x]
  | y :: l' => if cmp x y <=? 0 then x :: l else y :: insert x l'
  end.

Fixpoint sort (l : list A) : list A :=
  match l with
  | [] => []
  | x :: l' => insert x (sort l')
  end.
End Sort.

(** [l.slice(start, end)]: negative indices count from the end. *)
Definition slice {A : Type} (l : list A) (start stop : Z) : list A :=
  let len := Z.of_nat (List.length l) in
  let rel i := if i <? 0 then Z.max (len + i) 0 else Z.min i len in
  let k := rel start in
  let final := rel stop in
  firstn (Z.to_nat (Z.max (final - k) 0)) (skipn (Z.to_nat k) l).

(** [Math.ceil(a / b)] for integers [a] and positive [b]. *)
Definition ceilDiv (a b : Z) : Z := (a + b - 1) / b.

(** [encodeURIComponent]: the unreserved marks, letters and digits
    stay; every other code unit becomes the escapes of its UTF-8
    bytes. *)
Definition isUnreserved (c : ascii) : bool :=
  let n := code c in
  (((48 <=? n) && (n <=? 57)) || ((65 <=? n) && (n <=? 90))
   || ((97 <=? n) && (n <=? 122))
   || existsb (N.eqb n) [45; 95; 46; 33; 126; 42; 39; 40; 41])%N.

Definition hexDigit (n : N) : ascii :=
  ascii_of_N (if n <? 10 then 48 + n else 55 + n)%N.

Definition escapeByte (b : N) : string :=
  String "%" (String (hexDigit (b / 16)) (String (hexDigit (b mod 16)) EmptyString)).

Fixpoint encodeURIComponent (s : string) : string :=
  match s with
  | EmptyString => EmptyString
  | String c s' =>
      let n := code c in
      String.append
        (if isUnreserved c then String c EmptyString
         else if (n <? 128)%N then escapeByte n
         else String.append (escapeByte (192 + n / 64)) (escapeByte (128 + n mod 64)))
        (encodeURIComponent s')
  end.

(** How a statement ends: normally, or by throwing an [Error] with a
    message. *)
Inductive Completion : Type :=
| Normal
| Throw (message : string).

End Js.

Infix "+++" := String.append (at level 60, right associativity).

(* ================================================================== *)
(** * The memory manager, [api/webui/memory.js] *)
(* ================================================================== *)

Module MemoryUI.
Import Js.

(** ** Data *)

(** A memory record as the API delivers it.  [content] and [tags] may
    be [null]; [access_count] is whatever the server sent. *)
Record Memory : Type := mkMemory {
  key : string;
  content : option string;
  category : string;
  memory_type : string;
  tags : option (list string);
  created_at : string;
  updated_at : string;
  access_count : Val
}.

(** [memory[field]]. *)
Definition getField (m : Memory) (field : string) : Val :=
  if (field =? "key")%string then Str (key m)
  else if (field =? "content")%string
       then match content m with Some c => Str c | None => Null end
  else if (field =? "category")%string then Str (category m)
  else if (field =? "memory_type")%string then Str (memory_type m)
  else if (field =? "tags")%string
       then match tags m with Some l => Arr l | None => Null end
  else if (field =? "created_at")%string then Str (created_at m)
  else if (field =? "updated_at")%string then Str (updated_at m)
  else if (field =? "access_count")%string then access_count m
  else Undefined.

Inductive Direction : Type := asc | desc.

Record Sort : Type := mkSort { field : string; direction : Direction }.

(** The elements of the page the script reads and writes, grouped.  A
    [_hidden] field tells whether the element's class list contains
    [hidden]. *)
Record Filters : Type := mkFilters {
  searchInput_value : string;
  memoryTypeFilter_value : string;
  categoryFilter_value : string;
  categoryFilter_options : list string
}.

(** The table body holds one row per memory; the markup of a row is a
    function of the memory, so the model keeps the memory. *)
Record TableView : Type := mkTableView {
  loadingState_hidden : bool;
  connectionErrorState_hidden : bool;
  emptyState_hidden : bool;
  memoryTableContainer_hidden : bool;
  memoryCount_text : string;
  memoryTableBody : list Memory
}.

Record PageView : Type := mkPageView {
  paginationContainer_hidden : bool;
  paginationInfo_text : string;
  pageInfo_text : string;
  prevPageBtn_disabled : bool;
  nextPageBtn_disabled : bool
}.

Record StatsView : Type := mkStatsView {
  totalMemories_text : string;
  longTermCount_text : string;
  shortTermCount_text : string;
  quickNoteCount_text : string
}.

Record Modals : Type := mkModals {
  memoryModal_hidden : bool;
  viewModal_hidden : bool;
  deleteModal_hidden : bool
}.

Record FormControls : Type := mkFormControls {
  memoryKey_value : string;
  memoryContent_value : string;
  memoryCategory_value : string;
  memoryType_value : string;
  memoryTags_value : string
}.

Record Elements : Type := mkElements {
  filters : Filters;
  tableView : TableView;
  pageView : PageView;
  statsView : StatsView;
  modals : Modals;
  memoryForm : FormControls;
  memoryForm_defaults : FormControls;
  memoryKey_disabled : bool;
  refreshBtn_loading : bool;
  saveMemoryBtn_loading : bool
}.

(** The globals of the script. *)
Record State : Type := mkState {
  currentMemories : list Memory;
  filteredMemories : list Memory;
  currentSort : Sort;
  currentPage : Z;
  isEditMode : bool;
  editingKey : option string;
  isAnyModalOpen : bool;
  lastViewMemoryTime : Z;
  isViewingMemory : bool;
  elements : Elements
}.

Definition itemsPerPage : Z := 20.

(** The state when the script has loaded and [initializeElements] has
    run on a page whose three modals are hidden. *)
Definition initialElements (defaults : FormControls) : Elements :=
  {| filters := mkFilters "" "" "" [];
     tableView := mkTableView false true true true "" [];
     pageView := mkPageView true "" "" false false;
     statsView := mkStatsView "-" "-" "-" "-";
     modals := mkModals true true true;
     memoryForm := defaults;
     memoryForm_defaults := defaults;
     memoryKey_disabled := false;
     refreshBtn_loading := false;
     saveMemoryBtn_loading := false |}.

Definition initialState (defaults : FormControls) : State :=
  {| currentMemories := [];
     filteredMemories := [];
     currentSort := mkSort "updated_at" desc;
     currentPage := 1;
     isEditMode := false;
     editingKey := None;
     isAnyModalOpen := false;
     lastViewMemoryTime := 0;
     isViewingMemory := false;
     elements := initialElements defaults |}.

(** Field updates. *)
Definition set_currentMemories (v : list Memory) (s : State) : State :=
  mkState v (filteredMemories s) (currentSort s) (currentPage s) (isEditMode s)
    (editingKey s) (isAnyModalOpen s) (lastViewMemoryTime s) (isViewingMemory s)
    (elements s).
Definition set_filteredMemories (v : list Memory) (s : State) : State :=
  mkState (currentMemories s) v (currentSort s) (currentPage s) (isEditMode s)
    (editingKey s) (isAnyModalOpen s) (lastViewMemoryTime s) (isViewingMemory s)
    (elements s).
Definition set_currentSort (v : Sort) (s : State) : State :=
  mkState (currentMemories s) (filteredMemories s) v (currentPage s) (isEditMode s)
    (editingKey s) (isAnyModalOpen s) (lastViewMemoryTime s) (isViewingMemory s)
    (elements s).
Definition set_currentPage (v : Z) (s : State) : State :=
  mkState (currentMemories s) (filteredMemories s) (currentSort s) v (isEditMode s)
    (editingKey s) (isAnyModalOpen s) (lastViewMemoryTime s) (isViewingMemory s)
    (elements s).
Definition set_elements (v : Elements) (s : State) : State :=
  mkState (currentMemories s) (filteredMemories s) (currentSort s) (currentPage s)
    (isEditMode s) (editingKey s) (isAnyModalOpen s) (lastViewMemoryTime s)
    (isViewingMemory s) v.

Definition set_filters (v : Filters) (e : Elements) : Elements :=
  mkElements v (tableView e) (pageView e) (statsView e) (modals e) (memoryForm e)
    (memoryForm_defaults e) (memoryKey_disabled e) (refreshBtn_loading e)
    (saveMemoryBtn_loading e).
Definition set_tableView (v : TableView) (e : Elements) : Elements :=
  mkElements (filters e) v (pageView e) (statsView e) (modals e) (memoryForm e)
    (memoryForm_defaults e) (memoryKey_disabled e) (refreshBtn_loading e)
    (saveMemoryBtn_loading e).
Definition set_pageView (v : PageView) (e : Elements) : Elements :=
  mkElements (filters e) (tableView e) v (statsView e) (modals e) (memoryForm e)
    (memoryForm_defaults e) (memoryKey_disabled e) (refreshBtn_loading e)
    (saveMemoryBtn_loading e).
Definition set_statsView (v : StatsView) (e : Elements) : Elements :=
  mkElements (filters e) (tableView e) (pageView e) v (modals e) (memoryForm e)
    (memoryForm_defaults e) (memoryKey_disabled e) (refreshBtn_loading e)
    (saveMemoryBtn_loading e).
Definition set_modals (v : Modals) (e : Elements) : Elements :=
  mkElements (filters e) (tableView e) (pageView e) (statsView e) v (memoryForm e)
    (memoryForm_defaults e) (memoryKey_disabled e) (refreshBtn_loading e)
    (saveMemoryBtn_loading e).
Definition set_memoryForm (v : FormControls) (e : Elements) : Elements :=
  mkElements (filters e) (tableView e) (pageView e) (statsView e) (modals e) v
    (memoryForm_defaults e) (memoryKey_disabled e) (refreshBtn_loading e)
    (saveMemoryBtn_loading e).
Definition set_refreshBtn_loading (v : bool) (e : Elements) : Elements :=
  mkElements (filters e) (tableView e) (pageView e) (statsView e) (modals e)
    (memoryForm e) (memoryForm_defaults e) (memoryKey_disabled e) v
    (saveMemoryBtn_loading e).
Definition set_saveMemoryBtn_loading (v : bool) (e : Elements) : Elements :=
  mkElements (filters e) (tableView e) (pageView e) (statsView e) (modals e)
    (memoryForm e) (memoryForm_defaults e) (memoryKey_disabled e)
    (refreshBtn_loading e) v.

Definition upd_elements (f : Elements -> Elements) (s : State) : State :=
  set_elements (f (elements s)) s.

(** ** Sorting: [applySorting], [handleSort] *)

Section Sorting.
(** [Date.parse] of the engine: the time value of a date string,
    [None] for a string it does not recognise. *)
Variable Date_parse : string -> option Z.

(** The time value of [new Date(v)]; [None] is an invalid date. *)
Definition newDate (v : Val) : option Z :=
  match v with
  | Undefined => None
  | Null => Some 0
  | Num n => if Z.abs n <=? 8640000000000000 then Some n else None
  | Str s => Date_parse s
  | Arr l => Date_parse (join "," l)
  end.

(** The body of the comparison function up to the direction: the
    variable [comparison]. *)
Definition comparison (fld : string) (a b : Memory) : Z :=
  let aVal := getField a fld in
  let bVal := getField b fld in
  if (fld =? "access_count")%string then
    let aVal := orZero (parseInt aVal) in
    let bVal := orZero (parseInt bVal) in
    let comparison := 0 in
    let comparison := if bVal <? aVal then 1 else comparison in
    let comparison := if aVal <? bVal then -1 else comparison in
    comparison
  else if includes fld "_at" then
    let aVal := newDate aVal in
    let bVal := newDate bVal in
    let comparison := 0 in
    let comparison := if numGt aVal bVal then 1 else comparison in
    let comparison := if numLt aVal bVal then -1 else comparison in
    comparison
  else
    let aVal := toLowerCase (toString aVal) in
    let bVal := toLowerCase (toString bVal) in
    let comparison := 0 in
    let comparison := if strGt aVal bVal then 1 else comparison in
    let comparison := if strLt aVal bVal then -1 else comparison in
    comparison.

(** The function passed to [sort]. *)
Definition compareFn (cs : Sort) (a b : Memory) : Z :=
  match direction cs with
  | desc => - comparison (field cs) a b
  | asc => comparison (field cs) a b
  end.

Definition applySorting (s : State) : State :=
  set_filteredMemories (sort (compareFn (currentSort s)) (filteredMemories s)) s.
End Sorting.

(** ** Pagination and rendering *)

Definition totalPagesOf (s : State) : Z :=
  ceilDiv (Z.of_nat (List.length (filteredMemories s))) itemsPerPage.

Definition updatePagination (s : State) : State :=
  let totalItems := Z.of_nat (List.length (filteredMemories s)) in
  let totalPages := ceilDiv totalItems itemsPerPage in
  let s :=
    if (totalPages <? currentPage s) && (0 <? totalPages)
    then set_currentPage totalPages s
    else if currentPage s <? 1 then set_currentPage 1 s
    else s in
  let startItem :=
    if totalItems =? 0 then 0 else (currentPage s - 1) * itemsPerPage + 1 in
  let endItem := Z.min (currentPage s * itemsPerPage) totalItems in
  upd_elements (set_pageView
    {| paginationInfo_text :=
         "Showing " +++ ofZ startItem +++ "-" +++ ofZ endItem +++ " of "
           +++ ofZ totalItems +++ " memories";
       pageInfo_text :=
         if 0 <? totalPages
         then "Page " +++ ofZ (currentPage s) +++ " of " +++ ofZ totalPages
         else "Page 0 of 0";
       prevPageBtn_disabled := currentPage s <=? 1;
       nextPageBtn_disabled := totalPages <=? currentPage s;
       paginationContainer_hidden := totalPages <=? 1 |}) s.

Definition renderMemoryTable (s : State) : State :=
  let startIndex := (currentPage s - 1) * itemsPerPage in
  let endIndex := startIndex + itemsPerPage in
  let pageMemories := slice (filteredMemories s) startIndex endIndex in
  let n := Z.of_nat (List.length (filteredMemories s)) in
  let countText := ofZ n +++ " " +++ (if n =? 1 then "memory" else "memories") in
  let tv := tableView (elements s) in
  let pv := pageView (elements s) in
  if n =? 0 then
    upd_elements (fun e =>
      set_pageView
        (mkPageView true (paginationInfo_text pv) (pageInfo_text pv)
           (prevPageBtn_disabled pv) (nextPageBtn_disabled pv))
        (set_tableView
           (mkTableView (loadingState_hidden tv) true false true countText
              (memoryTableBody tv)) e)) s
  else
    upd_elements (set_tableView
      (mkTableView (loadingState_hidden tv) true true false countText
         pageMemories)) s.

(** ** Filtering: [applyFiltersAndSearch] and its callers *)

Section Filtering.
Variable Date_parse : string -> option Z.

(** The callback of the search filter. *)
Definition searchMatch (searchTerm : string) (memory : Memory) : bool :=
  let keyMatch := includes (toLowerCase (key memory)) searchTerm in
  let contentMatch :=
    match content memory with
    | Some c => truthy c && includes (toLowerCase c) searchTerm
    | None => false
    end in
  let categoryMatch := includes (toLowerCase (category memory)) searchTerm in
  let tagsMatch :=
    match tags memory with
    | Some l => existsb (fun tag => includes (toLowerCase tag) searchTerm) l
    | None => false
    end in
  keyMatch || contentMatch || categoryMatch || tagsMatch.

Definition applyFiltersAndSearch (s : State) : State :=
  let filtered := currentMemories s in
  let searchTerm := toLowerCase (trim (searchInput_value (filters (elements s)))) in
  let filtered :=
    if truthy searchTerm then filter (searchMatch searchTerm) filtered
    else filtered in
  let memoryType := memoryTypeFilter_value (filters (elements s)) in
  let filtered :=
    if truthy memoryType
    then filter (fun memory => (memory_type memory =? memoryType)%string) filtered
    else filtered in
  let category_ := categoryFilter_value (filters (elements s)) in
  let filtered :=
    if truthy category_
    then filter (fun memory => (category memory =? category_)%string) filtered
    else filtered in
  let s := set_filteredMemories filtered s in
  let s := applySorting Date_parse s in
  let s := updatePagination s in
  renderMemoryTable s.

Definition handleSearch (s : State) : State :=
  applyFiltersAndSearch (set_currentPage 1 s).

Definition clearSearch (s : State) : State :=
  let f := filters (elements s) in
  handleSearch
    (upd_elements (set_filters
       (mkFilters "" (memoryTypeFilter_value f) (categoryFilter_value f)
          (categoryFilter_options f))) s).

Definition handleFilterChange (s : State) : State :=
  applyFiltersAndSearch (set_currentPage 1 s).

(** [handleSort]; the sort indicators it refreshes are a function of
    [currentSort] and hold no state of their own. *)
Definition handleSort (fld : string) (s : State) : State :=
  let cs := currentSort s in
  let s :=
    if (field cs =? fld)%string
    then set_currentSort
           (mkSort (field cs) (match direction cs with asc => desc | desc => asc end)) s
    else set_currentSort (mkSort fld asc) s in
  renderMemoryTable (applySorting Date_parse s).

Definition changePage (page : Z) (s : State) : State :=
  let totalPages := totalPagesOf s in
  if (1 <=? page) && (page <=? totalPages)
  then updatePagination (renderMemoryTable (set_currentPage page s))
  else s.
End Filtering.

(** ** Effects and answers of the environment *)

(** The body of a save request: the object [memoryData]. *)
Record MemoryData : Type := mkMemoryData {
  md_key : string;
  md_content : string;
  md_category : string;
  md_memory_type : option string;
  md_tags : option (list string)
}.

(** A call of [fetch]: the method, the address up to the query, the
    entries of the [URLSearchParams], whether the JSON content type
    header is set, and the object sent as JSON. *)
Record Request : Type := mkRequest {
  method : string;
  url : string;
  query : list (string * string);
  jsonHeader : bool;
  body : option MemoryData
}.

(** Functions handed to [setTimeout]. *)
Inductive Callback : Type :=
| CallRefreshData    (* [() => refreshData()] *)
| ResolveSleep.      (* the [resolve] of the retry pause *)

(** What a function does to the world outside the script's variables
    and the modelled elements.  [showToast] adds a toast that removes
    itself after [duration]; calls of [console.log] and the like leave
    no trace in the model. *)
Inductive Effect : Type :=
| ShowToast (message type : string) (duration : Z)
| Fetch (r : Request)
| SetTimeout (cb : Callback) (delay : Z).

Definition showToast (message type : string) (duration : Z) : Effect :=
  ShowToast message type duration.

Definition isFetch (e : Effect) : bool :=
  match e with Fetch _ => true | _ => false end.

(** The requests among the effects, in order. *)
Definition requests (l : list Effect) : list Request :=
  flat_map (fun e => match e with Fetch r => [r] | _ => [] end) l.

(** What [await response.json()] gives. *)
Inductive Parsed (D : Type) : Type :=
| ParseError (message : string)
| ParsedAs (data : D).
Arguments ParseError {D} message.
Arguments ParsedAs {D} data.

Record Response (D : Type) : Type := mkResponse {
  contentType : option string;     (* [headers.get('content-type')] *)
  ok : bool;
  status : Z;
  statusText : string;
  json : Parsed D
}.
Arguments mkResponse {D}.
Arguments contentType {D}.
Arguments ok {D}.
Arguments status {D}.
Arguments statusText {D}.
Arguments json {D}.

(** What [await fetch(...)] gives. *)
Inductive Fetched (D : Type) : Type :=
| Rejected (message : string)
| Resolved (r : Response D).
Arguments Rejected {D} message.
Arguments Resolved {D} r.

(** The objects the endpoints answer with. *)
Record SaveData : Type := mkSaveData {
  save_success : bool;
  save_message : option string
}.

Record ListData : Type := mkListData {
  list_success : bool;
  list_memories : list Memory;
  list_message : option string
}.

Record Stats : Type := mkStats {
  total : option Z;
  long_term : option Z;
  short_term : option Z;
  quick_note : option Z
}.

Record StatsData : Type := mkStatsData {
  stats_success : bool;
  stats : option Stats;
  stats_detail : option string;
  stats_message : option string
}.

(** [m || d] for an optional string [m]. *)
Definition orElse (m : option string) (d : string) : string :=
  match m with
  | Some x => if truthy x then x else d
  | None => d
  end.

(** [n || 0] shown as text. *)
Definition countText (n : option Z) : string := ofZ (orZero n).

(** What a call of a guarded function sees of the outside: the clock
    and the result of [document.querySelector('.modal:not(.hidden)')
    !== null], which depends on the markup of the page. *)
Record Env : Type := mkEnv {
  now : Z;
  modalInDocument : bool
}.

(** ** The refresh guard *)

(** The three tests that open [loadMemories], [loadMemoryStats] and
    [refreshData]; [true] when the function returns at once. *)
Definition refreshBlocked (env : Env) (s : State) : bool :=
  if isAnyModalOpen s || isViewingMemory s then true
  else
    let timeSinceLastView := now env - lastViewMemoryTime s in
    if timeSinceLastView <? 15000 then true
    else
      let modalsVisible :=
        [ negb (memoryModal_hidden (modals (elements s)));
          negb (viewModal_hidden (modals (elements s)));
          negb (deleteModal_hidden (modals (elements s)));
          modalInDocument env ] in
      existsb (fun visible => visible) modalsVisible.

Definition showLoading (s : State) : State :=
  let tv := tableView (elements s) in
  upd_elements (set_tableView
    (mkTableView false true true true (memoryCount_text tv) (memoryTableBody tv))) s.

Definition hideLoading (s : State) : State :=
  let tv := tableView (elements s) in
  upd_elements (set_tableView
    (mkTableView true (connectionErrorState_hidden tv) (emptyState_hidden tv)
       (memoryTableContainer_hidden tv) (memoryCount_text tv) (memoryTableBody tv))) s.

(** The default comparison of [sort()] on strings. *)
Definition defaultCompare (a b : string) : Z :=
  if strLt a b then -1 else if strGt a b then 1 else 0.

(** [[...new Set(l)]]: first occurrences, in order. *)
Fixpoint unique (seen l : list string) : list string :=
  match l with
  | [] => []
  | x :: l' =>
      if existsb (String.eqb x) seen then unique seen l'
      else x :: unique (x :: seen) l'
  end.

Definition updateCategoryFilter (s : State) : State :=
  let categories := sort defaultCompare (unique [] (map category (currentMemories s))) in
  let f := filters (elements s) in
  let currentValue := categoryFilter_value f in
  upd_elements (set_filters
    (mkFilters (searchInput_value f) (memoryTypeFilter_value f)
       (if existsb (String.eqb currentValue) categories then currentValue else "")
       categories)) s.

Section Loading.
Variable Date_parse : string -> option Z.
Variable API_BASE : string.

(** The entries of [params]: the two filters when set, and the
    limit. *)
Definition listParams (s : State) : list (string * string) :=
  let f := filters (elements s) in
  (if truthy (memoryTypeFilter_value f)
   then [("memory_type", memoryTypeFilter_value f)] else [])
  ++ (if truthy (categoryFilter_value f)
      then [("category", categoryFilter_value f)] else [])
  ++ [("limit", "1000")].

Definition isJson (ct : option string) : bool :=
  match ct with
  | Some c => truthy c && includes c "application/json"
  | None => false
  end.

(** The [try] block of [loadMemories] after the request was sent:
    the state it leaves, its toasts and how it completes. *)
Definition loadMemories_try (answer : Fetched ListData) (s : State)
  : State * list Effect * Completion :=
  match answer with
  | Rejected msg => (s, [], Throw msg)
  | Resolved response =>
      if negb (isJson (contentType response)) then
        (s, [], Throw "Server returned HTML instead of JSON. Check if Gabriel API is running and memory endpoints are available.")
      else if negb (ok response) then
        (s, [], Throw ("HTTP " +++ ofZ (status response) +++ ": " +++ statusText response))
      else
        match json response with
        | ParseError msg => (s, [], Throw msg)
        | ParsedAs data =>
            if list_success data then
              let s := set_currentMemories (list_memories data) s in
              let s := updateCategoryFilter s in
              let s := applyFiltersAndSearch Date_parse s in
              (s, [showToast "Memories loaded successfully" "success" 5000], Normal)
            else
              (s, [], Throw (orElse (list_message data) "Failed to load memories"))
        end
  end.

Definition loadMemories (env : Env) (answer : Fetched ListData) (s : State)
  : State * list Effect :=
  if refreshBlocked env s then (s, [])
  else
    let s := showLoading s in
    let request :=
      Fetch (mkRequest "GET" (API_BASE +++ "/api/memory/list") (listParams s) false None) in
    let '(s, effects, completion) := loadMemories_try answer s in
    let '(s, effects) :=
      match completion with
      | Normal => (s, effects)
      | Throw msg =>
          let s := set_currentMemories [] s in
          let s := applyFiltersAndSearch Date_parse s in
          (s, effects ++ [showToast ("Failed to load memories: " +++ msg) "error" 10000])
      end in
    (hideLoading s, request :: effects).

Definition setStatsTexts (a b c d : string) (s : State) : State :=
  upd_elements (set_statsView (mkStatsView a b c d)) s.

(** The [try] block of [loadMemoryStats] after the request was
    sent. *)
Definition loadMemoryStats_try (answer : Fetched StatsData) (s : State)
  : State * Completion :=
  match answer with
  | Rejected msg => (s, Throw msg)
  | Resolved response =>
      if negb (isJson (contentType response)) then
        (s, Throw ("Server returned " +++ ofZ (status response)
                   +++ " with non-JSON response. Content-Type: "
                   +++ orElse (contentType response) "none"))
      else
        match json response with
        | ParseError msg => (s, Throw ("Failed to parse JSON response: " +++ msg))
        | ParsedAs data =>
            if negb (ok response) then
              let errorDetail :=
                orElse (stats_detail data) (orElse (stats_message data) "Unknown error") in
              (s, Throw ("HTTP " +++ ofZ (status response) +++ ": " +++ errorDetail))
            else if stats_success data then
              match stats data with
              | Some st =>
                  (setStatsTexts (countText (total st)) (countText (long_term st))
                     (countText (short_term st)) (countText (quick_note st)) s,
                   Normal)
              | None =>
                  (s, Throw "Cannot read properties of undefined (reading 'total')")
              end
            else (s, Throw (orElse (stats_message data) "Failed to load stats"))
        end
  end.

Definition loadMemoryStats (env : Env) (answer : Fetched StatsData) (s : State)
  : State * list Effect * Completion :=
  if refreshBlocked env s then (s, [], Normal)
  else
    let request := Fetch (mkRequest "GET" (API_BASE +++ "/api/memory/stats") [] false None) in
    let '(s, completion) := loadMemoryStats_try answer s in
    match completion with
    | Normal => (s, [request], Normal)
    | Throw msg =>
        let s := setStatsTexts "-" "-" "-" "-" s in
        let toasts :=
          if negb (includes msg "HTML instead of JSON")
             && negb (includes msg "Failed to fetch")
          then [showToast ("Failed to load memory statistics: " +++ msg) "error" 10000]
          else [] in
        (s, request :: toasts, Normal)
    end.

(** [loadMemoryStatsWithRetry]: the loop from [attempt] on; the
    environment's answers to the attempts are [answers attempt].  The
    pause grows by the factor 1.5. *)
Fixpoint loadMemoryStatsWithRetry_loop (fuel : nat) (attempt maxRetries delay : Z)
    (answers : Z -> Env * Fetched StatsData) (s : State)
  : State * list Effect * Completion :=
  match fuel with
  | O => (s, [], Normal)
  | S fuel' =>
      if attempt <=? maxRetries then
        let '(s, effects, completion) :=
          loadMemoryStats (fst (answers attempt)) (snd (answers attempt)) s in
        match completion with
        | Normal => (s, effects, Normal)
        | Throw msg =>
            if attempt =? maxRetries then
              (s,
               effects ++
               [showToast ("Failed to load memory statistics after " +++ ofZ maxRetries
                           +++ " attempts. Check if Gabriel API is running on port 8000.")
                  "error" 15000],
               Throw msg)
            else
              let '(s, effects', completion') :=
                loadMemoryStatsWithRetry_loop fuel' (attempt + 1) maxRetries
                  (delay * 3 / 2) answers s in
              (s, effects ++ SetTimeout ResolveSleep delay :: effects', completion')
        end
      else (s, [], Normal)
  end.

Definition loadMemoryStatsWithRetry (answers : Z -> Env * Fetched StatsData) (s : State)
  : State * list Effect * Completion :=
  loadMemoryStatsWithRetry_loop 3 1 3 1000 answers s.

(** The effects of two calls that [Promise.all] takes: each call runs
    up to its first [await], where it has sent its request when it sends
    one, before the rest of either runs.  The rest runs as the answers
    come; the model takes the answer of the first call first. *)
Definition startedTogether (effects1 effects2 : list Effect) : list Effect :=
  match effects1, effects2 with
  | request1 :: rest1, request2 :: rest2 => request1 :: request2 :: rest1 ++ rest2
  | _, _ => effects1 ++ effects2
  end.

(** [refreshData].  The two loads of [Promise.all] write disjoint
    parts of the state and neither writes what the guard reads, so the
    state is that of one load after the other; the requests of both go
    out before either answer is handled. *)
Definition refreshData (env : Env)
    (envList : Env) (answerList : Fetched ListData)
    (answersStats : Z -> Env * Fetched StatsData) (s : State)
  : State * list Effect * Completion :=
  if refreshBlocked env s then (s, [], Normal)
  else
    let s := upd_elements (set_refreshBtn_loading true) s in
    let '(s, effects1) := loadMemories envList answerList s in
    let '(s, effects2, completion) := loadMemoryStatsWithRetry answersStats s in
    (upd_elements (set_refreshBtn_loading false) s, startedTogether effects1 effects2,
     completion).
End Loading.

(** ** The memory form: [closeMemoryModal], [handleFormSubmit] *)

Definition closeMemoryModal (now : Z) (s : State) : State :=
  let e := elements s in
  let m := modals e in
  let e := set_modals (mkModals true (viewModal_hidden m) (deleteModal_hidden m)) e in
  let e := set_memoryForm (memoryForm_defaults e) e in
  mkState (currentMemories s) (filteredMemories s) (currentSort s) (currentPage s)
    false None false (now - 12000) false e.

(** The entry list of [new FormData(form)]: a name and a value for
    each enabled control of the form. *)
Definition FormData : Type := list (string * string).

(** [new FormData(elements.memoryForm)].  The five controls have the
    names [handleFormSubmit] reads.  A disabled control gives no entry;
    the one control the script ever disables is the key, in
    [editMemory]. *)
Definition newFormData (e : Elements) : FormData :=
  let f := memoryForm e in
  (if memoryKey_disabled e then [] else [("key", memoryKey_value f)])
  ++ [("content", memoryContent_value f);
      ("category", memoryCategory_value f);
      ("memory_type", memoryType_value f);
      ("tags", memoryTags_value f)].

(** [formData.get(name)]: the first value, [None] for [null]. *)
Fixpoint formData_get (name : string) (fd : FormData) : option string :=
  match fd with
  | [] => None
  | (n, v) :: fd' => if (n =? name)%string then Some v else formData_get name fd'
  end.

Definition trimOfNull : string := "Cannot read properties of null (reading 'trim')".

(** The object [memoryData], or the message of the [TypeError] when a
    field that is trimmed is missing. *)
Definition readMemoryData (formData : FormData) : MemoryData + string :=
  match formData_get "key" formData with
  | None => inr trimOfNull
  | Some k =>
      match formData_get "content" formData with
      | None => inr trimOfNull
      | Some c =>
          match formData_get "category" formData with
          | None => inr trimOfNull
          | Some g =>
              inl {| md_key := trim k;
                     md_content := trim c;
                     md_category := if truthy (trim g) then trim g else "general";
                     md_memory_type := formData_get "memory_type" formData;
                     md_tags :=
                       match formData_get "tags" formData with
                       | Some t =>
                           if truthy t
                           then Some (filter truthy (map trim (split "," t)))
                           else None
                       | None => None
                       end |}
          end
      end
  end.

Section Form.
Variable API_BASE : string.

Definition saveRequest (s : State) (memoryData : MemoryData) : Request :=
  if isEditMode s then
    mkRequest "PUT"
      (API_BASE +++ "/api/memory/"
         +++ encodeURIComponent (match editingKey s with Some k => k | None => "null" end))
      [] true (Some memoryData)
  else
    mkRequest "POST" (API_BASE +++ "/api/memory") [] true (Some memoryData).

(** The [try] block of [handleFormSubmit] after the request was
    sent. *)
Definition handleFormSubmit_try (now : Z) (answer : Fetched SaveData) (s : State)
  : State * list Effect * Completion :=
  match answer with
  | Rejected msg => (s, [], Throw msg)
  | Resolved response =>
      match json response with
      | ParseError msg => (s, [], Throw msg)
      | ParsedAs data =>
          if save_success data then
            (closeMemoryModal now s,
             [showToast (if isEditMode s then "Memory updated successfully"
                         else "Memory created successfully") "success" 5000;
              SetTimeout CallRefreshData 100],
             Normal)
          else (s, [], Throw (orElse (save_message data) "Failed to save memory"))
      end
  end.

Definition handleFormSubmit (now : Z) (answer : Fetched SaveData) (s : State)
  : State * list Effect * Completion :=
  let formData := newFormData (elements s) in
  match readMemoryData formData with
  | inr msg => (s, [], Throw msg)
  | inl memoryData =>
      if negb (truthy (md_key memoryData)) then
        (s, [showToast "Memory key is required" "error" 5000], Normal)
      else if negb (truthy (md_content memoryData)) then
        (s, [showToast "Memory content is required" "error" 5000], Normal)
      else
        let s := upd_elements (set_saveMemoryBtn_loading true) s in
        let request := Fetch (saveRequest s memoryData) in
        let '(s, effects, completion) := handleFormSubmit_try now answer s in
        let effects :=
          match completion with
          | Normal => effects
          | Throw msg =>
              effects ++ [showToast ("Failed to save memory: " +++ msg) "error" 5000]
          end in
        (upd_elements (set_saveMemoryBtn_loading false) s, request :: effects, Normal)
  end.
End Form.

(** ** [debounce] *)

(** The wrapper [debounce(func, wait)] returns, with the timers it
    sets.  Timers are ideal: a timer set at time [t] with delay [w] runs
    at [t + w] unless it was cleared.  [W] is what [func] acts on. *)
Section Debounce.
Context {Args W : Type}.

Record Timer : Type := mkTimer {
  timer_id : nat;
  due : Z;
  timer_args : Args
}.

Record Debounced : Type := mkDebounced {
  timeout : option nat;          (* the variable [timeout] *)
  timers : list Timer;           (* the timers set and neither run nor cleared *)
  nextId : nat;
  world : W;
  calls : list (Z * Args)        (* when [func] ran, and on what *)
}.

Definition debounce_init (w : W) : Debounced := mkDebounced None [] 0 w [].

Definition clearTimeout (id : option nat) (l : list Timer) : list Timer :=
  match id with
  | None => l
  | Some i => filter (fun t => negb (Nat.eqb (timer_id t) i)) l
  end.

Variable func : Args -> W -> W.
Variable wait : Z.

(** A call of the wrapper at time [t]. *)
Definition executedFunction (t : Z) (args : Args) (d : Debounced) : Debounced :=
  let pending := clearTimeout (timeout d) (timers d) in
  let id := nextId d in
  mkDebounced (Some id) (pending ++ [mkTimer id (t + Z.max wait 0) args]) (S id)
    (world d) (calls d).

(** The timer [tm] runs: the closure [later] of the call that set
    it. *)
Definition later (tm : Timer) (d : Debounced) : Debounced :=
  let pending := clearTimeout (Some (timer_id tm)) (timers d) in
  let pending := clearTimeout (timeout d) pending in
  mkDebounced (timeout d) pending (nextId d)
    (func (timer_args tm) (world d)) (calls d ++ [(due tm, timer_args tm)]).

(** The event loop runs the timers due by [t], the oldest first;
    [None] lets every timer run. *)
Definition isDue (t : option Z) (tm : Timer) : bool :=
  match t with Some t => due tm <=? t | None => true end.

Fixpoint runTimers (fuel : nat) (t : option Z) (d : Debounced) : Debounced :=
  match fuel with
  | O => d
  | S fuel' =>
      match find (isDue t) (timers d) with
      | Some tm => runTimers fuel' t (later tm d)
      | None => d
      end
  end.

Definition elapse (t : option Z) (d : Debounced) : Debounced :=
  runTimers (List.length (timers d)) t d.

(** The wrapper is called at the given times, and then time goes
    on. *)
Fixpoint invoke (invocations : list (Z * Args)) (d : Debounced) : Debounced :=
  match invocations with
  | [] => elapse None d
  | (t, args) :: rest => invoke rest (executedFunction t args (elapse (Some t) d))
  end.
End Debounce.

(** [elements.searchInput.addEventListener('input',
    debounce(handleSearch, 300))]: the listener of the search box, called
    at the given times.  [handleSearch] ignores the event it is passed. *)
Definition searchInput_wait : Z := 300.

Definition searchInput_listener (Date_parse : string -> option Z)
    (invocations : list (Z * unit)) (d : @Debounced unit State) : Debounced :=
  invoke (fun _ => handleSearch Date_parse) searchInput_wait invocations d.

End MemoryUI.

(* ================================================================== *)
(** * The control panel, [api/webui/script.js] *)
(* ================================================================== *)

Module Panel.
Import Js.

(** ** Data *)

(** What a line of the console shows inside its [.message] span. *)
Inductive LineContent : Type :=
| Message (text : string)
| FunctionCall (name argsJson argsId : string)
| FunctionResponse (success : bool) (name message responseJson responseId : string).

(** A child of [consoleOutput]: its class list, its time stamp and
    its content. *)
Record Line : Type := mkLine {
  classList : list string;
  timestamp : string;
  content : LineContent
}.

Record Toast : Type := mkToast { toast_type : string; toast_message : string }.

Record SpeechItem : Type := mkSpeechItem { text : string; item_timestamp : string }.

Inductive ReadyState : Type := CONNECTING | OPEN | CLOSING | CLOSED.

(** A [WebSocket] object whose handlers are those of the panel. *)
Record Socket : Type := mkSocket { socket_id : nat; readyState : ReadyState }.

(** Functions handed to [setTimeout]. *)
Inductive Callback : Type :=
| Reconnect           (* the closure of [scheduleReconnect] *)
| FlushSpeech         (* [() => this.flushUserSpeechBuffer()] *)
| LoadPersonalities.  (* [() => this.loadPersonalities()] *)

Record Timer : Type := mkTimer { timer_id : nat; delay : Z; callback : Callback }.

(** The fields of the connection. *)
Record Conn : Type := mkConn {
  websocket : option nat;
  reconnectAttempts : Z;
  maxReconnectAttempts : Z;
  reconnectDelay : Z;
  wsStatus_className : string;
  wsStatus_text : string
}.

Record Speech : Type := mkSpeech {
  userSpeechBuffer : list SpeechItem;
  userSpeechBufferTimeout : option nat;
  userSpeechGroupingDelay : Z
}.

(** The elements of the page the modelled methods write. *)
Record Page : Type := mkPage {
  loadingOverlay_hidden : bool;
  sendButton_disabled : bool;
  messageInput_value : string;
  charCounter_text : string;
  yapModeToggle_checked : bool;
  toasts : list Toast             (* the toasts shown so far, oldest first *)
}.

(** The side of the browser: the sockets created and the timers set
    and neither run nor cleared. *)
Record Browser : Type := mkBrowser {
  sockets : list Socket;
  timers : list Timer;
  nextId : nat
}.

Record State : Type := mkState {
  autoScroll : bool;
  yapModeEnabled : bool;
  conn : Conn;
  speech : Speech;
  consoleOutput : list Line;
  page : Page;
  browser : Browser
}.

Definition set_conn (v : Conn) (p : State) : State :=
  mkState (autoScroll p) (yapModeEnabled p) v (speech p) (consoleOutput p) (page p)
    (browser p).
Definition set_speech (v : Speech) (p : State) : State :=
  mkState (autoScroll p) (yapModeEnabled p) (conn p) v (consoleOutput p) (page p)
    (browser p).
Definition set_consoleOutput (v : list Line) (p : State) : State :=
  mkState (autoScroll p) (yapModeEnabled p) (conn p) (speech p) v (page p) (browser p).
Definition set_page (v : Page) (p : State) : State :=
  mkState (autoScroll p) (yapModeEnabled p) (conn p) (speech p) (consoleOutput p) v
    (browser p).
Definition set_browser (v : Browser) (p : State) : State :=
  mkState (autoScroll p) (yapModeEnabled p) (conn p) (speech p) (consoleOutput p)
    (page p) v.
Definition set_yapModeEnabled (v : bool) (p : State) : State :=
  mkState (autoScroll p) v (conn p) (speech p) (consoleOutput p) (page p) (browser p).

(** ** The console *)

(** The trimming all three writers end with: the oldest line goes
    when there are more than 1000. *)
Definition trimConsole (lines : list Line) : list Line :=
  if 1000 <? Z.of_nat (List.length lines) then tl lines else lines.

Definition lastElementChild (lines : list Line) : option Line :=
  last (map Some lines) None.

Definition contains (cls : string) (l : Line) : bool :=
  existsb (String.eqb cls) (classList l).

(** [addConsoleMessage(type, message, newLine)], at the clock time
    [ts].  A chunk of a response goes into the last line when that line
    is a response; the scroll position is not modelled. *)
Definition addConsoleMessage (ts type message : string) (newLine : bool) (p : State)
  : State :=
  let append :=
    set_consoleOutput
      (trimConsole (consoleOutput p ++ [mkLine ["console-line"; type] ts (Message message)]))
      p in
  if negb newLine && (type =? "response")%string then
    match lastElementChild (consoleOutput p) with
    | Some lastLine =>
        if contains "console-line" lastLine && contains "response" lastLine then
          match content lastLine with
          | Message t =>
              set_consoleOutput
                (removelast (consoleOutput p)
                 ++ [mkLine (classList lastLine) (timestamp lastLine)
                       (Message (t +++ replace "Gabriel: " "" message))])
                p
          | _ => append
          end
        else append
    | None => append
    end
  else append.

(** The event data of a function call: the name and
    [JSON.stringify(args, null, 2)]. *)
Record CallData : Type := mkCallData { call_name : string; call_argsJson : string }.

(** What [updateYapModeFromResponse] reads of the object it is given:
    [yap_mode_enabled] when it is a boolean, and [message]. *)
Record YapResponse : Type := mkYapResponse {
  yap_mode_enabled : option bool;
  yap_message : option string
}.

(** The event data of a function response: the name, the fields
    [success] and [message] of the response when it has them,
    [JSON.stringify(response, null, 2)], and the object
    [data.response || data] as [updateYapModeFromResponse] reads it.  A
    line shows the check mark when [success] is not [false]. *)
Record ResponseData : Type := mkResponseData {
  resp_name : string;
  resp_success : option bool;
  resp_message : option string;
  resp_json : string;
  resp_or_data : YapResponse
}.

(** [addFunctionCallMessage(data)]; [id] is the fresh identifier made
    of the clock and a random number. *)
Definition addFunctionCallMessage (ts id : string) (data : CallData) (p : State) : State :=
  set_consoleOutput
    (trimConsole
       (consoleOutput p
        ++ [mkLine ["console-line"; "function-call"] ts
              (FunctionCall (call_name data) (call_argsJson data) ("args-" +++ id))]))
    p.

Definition addFunctionResponseMessage (ts id : string) (data : ResponseData) (p : State)
  : State :=
  let success := match resp_success data with Some false => false | _ => true end in
  let message :=
    match resp_message data with
    | Some m => if truthy m then m else "No message"
    | None => "No message"
    end in
  set_consoleOutput
    (trimConsole
       (consoleOutput p
        ++ [mkLine ["console-line"; "function-response"] ts
              (FunctionResponse success (resp_name data) message (resp_json data)
                 ("response-" +++ id))]))
    p.

Definition clearConsole (ts : string) (p : State) : State :=
  addConsoleMessage ts "system" "Console cleared" true (set_consoleOutput [] p).

(** ** Toasts and the loading overlay *)

Definition showToast (type message : string) (p : State) : State :=
  let g := page p in
  set_page
    (mkPage (loadingOverlay_hidden g) (sendButton_disabled g) (messageInput_value g)
       (charCounter_text g) (yapModeToggle_checked g)
       (toasts g ++ [mkToast type message]))
    p.

Definition showLoading (p : State) : State :=
  let g := page p in
  set_page
    (mkPage false true (messageInput_value g) (charCounter_text g)
       (yapModeToggle_checked g) (toasts g))
    p.

Definition hideLoading (p : State) : State :=
  let g := page p in
  set_page
    (mkPage true false (messageInput_value g) (charCounter_text g)
       (yapModeToggle_checked g) (toasts g))
    p.

(** ** Timers *)

Definition setTimeout (cb : Callback) (ms : Z) (p : State) : State * nat :=
  let b := browser p in
  let id := nextId b in
  (set_browser (mkBrowser (sockets b) (timers b ++ [mkTimer id ms cb]) (S id)) p, id).

Definition clearTimeout (id : nat) (p : State) : State :=
  let b := browser p in
  set_browser
    (mkBrowser (sockets b) (filter (fun t => negb (Nat.eqb (timer_id t) id)) (timers b))
       (nextId b))
    p.

(** ** The speech buffer *)

Definition flushUserSpeechBuffer (ts : string) (p : State) : State :=
  match userSpeechBuffer (speech p) with
  | [] => p
  | _ :: _ =>
      let p :=
        match userSpeechBufferTimeout (speech p) with
        | Some id =>
            let p := clearTimeout id p in
            set_speech
              (mkSpeech (userSpeechBuffer (speech p)) None
                 (userSpeechGroupingDelay (speech p)))
              p
        | None => p
        end in
      let combinedText := trim (join " " (map text (userSpeechBuffer (speech p)))) in
      let p :=
        if truthy combinedText
        then addConsoleMessage ts "user-speech" ("[User Speech]: " +++ combinedText) true p
        else p in
      set_speech
        (mkSpeech [] (userSpeechBufferTimeout (speech p))
           (userSpeechGroupingDelay (speech p)))
        p
  end.

(** ** The WebSocket connection *)

Definition updateWebSocketStatus (status : string) (p : State) : State :=
  let c := conn p in
  let '(cls, txt) :=
    if (status =? "connected")%string then ("api-status-badge online", "Connected")
    else if (status =? "connecting")%string then ("api-status-badge", "Connecting...")
    else if (status =? "disconnected")%string then ("api-status-badge offline", "Disconnected")
    else if (status =? "error")%string then ("api-status-badge offline", "Error")
    else if (status =? "failed")%string then ("api-status-badge offline", "Failed")
    else ("api-status-badge", "Unknown") in
  set_conn
    (mkConn (websocket c) (reconnectAttempts c) (maxReconnectAttempts c)
       (reconnectDelay c) cls txt)
    p.

Definition set_reconnect (attempts delay_ : Z) (p : State) : State :=
  let c := conn p in
  set_conn
    (mkConn (websocket c) attempts (maxReconnectAttempts c) delay_
       (wsStatus_className c) (wsStatus_text c))
    p.

Definition scheduleReconnect (ts : string) (p : State) : State :=
  if maxReconnectAttempts (conn p) <=? reconnectAttempts (conn p) then
    let p :=
      addConsoleMessage ts "error"
        "Max reconnection attempts reached. Please refresh the page." true p in
    updateWebSocketStatus "failed" p
  else
    let '(p, _) := setTimeout Reconnect (reconnectDelay (conn p)) p in
    set_reconnect (reconnectAttempts (conn p))
      (Z.min (reconnectDelay (conn p) * 2) 30000) p.

Definition readyStateOf (i : nat) (p : State) : option ReadyState :=
  option_map readyState
    (find (fun k => Nat.eqb (socket_id k) i) (sockets (browser p))).

Definition isOpen (r : option ReadyState) : bool :=
  match r with Some OPEN => true | _ => false end.

(** [connectWebSocket]; [constructs] tells whether [new WebSocket]
    returns, and not throws. *)
Definition connectWebSocket (ts : string) (constructs : bool) (p : State) : State :=
  if match websocket (conn p) with
     | Some i => isOpen (readyStateOf i p)
     | None => false
     end
  then p
  else
    let p := updateWebSocketStatus "connecting" p in
    if constructs then
      let b := browser p in
      let id := nextId b in
      let p :=
        set_browser (mkBrowser (sockets b ++ [mkSocket id CONNECTING]) (timers b) (S id)) p in
      let c := conn p in
      set_conn
        (mkConn (Some id) (reconnectAttempts c) (maxReconnectAttempts c)
           (reconnectDelay c) (wsStatus_className c) (wsStatus_text c))
        p
    else
      let p :=
        addConsoleMessage ts "error" "Failed to establish WebSocket connection" true p in
      let p := updateWebSocketStatus "error" p in
      scheduleReconnect ts p.

(** The closure [scheduleReconnect] hands to [setTimeout]. *)
Definition reconnectCallback (ts : string) (constructs : bool) (p : State) : State :=
  let p := set_reconnect (reconnectAttempts (conn p) + 1) (reconnectDelay (conn p)) p in
  let p :=
    addConsoleMessage ts "system"
      ("Reconnecting... (Attempt " +++ ofZ (reconnectAttempts (conn p)) +++ "/"
         +++ ofZ (maxReconnectAttempts (conn p)) +++ ")")
      true p in
  connectWebSocket ts constructs p.

Definition onopen (ts : string) (p : State) : State :=
  let p :=
    addConsoleMessage ts "system" "WebSocket connected - Real-time monitoring active"
      true p in
  let p := updateWebSocketStatus "connected" p in
  set_reconnect 0 1000 p.

Definition onclose (ts : string) (p : State) : State :=
  let p :=
    addConsoleMessage ts "warning" "WebSocket disconnected - Attempting to reconnect..."
      true p in
  let p := updateWebSocketStatus "disconnected" p in
  scheduleReconnect ts p.

Definition onerror (ts : string) (p : State) : State :=
  let p := addConsoleMessage ts "error" "WebSocket connection error" true p in
  updateWebSocketStatus "error" p.

(** ** Messages of the server *)

(** A parsed message: its type, the fields of [data] the handler
    reads, and its time stamp. *)
Record WsMessage : Type := mkWsMessage {
  msg_type : string;
  data_message : string;
  data_text : string;
  data_call : CallData;
  data_response : ResponseData;
  msg_timestamp : string
}.

Definition updateYapModeFromResponse (ts : string) (responseData : option YapResponse)
    (p : State) : State :=
  match responseData with
  | Some r =>
      match yap_mode_enabled r with
      | Some newYapModeState =>
          if negb (Bool.eqb (yapModeToggle_checked (page p)) newYapModeState) then
            let g := page p in
            let p :=
              set_page
                (mkPage (loadingOverlay_hidden g) (sendButton_disabled g)
                   (messageInput_value g) (charCounter_text g) newYapModeState (toasts g))
                p in
            let p := set_yapModeEnabled newYapModeState p in
            let statusMessage := if newYapModeState then "enabled" else "disabled" in
            let p := showToast "info" ("Yap mode automatically " +++ statusMessage) p in
            let p :=
              addConsoleMessage ts "success" ("Yap mode toggle updated: " +++ statusMessage)
                true p in
            match yap_message r with
            | Some m =>
                if truthy m then addConsoleMessage ts "info" ("Response: " +++ m) true p
                else p
            | None => p
            end
          else p
      | None => p
      end
  | None => p
  end.

Definition handleFunctionResponse (ts id : string) (data : ResponseData) (p : State)
  : State :=
  let p := addFunctionResponseMessage ts id data p in
  updateYapModeFromResponse ts (Some (resp_or_data data)) p.

Section Messages.
(** What [checkForFunctionResponse] gets out of a text: the object
    that [JSON.parse] builds from the match of the regular expression,
    [None] when the text has no match or the parse throws. *)
Variable functionResponseIn : string -> option YapResponse.

Definition checkForFunctionResponse (ts message : string) (p : State) : State :=
  match functionResponseIn message with
  | Some responseData => updateYapModeFromResponse ts (Some responseData) p
  | None => p
  end.

Definition isBuffered (type : string) : bool :=
  (type =? "user_input_transcription")%string
  || (type =? "heartbeat")%string || (type =? "pong")%string.

(** The [switch] of [handleWebSocketMessage]. *)
Definition dispatch (ts id : string) (m : WsMessage) (p : State) : State :=
  let type := msg_type m in
  if (type =? "connection")%string then
    addConsoleMessage ts "success" (data_message m) true p
  else if (type =? "user_message")%string then
    addConsoleMessage ts "info" (data_message m) true p
  else if (type =? "system_instruction")%string then
    addConsoleMessage ts "system" (data_message m) true p
  else if (type =? "function_call")%string then
    addFunctionCallMessage ts id (data_call m) p
  else if (type =? "function_response")%string then
    handleFunctionResponse ts id (data_response m) p
  else if (type =? "user_input_transcription")%string then
    let sp := speech p in
    let p :=
      set_speech
        (mkSpeech (userSpeechBuffer sp ++ [mkSpeechItem (data_text m) (msg_timestamp m)])
           (userSpeechBufferTimeout sp) (userSpeechGroupingDelay sp))
        p in
    let p :=
      match userSpeechBufferTimeout (speech p) with
      | Some t => clearTimeout t p
      | None => p
      end in
    let '(p, t) := setTimeout FlushSpeech (userSpeechGroupingDelay (speech p)) p in
    set_speech
      (mkSpeech (userSpeechBuffer (speech p)) (Some t)
         (userSpeechGroupingDelay (speech p)))
      p
  else if (type =? "text_chunk")%string then
    let p := addConsoleMessage ts "response" ("Gabriel: " +++ data_text m) false p in
    checkForFunctionResponse ts (data_text m) p
  else if (type =? "transcription_chunk")%string then p
  else if (type =? "complete_response")%string then
    let p :=
      addConsoleMessage ts "response" ("Gabriel (complete): " +++ data_text m) true p in
    checkForFunctionResponse ts (data_text m) p
  else if (type =? "system")%string then
    let p := addConsoleMessage ts "system" (data_message m) true p in
    let p := checkForFunctionResponse ts (data_message m) p in
    if truthy (data_message m) && includes (data_message m) "Personality switched to:"
    then fst (setTimeout LoadPersonalities 1000 p)
    else p
  else if (type =? "error")%string then
    addConsoleMessage ts "error" (data_message m) true p
  else p.

Definition handleWebSocketMessage (ts id : string) (m : WsMessage) (p : State) : State :=
  let p := if negb (isBuffered (msg_type m)) then flushUserSpeechBuffer ts p else p in
  dispatch ts id m p.

(** [onmessage]: a text that does not parse is only logged. *)
Definition onmessage (ts id : string) (m : option WsMessage) (p : State) : State :=
  match m with
  | Some message => handleWebSocketMessage ts id message p
  | None => p
  end.

(** ** The events of the connection and of the timers *)

(** The socket [i] moves to the ready state [r]. *)
Fixpoint moveSocket (i : nat) (r : ReadyState) (l : list Socket) : list Socket :=
  match l with
  | [] => []
  | k :: l' =>
      if Nat.eqb (socket_id k) i then mkSocket i r :: l' else k :: moveSocket i r l'
  end.

Definition setReadyState (i : nat) (r : ReadyState) (p : State) : State :=
  let b := browser p in
  set_browser (mkBrowser (moveSocket i r (sockets b)) (timers b) (nextId b)) p.

(** [disconnect]: [close()] moves a socket that is not closed to
    [CLOSING]; its close event comes later. *)
Definition disconnect (ts : string) (p : State) : State :=
  let p := flushUserSpeechBuffer ts p in
  match websocket (conn p) with
  | Some i =>
      let p :=
        match readyStateOf i p with
        | Some CLOSED | None => p
        | Some _ => setReadyState i CLOSING p
        end in
      let c := conn p in
      set_conn
        (mkConn None (reconnectAttempts c) (maxReconnectAttempts c) (reconnectDelay c)
           (wsStatus_className c) (wsStatus_text c))
        p
  | None => p
  end.

Inductive Event : Type :=
| SocketOpens (i : nat) (ts : string)
| SocketMessage (i : nat) (ts id : string) (m : option WsMessage)
| SocketError (i : nat) (ts : string)
| SocketCloses (i : nat) (ts : string)
| TimerRuns (id : nat) (ts : string) (constructs : bool)
| Disconnects (ts : string).

Definition runCallback (cb : Callback) (ts : string) (constructs : bool) (p : State)
  : State :=
  match cb with
  | Reconnect => reconnectCallback ts constructs p
  | FlushSpeech => flushUserSpeechBuffer ts p
  | LoadPersonalities => p   (* [loadPersonalities] is outside the model *)
  end.

(** One turn of the event loop; [None] when the browser cannot
    deliver the event in this state. *)
Definition step (p : State) (e : Event) : option State :=
  match e with
  | SocketOpens i ts =>
      match readyStateOf i p with
      | Some CONNECTING => Some (onopen ts (setReadyState i OPEN p))
      | _ => None
      end
  | SocketMessage i ts id m =>
      match readyStateOf i p with
      | Some OPEN => Some (onmessage ts id m p)
      | _ => None
      end
  | SocketError i ts =>
      match readyStateOf i p with
      | Some CLOSED | None => None
      | Some _ => Some (onerror ts p)
      end
  | SocketCloses i ts =>
      match readyStateOf i p with
      | Some CLOSED | None => None
      | Some _ => Some (onclose ts (setReadyState i CLOSED p))
      end
  | TimerRuns id ts constructs =>
      match find (fun t => Nat.eqb (timer_id t) id) (timers (browser p)) with
      | Some t => Some (runCallback (callback t) ts constructs (clearTimeout id p))
      | None => None
      end
  | Disconnects ts => Some (disconnect ts p)
  end.

Fixpoint run (p : State) (events : list Event) : option State :=
  match events with
  | [] => Some p
  | e :: rest =>
      match step p e with
      | Some p' => run p' rest
      | None => None
      end
  end.

(** The reconnect attempts made along a run: the runs of the
    reconnect timer. *)
Definition isReconnectAttempt (p : State) (e : Event) : bool :=
  match e with
  | TimerRuns id _ _ =>
      match find (fun t => Nat.eqb (timer_id t) id) (timers (browser p)) with
      | Some (mkTimer _ _ Reconnect) => true
      | _ => false
      end
  | _ => false
  end.

Fixpoint reconnectAttemptsIn (p : State) (events : list Event) : nat :=
  match events with
  | [] => O
  | e :: rest =>
      match step p e with
      | Some p' =>
          ((if isReconnectAttempt p e then 1 else 0) + reconnectAttemptsIn p' rest)%nat
      | None => O
      end
  end.

Definition isOpenEvent (e : Event) : bool :=
  match e with SocketOpens _ _ => true | _ => false end.
End Messages.

(** The panel when the constructor and [init] have run, on a page
    whose console holds [lines0] and whose other elements are [page0]:
    the fields of the constructor, the first call of [connectWebSocket]
    and the first console message. *)
Definition constructed (lines0 : list Line) (page0 : Page) : State :=
  {| autoScroll := true;
     yapModeEnabled := false;
     conn := mkConn None 0 5 1000 "" "";
     speech := mkSpeech [] None 2000;
     consoleOutput := lines0;
     page := page0;
     browser := mkBrowser [] [] 1 |}.

Definition init (ts : string) (constructs : bool) (lines0 : list Line) (page0 : Page)
  : State :=
  let p := connectWebSocket ts constructs (constructed lines0 page0) in
  addConsoleMessage ts "system" "Control panel initialized. Checking Gabriel status..."
    true p.

(** ** Actions around a [fetch] *)

(** The object an endpoint answers with, as the actions read it. *)
Record Reply : Type := mkReply { success : bool; message : option string }.

(** The outcome of [await fetch(...)] followed by [await
    response.json()]. *)
Inductive Outcome : Type :=
| FetchRejects (error_message : string)
| JsonRejects (error_message : string)
| Answers (data : Reply).

(** The body of a request to [/api/chat/send]. *)
Record ChatRequest : Type := mkChatRequest {
  chat_url : string;
  chat_message : string;
  system_instruction : bool;
  turn_complete : bool
}.

(** [data.message || fallback]. *)
Definition messageOr (data : Reply) (fallback : string) : string :=
  match message data with
  | Some m => if truthy m then m else fallback
  | None => fallback
  end.

Definition set_messageInput (value counter : string) (p : State) : State :=
  let g := page p in
  set_page
    (mkPage (loadingOverlay_hidden g) (sendButton_disabled g) value counter
       (yapModeToggle_checked g) (toasts g))
    p.

Definition set_yapModeToggle (checked : bool) (p : State) : State :=
  let g := page p in
  set_page
    (mkPage (loadingOverlay_hidden g) (sendButton_disabled g) (messageInput_value g)
       (charCounter_text g) checked (toasts g))
    p.

(** An [async] method runs, when it is called, up to its first
    [await]: it has then sent its request.  The rest of it runs when the
    answer has come, or when the [fetch] or the parsing of the answer
    has failed, and other handlers of the page may have run in between.
    For a method [m], [m_called] is the first part, [m_answered] is the
    rest, which starts from the state it finds, and [m] is the run in
    which nothing comes in between. *)

(** [try { body } catch (error) { handler(error.message) } finally
    { finalizer }] with a handler that does not throw. *)
Definition tryCatchFinally {S : Type} (body : S -> S * Completion)
    (handler : string -> S -> S) (finalizer : S -> S) (s : S) : S :=
  let '(s, completion) := body s in
  let s :=
    match completion with
    | Normal => s
    | Throw msg => handler msg s
    end in
  finalizer s.

(** The two [await]s of a [try] block followed by [if (data.success)
    { ... } else { throw new Error(data.message || fallback) }]. *)
Definition ifSuccess {S : Type} (fallback : string) (outcome : Outcome)
    (onSuccess : S -> S * Completion) (s : S) : S * Completion :=
  match outcome with
  | FetchRejects msg => (s, Throw msg)
  | JsonRejects msg => (s, Throw msg)
  | Answers data =>
      if success data then onSuccess s
      else (s, Throw (messageOr data fallback))
  end.

(** The [catch] clause most actions have: an error toast and an error
    line with the message of the error. *)
Definition reportError (ts toastPrefix linePrefix msg : string) (p : State) : State :=
  let p := showToast "error" (toastPrefix +++ msg) p in
  addConsoleMessage ts "error" (linePrefix +++ msg) true p.

Section Actions.
Variable apiUrl : string.

Definition valueOfNull : string := "Cannot read properties of null (reading 'value')".

(** [sendMessage]; [messageType] is the value of the checked radio
    button of the message type, [None] when none is checked. *)
Definition sendMessage_called (messageType : option string) (p : State)
  : State * list ChatRequest * Completion :=
  let message := trim (messageInput_value (page p)) in
  if negb (truthy message) then
    (showToast "warning" "Please enter a message" p, [], Normal)
  else
    match messageType with
    | None => (p, [], Throw valueOfNull)
    | Some messageType =>
        let isSystemInstruction := (messageType =? "system")%string in
        let p := showLoading p in
        let request :=
          mkChatRequest (apiUrl +++ "/api/chat/send") message isSystemInstruction true in
        (p, [request], Normal)
    end.

(** The rest of [sendMessage]; the request holds the constants
    [message] and [isSystemInstruction] of the call. *)
Definition sendMessage_answered (ts : string) (request : ChatRequest) (outcome : Outcome)
    (p : State) : State :=
  let message := chat_message request in
  let isSystemInstruction := system_instruction request in
  tryCatchFinally
    (ifSuccess "Failed to send message" outcome
       (fun p =>
          let p := showToast "success" "Message sent successfully" p in
          let p :=
            addConsoleMessage ts "success"
              ("Sent "
                 +++ (if isSystemInstruction then "system instruction" else "message")
                 +++ ": " +++ message)
              true p in
          (set_messageInput "" "0/1000" p, Normal)))
    (reportError ts "Failed to send message: " "Failed to send message: ")
    hideLoading p.

(** A call of an action and its answer with nothing in between. *)
Definition alone {R : Type} (called : State * list R * Completion)
    (answered : R -> State -> State) : State * list R * Completion :=
  match called with
  | (p, [request], Normal) => (answered request p, [request], Normal)
  | other => other
  end.

Definition sendMessage (ts : string) (messageType : option string) (outcome : Outcome)
    (p : State) : State * list ChatRequest * Completion :=
  alone (sendMessage_called messageType p)
    (fun request => sendMessage_answered ts request outcome).

(** [sendQuickMessage(message)]. *)
Definition sendQuickMessage_called (message : string) (p : State)
  : State * list ChatRequest * Completion :=
  let p := showLoading p in
  (p, [mkChatRequest (apiUrl +++ "/api/chat/send") message true true], Normal).

Definition sendQuickMessage_answered (ts : string) (request : ChatRequest)
    (outcome : Outcome) (p : State) : State :=
  let message := chat_message request in
  tryCatchFinally
    (ifSuccess "Failed to send instruction" outcome
       (fun p =>
          let p := showToast "success" "Quick instruction sent" p in
          (addConsoleMessage ts "success" ("Quick instruction: " +++ message) true p,
           Normal)))
    (reportError ts "Failed to send instruction: " "Failed to send instruction: ")
    hideLoading p.

Definition sendQuickMessage (ts message : string) (outcome : Outcome) (p : State)
  : State * list ChatRequest * Completion :=
  alone (sendQuickMessage_called message p)
    (fun request => sendQuickMessage_answered ts request outcome).

(** [toggleYapMode(enabled)]: the handler of the yap mode switch. *)
Definition toggleYapMode_called (enabled : bool) (p : State)
  : State * list ChatRequest * Completion :=
  let p := showLoading p in
  let message :=
    if enabled then "Enable yap mode - prevent interruptions during conversations"
    else "Disable yap mode - allow interruptions during conversations" in
  (p, [mkChatRequest (apiUrl +++ "/api/chat/send") message true true], Normal).

Definition toggleYapMode_answered (ts : string) (enabled : bool) (outcome : Outcome)
    (p : State) : State :=
  tryCatchFinally
    (ifSuccess "Failed to toggle yap mode" outcome
       (fun p =>
          let p := set_yapModeEnabled enabled p in
          let shown := "Yap mode " +++ (if enabled then "enabled" else "disabled") in
          let p := showToast "success" shown p in
          (addConsoleMessage ts "success" shown true p, Normal)))
    (fun msg p =>
       let p := showToast "error" ("Failed to toggle yap mode: " +++ msg) p in
       set_yapModeToggle (yapModeEnabled p) p)
    hideLoading p.

Definition toggleYapMode (ts : string) (enabled : bool) (outcome : Outcome) (p : State)
  : State * list ChatRequest * Completion :=
  alone (toggleYapMode_called enabled p)
    (fun _ => toggleYapMode_answered ts enabled outcome).
End Actions.

(** The error lines of the console, and the error toasts. *)
Definition isErrorLine (l : Line) : bool := contains "error" l.
Definition isErrorToast (t : Toast) : bool := (toast_type t =? "error")%string.

End Panel.

(* ================================================================== *)
(** * The dialogs of the memory manager, [api/webui/memory.js] *)
(* ================================================================== *)

Module MemoryDialogs.
Import Js MemoryUI.

(** ** Closing: [closeDeleteModal], [closeViewModal], [closeAllModals] *)

Definition closeDeleteModal (now : Z) (s : State) : State :=
  let e := elements s in
  let m := modals e in
  let e := set_modals (mkModals (memoryModal_hidden m) (viewModal_hidden m) true) e in
  mkState (currentMemories s) (filteredMemories s) (currentSort s) (currentPage s)
    (isEditMode s) (editingKey s) false (now - 12000) false e.

Definition closeViewModal (now : Z) (s : State) : State :=
  let e := elements s in
  let m := modals e in
  let e := set_modals (mkModals (memoryModal_hidden m) true (deleteModal_hidden m)) e in
  mkState (currentMemories s) (filteredMemories s) (currentSort s) (currentPage s)
    (isEditMode s) (editingKey s) false (now - 12000) false e.

(** [closeAllModals] reads the clock four times: once in each of the
    three functions it calls, then itself. *)
Definition closeAllModals (now1 now2 now3 now : Z) (s : State) : State :=
  let s := closeMemoryModal now1 s in
  let s := closeDeleteModal now2 s in
  let s := closeViewModal now3 s in
  mkState (currentMemories s) (filteredMemories s) (currentSort s) (currentPage s)
    (isEditMode s) (editingKey s) false (now - 12000) false (elements s).

(** ** The elements of the dialogs *)

Record FormLabels : Type := mkFormLabels {
  modalTitle_html : string;
  saveMemoryBtn_html : string
}.

Record DeleteDialog : Type := mkDeleteDialog {
  deleteMemoryKey_text : string;
  deleteMemoryCategory_text : string;
  deleteMemoryType_text : string;
  confirmDeleteBtn_memoryKey : option string;   (* [dataset.memoryKey] *)
  confirmDeleteBtn_loading : bool
}.

(** The content of [viewMemoryTags]: a [span] for each tag, or a
    text. *)
Inductive TagsView : Type :=
| TagItems (l : list string)
| TagsText (t : string).

Record ViewDialog : Type := mkViewDialog {
  viewMemoryKey_text : string;
  viewMemoryContent_text : string;
  viewMemoryCategory_text : string;
  viewMemoryType_text : string;
  viewMemoryType_className : string;
  viewMemoryCreated_text : string;
  viewMemoryUpdated_text : string;
  viewMemoryAccessCount_text : string;
  viewMemoryTags : TagsView;
  editFromViewBtn_onclick : option string      (* the key the handler holds *)
}.

Record Overlay : Type := mkOverlay {
  loadingOverlay_hidden : bool;
  loadingText_text : string
}.

Record StatusLine : Type := mkStatusLine {
  statusDot_className : string;
  statusText_text : string
}.

(** The script's variables and the elements of [MemoryUI], with the
    elements only the dialogs and the status line write. *)
Record Page : Type := mkPage {
  script : State;
  formLabels : FormLabels;
  deleteDialog : DeleteDialog;
  viewDialog : ViewDialog;
  overlay : Overlay;
  statusLine : StatusLine
}.

Definition set_script (v : State) (p : Page) : Page :=
  mkPage v (formLabels p) (deleteDialog p) (viewDialog p) (overlay p) (statusLine p).
Definition set_formLabels (v : FormLabels) (p : Page) : Page :=
  mkPage (script p) v (deleteDialog p) (viewDialog p) (overlay p) (statusLine p).
Definition set_deleteDialog (v : DeleteDialog) (p : Page) : Page :=
  mkPage (script p) (formLabels p) v (viewDialog p) (overlay p) (statusLine p).
Definition set_overlay (v : Overlay) (p : Page) : Page :=
  mkPage (script p) (formLabels p) (deleteDialog p) (viewDialog p) v (statusLine p).
Definition set_statusLine (v : StatusLine) (p : Page) : Page :=
  mkPage (script p) (formLabels p) (deleteDialog p) (viewDialog p) (overlay p) v.

Definition upd_script (f : State -> State) (p : Page) : Page :=
  set_script (f (script p)) p.

(** The three variables that guard the refresh. *)
Definition set_modalFlags (anyOpen : bool) (lastView : Z) (viewing : bool) (s : State)
  : State :=
  mkState (currentMemories s) (filteredMemories s) (currentSort s) (currentPage s)
    (isEditMode s) (editingKey s) anyOpen lastView viewing (elements s).

Definition set_editing (editMode : bool) (k : option string) (s : State) : State :=
  mkState (currentMemories s) (filteredMemories s) (currentSort s) (currentPage s)
    editMode k (isAnyModalOpen s) (lastViewMemoryTime s) (isViewingMemory s)
    (elements s).

Definition set_memoryKey_disabled (v : bool) (e : Elements) : Elements :=
  mkElements (filters e) (tableView e) (pageView e) (statsView e) (modals e)
    (memoryForm e) (memoryForm_defaults e) v (refreshBtn_loading e)
    (saveMemoryBtn_loading e).

Definition dq : string := String (ascii_of_nat 34) EmptyString.

(** [<i class="fas NAME"></i> TEXT]. *)
Definition iconLabel (name text : string) : string :=
  "<i class=" +++ dq +++ "fas " +++ name +++ dq +++ "></i> " +++ text.

Definition showLoadingOverlay (text : string) (p : Page) : Page :=
  set_overlay (mkOverlay false text) p.

Definition hideLoadingOverlay (p : Page) : Page :=
  set_overlay (mkOverlay true (loadingText_text (overlay p))) p.

(** ** [openAddMemoryModal] *)

Definition openAddMemoryModal (p : Page) : Page :=
  let s := set_modalFlags true (lastViewMemoryTime (script p)) (isViewingMemory (script p))
             (set_editing false None (script p)) in
  let p := set_formLabels
             (mkFormLabels (iconLabel "fa-plus" "Add New Memory")
                (iconLabel "fa-save" "Save Memory")) p in
  let e := elements s in
  let d := memoryForm_defaults e in
  let e := set_memoryForm
             (mkFormControls (memoryKey_value d) (memoryContent_value d) "general"
                "long_term" (memoryTags_value d)) e in
  let e := set_memoryKey_disabled false e in
  let m := modals e in
  let e := set_modals (mkModals false (viewModal_hidden m) (deleteModal_hidden m)) e in
  set_script (set_elements e s) p.

(** ** [editMemory] and [viewMemory] *)

(** The answer to the request for one memory. *)
Record MemoryAnswer : Type := mkMemoryAnswer {
  get_success : bool;
  get_memory : option Memory;
  get_message : option string
}.

Definition keyOfUndefined : string := "Cannot read properties of undefined (reading 'key')".

Section Dialogs.
Variable Date_parse : string -> option Z.
Variable API_BASE : string.
(** [new Date(dateString).toLocaleString()] and
    [new Date(dateString).toLocaleDateString()]. *)
Variable toLocaleString : string -> string.
Variable toLocaleDateString : string -> string.

(** A request that names one memory. *)
Definition memoryRequest (method_ key_ : string) : Request :=
  mkRequest method_ (API_BASE +++ "/api/memory/" +++ encodeURIComponent key_) [] false None.

(** The [try] block of [editMemory] after the answer came. *)
Definition editMemory_try (key_ : string) (answer : Fetched MemoryAnswer) (p : Page)
  : Page * Completion :=
  match answer with
  | Rejected msg => (p, Throw msg)
  | Resolved response =>
      match json response with
      | ParseError msg => (p, Throw msg)
      | ParsedAs data =>
          if get_success data then
            let p := upd_script (set_editing true (Some key_)) p in
            let p := set_formLabels
                       (mkFormLabels (iconLabel "fa-edit" "Edit Memory")
                          (iconLabel "fa-save" "Update Memory")) p in
            match get_memory data with
            | None => (p, Throw keyOfUndefined)
            | Some memory =>
                let s := script p in
                let e := elements s in
                let e := set_memoryForm
                           (mkFormControls (key memory)
                              (match content memory with Some c => c | None => "" end)
                              (category memory) (memory_type memory)
                              (match tags memory with
                               | Some l => join ", " l
                               | None => ""
                               end)) e in
                let e := set_memoryKey_disabled true e in
                let m := modals e in
                let e := set_modals
                           (mkModals false (viewModal_hidden m) (deleteModal_hidden m)) e in
                let s := set_elements e s in
                let s := set_modalFlags (isAnyModalOpen s) (lastViewMemoryTime s) false s in
                (set_script s p, Normal)
            end
          else
            (upd_script (fun s => set_modalFlags false (lastViewMemoryTime s) false s) p,
             Throw (orElse (get_message data) "Failed to load memory"))
      end
  end.

Definition editMemory (now : Z) (key_ : string) (answer : Fetched MemoryAnswer) (p : Page)
  : Page * list Effect :=
  let p := upd_script (set_modalFlags true now true) p in
  let p := showLoadingOverlay "Loading memory..." p in
  let request := Fetch (memoryRequest "GET" key_) in
  let '(p, completion) := editMemory_try key_ answer p in
  let '(p, effects) :=
    match completion with
    | Normal => (p, [])
    | Throw msg =>
        (upd_script (fun s => set_modalFlags false (lastViewMemoryTime s) false s) p,
         [showToast ("Failed to load memory: " +++ msg) "error" 5000])
    end in
  (hideLoadingOverlay p, request :: effects).




(** ** [deleteMemory] and [confirmDelete] *)

Definition deleteMemory (key_ : string) (p : Page) : Page :=
  match find (fun m => (key m =? key_)%string) (currentMemories (script p)) with
  | None => p
  | Some memory =>
      let d := deleteDialog p in
      let p := set_deleteDialog
                 (mkDeleteDialog (key memory) (category memory)
                    (replace "_" "-" (memory_type memory)) (Some key_)
                    (confirmDeleteBtn_loading d)) p in
      let s := script p in
      let s := set_modalFlags true (lastViewMemoryTime s) (isViewingMemory s) s in
      let e := elements s in
      let m := modals e in
      let e := set_modals (mkModals (memoryModal_hidden m) (viewModal_hidden m) false) e in
      set_script (set_elements e s) p
  end.

(** What [confirmDelete] is called with: the click on the confirm
    button, a string, or anything else. *)
Inductive DeleteArg : Type :=
| ClickOnConfirm
| KeyString (k : string)
| OtherArg.

Definition set_confirmDeleteBtn_loading (v : bool) (p : Page) : Page :=
  let d := deleteDialog p in
  set_deleteDialog
    (mkDeleteDialog (deleteMemoryKey_text d) (deleteMemoryCategory_text d)
       (deleteMemoryType_text d) (confirmDeleteBtn_memoryKey d) v) p.

Definition confirmDelete_try (now : Z) (answer : Fetched SaveData) (p : Page)
  : Page * list Effect * Completion :=
  match answer with
  | Rejected msg => (p, [], Throw msg)
  | Resolved response =>
      match json response with
      | ParseError msg => (p, [], Throw msg)
      | ParsedAs data =>
          if save_success data then
            (upd_script (closeDeleteModal now) p,
             [showToast "Memory deleted successfully" "success" 5000;
              SetTimeout CallRefreshData 100],
             Normal)
          else (p, [], Throw (orElse (save_message data) "Failed to delete memory"))
      end
  end.

(** [confirmDelete]; the answer to the [DELETE] is an object with
    [success] and [message], as the answer to a save is. *)
Definition confirmDelete (event : DeleteArg) (now : Z) (answer : Fetched SaveData)
    (p : Page) : Page * list Effect :=
  let key_ :=
    match event with
    | ClickOnConfirm => confirmDeleteBtn_memoryKey (deleteDialog p)
    | KeyString k => Some k
    | OtherArg => None
    end in
  match key_ with
  | None => (p, [showToast "Error: No memory key specified" "error" 5000])
  | Some k =>
      if negb (truthy k) then (p, [showToast "Error: No memory key specified" "error" 5000])
      else
        let p := set_confirmDeleteBtn_loading true p in
        let request := Fetch (memoryRequest "DELETE" k) in
        let '(p, effects, completion) := confirmDelete_try now answer p in
        let effects :=
          match completion with
          | Normal => effects
          | Throw msg =>
              effects ++ [showToast ("Failed to delete memory: " +++ msg) "error" 5000]
          end in
        (set_confirmDeleteBtn_loading false p, request :: effects)
  end.

(** ** [handleKeyboardShortcuts] *)

Record KeyEvent : Type := mkKeyEvent {
  ev_key : string;
  ctrlKey : bool;
  metaKey : bool
}.

Definition handleKeyboardShortcuts (e : KeyEvent) (now1 now2 now3 now : Z)
    (env envList : Env) (answerList : Fetched ListData)
    (answersStats : Z -> Env * Fetched StatsData) (p : Page) : Page * list Effect :=
  if (ev_key e =? "Escape")%string then
    (upd_script (closeAllModals now1 now2 now3 now) p, [])
  else if (ctrlKey e || metaKey e) && (ev_key e =? "n")%string then
    (openAddMemoryModal p, [])
  else if (ctrlKey e || metaKey e) && (ev_key e =? "r")%string then
    let s := script p in
    let m := modals (elements s) in
    if isAnyModalOpen s || isViewingMemory s
       || negb (memoryModal_hidden m) || negb (viewModal_hidden m)
       || negb (deleteModal_hidden m)
    then (p, [showToast "Cannot refresh while modal is open" "warning" 3000])
    else
      let '(s, effects, _) :=
        refreshData Date_parse API_BASE env envList answerList answersStats s in
      (set_script s p, effects)
  else (p, []).

(** ** The start: [checkApiStatus], [testConnection] *)

Record StatusData : Type := mkStatusData { status_success : bool }.

Definition updateStatus (status_ text : string) (p : Page) : Page :=
  set_statusLine (mkStatusLine ("status-dot " +++ status_) text) p.

Definition checkApiStatus_try (answer : Fetched StatusData) (p : Page)
  : Page * Completion :=
  match answer with
  | Rejected msg => (p, Throw msg)
  | Resolved response =>
      if negb (isJson (contentType response)) then
        (p, Throw "API server is not responding with JSON. Make sure Gabriel API is running on the correct port.")
      else
        match json response with
        | ParseError msg => (p, Throw msg)
        | ParsedAs data =>
            if status_success data
            then (updateStatus "connected" "Connected" p, Normal)
            else (updateStatus "error" "API Error" p, Normal)
        end
  end.

Definition checkApiStatus (answer : Fetched StatusData) (p : Page)
  : Page * list Effect * Completion :=
  let request := Fetch (mkRequest "GET" (API_BASE +++ "/api/chat/status") [] false None) in
  let '(p, completion) := checkApiStatus_try answer p in
  match completion with
  | Normal => (p, [request], Normal)
  | Throw msg =>
      (updateStatus "error" ("API Unavailable: " +++ msg) p,
       [request;
        showToast ("API connection failed: " +++ msg
                   +++ ". Make sure Gabriel API is running on port 8000.") "error" 10000],
       Normal)
  end.

Definition set_connectionErrorState_hidden (v : bool) (s : State) : State :=
  let tv := tableView (elements s) in
  upd_elements (set_tableView
    (mkTableView (loadingState_hidden tv) v (emptyState_hidden tv)
       (memoryTableContainer_hidden tv) (memoryCount_text tv) (memoryTableBody tv))) s.

(** [showConnectionError]; the optional element [apiUrl], which it
    fills with [API_BASE], holds no state the script reads. *)
Definition showConnectionError (s : State) : State :=
  let s := hideLoading s in
  let tv := tableView (elements s) in
  upd_elements (set_tableView
    (mkTableView (loadingState_hidden tv) false true true (memoryCount_text tv)
       (memoryTableBody tv))) s.

(** [testConnection]: the status check, then the two loads of
    [Promise.all], started together as in [refreshData]. *)
Definition testConnection (answerStatus : Fetched StatusData)
    (envList : Env) (answerList : Fetched ListData)
    (answersStats : Z -> Env * Fetched StatsData) (p : Page) : Page * list Effect :=
  let '(p, effects0, completion0) := checkApiStatus answerStatus p in
  match completion0 with
  | Throw _ => (upd_script showConnectionError p, effects0)
  | Normal =>
      let '(s, effects1) := loadMemories Date_parse API_BASE envList answerList (script p) in
      let '(s, effects2, completion) := loadMemoryStatsWithRetry API_BASE answersStats s in
      let p := set_script s p in
      match completion with
      | Normal =>
          (upd_script (set_connectionErrorState_hidden true) p,
           effects0 ++ startedTogether effects1 effects2)
      | Throw _ =>
          (upd_script showConnectionError p,
           effects0 ++ startedTogether effects1 effects2)
      end
  end.

(** ** [formatRelativeTime] *)

(** [now] is the time [new Date()] reads.  An invalid date makes every
    comparison false. *)
Definition formatRelativeTime (now : Z) (dateString : string) : string :=
  match Date_parse dateString with
  | None => toLocaleDateString dateString
  | Some date =>
      let diffMs := now - date in
      let diffMins := diffMs / 60000 in
      let diffHours := diffMins / 60 in
      let diffDays := diffHours / 24 in
      if diffMins <? 1 then "Just now"
      else if diffMins <? 60 then ofZ diffMins +++ "m ago"
      else if diffHours <? 24 then ofZ diffHours +++ "h ago"
      else if diffDays <? 30 then ofZ diffDays +++ "d ago"
      else toLocaleDateString dateString
  end.
End Dialogs.

End MemoryDialogs.

(* ================================================================== *)
(** * The status badges and the mode switches of the panel,
      [api/webui/script.js] *)
(* ================================================================== *)

Module PanelControls.
Import Js Panel.

(** ** [loadYapModeStatus] *)

(** [loadYapModeStatus], which has no [await]: it runs to its end when
    [init] calls it. *)
Definition loadYapModeStatus (p : State) : State :=
  let p := set_yapModeEnabled false p in
  set_yapModeToggle (yapModeEnabled p) p.

(** ** [checkStatus] *)

(** What [await fetch(...)] followed by [await response.json()]
    gives: an error thrown by either, or the object. *)
Inductive Got (D : Type) : Type :=
| Throws (error_message : string)
| Gets (data : D).
Arguments Throws {D} error_message.
Arguments Gets {D} data.

(** The answer of [/health] as [checkStatus] reads it: [data.status]
    and whether [data.session_active] is truthy; [None] for an answer with
    no fields to read ([null]). *)
Record Health : Type := mkHealth { health_status : string; session_active : bool }.

(** The answer of [/api/chat/status]: whether [chatData.success] is
    truthy. *)
Record ChatStatus : Type := mkChatStatus { chat_success : bool }.

Record Badges : Type := mkBadges {
  statusDot_className : string;
  statusText_text : string;
  apiStatus_className : string;
  apiStatus_text : string
}.

Definition updateStatus (isOnline : bool) (b : Badges) : Badges :=
  if isOnline
  then mkBadges "status-dot online" "Gabriel Online" (apiStatus_className b)
         (apiStatus_text b)
  else mkBadges "status-dot offline" "Gabriel Offline" (apiStatus_className b)
         (apiStatus_text b).

Definition updateApiStatus (isOnline : bool) (b : Badges) : Badges :=
  if isOnline
  then mkBadges (statusDot_className b) (statusText_text b) "api-status-badge online"
         "Connected"
  else mkBadges (statusDot_className b) (statusText_text b) "api-status-badge offline"
         "Disconnected".

Section Status.
Variable apiUrl : string.

(** [checkStatus]: the badges it leaves and the addresses it asks, in
    order; the last is the request of [loadVRChatControlsStatus], which
    it starts and does not wait for. *)
Definition checkStatus (health : Got (option Health)) (chat : Got (option ChatStatus))
    (b : Badges) : Badges * list string :=
  let offline := updateApiStatus false (updateStatus false b) in
  match health with
  | Throws _ => (offline, [apiUrl +++ "/health"])
  | Gets None => (offline, [apiUrl +++ "/health"])
  | Gets (Some data) =>
      let b :=
        updateStatus ((health_status data =? "healthy")%string && session_active data) b in
      let asked := [apiUrl +++ "/health"; apiUrl +++ "/api/chat/status"] in
      match chat with
      | Throws _ | Gets None => (updateApiStatus false (updateStatus false b), asked)
      | Gets (Some chatData) =>
          (updateApiStatus (chat_success chatData) b,
           asked ++ [apiUrl +++ "/api/vrchat/controls/status"])
      end
  end.
End Status.

(** ** [loadV2ModeStatus], [toggleV2Mode] *)

(** The two fields of the V2 mode and the two properties of its
    switch the script writes. *)
Record V2 : Type := mkV2 {
  v2ModeEnabled : bool;
  v2ModeAvailable : bool;
  v2ModeToggle_checked : bool;
  v2ModeToggle_disabled : bool
}.

(** The answer of [/api/v2/status], its three fields read as
    booleans. *)
Record V2Status : Type := mkV2Status {
  v2_success : bool;
  v2_mode_enabled : bool;
  v2_available : bool
}.

Definition loadV2ModeStatus (answer : Got (option V2Status)) (v : V2) : V2 :=
  match answer with
  | Gets (Some data) =>
      if v2_success data then
        let v :=
          mkV2 (v2_mode_enabled data) (v2_available data) (v2_mode_enabled data)
            (v2ModeToggle_disabled v) in
        if negb (v2ModeAvailable v)
        then mkV2 (v2ModeEnabled v) (v2ModeAvailable v) (v2ModeToggle_checked v) true
        else v
      else mkV2 false false false true
  | _ => mkV2 false false false true
  end.

(** The request of [toggleV2Mode]: the address and [enable_v2]. *)
Record V2Request : Type := mkV2Request { v2_url : string; enable_v2 : bool }.

Section V2Mode.
Variable apiUrl : string.

Definition toggleV2Mode (ts : string) (enabled : bool) (outcome : Outcome)
    (v : V2) (p : State) : V2 * State * list V2Request :=
  if enabled && negb (v2ModeAvailable v) then
    (mkV2 (v2ModeEnabled v) (v2ModeAvailable v) (v2ModeEnabled v) (v2ModeToggle_disabled v),
     showToast "error" "V2 mode is not available on this system" p, [])
  else
    let p := showLoading p in
    let request := mkV2Request (apiUrl +++ "/api/v2/toggle") enabled in
    let '(v, p, completion) :=
      match outcome with
      | FetchRejects msg => (v, p, Throw msg)
      | JsonRejects msg => (v, p, Throw msg)
      | Answers data =>
          if success data then
            let v :=
              mkV2 enabled (v2ModeAvailable v) (v2ModeToggle_checked v)
                (v2ModeToggle_disabled v) in
            let modeText := if enabled then "V2" else "V1" in
            let p := showToast "success" ("Switched to " +++ modeText +++ " mode") p in
            let p := addConsoleMessage ts "success" ("AI mode switched to " +++ modeText)
                       true p in
            let p :=
              if enabled
              then addConsoleMessage ts "info"
                     "V2 mode: Enhanced voice quality and advanced features" true p
              else addConsoleMessage ts "info" "V1 mode: Standard operation mode" true p in
            (v, p, Normal)
          else (v, p, Throw (messageOr data "Failed to toggle V2 mode"))
      end in
    let '(v, p) :=
      match completion with
      | Normal => (v, p)
      | Throw msg =>
          (mkV2 (v2ModeEnabled v) (v2ModeAvailable v) (v2ModeEnabled v)
             (v2ModeToggle_disabled v),
           showToast "error" ("Failed to toggle V2 mode: " +++ msg) p)
      end in
    (v, hideLoading p, [request]).

(** The two parts of [toggleV2Mode]: up to the [await], and the rest. *)
Definition toggleV2Mode_called (enabled : bool) (v : V2) (p : State)
  : V2 * State * list V2Request :=
  if enabled && negb (v2ModeAvailable v) then
    (mkV2 (v2ModeEnabled v) (v2ModeAvailable v) (v2ModeEnabled v) (v2ModeToggle_disabled v),
     showToast "error" "V2 mode is not available on this system" p, [])
  else (v, showLoading p, [mkV2Request (apiUrl +++ "/api/v2/toggle") enabled]).

Definition toggleV2Mode_answered (ts : string) (enabled : bool) (outcome : Outcome)
    (v : V2) (p : State) : V2 * State :=
  tryCatchFinally
    (ifSuccess "Failed to toggle V2 mode" outcome
       (fun '(v, p) =>
          let v :=
            mkV2 enabled (v2ModeAvailable v) (v2ModeToggle_checked v)
              (v2ModeToggle_disabled v) in
          let modeText := if enabled then "V2" else "V1" in
          let p := showToast "success" ("Switched to " +++ modeText +++ " mode") p in
          let p := addConsoleMessage ts "success" ("AI mode switched to " +++ modeText)
                     true p in
          let p :=
            if enabled
            then addConsoleMessage ts "info"
                   "V2 mode: Enhanced voice quality and advanced features" true p
            else addConsoleMessage ts "info" "V1 mode: Standard operation mode" true p in
          (v, p, Normal)))
    (fun msg '(v, p) =>
       (mkV2 (v2ModeEnabled v) (v2ModeAvailable v) (v2ModeEnabled v)
          (v2ModeToggle_disabled v),
        showToast "error" ("Failed to toggle V2 mode: " +++ msg) p))
    (fun '(v, p) => (v, hideLoading p))
    (v, p).
End V2Mode.

(** ** The session: [reconnectSession], [freshStart] *)

(** A request of the actions below: the method, the address and,
    when there is a body, its one field [enable]. *)
Record ApiRequest : Type := mkApiRequest {
  api_method : string;
  api_url : string;
  api_enable : option bool
}.

(** The outcome of the two [await]s for an answer of which the action
    reads more than [success] and [message]. *)
Inductive OutcomeOf (D : Type) : Type :=
| Rejects (error_message : string)
| Replies (data : Reply) (more : D).
Arguments Rejects {D} error_message.
Arguments Replies {D} data more.

Definition ifSuccessOf {S D : Type} (fallback : string) (outcome : OutcomeOf D)
    (onSuccess : D -> S -> S * Completion) (s : S) : S * Completion :=
  match outcome with
  | Rejects msg => (s, Throw msg)
  | Replies data more =>
      if success data then onSuccess more s
      else (s, Throw (messageOr data fallback))
  end.

(** What [reconnectSession] reads of a successful answer: the texts
    of [data.mode] and [data.handle_preview] as a template shows them,
    and [data.session_age_seconds]: the number the JSON text of a whole
    number of seconds is read as, [None] when the field is missing. *)
Record SavedSession : Type := mkSavedSession {
  session_mode : string;
  session_age_seconds : option Z;
  handle_preview : string
}.

(** The texts of [Math.floor(age / 60)] and [Math.floor(age % 60)];
    the remainder of a double is exact and has the sign of the
    dividend. *)
Definition ageMinutes (age : option Z) : string :=
  match age with
  | Some a => numberToString (floorOfQuotient (toDouble a) 60)
  | None => "NaN"
  end.
Definition ageSeconds (age : option Z) : string :=
  match age with
  | Some a =>
      if Z.abs (toDouble a) =? infinity then "NaN"
      else numberToString (Z.rem (toDouble a) 60)
  | None => "NaN"
  end.

(** A function the script hands to [setTimeout] in the actions
    below, with its delay. *)
Inductive Later : Type :=
| LoadVRChatControlsStatusIn (ms : Z).

Section Session.
Variable apiUrl : string.

Definition reconnectSession_called (p : State) : State * list ApiRequest * Completion :=
  (showLoading p, [mkApiRequest "POST" (apiUrl +++ "/api/session/reconnect") None], Normal).

Definition reconnectSession_answered (ts : string) (outcome : OutcomeOf SavedSession)
    (p : State) : State :=
  tryCatchFinally
    (ifSuccessOf "Failed to reconnect session" outcome
       (fun data p =>
          let age := session_age_seconds data in
          let p :=
            showToast "success"
              ("Reconnecting with saved " +++ session_mode data +++ " session") p in
          let p :=
            addConsoleMessage ts "success"
              ("Reconnection initiated with saved " +++ session_mode data +++ " session")
              true p in
          let p :=
            addConsoleMessage ts "info"
              ("Session age: " +++ ageMinutes age +++ "m " +++ ageSeconds age
                 +++ "s | Handle: " +++ handle_preview data)
              true p in
          let p :=
            if match age with Some a => 1800 <? toDouble a | None => false end
            then addConsoleMessage ts "warning"
                   "Session is older than 30 minutes - reconnection may fail" true p
            else p in
          (p, Normal)))
    (fun msg p =>
       if truthy msg && includes msg "404" then
         let p := showToast "error" "No saved session handle found" p in
         addConsoleMessage ts "error"
           "No saved session available. Start a new session first." true p
       else if truthy msg && includes msg "409" then
         let p := showToast "warning" "A session is already active" p in
         addConsoleMessage ts "warning"
           "Cannot reconnect - an active session already exists" true p
       else
         let p := showToast "error" ("Failed to reconnect: " +++ msg) p in
         addConsoleMessage ts "error" ("Reconnection failed: " +++ msg) true p)
    hideLoading p.

(** [freshStart]; [confirmed] is what [confirm(...)] returns. *)
Definition freshStart_called (confirmed : bool) (p : State)
  : State * list ApiRequest * Completion :=
  if negb confirmed then (p, [], Normal)
  else
    (showLoading p, [mkApiRequest "POST" (apiUrl +++ "/api/session/fresh-start") None],
     Normal).

Definition freshStart_answered (ts : string) (outcome : Outcome) (p : State) : State :=
  tryCatchFinally
    (ifSuccess "Failed to clear session" outcome
       (fun p =>
          let p := showToast "success" "Session cleared - restarting fresh" p in
          let p := addConsoleMessage ts "success" "Saved session handle cleared" true p in
          (addConsoleMessage ts "info" "AI will restart with a completely fresh session"
             true p,
           Normal)))
    (reportError ts "Failed to start fresh: " "Fresh start failed: ")
    hideLoading p.
End Session.

(** ** The personalities: [loadPersonalities], [switchPersonality] *)

Record Personality : Type := mkPersonality {
  pers_id : string;
  pers_name : string;
  pers_description : string;
  pers_enabled : bool
}.

(** A button of the list [renderPersonalities] writes.  A button that
    is not disabled has the click handler, which calls
    [switchPersonality] with its identifier unless that is empty or the
    current personality. *)
Record PersonalityButton : Type := mkPersonalityButton {
  button_id : string;
  button_name : string;
  button_description : string;
  button_active : bool;
  button_disabled : bool;
  button_statusClass : string;
  button_icon : string;
  button_statusText : string
}.

(** The content of [personalitiesList]. *)
Inductive ListView : Type :=
| ListAsLoaded                      (* what the page came with *)
| ListLoading                       (* [Loading personalities...] *)
| ListEmpty                         (* [No personalities available] *)
| ListFailed                        (* [Failed to load personalities], with [Retry] *)
| ListButtons (buttons : list PersonalityButton).

(** The two fields of the panel and the two elements of the
    personalities.  [personalities] is [None] when the answer it was
    taken from had no such field; [currentPersonality] is [None] for
    [null] and for a missing field. *)
Record Personas : Type := mkPersonas {
  personalities : option (list Personality);
  currentPersonality : option string;
  personalitiesList : ListView;
  currentPersonalityName_text : string;
  currentPersonalityName_color : string
}.

Definition set_personalitiesList (v : ListView) (a : Personas) : Personas :=
  mkPersonas (personalities a) (currentPersonality a) v (currentPersonalityName_text a)
    (currentPersonalityName_color a).

Definition isCurrent (a : Personas) (id : string) : bool :=
  match currentPersonality a with
  | Some c => (id =? c)%string
  | None => false
  end.

Definition renderPersonalities (a : Personas) : Personas :=
  match personalities a with
  | None | Some [] => set_personalitiesList ListEmpty a
  | Some l =>
      set_personalitiesList
        (ListButtons
           (map (fun personality =>
                   let isActive := isCurrent a (pers_id personality) in
                   let isDisabled := negb (pers_enabled personality) in
                   mkPersonalityButton (pers_id personality) (pers_name personality)
                     (pers_description personality) isActive isDisabled
                     (if isActive then "active"
                      else if isDisabled then "disabled" else "")
                     (if isActive then "check-circle"
                      else if isDisabled then "ban" else "circle")
                     (if isActive then "Active"
                      else if isDisabled then "Disabled" else "Available"))
                l))
        a
  end.

Definition findOfUndefined : string :=
  "Cannot read properties of undefined (reading 'find')".

Definition updateCurrentPersonalityDisplay (a : Personas) : Personas * Completion :=
  let shows text color :=
    mkPersonas (personalities a) (currentPersonality a) (personalitiesList a) text color in
  match currentPersonality a with
  | Some c =>
      if truthy c then
        match personalities a with
        | None => (a, Throw findOfUndefined)
        | Some l =>
            match find (fun p => (pers_id p =? c)%string) l with
            | Some current => (shows (pers_name current) "var(--accent-primary)", Normal)
            | None => (shows c "var(--accent-warning)", Normal)
            end
        end
      else (shows "None" "var(--text-muted)", Normal)
  | None => (shows "None" "var(--text-muted)", Normal)
  end.

Definition showPersonalitiesLoading (show : bool) (a : Personas) : Personas :=
  if show then set_personalitiesList ListLoading a else a.

Definition showPersonalitiesError (a : Personas) : Personas :=
  set_personalitiesList ListFailed a.

(** What [loadPersonalities] reads of a successful answer; [count] as
    a template shows it. *)
Record PersonalitiesData : Type := mkPersonalitiesData {
  data_personalities : option (list Personality);
  data_current : option string;
  data_count : string
}.

Definition nameOfUndefined : string :=
  "Cannot read properties of undefined (reading 'name')".

Section Personalities.
Variable apiUrl : string.

Definition loadPersonalities_called (a : Personas) : Personas * list ApiRequest :=
  (showPersonalitiesLoading true a,
   [mkApiRequest "GET" (apiUrl +++ "/api/personalities") None]).

Definition loadPersonalities_answered (ts : string) (outcome : OutcomeOf PersonalitiesData)
    (a : Personas) (p : State) : Personas * State :=
  tryCatchFinally
    (ifSuccessOf "Failed to load personalities" outcome
       (fun data '(a, p) =>
          let a :=
            mkPersonas (data_personalities data) (data_current data) (personalitiesList a)
              (currentPersonalityName_text a) (currentPersonalityName_color a) in
          let a := renderPersonalities a in
          match updateCurrentPersonalityDisplay a with
          | (a, Throw msg) => (a, p, Throw msg)
          | (a, Normal) =>
              (a,
               addConsoleMessage ts "system"
                 ("Loaded " +++ data_count data +++ " personalities") true p,
               Normal)
          end))
    (fun msg '(a, p) =>
       (showPersonalitiesError a,
        reportError ts "Failed to load personalities: " "Failed to load personalities: "
          msg p))
    (fun '(a, p) => (showPersonalitiesLoading false a, p))
    (a, p).

Definition switchPersonality_called (personalityId : string) (p : State)
  : State * list ApiRequest * Completion :=
  (showLoading p,
   [mkApiRequest "POST" (apiUrl +++ "/api/personalities/switch/" +++ personalityId) None],
   Normal).

(** The rest of [switchPersonality]; of a successful answer it reads
    [data.personality.name], [None] when the answer has no
    [personality]. *)
Definition switchPersonality_answered (ts personalityId : string)
    (outcome : OutcomeOf (option string)) (a : Personas) (p : State) : Personas * State :=
  tryCatchFinally
    (ifSuccessOf "Failed to switch personality" outcome
       (fun personality '(a, p) =>
          let a :=
            mkPersonas (personalities a) (Some personalityId) (personalitiesList a)
              (currentPersonalityName_text a) (currentPersonalityName_color a) in
          let a := renderPersonalities a in
          match updateCurrentPersonalityDisplay a with
          | (a, Throw msg) => (a, p, Throw msg)
          | (a, Normal) =>
              match personality with
              | None => (a, p, Throw nameOfUndefined)
              | Some name =>
                  let p :=
                    showToast "success" ("Switched to " +++ name +++ " personality") p in
                  (a,
                   addConsoleMessage ts "success" ("Personality switched to: " +++ name)
                     true p,
                   Normal)
              end
          end))
    (fun msg '(a, p) =>
       (a,
        reportError ts "Failed to switch personality: " "Failed to switch personality: "
          msg p))
    (fun '(a, p) => (a, hideLoading p))
    (a, p).
End Personalities.

(** ** The VRChat controls *)

(** The badge and the switch [updateVRChatStatus] writes. *)
Record VRChatView : Type := mkVRChatView {
  vrchatStatus_className : string;
  vrchatStatus_text : string;
  voiceToggle_checked : bool
}.

(** The fields of [controls] that [updateVRChatStatus] reads, as
    the conditions and the switch take them: as booleans. *)
Record VRControls : Type := mkVRControls {
  vr_enabled : bool;
  vr_connected : bool;
  vr_voice_enabled : bool
}.

Definition updateVRChatStatus (controls : VRControls) (w : VRChatView) : VRChatView :=
  if vr_enabled controls && vr_connected controls then
    mkVRChatView "api-status-badge online" "Connected" (vr_voice_enabled controls)
  else if vr_enabled controls && negb (vr_connected controls) then
    mkVRChatView "api-status-badge offline" "Disconnected" (voiceToggle_checked w)
  else mkVRChatView "api-status-badge offline" "Disabled" (voiceToggle_checked w).

Definition enabledOfUndefined : string :=
  "Cannot read properties of undefined (reading 'enabled')".

Section VRChat.
Variable apiUrl : string.

Definition loadVRChatControlsStatus_called : list ApiRequest :=
  [mkApiRequest "GET" (apiUrl +++ "/api/vrchat/controls/status") None].

(** The rest of [loadVRChatControlsStatus]; of a successful answer it
    reads [data.controls], [None] when the answer has none. *)
Definition loadVRChatControlsStatus_answered (outcome : OutcomeOf (option VRControls))
    (w : VRChatView) : VRChatView :=
  tryCatchFinally
    (ifSuccessOf "Failed to get VRChat controls status" outcome
       (fun controls w =>
          match controls with
          | Some c => (updateVRChatStatus c w, Normal)
          | None => (w, Throw enabledOfUndefined)
          end))
    (fun _ w => updateVRChatStatus (mkVRControls false false true) w)
    (fun w => w)
    w.

Definition enableSafeMode_called (p : State) : State * list ApiRequest * Completion :=
  (showLoading p,
   [mkApiRequest "POST" (apiUrl +++ "/api/vrchat/controls/safe-mode") None], Normal).

Definition enableSafeMode_answered (ts : string) (outcome : Outcome) (p : State)
  : State * list Later :=
  tryCatchFinally
    (ifSuccess "Failed to enable Safe Mode" outcome
       (fun '(p, later) =>
          let p := showToast "success" "VRChat Safe Mode enabled" p in
          let p := addConsoleMessage ts "success" "VRChat Safe Mode enabled" true p in
          (p, later ++ [LoadVRChatControlsStatusIn 1000], Normal)))
    (fun msg '(p, later) =>
       (reportError ts "Failed to enable Safe Mode: " "Failed to enable Safe Mode: " msg p,
        later))
    (fun '(p, later) => (hideLoading p, later))
    (p, []).

Definition toggleVRChatVoice_called (enable : bool) (p : State)
  : State * list ApiRequest * Completion :=
  (showLoading p,
   [mkApiRequest "POST" (apiUrl +++ "/api/vrchat/controls/voice/toggle") (Some enable)],
   Normal).

(** The rest of [toggleVRChatVoice]; of a successful answer it reads
    [data.voice_enabled], as a boolean. *)
Definition toggleVRChatVoice_answered (ts : string) (enable : bool)
    (outcome : OutcomeOf bool) (w : VRChatView) (p : State)
  : VRChatView * State * list Later :=
  tryCatchFinally
    (ifSuccessOf "Failed to toggle voice" outcome
       (fun voice_enabled '(w, p, later) =>
          let action := if voice_enabled then "enabled" else "disabled" in
          let p := showToast "success" ("VRChat voice " +++ action) p in
          let p := addConsoleMessage ts "success" ("VRChat voice " +++ action) true p in
          let w :=
            mkVRChatView (vrchatStatus_className w) (vrchatStatus_text w) voice_enabled in
          (w, p, later ++ [LoadVRChatControlsStatusIn 1000], Normal)))
    (fun msg '(w, p, later) =>
       let p := reportError ts "Failed to toggle voice: " "Failed to toggle voice: " msg p in
       (mkVRChatView (vrchatStatus_className w) (vrchatStatus_text w) (negb enable),
        p, later))
    (fun '(w, p, later) => (w, hideLoading p, later))
    (w, p, []).
End VRChat.

End PanelControls.

(* ================================================================== *)
(** * Properties of the memory manager *)
(* ================================================================== *)

Module MemoryFacts.
Import Js MemoryUI.

(** ** The built-ins *)

Lemma truthy_true (s : string) : truthy s = true <-> s <> "".
Proof.
  unfold truthy. rewrite negb_true_iff. apply String.eqb_neq.
Qed.

Lemma truthy_false (s : string) : truthy s = false <-> s = "".
Proof.
  unfold truthy. rewrite negb_false_iff. apply String.eqb_eq.
Qed.

Lemma includes_empty (t : string) : includes "" t = true -> t = "".
Proof.
  destruct t; simpl; [reflexivity | discriminate].
Qed.

Section SortFacts.
Context {A : Type} (cmp : A -> A -> Z).

Lemma insert_perm (x : A) (l : list A) : Permutation (insert cmp x l) (x :: l).
Proof.
  induction l as [|y l IH]; simpl.
  - reflexivity.
  - destruct (cmp x y <=? 0).
    + reflexivity.
    + rewrite IH. apply perm_swap.
Qed.

Lemma sort_perm (l : list A) : Permutation (sort cmp l) l.
Proof.
  induction l as [|x l IH]; simpl.
  - reflexivity.
  - rewrite insert_perm. now constructor.
Qed.
End SortFacts.

Lemma filter_filter {A : Type} (f g : A -> bool) (l : list A) :
  filter f (filter g l) = filter (fun x => g x && f x) l.
Proof.
  induction l as [|x l IH]; simpl; [reflexivity|].
  destruct (g x); simpl; [destruct (f x)|]; now rewrite IH.
Qed.

Lemma filter_all {A : Type} (l : list A) : filter (fun _ => true) l = l.
Proof.
  induction l as [|x l IH]; simpl; [reflexivity | now rewrite IH].
Qed.

(** ** What the pagination and the rendering leave alone *)

Lemma updatePagination_memories (s : State) :
  filteredMemories (updatePagination s) = filteredMemories s
  /\ currentMemories (updatePagination s) = currentMemories s.
Proof.
  unfold updatePagination.
  destruct ((_ <? currentPage s) && _); [now split|].
  destruct (currentPage s <? 1); now split.
Qed.

Lemma renderMemoryTable_memories (s : State) :
  filteredMemories (renderMemoryTable s) = filteredMemories s
  /\ currentMemories (renderMemoryTable s) = currentMemories s.
Proof.
  unfold renderMemoryTable. destruct (_ =? 0); now split.
Qed.

(** ** The filter, as the specification words it *)

Definition searchTermOf (s : State) : string :=
  toLowerCase (trim (searchInput_value (filters (elements s)))).

(** The lower-cased key, content or category contains the term, or
    some lower-cased tag does. *)
Definition containsTerm (term : string) (m : Memory) : Prop :=
  includes (toLowerCase (key m)) term = true
  \/ (exists c, content m = Some c /\ includes (toLowerCase c) term = true)
  \/ includes (toLowerCase (category m)) term = true
  \/ (exists l tag, tags m = Some l /\ In tag l
                    /\ includes (toLowerCase tag) term = true).

(** A memory satisfies all the active filters. *)
Definition satisfiesActiveFilters (s : State) (m : Memory) : Prop :=
  (searchTermOf s <> "" -> containsTerm (searchTermOf s) m)
  /\ (memoryTypeFilter_value (filters (elements s)) <> "" ->
      memory_type m = memoryTypeFilter_value (filters (elements s)))
  /\ (categoryFilter_value (filters (elements s)) <> "" ->
      category m = categoryFilter_value (filters (elements s))).

Lemma searchMatch_containsTerm (term : string) (m : Memory) :
  term <> "" -> (searchMatch term m = true <-> containsTerm term m).
Proof.
  intros Hterm. unfold searchMatch, containsTerm.
  rewrite !orb_true_iff. split.
  - intros [[[H | H] | H] | H].
    + now left.
    + right; left. destruct (content m) as [c|]; [|discriminate].
      apply andb_true_iff in H. exists c. tauto.
    + right; right; now left.
    + right; right; right. destruct (tags m) as [l|]; [|discriminate].
      apply existsb_exists in H. destruct H as (tag & Hin & Htag).
      now exists l, tag.
  - intros [H | [(c & Hc & H) | [H | (l & tag & Hl & Hin & H)]]].
    + now left; left; left.
    + left; left; right. rewrite Hc. apply andb_true_iff. split; [|exact H].
      apply truthy_true. intros ->. simpl in H.
      apply includes_empty in H. contradiction.
    + now left; right.
    + right. rewrite Hl. apply existsb_exists. now exists tag.
Qed.

(** The three filters of [applyFiltersAndSearch] as one test. *)
Definition keeps (s : State) (m : Memory) : bool :=
  (if truthy (searchTermOf s) then searchMatch (searchTermOf s) m else true)
  && (if truthy (memoryTypeFilter_value (filters (elements s)))
      then (memory_type m =? memoryTypeFilter_value (filters (elements s)))%string
      else true)
  && (if truthy (categoryFilter_value (filters (elements s)))
      then (category m =? categoryFilter_value (filters (elements s)))%string
      else true).

Lemma keeps_satisfies (s : State) (m : Memory) :
  keeps s m = true <-> satisfiesActiveFilters s m.
Proof.
  unfold keeps, satisfiesActiveFilters.
  rewrite !andb_true_iff.
  destruct (truthy (searchTermOf s)) eqn:E1;
    destruct (truthy (memoryTypeFilter_value _)) eqn:E2;
    destruct (truthy (categoryFilter_value _)) eqn:E3;
    try apply truthy_true in E1; try apply truthy_false in E1;
    try apply truthy_true in E2; try apply truthy_false in E2;
    try apply truthy_true in E3; try apply truthy_false in E3;
    rewrite ?String.eqb_eq;
    try (rewrite (searchMatch_containsTerm _ m E1));
    intuition congruence.
Qed.

Section Filtering.
Variable Date_parse : string -> option Z.

Lemma applyFiltersAndSearch_filtered (s : State) :
  Permutation (filteredMemories (applyFiltersAndSearch Date_parse s))
    (filter (keeps s) (currentMemories s)).
Proof.
  unfold applyFiltersAndSearch.
  rewrite (proj1 (renderMemoryTable_memories _)).
  rewrite (proj1 (updatePagination_memories _)).
  unfold applySorting. simpl.
  rewrite sort_perm.
  fold (searchTermOf s).
  match goal with |- Permutation ?l ?r => assert (E : l = r); [|now rewrite E] end.
  unfold keeps.
  destruct (truthy (searchTermOf s));
    destruct (truthy (memoryTypeFilter_value _));
    destruct (truthy (categoryFilter_value _));
    rewrite ?filter_filter; try rewrite <- (filter_all (currentMemories s)) at 1;
    rewrite ?filter_filter;
    apply filter_ext; intros m; simpl;
    rewrite ?andb_true_r, ?andb_assoc; reflexivity.
Qed.

Lemma applyFiltersAndSearch_current (s : State) :
  currentMemories (applyFiltersAndSearch Date_parse s) = currentMemories s.
Proof.
  unfold applyFiltersAndSearch.
  rewrite (proj2 (renderMemoryTable_memories _)).
  rewrite (proj2 (updatePagination_memories _)).
  reflexivity.
Qed.

(** C1.  After [applyFiltersAndSearch], [filteredMemories] holds
    exactly the elements of [currentMemories] that satisfy all active
    filters: the search term (trimmed, lower-cased) when it is not
    empty, the memory type when one is chosen, the category when one is
    chosen.  Each such memory is there as often as in [currentMemories],
    no other memory is there, and [currentMemories] is as before. *)
Theorem C1_applyFiltersAndSearch_exact (s : State) :
  let s' := applyFiltersAndSearch Date_parse s in
  (forall m, In m (filteredMemories s') <->
             In m (currentMemories s) /\ satisfiesActiveFilters s m)
  /\ (exists keep : Memory -> bool,
         (forall m, keep m = true <-> satisfiesActiveFilters s m)
         /\ Permutation (filteredMemories s') (filter keep (currentMemories s)))
  /\ currentMemories s' = currentMemories s.
Proof.
  intros s'. pose proof (applyFiltersAndSearch_filtered s) as P.
  split; [|split].
  - intros m. split.
    + intros H. apply (Permutation_in _ P) in H.
      apply filter_In in H. now rewrite <- keeps_satisfies.
    + intros H. apply (Permutation_in _ (Permutation_sym P)).
      apply filter_In. now rewrite keeps_satisfies.
  - exists (keeps s). split; [apply keeps_satisfies | exact P].
  - apply applyFiltersAndSearch_current.
Qed.
End Filtering.

(** ** Sorting with an antisymmetric comparison *)

Section SortOrder.
Context {A : Type} (cmp : A -> A -> Z).
Hypothesis cmp_antisym : forall a b, cmp b a = - cmp a b.

(** Two neighbours of the result are in order. *)
Definition inOrder (a b : A) : Prop := cmp a b <= 0.

Lemma insert_HdRel (y x : A) (l : list A) :
  HdRel inOrder y l -> inOrder y x -> HdRel inOrder y (insert cmp x l).
Proof.
  intros Hl Hx. destruct l as [|z l]; simpl.
  - now constructor.
  - destruct (cmp x z <=? 0); constructor; [exact Hx|].
    now inversion Hl.
Qed.

Lemma insert_Sorted (x : A) (l : list A) :
  Sorted inOrder l -> Sorted inOrder (insert cmp x l).
Proof.
  induction 1 as [|y l Hs IH Hhd]; simpl.
  - repeat constructor.
  - destruct (cmp x y <=? 0) eqn:E.
    + constructor; [now constructor|]. constructor. unfold inOrder. lia.
    + constructor; [exact IH|]. apply insert_HdRel; [exact Hhd|].
      unfold inOrder. rewrite cmp_antisym. lia.
Qed.

Lemma sort_Sorted (l : list A) : Sorted inOrder (sort cmp l).
Proof.
  induction l as [|x l IH]; simpl; [constructor | now apply insert_Sorted].
Qed.

(** *** Without ties, the descending order is the ascending one
    reversed *)

Hypothesis cmp_trans : forall a b c, cmp a b < 0 -> cmp b c < 0 -> cmp a c < 0.

Definition before (a b : A) : Prop := cmp a b < 0.

(** No two elements at different places compare equal. *)
Definition noTies (l : list A) : Prop :=
  ForallOrdPairs (fun a b => cmp a b <> 0) l.

Lemma insert_at (c : A -> A -> Z) (x : A) (s1 s2 : list A) :
  Forall (fun y => 0 < c x y) s1 -> Forall (fun y => c x y < 0) s2 ->
  insert c x (s1 ++ s2) = s1 ++ x :: s2.
Proof.
  intros H1 H2. induction H1 as [|y s1 Hy _ IH]; simpl.
  - destruct H2 as [|z s2 Hz _]; simpl; [reflexivity|].
    destruct (c x z <=? 0) eqn:E; [reflexivity|lia].
  - destruct (c x y <=? 0) eqn:E; [lia|]. now rewrite IH.
Qed.

Lemma sorted_split (x : A) (s : list A) :
  StronglySorted before s -> Forall (fun y => cmp x y <> 0) s ->
  exists s1 s2, s = s1 ++ s2
                /\ Forall (fun y => 0 < cmp x y) s1
                /\ Forall (fun y => cmp x y < 0) s2.
Proof.
  induction 1 as [|y s Hs IH Hy]; intros Hne.
  - exists [], []. repeat split; constructor.
  - inversion Hne as [|? ? Hxy Hne']; subst.
    destruct (Z.lt_trichotomy (cmp x y) 0) as [Hlt | [Heq | Hgt]]; [|contradiction|].
    + exists [], (y :: s). repeat split; [constructor|].
      constructor; [exact Hlt|].
      rewrite Forall_forall in *. intros z Hz. apply (cmp_trans x y z Hlt).
      now apply Hy.
    + destruct (IH Hne') as (s1 & s2 & -> & H1 & H2).
      exists (y :: s1), s2. repeat split; [now constructor | exact H2].
Qed.

Lemma StronglySorted_middle (x : A) (s1 s2 : list A) :
  StronglySorted before (s1 ++ s2) ->
  Forall (fun y => 0 < cmp x y) s1 -> Forall (fun y => cmp x y < 0) s2 ->
  StronglySorted before (s1 ++ x :: s2).
Proof.
  induction s1 as [|y s1 IH]; simpl; intros Hs H1 H2.
  - constructor; [exact Hs | exact H2].
  - inversion Hs as [|? ? Hs' Hy]; subst.
    inversion H1 as [|? ? Hxy H1']; subst.
    constructor; [now apply IH|].
    rewrite Forall_forall in *. intros z Hz.
    apply in_app_or in Hz. destruct Hz as [Hz | [<- | Hz]].
    + apply Hy, in_or_app. now left.
    + unfold before. rewrite cmp_antisym. lia.
    + apply Hy, in_or_app. now right.
Qed.

Lemma noTies_sort_head (x : A) (l : list A) :
  noTies (x :: l) -> noTies l /\ Forall (fun y => cmp x y <> 0) (sort cmp l).
Proof.
  intros H. inversion H as [|? ? Hx Hl]; subst. split; [exact Hl|].
  rewrite Forall_forall in *. intros y Hy. apply Hx.
  revert Hy. apply Permutation_in.
  clear. induction l as [|a l IH]; simpl; [reflexivity|].
  etransitivity; [|apply perm_skip, IH].
  clear IH. generalize (sort cmp l) as s. intros s.
  induction s as [|b s IH]; simpl; [reflexivity|].
  destruct (cmp a b <=? 0); [reflexivity|].
  etransitivity; [apply perm_skip, IH | apply perm_swap].
Qed.

Lemma sort_StronglySorted (l : list A) :
  noTies l -> StronglySorted before (sort cmp l).
Proof.
  induction l as [|x l IH]; simpl; intros H; [constructor|].
  destruct (noTies_sort_head x l H) as [Hl Hx].
  destruct (sorted_split x (sort cmp l) (IH Hl) Hx) as (s1 & s2 & E & H1 & H2).
  rewrite E in *. rewrite (insert_at cmp x s1 s2 H1 H2).
  apply StronglySorted_middle; auto.
Qed.

Lemma sort_negated_rev (l : list A) :
  noTies l -> sort (fun a b => - cmp a b) l = rev (sort cmp l).
Proof.
  induction l as [|x l IH]; simpl; intros H; [reflexivity|].
  destruct (noTies_sort_head x l H) as [Hl Hx].
  rewrite (IH Hl).
  destruct (sorted_split x (sort cmp l) (sort_StronglySorted l Hl) Hx)
    as (s1 & s2 & E & H1 & H2).
  rewrite E. rewrite (insert_at cmp x s1 s2 H1 H2).
  rewrite !rev_app_distr. simpl. rewrite <- app_assoc. simpl.
  apply (insert_at (fun a b => - cmp a b)).
  - apply Forall_rev. revert H2. apply Forall_impl. intros; lia.
  - apply Forall_rev. revert H1. apply Forall_impl. intros; lia.
Qed.

(** *** A consistent comparison fixes the result of a stable sort *)

(** The comparison is consistent on a list when, among its elements,
    to compare equal is transitive; with the antisymmetry and the
    transitivity of [before] this is the consistency ECMAScript asks
    of a comparison function. *)
Definition consistentOn (l : list A) : Prop :=
  forall a b c, In a l -> In b l -> In c l ->
                cmp a b = 0 -> cmp b c = 0 -> cmp a c = 0.

(** The elements [w] compares equal to. *)
Definition tied (w y : A) : bool := cmp w y =? 0.

(** The order of the elements of every class of [l] is the one they
    have in [l0]. *)
Definition keepsTies (l0 l : list A) : Prop :=
  forall w, In w l0 -> filter (tied w) l = filter (tied w) l0.

Lemma cmp_refl (a : A) : cmp a a = 0.
Proof.
  pose proof (cmp_antisym a a). lia.
Qed.

Lemma consistentOn_incl (l l' : list A) :
  incl l' l -> consistentOn l -> consistentOn l'.
Proof.
  intros Hi H a b c Ha Hb Hc. apply H; now apply Hi.
Qed.

Lemma inOrder_trans (l : list A) (a b c : A) :
  consistentOn l -> In a l -> In b l -> In c l ->
  inOrder a b -> inOrder b c -> inOrder a c.
Proof.
  unfold inOrder. intros H Ha Hb Hc Hab Hbc.
  destruct (Z.lt_trichotomy (cmp a c) 0) as [Hlt | [Heq | Hgt]]; [lia | lia |].
  exfalso.
  assert (Hca : cmp c a < 0) by (rewrite cmp_antisym; lia).
  destruct (Z.eq_dec (cmp a b) 0) as [E1 | N1];
    destruct (Z.eq_dec (cmp b c) 0) as [E2 | N2].
  - pose proof (H a b c Ha Hb Hc E1 E2). lia.
  - assert (Hba : cmp b a < 0) by (apply (cmp_trans b c a); lia).
    rewrite cmp_antisym in Hba. lia.
  - assert (Hcb : cmp c b < 0) by (apply (cmp_trans c a b); lia).
    rewrite cmp_antisym in Hcb. lia.
  - assert (Hac : cmp a c < 0) by (apply (cmp_trans a b c); lia). lia.
Qed.

Lemma insert_In (x y : A) (l : list A) :
  In y (insert cmp x l) <-> y = x \/ In y l.
Proof.
  split.
  - intros H. apply (Permutation_in _ (insert_perm cmp x l)) in H.
    destruct H as [<- | H]; auto.
  - intros H. apply (Permutation_in _ (Permutation_sym (insert_perm cmp x l))).
    destruct H as [-> | H]; [now left | now right].
Qed.

Lemma sort_In (y : A) (l : list A) : In y (sort cmp l) <-> In y l.
Proof.
  split; apply Permutation_in; [|symmetry]; apply sort_perm.
Qed.

Lemma insert_StronglySorted (x : A) (l : list A) :
  consistentOn (x :: l) ->
  StronglySorted inOrder l -> StronglySorted inOrder (insert cmp x l).
Proof.
  intros Hc. induction 1 as [|y l Hs IH Hy]; simpl.
  - repeat constructor.
  - destruct (cmp x y <=? 0) eqn:E.
    + constructor; [now constructor|]. constructor; [unfold inOrder; lia|].
      rewrite Forall_forall in *. intros z Hz.
      apply (inOrder_trans (x :: y :: l) x y z Hc); simpl; auto.
      unfold inOrder. lia.
    + constructor.
      * apply IH. revert Hc. apply consistentOn_incl.
        intros z [<- | Hz]; simpl; auto.
      * rewrite Forall_forall in *. intros z Hz.
        apply insert_In in Hz. destruct Hz as [-> | Hz]; [|now apply Hy].
        unfold inOrder. rewrite cmp_antisym. lia.
Qed.

Lemma sort_ordered (l : list A) :
  consistentOn l -> StronglySorted inOrder (sort cmp l).
Proof.
  induction l as [|x l IH]; simpl; intros Hc; [constructor|].
  apply insert_StronglySorted.
  - revert Hc. apply consistentOn_incl.
    intros z [<- | Hz]; [now left | right; now apply sort_In].
  - apply IH. revert Hc. apply consistentOn_incl. intros z Hz. now right.
Qed.

Lemma insert_filter (w x : A) (l : list A) :
  consistentOn (w :: x :: l) ->
  filter (tied w) (insert cmp x l) = filter (tied w) (x :: l).
Proof.
  intros Hc. induction l as [|y l IH]; [reflexivity|].
  cbn [insert]. destruct (cmp x y <=? 0) eqn:E; [reflexivity|].
  cbn [filter]. rewrite IH.
  - cbn [filter]. unfold tied.
    destruct (cmp w x =? 0) eqn:Ex; destruct (cmp w y =? 0) eqn:Ey; try reflexivity.
    exfalso. apply Z.eqb_eq in Ex, Ey.
    assert (cmp x w = 0) by (rewrite cmp_antisym; lia).
    assert (cmp x y = 0) by (apply (Hc x w y); simpl; auto).
    lia.
  - revert Hc. apply consistentOn_incl.
    intros z [<- | [<- | Hz]]; simpl; auto.
Qed.

Lemma sort_filter (w : A) (l : list A) :
  consistentOn (w :: l) -> filter (tied w) (sort cmp l) = filter (tied w) l.
Proof.
  induction l as [|x l IH]; intros Hc; [reflexivity|].
  cbn [sort]. rewrite insert_filter.
  - cbn [filter]. rewrite IH; [reflexivity|].
    revert Hc. apply consistentOn_incl.
    intros z [<- | Hz]; simpl; auto.
  - revert Hc. apply consistentOn_incl.
    intros z [<- | [<- | Hz]]; [now left | right; now left |].
    right; right. now apply sort_In.
Qed.

Lemma sort_keepsTies (l : list A) : consistentOn l -> keepsTies l (sort cmp l).
Proof.
  intros Hc w Hw. apply sort_filter. revert Hc. apply consistentOn_incl.
  intros z [<- | Hz]; assumption.
Qed.

(** Two lists in order that have the same elements and the same order
    within every class are equal: every stable sort returns the same
    list. *)
Lemma stable_sort_unique (l r1 r2 : list A) :
  incl r1 l ->
  Permutation r1 r2 ->
  StronglySorted inOrder r1 -> StronglySorted inOrder r2 ->
  (forall w, In w l -> filter (tied w) r1 = filter (tied w) r2) ->
  r1 = r2.
Proof.
  revert r2. induction r1 as [|h1 r1 IH]; intros r2 Hi Hp H1 H2 Hf.
  - apply Permutation_nil in Hp. now subst.
  - destruct r2 as [|h2 r2].
    + symmetry in Hp. now apply Permutation_nil in Hp.
    + assert (Hh1 : In h1 l) by (apply Hi; now left).
      inversion H1 as [|? ? H1' F1]; subst.
      inversion H2 as [|? ? H2' F2]; subst.
      rewrite Forall_forall in F1, F2.
      assert (L12 : cmp h1 h2 <= 0).
      { assert (Hin : In h2 (h1 :: r1))
          by (apply (Permutation_in _ (Permutation_sym Hp)); now left).
        destruct Hin as [<- | Hin]; [rewrite cmp_refl; lia | now apply F1]. }
      assert (L21 : cmp h2 h1 <= 0).
      { assert (Hin : In h1 (h2 :: r2))
          by (apply (Permutation_in _ Hp); now left).
        destruct Hin as [<- | Hin]; [rewrite cmp_refl; lia | now apply F2]. }
      assert (T : cmp h1 h2 = 0) by (rewrite cmp_antisym in L21; lia).
      assert (E : h1 = h2).
      { pose proof (Hf h1 Hh1) as Hh. cbn [filter] in Hh. unfold tied in Hh.
        rewrite cmp_refl, T in Hh. simpl in Hh. now inversion Hh. }
      subst h2. f_equal. apply IH.
      * intros z Hz. apply Hi. now right.
      * now apply Permutation_cons_inv in Hp.
      * exact H1'.
      * exact H2'.
      * intros w Hw. pose proof (Hf w Hw) as Hh. cbn [filter] in Hh.
        destruct (tied w h1); [now inversion Hh | exact Hh].
Qed.

(** The result of [sort] is the list every stable sort returns. *)
Lemma sort_is_the_stable_sort (l r : list A) :
  consistentOn l ->
  Permutation r l -> StronglySorted inOrder r -> keepsTies l r ->
  r = sort cmp l.
Proof.
  intros Hc Hp Hs Hk. apply (stable_sort_unique l).
  - intros z Hz. now apply (Permutation_in _ Hp).
  - rewrite Hp. symmetry. apply sort_perm.
  - exact Hs.
  - now apply sort_ordered.
  - intros w Hw. rewrite (Hk w Hw). symmetry. now apply sort_keepsTies.
Qed.
End SortOrder.

(** ** The comparison of [applySorting], field by field *)

Definition sign (c : Datatypes.comparison) : Z :=
  match c with Lt => -1 | Eq => 0 | Gt => 1 end.

Lemma string_compare_lt_trans (a b c : string) :
  String.compare a b = Lt -> String.compare b c = Lt -> String.compare a c = Lt.
Proof.
  revert b c. induction a as [|x a IH]; intros [|y b] [|z c]; simpl;
    try discriminate; auto.
  unfold Ascii.compare.
  destruct (N.compare_spec (N_of_ascii x) (N_of_ascii y));
    destruct (N.compare_spec (N_of_ascii y) (N_of_ascii z));
    destruct (N.compare_spec (N_of_ascii x) (N_of_ascii z));
    try discriminate; try lia; auto.
  apply IH.
Qed.

(** ** [parseInt] on the safe integers *)

(** The number the digits [d] stand for when they follow the digits of
    [a]. *)
Fixpoint digitsAfter (d : Decimal.uint) (a : N) : N :=
  match d with
  | Decimal.Nil => a
  | Decimal.D0 l => digitsAfter l (a * 10 + 0)
  | Decimal.D1 l => digitsAfter l (a * 10 + 1)
  | Decimal.D2 l => digitsAfter l (a * 10 + 2)
  | Decimal.D3 l => digitsAfter l (a * 10 + 3)
  | Decimal.D4 l => digitsAfter l (a * 10 + 4)
  | Decimal.D5 l => digitsAfter l (a * 10 + 5)
  | Decimal.D6 l => digitsAfter l (a * 10 + 6)
  | Decimal.D7 l => digitsAfter l (a * 10 + 7)
  | Decimal.D8 l => digitsAfter l (a * 10 + 8)
  | Decimal.D9 l => digitsAfter l (a * 10 + 9)
  end%N.

Lemma parseDigits_uint (d : Decimal.uint) (a : N) :
  parseDigits 10 (NilEmpty.string_of_uint d) (Some a) = Some (digitsAfter d a).
Proof.
  revert a. induction d; intros a; cbn [NilEmpty.string_of_uint digitsAfter];
    [reflexivity | ..]; apply IHd.
Qed.

Lemma digitsAfter_pos (d : Decimal.uint) (p : positive) :
  digitsAfter d (Npos p) = Npos (Pos.of_uint_acc d p).
Proof.
  revert p. induction d; intros p; cbn [digitsAfter Pos.of_uint_acc];
    [reflexivity | ..];
    match goal with
    | |- digitsAfter _ ?a = N.pos (Pos.of_uint_acc _ ?q) =>
        replace a with (N.pos q) by lia; apply IHd
    end.
Qed.

Lemma digitsAfter_zero (d : Decimal.uint) : digitsAfter d 0 = Pos.of_uint d.
Proof.
  induction d; cbn [digitsAfter Pos.of_uint]; [reflexivity | exact IHd | ..];
    apply digitsAfter_pos.
Qed.

Lemma parseDigits_first (d : Decimal.uint) :
  d <> Decimal.Nil ->
  parseDigits 10 (NilEmpty.string_of_uint d) None = Some (Pos.of_uint d).
Proof.
  intros H. rewrite <- digitsAfter_zero.
  destruct d; [congruence | ..]; cbn [NilEmpty.string_of_uint digitsAfter];
    apply parseDigits_uint.
Qed.

(** A string of decimal digits is read in radix 10, with no sign. *)
Lemma parseIntString_uint (d : Decimal.uint) :
  d <> Decimal.Nil ->
  parseIntString (NilEmpty.string_of_uint d)
  = Some (toDouble (Z.of_N (Pos.of_uint d)))
  /\ parseIntString (String "-" (NilEmpty.string_of_uint d))
     = Some (toDouble (- Z.of_N (Pos.of_uint d))).
Proof.
  intros H. pose proof (parseDigits_first d H) as P.
  unfold parseIntString.
  destruct d as [|l|l|l|l|l|l|l|l|l|l]; [congruence | ..];
    cbn [NilEmpty.string_of_uint] in *.
  1: destruct l; cbn [NilEmpty.string_of_uint] in *.
  all: cbn [trimStart].
  all: repeat match goal with
         | |- context [isWhiteSpace ?c] =>
             let b := eval vm_compute in (isWhiteSpace c) in
             change (isWhiteSpace c) with b
         end.
  all: cbv beta iota zeta.
  all: rewrite P; cbn [option_map]; split; f_equal; f_equal; lia.
Qed.


Lemma toDouble_safe (n : Z) : Z.abs n < 2 ^ 53 -> toDouble n = n.
Proof.
  intros H. unfold toDouble. cbv zeta.
  destruct (Z.ltb_spec (Z.abs n) (2 ^ 53)); [reflexivity | lia].
Qed.

Lemma safe_below_infinity (n : Z) : Z.abs n < 2 ^ 53 -> Z.abs n < infinity.
Proof.
  intros H. unfold infinity.
  assert (2 ^ 53 < 2 ^ 1024) by (apply Z.pow_lt_mono_r; lia). lia.
Qed.

(** [parseInt] of a number that is a safe integer is the number. *)
Lemma parseInt_safe (n : Z) : Z.abs n < 2 ^ 53 -> parseInt (Num n) = Some n.
Proof.
  intros H. unfold parseInt, toString. rewrite (toDouble_safe n H).
  pose proof (safe_below_infinity n H) as I.
  unfold numberToString, positiveToString.
  destruct n as [|p|p].
  - reflexivity.
  - change (Z.pos p =? 0) with false. change (Z.pos p <? 0) with false. cbv iota.
    destruct (Z.eqb_spec (Z.pos p) infinity) as [E | _]; [simpl in I; lia|].
    destruct (Z.ltb_spec (Z.pos p) (2 ^ 53)) as [_ | G]; [|simpl in H; lia].
    unfold ofZ. cbn [Z.to_int NilZero.string_of_int].
    pose proof (Unsigned.to_uint_nonnil p) as N.
    replace (NilZero.string_of_uint (Pos.to_uint p))
      with (NilEmpty.string_of_uint (Pos.to_uint p))
      by (destruct (Pos.to_uint p); [congruence | reflexivity ..]).
    rewrite (proj1 (parseIntString_uint _ N)), DecimalPos.Unsigned.of_to.
    f_equal. apply toDouble_safe. exact H.
  - change (Z.neg p =? 0) with false. change (Z.neg p <? 0) with true. cbv iota.
    change (- Z.neg p) with (Z.pos p).
    destruct (Z.eqb_spec (Z.pos p) infinity) as [E | _]; [simpl in I; lia|].
    destruct (Z.ltb_spec (Z.pos p) (2 ^ 53)) as [_ | G]; [|simpl in H; lia].
    unfold ofZ. cbn [Z.to_int NilZero.string_of_int String.append].
    pose proof (Unsigned.to_uint_nonnil p) as N.
    replace (NilZero.string_of_uint (Pos.to_uint p))
      with (NilEmpty.string_of_uint (Pos.to_uint p))
      by (destruct (Pos.to_uint p); [congruence | reflexivity ..]).
    rewrite (proj2 (parseIntString_uint _ N)), DecimalPos.Unsigned.of_to.
    f_equal. apply toDouble_safe. exact H.
Qed.

(** The values the three kinds of field are compared by. *)
Definition intValue (m : Memory) : Z := orZero (parseInt (access_count m)).

Definition textValue (fld : string) (m : Memory) : string :=
  toLowerCase (toString (getField m fld)).

Section Sorting.
Variable Date_parse : string -> option Z.

Definition dateValue (fld : string) (m : Memory) : option Z :=
  newDate Date_parse (getField m fld).

Lemma comparison_access_count (a b : Memory) :
  comparison Date_parse "access_count" a b = sign (intValue a ?= intValue b).
Proof.
  unfold comparison, intValue. simpl.
  change (getField a "access_count") with (access_count a).
  change (getField b "access_count") with (access_count b).
  destruct (Z.compare_spec (orZero (parseInt (access_count a)))
              (orZero (parseInt (access_count b)))) as [E | E | E]; simpl.
  - rewrite E, Z.ltb_irrefl. reflexivity.
  - rewrite (proj2 (Z.ltb_lt _ _) E).
    destruct (Z.ltb_spec (orZero (parseInt (access_count b)))
                (orZero (parseInt (access_count a)))); [lia | reflexivity].
  - rewrite (proj2 (Z.ltb_lt _ _) E).
    destruct (Z.ltb_spec (orZero (parseInt (access_count a)))
                (orZero (parseInt (access_count b)))); [lia | reflexivity].
Qed.

Lemma at_not_access_count (fld : string) :
  includes fld "_at" = true -> fld <> "access_count".
Proof.
  intros H ->. vm_compute in H. discriminate H.
Qed.

Lemma comparison_dates (fld : string) (a b : Memory) :
  includes fld "_at" = true ->
  comparison Date_parse fld a b =
  match dateValue fld a, dateValue fld b with
  | Some x, Some y => sign (x ?= y)
  | _, _ => 0
  end.
Proof.
  intros Hat. pose proof (at_not_access_count fld Hat) as Hf.
  unfold comparison, dateValue.
  rewrite (proj2 (String.eqb_neq _ _) Hf), Hat.
  destruct (newDate Date_parse (getField a fld)) as [x|],
           (newDate Date_parse (getField b fld)) as [y|]; simpl; try reflexivity.
  destruct (Z.compare_spec x y) as [E | E | E]; simpl.
  - rewrite E, Z.ltb_irrefl. reflexivity.
  - rewrite (proj2 (Z.ltb_lt _ _) E).
    destruct (Z.ltb_spec y x); [lia | reflexivity].
  - rewrite (proj2 (Z.ltb_lt _ _) E).
    destruct (Z.ltb_spec x y); [lia | reflexivity].
Qed.

Lemma comparison_strings (fld : string) (a b : Memory) :
  fld <> "access_count" -> includes fld "_at" = false ->
  comparison Date_parse fld a b = sign (String.compare (textValue fld a) (textValue fld b)).
Proof.
  intros Hf Hat. unfold comparison, textValue, strGt, strLt.
  rewrite (proj2 (String.eqb_neq _ _) Hf), Hat.
  destruct (String.compare _ _); reflexivity.
Qed.

(** The kind of a field. *)
Lemma field_kind (fld : string) :
  fld = "access_count"
  \/ (fld <> "access_count" /\ includes fld "_at" = true)
  \/ (fld <> "access_count" /\ includes fld "_at" = false).
Proof.
  destruct (String.eqb_spec fld "access_count"); [now left|].
  destruct (includes fld "_at"); auto.
Qed.

Lemma comparison_antisym (fld : string) (a b : Memory) :
  comparison Date_parse fld b a = - comparison Date_parse fld a b.
Proof.
  destruct (field_kind fld) as [-> | [[Hf Hat] | [Hf Hat]]].
  - rewrite !comparison_access_count, (Z.compare_antisym (intValue b)).
    now destruct (intValue b ?= intValue a).
  - rewrite !comparison_dates by assumption.
    destruct (dateValue fld a) as [x|], (dateValue fld b) as [y|]; try reflexivity.
    rewrite (Z.compare_antisym y). now destruct (y ?= x).
  - rewrite !comparison_strings by assumption.
    rewrite (String.compare_antisym (textValue fld b)).
    now destruct (String.compare (textValue fld a) (textValue fld b)).
Qed.

Lemma sign_neg (c : Datatypes.comparison) : sign c < 0 <-> c = Lt.
Proof.
  destruct c; simpl; split; intros; try lia; try discriminate; reflexivity.
Qed.

Lemma comparison_trans (fld : string) (a b c : Memory) :
  comparison Date_parse fld a b < 0 -> comparison Date_parse fld b c < 0 ->
  comparison Date_parse fld a c < 0.
Proof.
  destruct (field_kind fld) as [-> | [[Hf Hat] | [Hf Hat]]].
  - rewrite !comparison_access_count, !sign_neg, !Z.compare_lt_iff. lia.
  - rewrite !comparison_dates by assumption.
    destruct (dateValue fld a) as [x|], (dateValue fld b) as [y|],
             (dateValue fld c) as [z|]; try lia.
    rewrite !sign_neg, !Z.compare_lt_iff. lia.
  - rewrite !comparison_strings by assumption. rewrite !sign_neg.
    apply string_compare_lt_trans.
Qed.

Lemma compareFn_antisym (cs : Sort) (a b : Memory) :
  compareFn Date_parse cs b a = - compareFn Date_parse cs a b.
Proof.
  unfold compareFn. destruct (direction cs); rewrite comparison_antisym; lia.
Qed.

Lemma handleSort_memories (fld : string) (s : State) :
  Permutation (filteredMemories (handleSort Date_parse fld s)) (filteredMemories s).
Proof.
  unfold handleSort. rewrite (proj1 (renderMemoryTable_memories _)).
  unfold applySorting. simpl. rewrite sort_perm.
  destruct (field (currentSort s) =? fld)%string; reflexivity.
Qed.

(** The list [applySorting] leaves when the direction is [d]. *)
Definition sortedBy (d : Direction) (s : State) : list Memory :=
  filteredMemories
    (applySorting Date_parse (set_currentSort (mkSort (field (currentSort s)) d) s)).

Lemma sign_zero (c : Datatypes.comparison) : sign c = 0 <-> c = Eq.
Proof.
  destruct c; simpl; split; intros; try lia; try discriminate; reflexivity.
Qed.

(** Every value of a date field of the list is a date. *)
Definition datesParse (fld : string) (l : list Memory) : Prop :=
  includes fld "_at" = true -> Forall (fun m => dateValue fld m <> None) l.

(** The comparison is consistent on a list whose dates parse: integers
    and strings always, dates when none of them is invalid (an invalid
    date compares equal to every date). *)
Lemma comparison_consistent (fld : string) (l : list Memory) :
  datesParse fld l -> consistentOn (comparison Date_parse fld) l.
Proof.
  intros Hd a b c Ha Hb Hc.
  destruct (field_kind fld) as [-> | [[Hf Hat] | [Hf Hat]]].
  - rewrite !comparison_access_count, !sign_zero, !Z.compare_eq_iff. congruence.
  - specialize (Hd Hat). rewrite Forall_forall in Hd.
    pose proof (Hd a Ha) as Da. pose proof (Hd b Hb) as Db.
    pose proof (Hd c Hc) as Dc.
    rewrite !comparison_dates by assumption.
    destruct (dateValue fld a) as [x|]; [|contradiction].
    destruct (dateValue fld b) as [y|]; [|contradiction].
    destruct (dateValue fld c) as [z|]; [|contradiction].
    rewrite !sign_zero, !Z.compare_eq_iff. congruence.
  - rewrite !comparison_strings by assumption.
    rewrite !sign_zero. intros E1 E2. apply String.compare_eq_iff in E1, E2.
    rewrite E1, E2.
    pose proof (String.compare_antisym (textValue fld c) (textValue fld c)) as R.
    destruct (String.compare (textValue fld c) (textValue fld c));
      [reflexivity | discriminate R | discriminate R].
Qed.

Lemma compareFn_trans (cs : Sort) (a b c : Memory) :
  compareFn Date_parse cs a b < 0 -> compareFn Date_parse cs b c < 0 ->
  compareFn Date_parse cs a c < 0.
Proof.
  unfold compareFn. destruct (direction cs).
  - apply comparison_trans.
  - intros H1 H2.
    rewrite <- comparison_antisym in *.
    apply (comparison_trans (field cs) c b a); assumption.
Qed.

Lemma compareFn_consistent (cs : Sort) (l : list Memory) :
  consistentOn (comparison Date_parse (field cs)) l <->
  consistentOn (compareFn Date_parse cs) l.
Proof.
  unfold consistentOn, compareFn. destruct (direction cs); [reflexivity|].
  split; intros H a b c Ha Hb Hc H1 H2;
    pose proof (H a b c Ha Hb Hc); lia.
Qed.

(** Without ties the comparison is consistent. *)
Lemma noTies_consistentOn {A : Type} (cmp : A -> A -> Z) (l : list A) :
  (forall a b, cmp b a = - cmp a b) -> noTies cmp l -> consistentOn cmp l.
Proof.
  intros Hanti Hn.
  assert (Heq : forall a b, In a l -> In b l -> cmp a b = 0 -> a = b).
  { induction Hn as [|x l Hx Hn IH]; intros a b Ha Hb E; [destruct Ha|].
    rewrite Forall_forall in Hx.
    destruct Ha as [<- | Ha], Hb as [<- | Hb].
    - reflexivity.
    - now apply Hx in Hb.
    - apply Hx in Ha. rewrite Hanti in E. lia.
    - now apply IH. }
  intros a b c Ha Hb Hc E1 E2.
  rewrite (Heq a b Ha Hb E1). exact E2.
Qed.

(** C2, as amended.  [applySorting] sorts [filteredMemories] with a
    comparison that depends on the field: the integers [parseInt]
    gives for [access_count] (a count that is a number below 2^53 in
    magnitude is compared by its value), with 0 for what does not
    parse; dates for a field whose name contains [_at]; lower-cased
    strings otherwise.  For [desc] the comparison is negated.  The
    comparison is consistent unless a date of the list is invalid, and
    for a consistent comparison the result is in order, keeps the
    elements that compare equal in the order they had, and is the one
    list with these properties.  The elements are the same with the
    same multiplicities, also after [handleSort], and when no two
    elements compare equal the descending result is the ascending one
    reversed. *)
Theorem C2_applySorting_order (s : State) :
  let cs := currentSort s in
  let s' := applySorting Date_parse s in
  let cmp := compareFn Date_parse cs in
  (forall a b,
      comparison Date_parse "access_count" a b = sign (intValue a ?= intValue b))
  /\ (forall m n,
         access_count m = Num n -> Z.abs n < 2 ^ 53 -> intValue m = n)
  /\ (forall fld a b,
         includes fld "_at" = true ->
         comparison Date_parse fld a b =
         match dateValue fld a, dateValue fld b with
         | Some x, Some y => sign (x ?= y)
         | _, _ => 0
         end)
  /\ (forall fld a b,
         fld <> "access_count" -> includes fld "_at" = false ->
         comparison Date_parse fld a b =
         sign (String.compare (textValue fld a) (textValue fld b)))
  /\ (forall fld a b,
         compareFn Date_parse (mkSort fld asc) a b = comparison Date_parse fld a b
         /\ compareFn Date_parse (mkSort fld desc) a b = - comparison Date_parse fld a b)
  /\ (datesParse (field cs) (filteredMemories s) ->
      consistentOn cmp (filteredMemories s))
  /\ (consistentOn cmp (filteredMemories s) ->
      StronglySorted (inOrder cmp) (filteredMemories s')
      /\ keepsTies cmp (filteredMemories s) (filteredMemories s')
      /\ (forall r,
             Permutation r (filteredMemories s) ->
             StronglySorted (inOrder cmp) r ->
             keepsTies cmp (filteredMemories s) r ->
             r = filteredMemories s'))
  /\ Permutation (filteredMemories s') (filteredMemories s)
  /\ (forall fld, Permutation (filteredMemories (handleSort Date_parse fld s))
                    (filteredMemories s))
  /\ (noTies (comparison Date_parse (field cs)) (filteredMemories s) ->
      consistentOn (comparison Date_parse (field cs)) (filteredMemories s)
      /\ sortedBy desc s = rev (sortedBy asc s)).
Proof.
  intros cs s' cmp.
  split; [apply comparison_access_count|].
  split.
  { intros m n E H. unfold intValue. rewrite E, (parseInt_safe n H). reflexivity. }
  split; [apply comparison_dates|].
  split; [apply comparison_strings|].
  split; [intros fld a b; split; reflexivity|].
  split; [intros Hd; apply compareFn_consistent, comparison_consistent, Hd|].
  split.
  { intros Hc.
    pose proof (compareFn_antisym cs) as Ha.
    pose proof (compareFn_trans cs) as Ht.
    split; [|split].
    - now apply sort_ordered.
    - now apply sort_keepsTies.
    - intros r Hp Hs Hk. now apply sort_is_the_stable_sort. }
  split; [apply sort_perm|].
  split; [intros fld; apply handleSort_memories|].
  intros H. split.
  { apply noTies_consistentOn; [apply comparison_antisym | exact H]. }
  unfold sortedBy, applySorting. simpl.
  apply (sort_negated_rev (comparison Date_parse (field cs))).
  - apply comparison_antisym.
  - apply comparison_trans.
  - exact H.
Qed.
End Sorting.

(** Two memories with the same access count, and a page that shows
    them sorted by it. *)
Definition memoryA : Memory :=
  mkMemory "a" (Some "first") "general" "long_term" None
    "2025-01-01T00:00:00" "2025-01-01T00:00:00" (Num 3).

Definition memoryB : Memory :=
  mkMemory "b" (Some "second") "general" "long_term" None
    "2025-01-02T00:00:00" "2025-01-02T00:00:00" (Num 3).

Definition emptyForm : FormControls := mkFormControls "" "" "general" "long_term" "".

Definition tiedState : State :=
  set_currentSort (mkSort "access_count" desc)
    (set_filteredMemories [memoryA; memoryB]
       (set_currentMemories [memoryA; memoryB] (initialState emptyForm))).

(** A date parser for the examples: it knows no date. *)
Definition noDates : string -> option Z := fun _ => None.

(** C2 as stated fails: with a tie, the descending order is not the
    ascending order reversed. *)
Lemma C2_desc_is_not_reverse_on_ties :
  sortedBy noDates desc tiedState = [memoryA; memoryB]
  /\ rev (sortedBy noDates asc tiedState) = [memoryB; memoryA]
  /\ sortedBy noDates desc tiedState <> rev (sortedBy noDates asc tiedState).
Proof.
  split; [reflexivity|]. split; [reflexivity|].
  intros H. vm_compute in H. discriminate H.
Qed.

Definition memoryC : Memory :=
  mkMemory "c" None "notes" "quick_note" (Some ["todo"])
    "2025-01-03T00:00:00" "2025-01-03T00:00:00" (Str "7 times").

Definition untiedState : State :=
  set_currentSort (mkSort "access_count" desc)
    (set_filteredMemories [memoryA; memoryC]
       (set_currentMemories [memoryA; memoryC] (initialState emptyForm))).

Lemma C2_applySorting_order_witness :
  (datesParse noDates "access_count" [memoryA; memoryC]
   /\ consistentOn (compareFn noDates (mkSort "access_count" desc)) [memoryA; memoryC]
   /\ filteredMemories (applySorting noDates untiedState) = [memoryC; memoryA])
  /\ noTies (comparison noDates "access_count") [memoryA; memoryC]
  /\ sortedBy noDates desc untiedState = rev (sortedBy noDates asc untiedState).
Proof.
  assert (D : datesParse noDates "access_count" [memoryA; memoryC]).
  { intros H. vm_compute in H. discriminate H. }
  assert (H : noTies (comparison noDates "access_count") [memoryA; memoryC]).
  { repeat constructor. vm_compute. discriminate. }
  pose proof (C2_applySorting_order noDates untiedState) as T.
  cbv zeta in T.
  destruct T as (_ & _ & _ & _ & _ & Tc & To & _ & _ & Tr).
  split; [|split; [exact H | exact (proj2 (Tr H))]].
  split; [exact D|]. split; [exact (Tc D)|].
  destruct (To (Tc D)) as (_ & _ & Tu).
  symmetry. apply Tu.
  - apply perm_swap.
  - repeat constructor; vm_compute; discriminate.
  - intros w Hw. destruct Hw as [<- | [<- | []]]; reflexivity.
Defined.

(** Sorting is by the integer [parseInt] reads from the text of the
    count: a count written with an exponent counts as its first digit,
    and two counts beyond 2^53 that round to the same double tie. *)
Lemma intValue_of_large_counts :
  orZero (parseInt (Num (10 ^ 21))) = 1
  /\ orZero (parseInt (Num 5)) = 5
  /\ orZero (parseInt (Str "9007199254740993")) = 9007199254740992
  /\ orZero (parseInt (Str "9007199254740992")) = 9007199254740992
  /\ orZero (parseInt (Num (2 ^ 1024))) = 0
  /\ orZero (parseInt (Str "12 times")) = 12
  /\ orZero (parseInt (Str "often")) = 0.
Proof.
  vm_compute. repeat split; reflexivity.
Qed.

(** An invalid date makes the comparison inconsistent: it compares
    equal to two dates that differ. *)
Definition twoDates (t : string) : option Z :=
  if (t =? "2025-01-01T00:00:00")%string then Some 1735689600000
  else if (t =? "2025-01-02T00:00:00")%string then Some 1735776000000
  else None.

Definition memoryD : Memory :=
  mkMemory "d" (Some "undated") "general" "long_term" None
    "soon" "soon" (Num 1).

Lemma invalid_date_is_inconsistent :
  ~ consistentOn (comparison twoDates "created_at") [memoryA; memoryD; memoryB].
Proof.
  intros H.
  assert (E : comparison twoDates "created_at" memoryA memoryB = 0).
  { apply (H memoryA memoryD memoryB); simpl; auto. }
  vm_compute in E. discriminate E.
Qed.

(** ** [debounce] *)

Lemma last_cons {X : Type} (x d : X) (l : list X) : last (x :: l) d = last l x.
Proof.
  revert x d. induction l as [|y l IH]; intros x d; [reflexivity|].
  change (last (y :: l) d = last (y :: l) x). now rewrite !IH.
Qed.

Section DebounceFacts.
Context {Args W : Type} (func : Args -> W -> W) (wait : Z).

(** A burst: each call comes less than [wait] after the one before. *)
Fixpoint isBurst (invocations : list (Z * Args)) : Prop :=
  match invocations with
  | (t1, _) :: (((t2, _) :: _) as rest) => (t1 <= t2 < t1 + wait) /\ isBurst rest
  | _ => True
  end.

(** One timer is pending: that of the call made at [t] with [a]; since
    the burst began [func] has not run. *)
Definition armed (w : W) (cs : list (Z * Args)) (t : Z) (a : Args) (d : Debounced)
  : Prop :=
  exists id, timers d = [mkTimer id (t + wait) a]
             /\ timeout d = Some id /\ world d = w /\ calls d = cs.

Lemma armed_fires (w : W) (cs : list (Z * Args)) (t : Z) (a : Args) (d : Debounced) :
  armed w cs t a d ->
  let d' := elapse func None d in
  calls d' = cs ++ [(t + wait, a)] /\ world d' = func a w /\ timers d' = [].
Proof.
  intros (id & Ht & Hto & Hw & Hc). destruct d as [to tms nid wd cs'].
  simpl in Ht, Hto, Hw, Hc. subst. unfold elapse, later. simpl.
  rewrite !Nat.eqb_refl. simpl. auto.
Qed.

Lemma armed_rearms (w : W) (cs : list (Z * Args)) (t t' : Z) (a a' : Args)
    (d : Debounced) :
  0 <= wait -> armed w cs t a d -> t <= t' < t + wait ->
  armed w cs t' a' (executedFunction wait t' a' (elapse func (Some t') d)).
Proof.
  intros Hw (id & Ht & Hto & Hwd & Hc) Hgap. destruct d as [to tms nid wd cs'].
  simpl in Ht, Hto, Hwd, Hc. subst. unfold elapse, executedFunction. simpl.
  destruct (Z.leb_spec (t + wait) t') as [Hle | _]; [lia|]. simpl.
  rewrite Nat.eqb_refl. simpl.
  exists nid. rewrite Z.max_l by lia. auto.
Qed.

Lemma invoke_armed (w : W) (cs : list (Z * Args)) (invocations : list (Z * Args)) :
  0 <= wait ->
  forall (t : Z) (a : Args) (d : Debounced),
    armed w cs t a d -> isBurst ((t, a) :: invocations) ->
    let d' := invoke func wait invocations d in
    let final := last invocations (t, a) in
    calls d' = cs ++ [(fst final + wait, snd final)]
    /\ world d' = func (snd final) w /\ timers d' = [].
Proof.
  intros Hw. induction invocations as [|[t' a'] rest IH]; intros t a d Hd Hb.
  - simpl. now apply armed_fires.
  - destruct Hb as [Hgap Hb].
    specialize (IH t' a' _ (armed_rearms w cs t t' a a' d Hw Hd Hgap) Hb).
    simpl invoke. cbv zeta in IH |- *.
    rewrite last_cons. exact IH.
Qed.

(** A burst that begins when no timer of the wrapper is pending. *)
Lemma invoke_burst (d : Debounced) (t : Z) (a : Args) (invocations : list (Z * Args)) :
  0 <= wait -> timers d = [] -> isBurst ((t, a) :: invocations) ->
  let d' := invoke func wait ((t, a) :: invocations) d in
  let final := last invocations (t, a) in
  calls d' = calls d ++ [(fst final + wait, snd final)]
  /\ world d' = func (snd final) (world d) /\ timers d' = [].
Proof.
  intros Hw Hd Hb. simpl invoke. apply invoke_armed; [exact Hw | | exact Hb].
  destruct d as [to tms nid wd cs]. simpl in Hd. subst.
  exists nid. unfold executedFunction, elapse. simpl.
  rewrite Z.max_l by lia. destruct to; simpl; auto.
Qed.
End DebounceFacts.

(** C6.  In a burst of calls of the wrapper [debounce(func, wait)]
    returns, each less than [wait] after the one before and the first
    when no timer of the wrapper is pending, [func] runs exactly once:
    [wait] after the last call and on the arguments of the last call; no
    timer is left.  The listener of the search box is the wrapper of
    [handleSearch] with [wait = 300]. *)
Theorem C6_debounce_once {Args W : Type} (func : Args -> W -> W) (wait : Z)
    (d : Debounced) (t : Z) (a : Args) (invocations : list (Z * Args)) :
  0 <= wait -> timers d = [] -> isBurst wait ((t, a) :: invocations) ->
  let d' := invoke func wait ((t, a) :: invocations) d in
  let final := last invocations (t, a) in
  calls d' = calls d ++ [(fst final + wait, snd final)]
  /\ world d' = func (snd final) (world d)
  /\ timers d' = []
  /\ (forall Date_parse,
         searchInput_listener Date_parse =
         invoke (fun _ => handleSearch Date_parse) 300).
Proof.
  intros Hw Hd Hb d' final.
  destruct (invoke_burst func wait d t a invocations Hw Hd Hb) as (H1 & H2 & H3).
  repeat split; assumption.
Qed.

(** Three keystrokes 100 ms apart in the search box. *)
Lemma C6_debounce_once_witness :
  let typed := [(0, tt); (100, tt); (200, tt)] in
  let d' := searchInput_listener noDates typed (debounce_init (initialState emptyForm)) in
  isBurst 300 typed
  /\ calls d' = [(500, tt)]
  /\ world d' = handleSearch noDates (initialState emptyForm).
Proof.
  assert (Hb : isBurst (Args := unit) 300 [(0, tt); (100, tt); (200, tt)]).
  { simpl. lia. }
  split; [exact Hb|].
  destruct (C6_debounce_once (fun _ : unit => handleSearch noDates) 300
              (debounce_init (initialState emptyForm)) 0 tt [(100, tt); (200, tt)]
              ltac:(lia) eq_refl Hb) as (H1 & H2 & _).
  split; [exact H1 | exact H2].
Defined.

(** ** The refresh guard *)

(** A modal flag is set, or a memory was viewed less than 15000 ms ago,
    or one of the three modals is visible. *)
Definition guardHolds (env : Env) (s : State) : Prop :=
  isAnyModalOpen s = true
  \/ isViewingMemory s = true
  \/ now env - lastViewMemoryTime s < 15000
  \/ memoryModal_hidden (modals (elements s)) = false
  \/ viewModal_hidden (modals (elements s)) = false
  \/ deleteModal_hidden (modals (elements s)) = false.

Lemma guard_blocks (env : Env) (s : State) :
  guardHolds env s -> refreshBlocked env s = true.
Proof.
  unfold guardHolds, refreshBlocked.
  intros [H | [H | [H | [H | [H | H]]]]].
  - now rewrite H.
  - rewrite H. now rewrite orb_true_r.
  - apply Z.ltb_lt in H. rewrite H. now destruct (_ || _).
  - destruct (_ || _); [reflexivity|]. destruct (_ <? _); [reflexivity|].
    simpl. now rewrite H.
  - destruct (_ || _); [reflexivity|]. destruct (_ <? _); [reflexivity|].
    simpl. rewrite H. simpl. now rewrite orb_true_r.
  - destruct (_ || _); [reflexivity|]. destruct (_ <? _); [reflexivity|].
    simpl. rewrite H. simpl. now rewrite !orb_true_r.
Qed.

(** C8.  When a modal flag is set, or a memory was viewed less than
    15000 ms ago, or one of the three modals is visible, each of
    [loadMemories], [loadMemoryStats] and [refreshData] returns at once:
    it sends no request, shows nothing and leaves the whole state, with
    [currentMemories], [filteredMemories], [currentPage] and the table,
    as it was. *)
Theorem C8_refresh_guard (Date_parse : string -> option Z) (API_BASE : string)
    (env : Env) (s : State) :
  guardHolds env s ->
  (forall answer, loadMemories Date_parse API_BASE env answer s = (s, []))
  /\ (forall answer, loadMemoryStats API_BASE env answer s = (s, [], Normal))
  /\ (forall envList answerList answersStats,
         refreshData Date_parse API_BASE env envList answerList answersStats s
         = (s, [], Normal)).
Proof.
  intros H. apply guard_blocks in H.
  unfold loadMemories, loadMemoryStats, refreshData. rewrite H. auto.
Qed.

(** A memory was viewed 3000 ms ago; the server would answer. *)
Definition viewedState : State :=
  mkState [memoryA] [memoryA] (mkSort "updated_at" desc) 1 false None false 97000 false
    (initialElements emptyForm).

Definition listAnswer : Fetched ListData :=
  Resolved (mkResponse (Some "application/json") true 200 "OK"
              (ParsedAs (mkListData true [memoryA; memoryB] None))).

Lemma C8_refresh_guard_witness :
  guardHolds (mkEnv 100000 false) viewedState
  /\ loadMemories noDates "http://localhost:8000" (mkEnv 100000 false) listAnswer viewedState
     = (viewedState, []).
Proof.
  assert (H : guardHolds (mkEnv 100000 false) viewedState).
  { right; right; left. simpl. lia. }
  split; [exact H|].
  apply (C8_refresh_guard noDates "http://localhost:8000" (mkEnv 100000 false)
           viewedState H).
Defined.

(** ** The memory form *)

(** The tags of the request as the specification words them: [null]
    for an empty field, else the trimmed, non-empty pieces between the
    commas. *)
Definition tagsOf (field : option string) : option (list string) :=
  match field with
  | Some t =>
      if (t =? "")%string then None
      else Some (filter (fun p => negb (p =? "")%string) (map trim (split "," t)))
  | None => None
  end.

Lemma readMemoryData_fields (formData : FormData) (k c g : string) :
  formData_get "key" formData = Some k ->
  formData_get "content" formData = Some c ->
  formData_get "category" formData = Some g ->
  readMemoryData formData =
  inl {| md_key := trim k;
         md_content := trim c;
         md_category := if (trim g =? "")%string then "general" else trim g;
         md_memory_type := formData_get "memory_type" formData;
         md_tags := tagsOf (formData_get "tags" formData) |}.
Proof.
  intros Hk Hc Hg. unfold readMemoryData, tagsOf, truthy. rewrite Hk, Hc, Hg.
  destruct (trim g =? "")%string; simpl;
    destruct (formData_get "tags" formData) as [t|]; try reflexivity;
    destruct (t =? "")%string; reflexivity.
Qed.

Lemma handleFormSubmit_try_requests (now : Z) (answer : Fetched SaveData) (s : State) :
  requests (snd (fst (handleFormSubmit_try now answer s))) = [].
Proof.
  unfold handleFormSubmit_try.
  destruct answer as [msg | response]; [reflexivity|].
  destruct (json response) as [msg | data]; [reflexivity|].
  destruct (save_success data); reflexivity.
Qed.

Lemma requests_app (l1 l2 : list Effect) :
  requests (l1 ++ l2) = requests l1 ++ requests l2.
Proof.
  unfold requests. apply flat_map_app.
Qed.

(** What the user has typed into the form.  A disabled control
    cannot be edited. *)
Definition typeIntoForm (v : FormControls) (s : State) : State :=
  let e := elements s in
  let v :=
    if memoryKey_disabled e
    then mkFormControls (memoryKey_value (memoryForm e)) (memoryContent_value v)
           (memoryCategory_value v) (memoryType_value v) (memoryTags_value v)
    else v in
  upd_elements (set_memoryForm v) s.

(** The object [memoryData] of a form whose controls are all enabled,
    as the specification words it. *)
Definition memoryDataOf (f : FormControls) : MemoryData :=
  {| md_key := trim (memoryKey_value f);
     md_content := trim (memoryContent_value f);
     md_category :=
       if (trim (memoryCategory_value f) =? "")%string then "general"
       else trim (memoryCategory_value f);
     md_memory_type := Some (memoryType_value f);
     md_tags := tagsOf (Some (memoryTags_value f)) |}.

Lemma readMemoryData_enabled (e : Elements) :
  memoryKey_disabled e = false ->
  readMemoryData (newFormData e) = inl (memoryDataOf (memoryForm e)).
Proof.
  intros H. unfold newFormData. rewrite H.
  rewrite (readMemoryData_fields _ (memoryKey_value (memoryForm e))
             (memoryContent_value (memoryForm e))
             (memoryCategory_value (memoryForm e))); reflexivity.
Qed.

Lemma readMemoryData_disabled (e : Elements) :
  memoryKey_disabled e = true -> readMemoryData (newFormData e) = inr trimOfNull.
Proof.
  intros H. unfold newFormData. rewrite H. reflexivity.
Qed.

(** With the key disabled the handler throws before any check. *)
Lemma handleFormSubmit_disabled (API_BASE : string) (now : Z)
    (answer : Fetched SaveData) (s : State) :
  memoryKey_disabled (elements s) = true ->
  handleFormSubmit API_BASE now answer s = (s, [], Throw trimOfNull).
Proof.
  intros H. unfold handleFormSubmit. cbv zeta.
  now rewrite (readMemoryData_disabled _ H).
Qed.

(** With the key enabled, a form that passes the two checks gives one
    request. *)
Lemma handleFormSubmit_requests (API_BASE : string) (now : Z)
    (answer : Fetched SaveData) (s : State) :
  memoryKey_disabled (elements s) = false ->
  truthy (md_key (memoryDataOf (memoryForm (elements s)))) = true ->
  truthy (md_content (memoryDataOf (memoryForm (elements s)))) = true ->
  snd (handleFormSubmit API_BASE now answer s) = Normal
  /\ requests (snd (fst (handleFormSubmit API_BASE now answer s)))
     = [saveRequest API_BASE s (memoryDataOf (memoryForm (elements s)))].
Proof.
  intros H Ek Ec. unfold handleFormSubmit. cbv zeta.
  rewrite (readMemoryData_enabled _ H), Ek, Ec. simpl negb. cbv iota.
  pose proof (handleFormSubmit_try_requests now answer
                (upd_elements (set_saveMemoryBtn_loading true) s)) as Hr.
  destruct (handleFormSubmit_try now answer _) as [[s' effects] completion].
  simpl in Hr. simpl. split; [reflexivity|].
  unfold saveRequest. simpl.
  destruct completion; [|rewrite requests_app]; rewrite Hr; reflexivity.
Qed.

(** C7.  [handleFormSubmit] reads the form through [FormData].  While
    the key control is enabled it does what the claim says: when the
    trimmed key or the trimmed content is empty it shows an error toast
    and returns, with no request and the state as it was; otherwise it
    sends exactly one request, a [PUT] to [/api/memory/<editingKey>]
    (the key escaped) in edit mode and a [POST] to [/api/memory]
    otherwise, whose body holds the trimmed key and content, the trimmed
    category or [general] when that is blank, the chosen memory type,
    and the tags.  While the key control is disabled, as [editMemory]
    leaves it, the form data has no key: the handler throws on
    [formData.get('key').trim()] before any check, shows no toast and
    sends no request. *)
Theorem C7_handleFormSubmit_required (API_BASE : string)
    (now : Z) (answer : Fetched SaveData) (s : State) :
  let f := memoryForm (elements s) in
  let result := handleFormSubmit API_BASE now answer s in
  let memoryData := memoryDataOf f in
  (memoryKey_disabled (elements s) = false ->
   (trim (memoryKey_value f) = "" \/ trim (memoryContent_value f) = "" ->
    exists message, result = (s, [ShowToast message "error" 5000], Normal))
   /\ (trim (memoryKey_value f) <> "" -> trim (memoryContent_value f) <> "" ->
       snd result = Normal
       /\ requests (snd (fst result)) =
          [ if isEditMode s
            then mkRequest "PUT"
                   (API_BASE +++ "/api/memory/"
                      +++ encodeURIComponent
                            (match editingKey s with Some e => e | None => "null" end))
                   [] true (Some memoryData)
            else mkRequest "POST" (API_BASE +++ "/api/memory") [] true
                   (Some memoryData) ]))
  /\ (memoryKey_disabled (elements s) = true ->
      result = (s, [], Throw trimOfNull)
      /\ requests (snd (fst result)) = []).
Proof.
  intros f result memoryData. subst result. split.
  - intros H. split.
    + unfold handleFormSubmit. cbv zeta. rewrite (readMemoryData_enabled _ H).
      fold f. unfold memoryDataOf. simpl md_key. simpl md_content.
      intros [E | E].
      * rewrite E. simpl. eauto.
      * rewrite E. destruct (negb (truthy (trim (memoryKey_value f)))); simpl; eauto.
    + intros Ek Ec. apply truthy_true in Ek. apply truthy_true in Ec.
      apply (handleFormSubmit_requests API_BASE now answer s H Ek Ec).
  - intros H. rewrite (handleFormSubmit_disabled API_BASE now answer s H).
    split; reflexivity.
Qed.

(** The add form with a blank key, the add form filled, and the form
    as [editMemory] leaves it when the memory [memoryA] was opened and
    the user has typed new content. *)
Definition saved : Fetched SaveData :=
  Resolved (mkResponse (Some "application/json") true 200 "OK"
              (ParsedAs (mkSaveData true None))).

Definition addingState : State :=
  mkState [memoryA] [memoryA] (mkSort "updated_at" desc) 1 false None true 0 false
    (initialElements emptyForm).

Definition blankKeyForm : FormControls :=
  mkFormControls "   " "likes tea" "" "long_term" "".

Definition filledForm : FormControls :=
  mkFormControls " drink " "likes tea" " " "long_term" "tea, , hot ".

Definition fetchedA : Fetched MemoryDialogs.MemoryAnswer :=
  Resolved (mkResponse (Some "application/json") true 200 "OK"
              (ParsedAs (MemoryDialogs.mkMemoryAnswer true (Some memoryA) None))).

Definition listPage : MemoryDialogs.Page :=
  MemoryDialogs.mkPage
    (mkState [memoryA] [memoryA] (mkSort "updated_at" desc) 1 false None false 0 false
       (initialElements emptyForm))
    (MemoryDialogs.mkFormLabels "" "")
    (MemoryDialogs.mkDeleteDialog "" "" "" None false)
    (MemoryDialogs.mkViewDialog "" "" "" "" "" "" "" "" (MemoryDialogs.TagsText "") None)
    (MemoryDialogs.mkOverlay true "") (MemoryDialogs.mkStatusLine "status-dot" "").

Definition editingState : State :=
  typeIntoForm filledForm
    (MemoryDialogs.script
       (fst (MemoryDialogs.editMemory "http://localhost:8000" 4000 "a" fetchedA listPage))).

Lemma C7_handleFormSubmit_required_witness :
  ((exists message,
       handleFormSubmit "http://localhost:8000" 5000 saved
         (typeIntoForm blankKeyForm addingState)
       = (typeIntoForm blankKeyForm addingState, [ShowToast message "error" 5000], Normal))
   /\ requests (snd (fst (handleFormSubmit "http://localhost:8000" 5000 saved
                            (typeIntoForm filledForm addingState))))
      = [mkRequest "POST" "http://localhost:8000/api/memory" [] true
           (Some (mkMemoryData "drink" "likes tea" "general" (Some "long_term")
                    (Some ["tea"; "hot"])))])
  /\ (isEditMode editingState = true
      /\ editingKey editingState = Some "a"
      /\ memoryForm (elements editingState)
         = mkFormControls "a" "likes tea" " " "long_term" "tea, , hot "
      /\ handleFormSubmit "http://localhost:8000" 5000 saved editingState
         = (editingState, [], Throw trimOfNull)).
Proof.
  split; [split|].
  - apply (C7_handleFormSubmit_required "http://localhost:8000" 5000 saved
             (typeIntoForm blankKeyForm addingState)); [reflexivity|].
    left. reflexivity.
  - apply (C7_handleFormSubmit_required "http://localhost:8000" 5000 saved
             (typeIntoForm filledForm addingState));
      [reflexivity | vm_compute; discriminate | vm_compute; discriminate].
  - split; [reflexivity|]. split; [reflexivity|]. split; [reflexivity|].
    apply (C7_handleFormSubmit_required "http://localhost:8000" 5000 saved editingState).
    reflexivity.
Defined.

End MemoryFacts.

(* ================================================================== *)
(** * Properties of the control panel *)
(* ================================================================== *)

Module PanelFacts.
Import Js Panel.

(** ** The console *)

Lemma trimConsole_bound (lines : list Line) :
  (List.length lines <= 1001)%nat -> (List.length (trimConsole lines) <= 1000)%nat.
Proof.
  intros H. unfold trimConsole.
  destruct (Z.ltb_spec 1000 (Z.of_nat (List.length lines))) as [Hgt | Hle].
  - destruct lines; simpl in *; lia.
  - lia.
Qed.

Lemma trimConsole_shorter (lines : list Line) :
  (List.length (trimConsole lines) <= List.length lines)%nat.
Proof.
  unfold trimConsole. destruct (_ <? _); [|lia]. destruct lines; simpl; lia.
Qed.

Lemma appended_bound (lines : list Line) (l : Line) :
  (List.length lines <= 1000)%nat ->
  (List.length (trimConsole (lines ++ [l])) <= 1000)%nat.
Proof.
  intros H. apply trimConsole_bound. rewrite length_app. simpl. lia.
Qed.

Lemma lastElementChild_some (lines : list Line) (l : Line) :
  lastElementChild lines = Some l -> lines = removelast lines ++ [l].
Proof.
  unfold lastElementChild. intros H.
  destruct lines as [|x lines]; [discriminate|].
  assert (Hne : x :: lines <> []) by discriminate.
  rewrite (app_removelast_last x Hne) at 1. f_equal. f_equal.
  revert H. generalize (x :: lines) as xs. clear. intros xs.
  induction xs as [|y xs IH]; [discriminate|].
  destruct xs as [|z xs]; simpl in *; [congruence|]. exact IH.
Qed.

Lemma replaced_last_length (lines : list Line) (l l' : Line) :
  lastElementChild lines = Some l ->
  List.length (removelast lines ++ [l']) = List.length lines.
Proof.
  intros H. rewrite (lastElementChild_some lines l H) at 2.
  rewrite !length_app. reflexivity.
Qed.

(** [addConsoleMessage] either appends a line and trims, or extends the
    text of the last line. *)
Lemma addConsoleMessage_console (ts type message : string) (newLine : bool) (p : State) :
  consoleOutput (addConsoleMessage ts type message newLine p)
  = trimConsole (consoleOutput p ++ [mkLine ["console-line"; type] ts (Message message)])
  \/ (newLine = false /\ type = "response"
      /\ exists lastLine t,
          lastElementChild (consoleOutput p) = Some lastLine
          /\ content lastLine = Message t
          /\ consoleOutput (addConsoleMessage ts type message newLine p)
             = removelast (consoleOutput p)
               ++ [mkLine (classList lastLine) (timestamp lastLine)
                     (Message (t +++ replace "Gabriel: " "" message))]).
Proof.
  unfold addConsoleMessage.
  destruct newLine; simpl; [now left|].
  destruct (String.eqb_spec type "response") as [-> | Hne]; simpl; [|now left].
  destruct (lastElementChild (consoleOutput p)) as [lastLine|] eqn:El; [|now left].
  destruct (contains "console-line" lastLine && contains "response" lastLine);
    [|now left].
  destruct (content lastLine) as [t | |] eqn:Ec; try now left.
  right. repeat split. exists lastLine, t. auto.
Qed.

Lemma addConsoleMessage_frame (ts type message : string) (newLine : bool) (p : State) :
  let p' := addConsoleMessage ts type message newLine p in
  conn p' = conn p /\ browser p' = browser p /\ speech p' = speech p
  /\ page p' = page p /\ yapModeEnabled p' = yapModeEnabled p.
Proof.
  unfold addConsoleMessage.
  destruct (negb newLine && _); [|now repeat split].
  destruct (lastElementChild _) as [lastLine|]; [|now repeat split].
  destruct (contains _ _ && _); [|now repeat split].
  destruct (content lastLine); now repeat split.
Qed.


(** C10.  When the console holds at most 1000 lines, it still holds at
    most 1000 after [addConsoleMessage], [addFunctionCallMessage] or
    [addFunctionResponseMessage], and each of them adds at most one
    line. *)
Theorem C10_console_bounded (p : State) :
  (List.length (consoleOutput p) <= 1000)%nat ->
  (forall ts type message newLine,
      let p' := addConsoleMessage ts type message newLine p in
      (List.length (consoleOutput p') <= 1000)%nat
      /\ (List.length (consoleOutput p') <= List.length (consoleOutput p) + 1)%nat)
  /\ (forall ts id data,
         let p' := addFunctionCallMessage ts id data p in
         (List.length (consoleOutput p') <= 1000)%nat
         /\ (List.length (consoleOutput p') <= List.length (consoleOutput p) + 1)%nat)
  /\ (forall ts id data,
         let p' := addFunctionResponseMessage ts id data p in
         (List.length (consoleOutput p') <= 1000)%nat
         /\ (List.length (consoleOutput p') <= List.length (consoleOutput p) + 1)%nat).
Proof.
  intros H. split; [|split].
  - intros ts type message newLine p'. subst p'.
    destruct (addConsoleMessage_console ts type message newLine p)
      as [E | (_ & _ & lastLine & t & El & _ & E)]; rewrite E.
    + split; [now apply appended_bound|].
      etransitivity; [apply trimConsole_shorter|]. rewrite length_app. simpl. lia.
    + rewrite (replaced_last_length _ _ _ El). lia.
  - intros ts id data p'. subst p'. unfold addFunctionCallMessage. simpl.
    split; [now apply appended_bound|].
    etransitivity; [apply trimConsole_shorter|]. rewrite length_app. simpl. lia.
  - intros ts id data p'. subst p'. unfold addFunctionResponseMessage. simpl.
    split; [now apply appended_bound|].
    etransitivity; [apply trimConsole_shorter|]. rewrite length_app. simpl. lia.
Qed.

(** A console with two lines. *)
Definition plainPage : Page := mkPage true false "" "0/1000" false [].

Definition smallConsole : State :=
  constructed
    [mkLine ["console-line"; "system"] "09:00:00" (Message "Console cleared");
     mkLine ["console-line"; "response"] "09:00:01" (Message "Gabriel: Hel")]
    plainPage.

Lemma C10_console_bounded_witness :
  (List.length (consoleOutput smallConsole) <= 1000)%nat
  /\ (List.length
        (consoleOutput (addConsoleMessage "09:00:02" "response" "Gabriel: lo" false
                          smallConsole))
      <= 1000)%nat.
Proof.
  assert (H : (List.length (consoleOutput smallConsole) <= 1000)%nat).
  { simpl. lia. }
  split; [exact H|].
  apply (C10_console_bounded smallConsole H).
Defined.

(** ** The speech buffer *)

(** The texts of the buffered items, in the order they came, joined by
    single spaces and trimmed. *)
Definition combinedTextOf (p : State) : string :=
  trim (join " " (map text (userSpeechBuffer (speech p)))).

(** The line [flushUserSpeechBuffer] writes. *)
Definition speechLine (ts : string) (p : State) : Line :=
  mkLine ["console-line"; "user-speech"] ts
    (Message ("[User Speech]: " +++ combinedTextOf p)).

(** The timers after [clearTimeout(id)] for the pending flush timer, if
    there is one. *)
Definition withoutFlushTimer (p : State) : list Timer :=
  match userSpeechBufferTimeout (speech p) with
  | Some id => filter (fun t => negb (Nat.eqb (timer_id t) id)) (timers (browser p))
  | None => timers (browser p)
  end.

Lemma flushUserSpeechBuffer_empty (ts : string) (p : State) :
  userSpeechBuffer (speech p) = [] -> flushUserSpeechBuffer ts p = p.
Proof.
  intros H. unfold flushUserSpeechBuffer. now rewrite H.
Qed.

Lemma flushUserSpeechBuffer_nonempty (ts : string) (p : State) :
  userSpeechBuffer (speech p) <> [] ->
  let p' := flushUserSpeechBuffer ts p in
  consoleOutput p'
  = (if (combinedTextOf p =? "")%string then consoleOutput p
     else trimConsole (consoleOutput p ++ [speechLine ts p]))
  /\ userSpeechBuffer (speech p') = []
  /\ userSpeechBufferTimeout (speech p') = None
  /\ timers (browser p') = withoutFlushTimer p
  /\ sockets (browser p') = sockets (browser p)
  /\ conn p' = conn p /\ page p' = page p.
Proof.
  intros Hne. unfold flushUserSpeechBuffer, combinedTextOf, speechLine, withoutFlushTimer,
    truthy.
  destruct p as [a y c [buf tmo gd] co pg br].
  simpl in Hne. destruct buf as [|item buf]; [contradiction|].
  cbn [speech userSpeechBuffer userSpeechBufferTimeout userSpeechGroupingDelay].
  destruct tmo as [id|];
    cbn [clearTimeout set_speech set_browser speech browser consoleOutput conn page
           autoScroll yapModeEnabled userSpeechBuffer userSpeechBufferTimeout
           userSpeechGroupingDelay sockets timers nextId];
    destruct (trim (join " " (map text (item :: buf))) =? "")%string;
    cbn [negb]; cbv iota;
    cbn [addConsoleMessage negb andb set_consoleOutput set_speech speech browser
           consoleOutput conn page userSpeechBuffer userSpeechBufferTimeout sockets timers];
    repeat split; reflexivity.
Qed.

(** C5, as amended.  [flushUserSpeechBuffer] with an empty buffer
    changes nothing.  With a buffer that is not empty it clears the
    pending flush timer and empties the buffer; it writes one console line
    of type [user-speech] with the text [[User Speech]: ] followed by the
    buffered texts, in order, joined by single spaces and trimmed, when
    that text is not empty, and no line when it is empty.
    [handleWebSocketMessage] flushes before it handles a message whose type
    is none of [user_input_transcription], [heartbeat] and [pong], and does
    not flush for these three. *)
Theorem C5_flushUserSpeechBuffer (functionResponseIn : string -> option YapResponse)
    (ts : string) (p : State) :
  (userSpeechBuffer (speech p) = [] -> flushUserSpeechBuffer ts p = p)
  /\ (userSpeechBuffer (speech p) <> [] ->
      let p' := flushUserSpeechBuffer ts p in
      (combinedTextOf p <> "" ->
       consoleOutput p' = trimConsole (consoleOutput p ++ [speechLine ts p]))
      /\ (combinedTextOf p = "" -> consoleOutput p' = consoleOutput p)
      /\ userSpeechBuffer (speech p') = []
      /\ userSpeechBufferTimeout (speech p') = None
      /\ timers (browser p') = withoutFlushTimer p)
  /\ (forall id m,
         msg_type m <> "user_input_transcription" ->
         msg_type m <> "heartbeat" -> msg_type m <> "pong" ->
         handleWebSocketMessage functionResponseIn ts id m p
         = dispatch functionResponseIn ts id m (flushUserSpeechBuffer ts p))
  /\ (forall id m,
         msg_type m = "user_input_transcription"
         \/ msg_type m = "heartbeat" \/ msg_type m = "pong" ->
         handleWebSocketMessage functionResponseIn ts id m p
         = dispatch functionResponseIn ts id m p).
Proof.
  split; [apply flushUserSpeechBuffer_empty|]. split; [|split].
  - intros Hne p'.
    destruct (flushUserSpeechBuffer_nonempty ts p Hne) as (Hc & Hb & Ht & Htm & _).
    fold p' in Hc, Hb, Ht, Htm. repeat split; try assumption.
    + intros Htext. rewrite Hc. now rewrite (proj2 (String.eqb_neq _ _) Htext).
    + intros Htext. rewrite Hc. now rewrite (proj2 (String.eqb_eq _ _) Htext).
  - intros id m H1 H2 H3. unfold handleWebSocketMessage, isBuffered.
    rewrite (proj2 (String.eqb_neq _ _) H1), (proj2 (String.eqb_neq _ _) H2),
      (proj2 (String.eqb_neq _ _) H3). reflexivity.
  - intros id m H. unfold handleWebSocketMessage, isBuffered.
    destruct H as [-> | [-> | ->]]; reflexivity.
Qed.

(** Two words were heard, and the flush timer is pending. *)
Definition heardState : State :=
  mkState true false (mkConn (Some 1%nat) 0 5 1000 "api-status-badge online" "Connected")
    (mkSpeech [mkSpeechItem "hello" "t1"; mkSpeechItem "there " "t2"] (Some 3%nat) 2000)
    [] plainPage
    (mkBrowser [mkSocket 1 OPEN] [mkTimer 3 2000 FlushSpeech] 4).

Lemma C5_flushUserSpeechBuffer_witness :
  let p' := flushUserSpeechBuffer "10:00:00" heardState in
  consoleOutput p'
  = [mkLine ["console-line"; "user-speech"] "10:00:00"
       (Message "[User Speech]: hello there")]
  /\ userSpeechBuffer (speech p') = []
  /\ timers (browser p') = [].
Proof.
  assert (Hne : userSpeechBuffer (speech heardState) <> []) by discriminate.
  assert (Htext : combinedTextOf heardState <> "") by (vm_compute; discriminate).
  destruct (C5_flushUserSpeechBuffer (fun _ => None) "10:00:00" heardState)
    as (_ & H & _).
  destruct (H Hne) as (Hc & _ & Hb & _ & Ht).
  split; [exact (Hc Htext)|]. split; [exact Hb | exact Ht].
Defined.

(** Only a blank was heard. *)
Definition blankHeardState : State :=
  mkState true false (mkConn (Some 1%nat) 0 5 1000 "api-status-badge online" "Connected")
    (mkSpeech [mkSpeechItem " " "t1"] (Some 3%nat) 2000)
    [] plainPage
    (mkBrowser [mkSocket 1 OPEN] [mkTimer 3 2000 FlushSpeech] 4).

(** C5 as stated fails: a buffer that is not empty but holds only
    blanks is flushed without any line being written. *)
Lemma C5_blank_buffer_writes_no_line :
  userSpeechBuffer (speech blankHeardState) <> []
  /\ consoleOutput (flushUserSpeechBuffer "10:00:00" blankHeardState)
     = consoleOutput blankHeardState
  /\ ~ (exists line,
           consoleOutput (flushUserSpeechBuffer "10:00:00" blankHeardState)
           = consoleOutput blankHeardState ++ [line]).
Proof.
  split; [discriminate|]. split; [reflexivity|].
  intros [line H]. vm_compute in H. discriminate H.
Qed.

(** ** Actions around a [fetch] *)

(** The message of the error the [catch] clause receives, when the
    outcome is a failure. *)
Definition failureOf (fallback : string) (outcome : Outcome) : option string :=
  match outcome with
  | FetchRejects msg => Some msg
  | JsonRejects msg => Some msg
  | Answers data => if success data then None else Some (messageOr data fallback)
  end.

Lemma showToast_frame (type message : string) (p : State) :
  let p' := showToast type message p in
  consoleOutput p' = consoleOutput p
  /\ toasts (page p') = toasts (page p) ++ [mkToast type message]
  /\ messageInput_value (page p') = messageInput_value (page p)
  /\ charCounter_text (page p') = charCounter_text (page p).
Proof.
  now repeat split.
Qed.

(** The [catch] clause of an action whose answer has more fields. *)
Definition failureOfReply {D : Type} (fallback : string)
    (outcome : PanelControls.OutcomeOf D) : option string :=
  match outcome with
  | PanelControls.Rejects msg => Some msg
  | PanelControls.Replies data _ =>
      if success data then None else Some (messageOr data fallback)
  end.

(** The overlay is hidden and the send button enabled; the overlay is
    shown and the send button disabled. *)
Definition released (p : State) : Prop :=
  loadingOverlay_hidden (page p) = true /\ sendButton_disabled (page p) = false.

Definition loading (p : State) : Prop :=
  loadingOverlay_hidden (page p) = false /\ sendButton_disabled (page p) = true.

(** [q'] shows the toasts of [q] and one more. *)
Definition toasted (type text : string) (q q' : State) : Prop :=
  toasts (page q') = toasts (page q) ++ [mkToast type text].

(** The console of [q'] is that of [q] with one line more. *)
Definition logged (ts type text : string) (q q' : State) : Prop :=
  consoleOutput q'
  = trimConsole (consoleOutput q ++ [mkLine ["console-line"; type] ts (Message text)]).

(** An error toast and an error line. *)
Definition reported (ts toastText lineText : string) (q q' : State) : Prop :=
  toasted "error" toastText q q' /\ logged ts "error" lineText q q'.

Definition sameInput (q q' : State) : Prop :=
  messageInput_value (page q') = messageInput_value (page q)
  /\ charCounter_text (page q') = charCounter_text (page q).

Definition sameOverlay (q q' : State) : Prop :=
  loadingOverlay_hidden (page q') = loadingOverlay_hidden (page q)
  /\ sendButton_disabled (page q') = sendButton_disabled (page q).

Ltac crush_action :=
  cbn; unfold released, reported, toasted, logged, sameInput, sameOverlay; cbn;
  repeat split; reflexivity.

Section ActionFacts.
Variable apiUrl : string.

Lemma sendMessage_called_sends (messageType : string) (p : State) :
  trim (messageInput_value (page p)) <> "" ->
  sendMessage_called apiUrl (Some messageType) p
  = (showLoading p,
     [mkChatRequest (apiUrl +++ "/api/chat/send") (trim (messageInput_value (page p)))
        (messageType =? "system")%string true],
     Normal)
  /\ loading (showLoading p).
Proof.
  intros Hmsg. unfold sendMessage_called.
  rewrite (proj2 (MemoryFacts.truthy_true _) Hmsg). split; [reflexivity|].
  split; reflexivity.
Qed.

Lemma sendMessage_outcomes (ts : string) (request : ChatRequest) (outcome : Outcome)
    (q : State) :
  let q' := sendMessage_answered ts request outcome q in
  released q'
  /\ match failureOf "Failed to send message" outcome with
     | Some msg =>
         reported ts ("Failed to send message: " +++ msg)
           ("Failed to send message: " +++ msg) q q'
         /\ sameInput q q'
     | None =>
         toasted "success" "Message sent successfully" q q'
         /\ messageInput_value (page q') = ""
         /\ charCounter_text (page q') = "0/1000"
     end.
Proof.
  unfold sendMessage_answered, tryCatchFinally, ifSuccess, reportError.
  destruct q as [a y c sp co [lo sb mi cc yt ts0] br].
  destruct outcome as [msg | msg | [[|] m]]; crush_action.
Qed.

Lemma sendQuickMessage_outcomes (ts : string) (request : ChatRequest)
    (outcome : Outcome) (q : State) :
  let q' := sendQuickMessage_answered ts request outcome q in
  released q' /\ sameInput q q'
  /\ match failureOf "Failed to send instruction" outcome with
     | Some msg =>
         reported ts ("Failed to send instruction: " +++ msg)
           ("Failed to send instruction: " +++ msg) q q'
     | None => toasted "success" "Quick instruction sent" q q'
     end.
Proof.
  unfold sendQuickMessage_answered, tryCatchFinally, ifSuccess, reportError.
  destruct q as [a y c sp co [lo sb mi cc yt ts0] br].
  destruct outcome as [msg | msg | [[|] m]]; crush_action.
Qed.

Lemma toggleYapMode_outcomes (ts : string) (enabled : bool) (outcome : Outcome)
    (q : State) :
  let q' := toggleYapMode_answered ts enabled outcome q in
  released q' /\ sameInput q q'
  /\ match failureOf "Failed to toggle yap mode" outcome with
     | Some msg =>
         toasted "error" ("Failed to toggle yap mode: " +++ msg) q q'
         /\ consoleOutput q' = consoleOutput q
         /\ yapModeEnabled q' = yapModeEnabled q
         /\ yapModeToggle_checked (page q') = yapModeEnabled q
     | None =>
         yapModeEnabled q' = enabled
         /\ yapModeToggle_checked (page q') = yapModeToggle_checked (page q)
     end.
Proof.
  unfold toggleYapMode_answered, tryCatchFinally, ifSuccess.
  destruct q as [a y c sp co [lo sb mi cc yt ts0] br].
  destruct outcome as [msg | msg | [[|] m]]; crush_action.
Qed.

Lemma toggleV2Mode_outcomes (ts : string) (enabled : bool) (outcome : Outcome)
    (v : PanelControls.V2) (q : State) :
  let result := PanelControls.toggleV2Mode_answered ts enabled outcome v q in
  let v' := fst result in
  let q' := snd result in
  released q' /\ sameInput q q'
  /\ match failureOf "Failed to toggle V2 mode" outcome with
     | Some msg =>
         toasted "error" ("Failed to toggle V2 mode: " +++ msg) q q'
         /\ consoleOutput q' = consoleOutput q
         /\ PanelControls.v2ModeEnabled v' = PanelControls.v2ModeEnabled v
         /\ PanelControls.v2ModeToggle_checked v' = PanelControls.v2ModeEnabled v
     | None => PanelControls.v2ModeEnabled v' = enabled
     end.
Proof.
  unfold PanelControls.toggleV2Mode_answered, tryCatchFinally, ifSuccess.
  destruct q as [a y c sp co [lo sb mi cc yt ts0] br].
  destruct outcome as [msg | msg | [[|] m]]; try crush_action.
  all: destruct enabled; crush_action.
Qed.

(** [toggleV2Mode] is its two parts, with nothing in between. *)
Lemma toggleV2Mode_parts (ts : string) (enabled : bool) (outcome : Outcome)
    (v : PanelControls.V2) (p : State) :
  PanelControls.toggleV2Mode apiUrl ts enabled outcome v p
  = match PanelControls.toggleV2Mode_called apiUrl enabled v p with
    | (v1, p1, [request]) =>
        (PanelControls.toggleV2Mode_answered ts enabled outcome v1 p1, [request])
    | other => other
    end.
Proof.
  unfold PanelControls.toggleV2Mode, PanelControls.toggleV2Mode_called,
    PanelControls.toggleV2Mode_answered, tryCatchFinally, ifSuccess.
  destruct (enabled && negb (PanelControls.v2ModeAvailable v)); [reflexivity|].
  destruct outcome as [msg | msg | [[|] m]]; reflexivity.
Qed.

Lemma freshStart_outcomes (ts : string) (outcome : Outcome) (q : State) :
  let q' := PanelControls.freshStart_answered ts outcome q in
  released q' /\ sameInput q q'
  /\ match failureOf "Failed to clear session" outcome with
     | Some msg =>
         reported ts ("Failed to start fresh: " +++ msg) ("Fresh start failed: " +++ msg)
           q q'
     | None => toasted "success" "Session cleared - restarting fresh" q q'
     end.
Proof.
  unfold PanelControls.freshStart_answered, tryCatchFinally, ifSuccess, reportError.
  destruct q as [a y c sp co [lo sb mi cc yt ts0] br].
  destruct outcome as [msg | msg | [[|] m]]; crush_action.
Qed.

Lemma enableSafeMode_outcomes (ts : string) (outcome : Outcome) (q : State) :
  let result := PanelControls.enableSafeMode_answered ts outcome q in
  let q' := fst result in
  released q' /\ sameInput q q'
  /\ match failureOf "Failed to enable Safe Mode" outcome with
     | Some msg =>
         reported ts ("Failed to enable Safe Mode: " +++ msg)
           ("Failed to enable Safe Mode: " +++ msg) q q'
         /\ snd result = []
     | None =>
         toasted "success" "VRChat Safe Mode enabled" q q'
         /\ snd result = [PanelControls.LoadVRChatControlsStatusIn 1000]
     end.
Proof.
  unfold PanelControls.enableSafeMode_answered, tryCatchFinally, ifSuccess, reportError.
  destruct q as [a y c sp co [lo sb mi cc yt ts0] br].
  destruct outcome as [msg | msg | [[|] m]]; crush_action.
Qed.

Lemma toggleVRChatVoice_outcomes (ts : string) (enable : bool)
    (outcome : PanelControls.OutcomeOf bool) (w : PanelControls.VRChatView) (q : State) :
  let result := PanelControls.toggleVRChatVoice_answered ts enable outcome w q in
  let w' := fst (fst result) in
  let q' := snd (fst result) in
  released q' /\ sameInput q q'
  /\ match failureOfReply "Failed to toggle voice" outcome with
     | Some msg =>
         reported ts ("Failed to toggle voice: " +++ msg) ("Failed to toggle voice: " +++ msg)
           q q'
         /\ PanelControls.voiceToggle_checked w' = negb enable
         /\ snd result = []
     | None => snd result = [PanelControls.LoadVRChatControlsStatusIn 1000]
     end.
Proof.
  unfold PanelControls.toggleVRChatVoice_answered, tryCatchFinally,
    PanelControls.ifSuccessOf, reportError.
  destruct q as [a y c sp co [lo sb mi cc yt ts0] br].
  destruct outcome as [msg | [[|] m] voice]; crush_action.
Qed.

Lemma updateCurrentPersonalityDisplay_current (a : PanelControls.Personas) :
  PanelControls.currentPersonality (fst (PanelControls.updateCurrentPersonalityDisplay a))
  = PanelControls.currentPersonality a.
Proof.
  unfold PanelControls.updateCurrentPersonalityDisplay.
  destruct (PanelControls.currentPersonality a) as [c|] eqn:E; [|now rewrite <- E].
  destruct (truthy c); [|reflexivity].
  destruct (PanelControls.personalities a) as [l|]; [|exact E].
  destruct (find _ l); reflexivity.
Qed.

Lemma renderPersonalities_current (a : PanelControls.Personas) :
  PanelControls.currentPersonality (PanelControls.renderPersonalities a)
  = PanelControls.currentPersonality a.
Proof.
  unfold PanelControls.renderPersonalities.
  destruct (PanelControls.personalities a) as [[|x l]|]; reflexivity.
Qed.

Lemma switchPersonality_outcomes (ts personalityId : string)
    (outcome : PanelControls.OutcomeOf (option string)) (a : PanelControls.Personas)
    (q : State) :
  let result := PanelControls.switchPersonality_answered ts personalityId outcome a q in
  let q' := snd result in
  released q' /\ sameInput q q'
  /\ match failureOfReply "Failed to switch personality" outcome with
     | Some msg =>
         reported ts ("Failed to switch personality: " +++ msg)
           ("Failed to switch personality: " +++ msg) q q'
         /\ fst result = a
     | None =>
         PanelControls.currentPersonality (fst result) = Some personalityId
         /\ (exists text,
                toasted "success" text q q'
                \/ reported ts ("Failed to switch personality: " +++ text)
                     ("Failed to switch personality: " +++ text) q q')
     end.
Proof.
  unfold PanelControls.switchPersonality_answered, tryCatchFinally,
    PanelControls.ifSuccessOf, reportError.
  destruct q as [a0 y c sp co [lo sb mi cc yt ts0] br].
  destruct outcome as [msg | [[|] m] personality]; try crush_action.
  cbn [failureOfReply success].
  match goal with
  | |- context [PanelControls.updateCurrentPersonalityDisplay ?x] =>
      assert (Hc : PanelControls.currentPersonality
                     (fst (PanelControls.updateCurrentPersonalityDisplay x))
                   = Some personalityId);
      [|destruct (PanelControls.updateCurrentPersonalityDisplay x) as [a1 [|msg]]]
  end.
  - rewrite updateCurrentPersonalityDisplay_current, renderPersonalities_current.
    reflexivity.
  - cbn in Hc. destruct personality as [name|].
    + cbn. unfold released, sameInput, toasted. cbn. repeat split; try assumption.
      exists ("Switched to " +++ name +++ " personality"). left. reflexivity.
    + cbn. unfold released, sameInput, reported, toasted, logged. cbn.
      repeat split; try assumption.
      exists PanelControls.nameOfUndefined. right. split; reflexivity.
  - cbn in Hc. cbn. unfold released, sameInput, reported, toasted, logged. cbn.
    repeat split; try assumption.
    exists msg. right. split; reflexivity.
Qed.

Lemma includes_truthy (msg t : string) :
  t <> "" -> truthy msg && includes msg t = includes msg t.
Proof.
  intros Ht. destruct msg; [|reflexivity].
  destruct t; [congruence | reflexivity].
Qed.

Lemma reconnectSession_outcomes (ts : string)
    (outcome : PanelControls.OutcomeOf PanelControls.SavedSession) (q : State) :
  let q' := PanelControls.reconnectSession_answered ts outcome q in
  released q' /\ sameInput q q'
  /\ match failureOfReply "Failed to reconnect session" outcome with
     | Some msg =>
         if includes msg "404" then
           reported ts "No saved session handle found"
             "No saved session available. Start a new session first." q q'
         else if includes msg "409" then
           toasted "warning" "A session is already active" q q'
           /\ logged ts "warning" "Cannot reconnect - an active session already exists"
                q q'
         else
           reported ts ("Failed to reconnect: " +++ msg) ("Reconnection failed: " +++ msg)
             q q'
     | None => True
     end.
Proof.
  unfold PanelControls.reconnectSession_answered, tryCatchFinally,
    PanelControls.ifSuccessOf.
  destruct q as [a y c sp co [lo sb mi cc yt ts0] br].
  destruct outcome as [msg | [[|] m] data]; cbn [failureOfReply success].
  - rewrite !includes_truthy by discriminate.
    destruct (includes msg "404"); [crush_action|].
    destruct (includes msg "409"); crush_action.
  - destruct (PanelControls.session_age_seconds data) as [age|];
      [destruct (1800 <? toDouble age)|]; crush_action.
  - rewrite !includes_truthy by discriminate.
    destruct (includes (messageOr _ _) "404"); [crush_action|].
    destruct (includes (messageOr _ _) "409"); crush_action.
Qed.

Lemma loadPersonalities_outcomes (ts : string)
    (outcome : PanelControls.OutcomeOf PanelControls.PersonalitiesData)
    (a : PanelControls.Personas) (q : State) :
  let result := PanelControls.loadPersonalities_answered ts outcome a q in
  let q' := snd result in
  sameOverlay q q' /\ sameInput q q'
  /\ match failureOfReply "Failed to load personalities" outcome with
     | Some msg =>
         reported ts ("Failed to load personalities: " +++ msg)
           ("Failed to load personalities: " +++ msg) q q'
         /\ PanelControls.personalitiesList (fst result) = PanelControls.ListFailed
     | None => True
     end.
Proof.
  unfold PanelControls.loadPersonalities_answered, tryCatchFinally,
    PanelControls.ifSuccessOf, reportError.
  destruct q as [a0 y c sp co [lo sb mi cc yt ts0] br].
  destruct outcome as [msg | [[|] m] data]; try crush_action.
  cbn [failureOfReply success].
  destruct (PanelControls.updateCurrentPersonalityDisplay _) as [a1 [|msg]]; crush_action.
Qed.

Lemma loadVRChatControlsStatus_outcomes
    (outcome : PanelControls.OutcomeOf (option PanelControls.VRControls))
    (w : PanelControls.VRChatView) :
  match failureOfReply "Failed to get VRChat controls status" outcome with
  | Some _ =>
      PanelControls.loadVRChatControlsStatus_answered outcome w
      = PanelControls.mkVRChatView "api-status-badge offline" "Disabled"
          (PanelControls.voiceToggle_checked w)
  | None => True
  end.
Proof.
  unfold PanelControls.loadVRChatControlsStatus_answered, tryCatchFinally,
    PanelControls.ifSuccessOf.
  destruct outcome as [msg | [[|] m] controls]; reflexivity.
Qed.

(** C9, as amended.  Every method of the panel around a [fetch]
    catches whatever the request brings: an answer with [success] true,
    one with [success] false, or a [fetch] or a parse that throws.  The
    part of the method that runs when it is called completes normally
    ([sendMessage] once the message is not blank and a message type is
    chosen), and the rest of it, from whatever state it finds when the
    answer has come, ends with the loading overlay hidden and the send
    button enabled when the method showed the overlay.  On a failure
    [sendMessage], [sendQuickMessage], [freshStart], [enableSafeMode],
    [switchPersonality], [toggleVRChatVoice] and [loadPersonalities] show
    an error toast and write an error line to the console;
    [reconnectSession] does so too, except that a failure whose message
    contains [409] and not [404] is reported as a warning;
    [toggleYapMode] and [toggleV2Mode] show the error toast, restore
    their switch and leave the console as it was; [checkStatus],
    [loadV2ModeStatus] and [loadVRChatControlsStatus] report on their
    badges and switches only.  Only [sendMessage], and only on success,
    clears the message input and sets the counter to [0/1000]. *)
Theorem C9_actions_exception_safe :
  (* sendMessage *)
  (forall messageType p,
      trim (messageInput_value (page p)) <> "" ->
      sendMessage_called apiUrl (Some messageType) p
      = (showLoading p,
         [mkChatRequest (apiUrl +++ "/api/chat/send") (trim (messageInput_value (page p)))
            (messageType =? "system")%string true],
         Normal)
      /\ loading (showLoading p))
  /\ (forall messageType p,
         trim (messageInput_value (page p)) = "" ->
         sendMessage_called apiUrl messageType p
         = (showToast "warning" "Please enter a message" p, [], Normal))
  /\ (forall p,
         trim (messageInput_value (page p)) <> "" ->
         sendMessage_called apiUrl None p = (p, [], Throw valueOfNull))
  /\ (forall ts request outcome q,
         let q' := sendMessage_answered ts request outcome q in
         released q'
         /\ match failureOf "Failed to send message" outcome with
            | Some msg =>
                reported ts ("Failed to send message: " +++ msg)
                  ("Failed to send message: " +++ msg) q q'
                /\ sameInput q q'
            | None =>
                toasted "success" "Message sent successfully" q q'
                /\ messageInput_value (page q') = ""
                /\ charCounter_text (page q') = "0/1000"
            end)
  (* sendQuickMessage *)
  /\ (forall message p,
         sendQuickMessage_called apiUrl message p
         = (showLoading p, [mkChatRequest (apiUrl +++ "/api/chat/send") message true true],
            Normal))
  /\ (forall ts request outcome q,
         let q' := sendQuickMessage_answered ts request outcome q in
         released q' /\ sameInput q q'
         /\ match failureOf "Failed to send instruction" outcome with
            | Some msg =>
                reported ts ("Failed to send instruction: " +++ msg)
                  ("Failed to send instruction: " +++ msg) q q'
            | None => toasted "success" "Quick instruction sent" q q'
            end)
  (* freshStart *)
  /\ (forall confirmed p,
         PanelControls.freshStart_called apiUrl confirmed p
         = if confirmed
           then (showLoading p,
                 [PanelControls.mkApiRequest "POST" (apiUrl +++ "/api/session/fresh-start")
                    None],
                 Normal)
           else (p, [], Normal))
  /\ (forall ts outcome q,
         let q' := PanelControls.freshStart_answered ts outcome q in
         released q' /\ sameInput q q'
         /\ match failureOf "Failed to clear session" outcome with
            | Some msg =>
                reported ts ("Failed to start fresh: " +++ msg)
                  ("Fresh start failed: " +++ msg) q q'
            | None => toasted "success" "Session cleared - restarting fresh" q q'
            end)
  (* enableSafeMode *)
  /\ (forall p,
         PanelControls.enableSafeMode_called apiUrl p
         = (showLoading p,
            [PanelControls.mkApiRequest "POST"
               (apiUrl +++ "/api/vrchat/controls/safe-mode") None],
            Normal))
  /\ (forall ts outcome q,
         let result := PanelControls.enableSafeMode_answered ts outcome q in
         let q' := fst result in
         released q' /\ sameInput q q'
         /\ match failureOf "Failed to enable Safe Mode" outcome with
            | Some msg =>
                reported ts ("Failed to enable Safe Mode: " +++ msg)
                  ("Failed to enable Safe Mode: " +++ msg) q q'
                /\ snd result = []
            | None =>
                toasted "success" "VRChat Safe Mode enabled" q q'
                /\ snd result = [PanelControls.LoadVRChatControlsStatusIn 1000]
            end)
  (* switchPersonality *)
  /\ (forall personalityId p,
         PanelControls.switchPersonality_called apiUrl personalityId p
         = (showLoading p,
            [PanelControls.mkApiRequest "POST"
               (apiUrl +++ "/api/personalities/switch/" +++ personalityId) None],
            Normal))
  /\ (forall ts personalityId outcome a q,
         let result :=
           PanelControls.switchPersonality_answered ts personalityId outcome a q in
         let q' := snd result in
         released q' /\ sameInput q q'
         /\ match failureOfReply "Failed to switch personality" outcome with
            | Some msg =>
                reported ts ("Failed to switch personality: " +++ msg)
                  ("Failed to switch personality: " +++ msg) q q'
                /\ fst result = a
            | None =>
                PanelControls.currentPersonality (fst result) = Some personalityId
                /\ (exists text,
                       toasted "success" text q q'
                       \/ reported ts ("Failed to switch personality: " +++ text)
                            ("Failed to switch personality: " +++ text) q q')
            end)
  (* toggleVRChatVoice *)
  /\ (forall enable p,
         PanelControls.toggleVRChatVoice_called apiUrl enable p
         = (showLoading p,
            [PanelControls.mkApiRequest "POST"
               (apiUrl +++ "/api/vrchat/controls/voice/toggle") (Some enable)],
            Normal))
  /\ (forall ts enable outcome w q,
         let result := PanelControls.toggleVRChatVoice_answered ts enable outcome w q in
         let w' := fst (fst result) in
         let q' := snd (fst result) in
         released q' /\ sameInput q q'
         /\ match failureOfReply "Failed to toggle voice" outcome with
            | Some msg =>
                reported ts ("Failed to toggle voice: " +++ msg)
                  ("Failed to toggle voice: " +++ msg) q q'
                /\ PanelControls.voiceToggle_checked w' = negb enable
                /\ snd result = []
            | None => snd result = [PanelControls.LoadVRChatControlsStatusIn 1000]
            end)
  (* reconnectSession *)
  /\ (forall p,
         PanelControls.reconnectSession_called apiUrl p
         = (showLoading p,
            [PanelControls.mkApiRequest "POST" (apiUrl +++ "/api/session/reconnect") None],
            Normal))
  /\ (forall ts outcome q,
         let q' := PanelControls.reconnectSession_answered ts outcome q in
         released q' /\ sameInput q q'
         /\ match failureOfReply "Failed to reconnect session" outcome with
            | Some msg =>
                if includes msg "404" then
                  reported ts "No saved session handle found"
                    "No saved session available. Start a new session first." q q'
                else if includes msg "409" then
                  toasted "warning" "A session is already active" q q'
                  /\ logged ts "warning"
                       "Cannot reconnect - an active session already exists" q q'
                else
                  reported ts ("Failed to reconnect: " +++ msg)
                    ("Reconnection failed: " +++ msg) q q'
            | None => True
            end)
  (* toggleYapMode *)
  /\ (forall enabled p,
         toggleYapMode_called apiUrl enabled p
         = (showLoading p,
            [mkChatRequest (apiUrl +++ "/api/chat/send")
               (if enabled
                then "Enable yap mode - prevent interruptions during conversations"
                else "Disable yap mode - allow interruptions during conversations")
               true true],
            Normal))
  /\ (forall ts enabled outcome q,
         let q' := toggleYapMode_answered ts enabled outcome q in
         released q' /\ sameInput q q'
         /\ match failureOf "Failed to toggle yap mode" outcome with
            | Some msg =>
                toasted "error" ("Failed to toggle yap mode: " +++ msg) q q'
                /\ consoleOutput q' = consoleOutput q
                /\ yapModeEnabled q' = yapModeEnabled q
                /\ yapModeToggle_checked (page q') = yapModeEnabled q
            | None =>
                yapModeEnabled q' = enabled
                /\ yapModeToggle_checked (page q') = yapModeToggle_checked (page q)
            end)
  (* toggleV2Mode *)
  /\ (forall enabled v p,
         PanelControls.toggleV2Mode_called apiUrl enabled v p
         = if enabled && negb (PanelControls.v2ModeAvailable v)
           then (PanelControls.mkV2 (PanelControls.v2ModeEnabled v)
                   (PanelControls.v2ModeAvailable v) (PanelControls.v2ModeEnabled v)
                   (PanelControls.v2ModeToggle_disabled v),
                 showToast "error" "V2 mode is not available on this system" p, [])
           else (v, showLoading p,
                 [PanelControls.mkV2Request (apiUrl +++ "/api/v2/toggle") enabled]))
  /\ (forall ts enabled outcome v q,
         let result := PanelControls.toggleV2Mode_answered ts enabled outcome v q in
         let v' := fst result in
         let q' := snd result in
         released q' /\ sameInput q q'
         /\ match failureOf "Failed to toggle V2 mode" outcome with
            | Some msg =>
                toasted "error" ("Failed to toggle V2 mode: " +++ msg) q q'
                /\ consoleOutput q' = consoleOutput q
                /\ PanelControls.v2ModeEnabled v' = PanelControls.v2ModeEnabled v
                /\ PanelControls.v2ModeToggle_checked v' = PanelControls.v2ModeEnabled v
            | None => PanelControls.v2ModeEnabled v' = enabled
            end)
  (* loadPersonalities *)
  /\ (forall ts outcome a q,
         let result := PanelControls.loadPersonalities_answered ts outcome a q in
         let q' := snd result in
         sameOverlay q q' /\ sameInput q q'
         /\ match failureOfReply "Failed to load personalities" outcome with
            | Some msg =>
                reported ts ("Failed to load personalities: " +++ msg)
                  ("Failed to load personalities: " +++ msg) q q'
                /\ PanelControls.personalitiesList (fst result) = PanelControls.ListFailed
            | None => True
            end)
  (* the status loaders *)
  /\ (forall outcome w,
         match failureOfReply "Failed to get VRChat controls status" outcome with
         | Some _ =>
             PanelControls.loadVRChatControlsStatus_answered outcome w
             = PanelControls.mkVRChatView "api-status-badge offline" "Disabled"
                 (PanelControls.voiceToggle_checked w)
         | None => True
         end)
  /\ (forall msg v,
         PanelControls.loadV2ModeStatus (PanelControls.Throws msg) v
         = PanelControls.mkV2 false false false true)
  /\ (forall msg chat b,
         fst (PanelControls.checkStatus apiUrl (PanelControls.Throws msg) chat b)
         = PanelControls.updateApiStatus false (PanelControls.updateStatus false b)).
Proof.
  split; [intros; now apply sendMessage_called_sends|].
  split.
  { intros messageType p E. unfold sendMessage_called. now rewrite E. }
  split.
  { intros p E. unfold sendMessage_called.
    now rewrite (proj2 (MemoryFacts.truthy_true _) E). }
  split; [intros; apply sendMessage_outcomes|].
  split; [reflexivity|].
  split; [intros; apply sendQuickMessage_outcomes|].
  split; [intros [|] p; reflexivity|].
  split; [intros; apply freshStart_outcomes|].
  split; [reflexivity|].
  split; [intros; apply enableSafeMode_outcomes|].
  split; [reflexivity|].
  split; [intros; apply switchPersonality_outcomes|].
  split; [reflexivity|].
  split; [intros; apply toggleVRChatVoice_outcomes|].
  split; [reflexivity|].
  split; [intros; apply reconnectSession_outcomes|].
  split; [reflexivity|].
  split; [intros; apply toggleYapMode_outcomes|].
  split; [reflexivity|].
  split; [intros; apply toggleV2Mode_outcomes|].
  split; [intros; apply loadPersonalities_outcomes|].
  split; [intros; apply loadVRChatControlsStatus_outcomes|].
  split; reflexivity.
Qed.
End ActionFacts.

(** A message is typed; the server is down. *)
Definition typedState : State :=
  constructed [] (mkPage true false "  hello Gabriel " "16/1000" false []).

Definition serverDown : Outcome := FetchRejects "Failed to fetch".

Lemma C9_actions_exception_safe_witness :
  let called := sendMessage_called "http://localhost:8000" (Some "user") typedState in
  trim (messageInput_value (page typedState)) <> ""
  /\ called
     = (showLoading typedState,
        [mkChatRequest "http://localhost:8000/api/chat/send" "hello Gabriel" false true],
        Normal)
  /\ fst (fst (sendMessage "http://localhost:8000" "11:00:00" (Some "user") serverDown
                 typedState))
     = sendMessage_answered "11:00:00"
         (mkChatRequest "http://localhost:8000/api/chat/send" "hello Gabriel" false true)
         serverDown (showLoading typedState).
Proof.
  assert (H : trim (messageInput_value (page typedState)) <> "")
    by (vm_compute; discriminate).
  split; [exact H|].
  destruct (C9_actions_exception_safe "http://localhost:8000") as (H1 & _).
  destruct (H1 "user" typedState H) as (E & _).
  split; [exact E|]. reflexivity.
Defined.

(** C9 as stated fails: a control-panel action around a [fetch] whose
    failure writes no error line to the console.  [toggleYapMode] shows
    the error toast and leaves the console as it was. *)
Lemma C9_toggleYapMode_writes_no_error_line :
  let result := toggleYapMode "http://localhost:8000" "11:00:00" true serverDown
                  typedState in
  toasts (page (fst (fst result)))
  = [mkToast "error" "Failed to toggle yap mode: Failed to fetch"]
  /\ consoleOutput (fst (fst result)) = consoleOutput typedState
  /\ existsb isErrorLine (consoleOutput (fst (fst result))) = false.
Proof.
  repeat split.
Qed.

(** ** The reconnect back-off *)

Definition isReconnectTimer (t : Timer) : bool :=
  match callback t with Reconnect => true | _ => false end.

Definition isLive (r : ReadyState) : bool :=
  match r with CLOSED => false | _ => true end.

(** The reconnect timers that are pending, and the sockets that can
    still deliver a close event. *)
Definition pendingReconnects (p : State) : nat :=
  List.length (filter isReconnectTimer (timers (browser p))).

Definition liveSockets (p : State) : nat :=
  List.length (filter (fun k => isLive (readyState k)) (sockets (browser p))).

(** [q] differs from [p] in nothing the reconnect logic depends on,
    but possibly in having fewer reconnect timers. *)
Definition quiet (p q : State) : Prop :=
  reconnectAttempts (conn q) = reconnectAttempts (conn p)
  /\ maxReconnectAttempts (conn q) = maxReconnectAttempts (conn p)
  /\ reconnectDelay (conn q) = reconnectDelay (conn p)
  /\ sockets (browser q) = sockets (browser p)
  /\ (pendingReconnects q <= pendingReconnects p)%nat.

Lemma quiet_refl (p : State) : quiet p p.
Proof.
  unfold quiet. auto.
Qed.

Lemma quiet_trans (p q r : State) : quiet p q -> quiet q r -> quiet p r.
Proof.
  unfold quiet. intros (A1 & A2 & A3 & A4 & A5) (B1 & B2 & B3 & B4 & B5).
  repeat split; try congruence. lia.
Qed.

Lemma quiet_same (p q q' : State) :
  conn q' = conn q -> browser q' = browser q -> quiet p q -> quiet p q'.
Proof.
  unfold quiet, pendingReconnects. intros -> ->. auto.
Qed.

Lemma addConsoleMessage_quiet (ts type message : string) (newLine : bool) (p q : State) :
  quiet p q -> quiet p (addConsoleMessage ts type message newLine q).
Proof.
  destruct (addConsoleMessage_frame ts type message newLine q) as (Hc & Hb & _).
  now apply quiet_same.
Qed.

Lemma addFunctionCallMessage_quiet (ts id : string) (data : CallData) (p q : State) :
  quiet p q -> quiet p (addFunctionCallMessage ts id data q).
Proof.
  apply quiet_same; reflexivity.
Qed.

Lemma addFunctionResponseMessage_quiet (ts id : string) (data : ResponseData)
    (p q : State) :
  quiet p q -> quiet p (addFunctionResponseMessage ts id data q).
Proof.
  apply quiet_same; reflexivity.
Qed.

Lemma updateWebSocketStatus_quiet (status : string) (p q : State) :
  quiet p q -> quiet p (updateWebSocketStatus status q).
Proof.
  intros H. apply (quiet_trans p q); [exact H|].
  unfold updateWebSocketStatus, quiet, pendingReconnects.
  repeat match goal with |- context [if ?c then _ else _] => destruct c end;
    simpl; auto.
Qed.

Lemma filter_length_le {X : Type} (f g : X -> bool) (l : list X) :
  (List.length (filter f (filter g l)) <= List.length (filter f l))%nat.
Proof.
  induction l as [|x l IH]; simpl; [lia|].
  destruct (g x); simpl; destruct (f x); simpl; lia.
Qed.

Lemma clearTimeout_quiet (id : nat) (p q : State) :
  quiet p q -> quiet p (clearTimeout id q).
Proof.
  intros H. apply (quiet_trans p q); [exact H|].
  unfold clearTimeout, quiet, pendingReconnects. simpl.
  repeat split. apply filter_length_le.
Qed.

Lemma setTimeout_quiet (cb : Callback) (ms : Z) (p q : State) :
  cb <> Reconnect -> quiet p q -> quiet p (fst (setTimeout cb ms q)).
Proof.
  intros Hcb H. apply (quiet_trans p q); [exact H|].
  unfold setTimeout, quiet, pendingReconnects. simpl.
  repeat split. rewrite filter_app, length_app. simpl.
  unfold isReconnectTimer. simpl. destruct cb; [contradiction | |]; simpl; lia.
Qed.

Lemma set_speech_quiet (v : Speech) (p q : State) : quiet p q -> quiet p (set_speech v q).
Proof.
  now apply quiet_same.
Qed.

Lemma showToast_quiet (type message : string) (p q : State) :
  quiet p q -> quiet p (showToast type message q).
Proof.
  now apply quiet_same.
Qed.

Lemma flushUserSpeechBuffer_quiet (ts : string) (p q : State) :
  quiet p q -> quiet p (flushUserSpeechBuffer ts q).
Proof.
  intros H. unfold flushUserSpeechBuffer.
  destruct (userSpeechBuffer (speech q)); [exact H|].
  apply set_speech_quiet.
  match goal with |- context [if ?c then _ else _] => destruct c end.
  - apply addConsoleMessage_quiet.
    destruct (userSpeechBufferTimeout (speech q)); [|exact H].
    now apply set_speech_quiet, clearTimeout_quiet.
  - destruct (userSpeechBufferTimeout (speech q)); [|exact H].
    now apply set_speech_quiet, clearTimeout_quiet.
Qed.

Lemma updateYapModeFromResponse_quiet (ts : string) (r : option YapResponse)
    (p q : State) :
  quiet p q -> quiet p (updateYapModeFromResponse ts r q).
Proof.
  intros H. unfold updateYapModeFromResponse.
  destruct r as [r|]; [|exact H].
  destruct (yap_mode_enabled r) as [b|]; [|exact H].
  destruct (negb _); [|exact H].
  assert (H1 : quiet p
                 (addConsoleMessage ts "success"
                    ("Yap mode toggle updated: " +++ (if b then "enabled" else "disabled"))
                    true
                    (showToast "info"
                       ("Yap mode automatically " +++ (if b then "enabled" else "disabled"))
                       (set_yapModeEnabled b
                          (set_page
                             (mkPage (loadingOverlay_hidden (page q))
                                (sendButton_disabled (page q)) (messageInput_value (page q))
                                (charCounter_text (page q)) b (toasts (page q)))
                             q))))).
  { apply addConsoleMessage_quiet, showToast_quiet. now apply (quiet_same p q). }
  destruct (yap_message r) as [m|]; [|exact H1].
  destruct (truthy m); [|exact H1].
  now apply addConsoleMessage_quiet.
Qed.

Section ConnectionFacts.
Variable functionResponseIn : string -> option YapResponse.

Lemma dispatch_quiet (ts id : string) (m : WsMessage) (p q : State) :
  quiet p q -> quiet p (dispatch functionResponseIn ts id m q).
Proof.
  intros H. unfold dispatch, checkForFunctionResponse, handleFunctionResponse.
  repeat match goal with
         | |- context [if (?a =? ?b)%string then _ else _] => destruct (a =? b)%string
         end;
    try exact H;
    try (now apply addConsoleMessage_quiet);
    try (now apply addFunctionCallMessage_quiet).
  - now apply updateYapModeFromResponse_quiet, addFunctionResponseMessage_quiet.
  - destruct (setTimeout FlushSpeech _ _) as [q' t] eqn:E.
    apply set_speech_quiet.
    replace q' with (fst (setTimeout FlushSpeech
                            (userSpeechGroupingDelay (speech q))
                            (match userSpeechBufferTimeout (speech q) with
                             | Some t0 =>
                                 clearTimeout t0
                                   (set_speech
                                      (mkSpeech
                                         (userSpeechBuffer (speech q)
                                          ++ [mkSpeechItem (data_text m) (msg_timestamp m)])
                                         (userSpeechBufferTimeout (speech q))
                                         (userSpeechGroupingDelay (speech q)))
                                      q)
                             | None =>
                                 set_speech
                                   (mkSpeech
                                      (userSpeechBuffer (speech q)
                                       ++ [mkSpeechItem (data_text m) (msg_timestamp m)])
                                      (userSpeechBufferTimeout (speech q))
                                      (userSpeechGroupingDelay (speech q)))
                                   q
                             end)))
      by (simpl in E |- *; destruct (userSpeechBufferTimeout (speech q));
          simpl in E |- *; now inversion E).
    apply setTimeout_quiet; [discriminate|].
    destruct (userSpeechBufferTimeout (speech q)).
    + now apply clearTimeout_quiet, set_speech_quiet.
    + now apply set_speech_quiet.
  - destruct (functionResponseIn (data_text m));
      [apply updateYapModeFromResponse_quiet|]; now apply addConsoleMessage_quiet.
  - destruct (functionResponseIn (data_text m));
      [apply updateYapModeFromResponse_quiet|]; now apply addConsoleMessage_quiet.
  - assert (H1 : quiet p
                   (match functionResponseIn (data_message m) with
                    | Some responseData =>
                        updateYapModeFromResponse ts (Some responseData)
                          (addConsoleMessage ts "system" (data_message m) true q)
                    | None => addConsoleMessage ts "system" (data_message m) true q
                    end)).
    { destruct (functionResponseIn (data_message m));
        [apply updateYapModeFromResponse_quiet|]; now apply addConsoleMessage_quiet. }
    destruct (truthy (data_message m) && _); [|exact H1].
    apply setTimeout_quiet; [discriminate | exact H1].
Qed.

Lemma onmessage_quiet (ts id : string) (m : option WsMessage) (p : State) :
  quiet p (onmessage functionResponseIn ts id m p).
Proof.
  unfold onmessage, handleWebSocketMessage. destruct m as [m|]; [|apply quiet_refl].
  apply dispatch_quiet. destruct (negb _); [|apply quiet_refl].
  apply flushUserSpeechBuffer_quiet, quiet_refl.
Qed.
End ConnectionFacts.

(** *** The invariant of the connection *)

Definition fieldsOk (p : State) : Prop :=
  maxReconnectAttempts (conn p) = 5
  /\ 0 <= reconnectAttempts (conn p) <= 5
  /\ 1000 <= reconnectDelay (conn p) <= 30000.

(** At most one of: a socket that can still close, a reconnect timer
    that is pending; and a pending reconnect timer was set when fewer than
    five attempts had been made. *)
Definition connected (p : State) : Prop :=
  fieldsOk p
  /\ (liveSockets p + pendingReconnects p <= 1)%nat
  /\ ((0 < pendingReconnects p)%nat -> reconnectAttempts (conn p) < 5).

(** Neither a live socket nor a pending reconnect timer. *)
Definition idle (p : State) : Prop :=
  fieldsOk p /\ liveSockets p = 0%nat /\ pendingReconnects p = 0%nat.

Lemma idle_connected (p : State) : idle p -> connected p.
Proof.
  intros (F & L & P). unfold connected. rewrite L, P.
  split; [exact F|]. split; [lia | intros H; lia].
Qed.

Lemma connected_quiet (p q : State) : connected p -> quiet p q -> connected q.
Proof.
  intros ((M & A & D) & T & P) (Q1 & Q2 & Q3 & Q4 & Q5).
  unfold connected, fieldsOk, liveSockets in *. rewrite Q1, Q2, Q3, Q4.
  split; [repeat split; lia|]. split; [lia|]. intros H. apply P. lia.
Qed.

Lemma idle_quiet (p q : State) : idle p -> quiet p q -> idle q.
Proof.
  intros ((M & A & D) & L & P) (Q1 & Q2 & Q3 & Q4 & Q5).
  unfold idle, fieldsOk, liveSockets in *. rewrite Q1, Q2, Q3, Q4.
  split; [repeat split; lia|]. split; [exact L | lia].
Qed.

Lemma scheduleReconnect_cases (ts : string) (p : State) :
  (maxReconnectAttempts (conn p) <= reconnectAttempts (conn p)
   /\ scheduleReconnect ts p
      = updateWebSocketStatus "failed"
          (addConsoleMessage ts "error"
             "Max reconnection attempts reached. Please refresh the page." true p))
  \/ (reconnectAttempts (conn p) < maxReconnectAttempts (conn p)
      /\ let p' := scheduleReconnect ts p in
         reconnectAttempts (conn p') = reconnectAttempts (conn p)
         /\ maxReconnectAttempts (conn p') = maxReconnectAttempts (conn p)
         /\ reconnectDelay (conn p') = Z.min (2 * reconnectDelay (conn p)) 30000
         /\ sockets (browser p') = sockets (browser p)
         /\ timers (browser p')
            = timers (browser p)
              ++ [mkTimer (nextId (browser p)) (reconnectDelay (conn p)) Reconnect]
         /\ consoleOutput p' = consoleOutput p
         /\ wsStatus_text (conn p') = wsStatus_text (conn p)).
Proof.
  unfold scheduleReconnect.
  destruct (Z.leb_spec (maxReconnectAttempts (conn p)) (reconnectAttempts (conn p))).
  - left. auto.
  - right. split; [lia|]. cbv zeta.
    cbn [setTimeout set_reconnect set_conn set_browser conn browser fst snd
           reconnectAttempts maxReconnectAttempts reconnectDelay sockets timers
           consoleOutput wsStatus_text nextId].
    rewrite (Z.mul_comm 2). repeat split.
Qed.

Lemma scheduleReconnect_attempts (ts : string) (p : State) :
  reconnectAttempts (conn (scheduleReconnect ts p)) = reconnectAttempts (conn p)
  /\ maxReconnectAttempts (conn (scheduleReconnect ts p)) = maxReconnectAttempts (conn p).
Proof.
  destruct (scheduleReconnect_cases ts p) as [[_ E] | [_ H]].
  - rewrite E.
    pose proof (updateWebSocketStatus_quiet "failed" p _
                  (addConsoleMessage_quiet ts "error"
                     "Max reconnection attempts reached. Please refresh the page." true
                     p p (quiet_refl p))) as (Q1 & Q2 & _).
    auto.
  - cbv zeta in H. tauto.
Qed.

Lemma scheduleReconnect_idle (ts : string) (p : State) :
  idle p -> connected (scheduleReconnect ts p).
Proof.
  intros Hi. destruct (scheduleReconnect_cases ts p) as [[_ E] | [Hlt H]].
  - rewrite E. apply (connected_quiet p); [now apply idle_connected|].
    apply updateWebSocketStatus_quiet, addConsoleMessage_quiet, quiet_refl.
  - cbv zeta in H. destruct H as (A & M & D & S & T & _).
    destruct Hi as ((M0 & A0 & D0) & L & P).
    unfold connected, fieldsOk, liveSockets, pendingReconnects in *.
    rewrite A, M, D, S, T, filter_app, length_app, L, P.
    cbn [filter isReconnectTimer callback List.length Nat.add].
    split; [repeat split; lia|]. split; [lia | intros _; lia].
Qed.

Lemma connectWebSocket_attempts (ts : string) (constructs : bool) (p : State) :
  reconnectAttempts (conn (connectWebSocket ts constructs p))
  = reconnectAttempts (conn p).
Proof.
  unfold connectWebSocket.
  destruct (match websocket (conn p) with Some _ => _ | None => _ end); [reflexivity|].
  pose proof (updateWebSocketStatus_quiet "connecting" p p (quiet_refl p)) as (Q1 & _).
  destruct constructs.
  - simpl. exact Q1.
  - rewrite (proj1 (scheduleReconnect_attempts _ _)).
    pose proof (updateWebSocketStatus_quiet "error" p _
                  (addConsoleMessage_quiet ts "error"
                     "Failed to establish WebSocket connection" true p _
                     (updateWebSocketStatus_quiet "connecting" p p (quiet_refl p))))
      as (Q & _).
    exact Q.
Qed.

Lemma connectWebSocket_idle (ts : string) (constructs : bool) (p : State) :
  idle p -> connected (connectWebSocket ts constructs p).
Proof.
  intros Hi. unfold connectWebSocket.
  destruct (match websocket (conn p) with Some _ => _ | None => _ end);
    [now apply idle_connected|].
  pose proof (updateWebSocketStatus_quiet "connecting" p p (quiet_refl p)) as Q.
  destruct constructs.
  - destruct Hi as ((M & A & D) & L & P).
    unfold connected, fieldsOk, liveSockets, pendingReconnects in *. simpl.
    rewrite filter_app, length_app, L, P. simpl.
    split; [repeat split; lia|]. split; [lia | intros H; lia].
  - apply scheduleReconnect_idle. apply (idle_quiet p); [exact Hi|].
    now apply updateWebSocketStatus_quiet, addConsoleMessage_quiet.
Qed.

Lemma set_reconnect_idle (a d : Z) (p : State) :
  idle p -> 0 <= a <= 5 -> 1000 <= d <= 30000 -> idle (set_reconnect a d p).
Proof.
  intros ((M & _ & _) & L & P) Ha Hd.
  unfold idle, fieldsOk, liveSockets, pendingReconnects in *. simpl. auto.
Qed.

(** *** The sockets and the timers *)

Definition weight (b : bool) : nat := if b then 1%nat else 0%nat.

Lemma moveSocket_live (i : nat) (r old : ReadyState) (l : list Socket) :
  option_map readyState (find (fun k => Nat.eqb (socket_id k) i) l) = Some old ->
  (List.length (filter (fun k => isLive (readyState k)) (moveSocket i r l))
   + weight (isLive old)
   = List.length (filter (fun k => isLive (readyState k)) l) + weight (isLive r))%nat.
Proof.
  induction l as [|k l IH]; simpl; [discriminate|].
  destruct (Nat.eqb (socket_id k) i); simpl.
  - intros [= <-]. destruct (isLive r), (isLive (readyState k)); simpl; lia.
  - intros H. specialize (IH H). destruct (isLive (readyState k)); simpl; lia.
Qed.

Lemma setReadyState_live (i : nat) (r old : ReadyState) (p : State) :
  readyStateOf i p = Some old ->
  (liveSockets (setReadyState i r p) + weight (isLive old)
   = liveSockets p + weight (isLive r))%nat.
Proof.
  intros H. unfold liveSockets, setReadyState. simpl. now apply moveSocket_live.
Qed.

Lemma setReadyState_frame (i : nat) (r : ReadyState) (p : State) :
  conn (setReadyState i r p) = conn p
  /\ pendingReconnects (setReadyState i r p) = pendingReconnects p.
Proof.
  now split.
Qed.

Lemma filter_found {X : Type} (f g : X -> bool) (l : list X) (x : X) :
  find g l = Some x -> f x = true ->
  (List.length (filter f (filter (fun y => negb (g y)) l)) < List.length (filter f l))%nat.
Proof.
  induction l as [|y l IH]; simpl; [discriminate|].
  destruct (g y) eqn:G; simpl.
  - intros [= ->] Hf. rewrite Hf. simpl.
    pose proof (filter_length_le f (fun y => negb (g y)) l). lia.
  - intros H Hf. specialize (IH H Hf). destruct (f y); simpl; lia.
Qed.

Lemma clearTimeout_reconnect (id : nat) (t : Timer) (p : State) :
  find (fun t => Nat.eqb (timer_id t) id) (timers (browser p)) = Some t ->
  callback t = Reconnect ->
  (pendingReconnects (clearTimeout id p) < pendingReconnects p)%nat.
Proof.
  intros Hf Hc. unfold pendingReconnects, clearTimeout. simpl.
  apply (filter_found isReconnectTimer (fun t => Nat.eqb (timer_id t) id) _ t Hf).
  unfold isReconnectTimer. now rewrite Hc.
Qed.

(** *** Every event keeps the invariant *)

Lemma connected_shrink (p q : State) :
  reconnectAttempts (conn q) = reconnectAttempts (conn p) ->
  maxReconnectAttempts (conn q) = maxReconnectAttempts (conn p) ->
  reconnectDelay (conn q) = reconnectDelay (conn p) ->
  (liveSockets q <= liveSockets p)%nat ->
  (pendingReconnects q <= pendingReconnects p)%nat ->
  connected p -> connected q.
Proof.
  intros A M D L P ((M0 & A0 & D0) & T & H).
  unfold connected, fieldsOk. rewrite A, M, D.
  split; [repeat split; lia|]. split; [lia|]. intros H1. apply H. lia.
Qed.

Lemma quiet_live (p q : State) : quiet p q -> liveSockets q = liveSockets p.
Proof.
  intros (_ & _ & _ & S & _). unfold liveSockets. now rewrite S.
Qed.

Lemma onopen_connected (ts : string) (p : State) :
  connected p ->
  connected (onopen ts p)
  /\ reconnectAttempts (conn (onopen ts p)) = 0
  /\ reconnectDelay (conn (onopen ts p)) = 1000.
Proof.
  intros H. unfold onopen.
  pose proof (updateWebSocketStatus_quiet "connected" p _
                (addConsoleMessage_quiet ts "system"
                   "WebSocket connected - Real-time monitoring active" true p p
                   (quiet_refl p))) as Q.
  pose proof (connected_quiet _ _ H Q) as ((M & A & D) & T & P).
  split; [|split; reflexivity].
  unfold connected, fieldsOk, liveSockets, pendingReconnects in *. simpl.
  split; [repeat split; try lia; exact M|]. split; [exact T | intros _; lia].
Qed.

Section Runs.
Variable functionResponseIn : string -> option YapResponse.

Lemma step_connected (p p' : State) (e : Event) :
  connected p -> step functionResponseIn p e = Some p' ->
  connected p'
  /\ (isOpenEvent e = false ->
      reconnectAttempts (conn p')
      = reconnectAttempts (conn p) + (if isReconnectAttempt p e then 1 else 0)).
Proof.
  intros H Hs. destruct e as [i ts | i ts id m | i ts | i ts | id ts c | ts]; simpl in Hs.
  - (* the socket opens *)
    destruct (readyStateOf i p) as [[| | |]|] eqn:Er; try discriminate.
    injection Hs as <-. split; [|discriminate].
    apply onopen_connected.
    pose proof (setReadyState_live i OPEN CONNECTING p Er) as L. simpl in L.
    apply (connected_shrink p); try reflexivity; try exact H; try lia.
  - (* a message *)
    destruct (readyStateOf i p) as [[| | |]|]; try discriminate.
    injection Hs as <-.
    pose proof (onmessage_quiet functionResponseIn ts id m p) as Q.
    split; [exact (connected_quiet _ _ H Q)|].
    intros _. simpl. destruct Q as (Q1 & _). lia.
  - (* an error *)
    assert (Q : quiet p (onerror ts p)).
    { apply updateWebSocketStatus_quiet, addConsoleMessage_quiet, quiet_refl. }
    destruct (readyStateOf i p) as [[| | |]|]; try discriminate;
      injection Hs as <-;
      (split; [exact (connected_quiet _ _ H Q)|]);
      intros _; simpl; destruct Q as (Q1 & _); lia.
  - (* the socket closes *)
    assert (Hclose : forall old, readyStateOf i p = Some old -> isLive old = true ->
                     connected (onclose ts (setReadyState i CLOSED p))
                     /\ reconnectAttempts (conn (onclose ts (setReadyState i CLOSED p)))
                        = reconnectAttempts (conn p)).
    { intros old Er Hl.
      pose proof (setReadyState_live i CLOSED old p Er) as L.
      rewrite Hl in L. simpl in L.
      destruct H as (F & T & P).
      assert (Hi : idle (setReadyState i CLOSED p)).
      { split; [exact F|]. split; [lia|].
        rewrite (proj2 (setReadyState_frame i CLOSED p)). lia. }
      set (q := updateWebSocketStatus "disconnected"
                  (addConsoleMessage ts "warning"
                     "WebSocket disconnected - Attempting to reconnect..." true
                     (setReadyState i CLOSED p))).
      assert (Q : quiet (setReadyState i CLOSED p) q).
      { apply updateWebSocketStatus_quiet, addConsoleMessage_quiet, quiet_refl. }
      unfold onclose. fold q. split.
      - apply scheduleReconnect_idle. exact (idle_quiet _ _ Hi Q).
      - rewrite (proj1 (scheduleReconnect_attempts ts q)). destruct Q as (Q1 & _).
        exact Q1. }
    destruct (readyStateOf i p) as [[| | |]|] eqn:Er; try discriminate;
      injection Hs as <-;
      (destruct (Hclose _ eq_refl eq_refl) as (Hc & Ha));
      (split; [exact Hc|]); intros _; simpl; lia.
  - (* a timer runs *)
    destruct (find (fun t => Nat.eqb (timer_id t) id) (timers (browser p)))
      as [t|] eqn:Ef; [|discriminate].
    injection Hs as <-.
    pose proof (clearTimeout_quiet id p p (quiet_refl p)) as Q.
    unfold isReconnectAttempt. rewrite Ef.
    destruct t as [tid tdelay cb]. destruct cb; simpl runCallback.
    + (* the reconnect closure *)
      pose proof (clearTimeout_reconnect id _ p Ef eq_refl) as Hlt.
      pose proof (quiet_live _ _ Q) as Hlive.
      destruct H as ((M & A & D) & T & P).
      assert (Hfew : reconnectAttempts (conn p) < 5) by (apply P; lia).
      destruct Q as (Q1 & Q2 & Q3 & Q4 & Q5).
      assert (Hi : idle (clearTimeout id p)).
      { split; [unfold fieldsOk; rewrite Q1, Q2, Q3; repeat split; lia|].
        split; lia. }
      unfold reconnectCallback.
      set (q := set_reconnect (reconnectAttempts (conn (clearTimeout id p)) + 1)
                  (reconnectDelay (conn (clearTimeout id p))) (clearTimeout id p)).
      assert (Hq : idle q).
      { apply set_reconnect_idle; [exact Hi | rewrite Q1; lia | rewrite Q3; lia]. }
      set (q' := addConsoleMessage ts "system" _ true q).
      assert (Q' : quiet q q') by apply addConsoleMessage_quiet, quiet_refl.
      split.
      * apply connectWebSocket_idle. exact (idle_quiet _ _ Hq Q').
      * intros _. rewrite connectWebSocket_attempts.
        destruct Q' as (R1 & _). rewrite R1. unfold q. simpl. simpl in Q1. lia.
    + (* the flush of the speech buffer *)
      pose proof (flushUserSpeechBuffer_quiet ts p _ Q) as Q'.
      split; [exact (connected_quiet _ _ H Q')|].
      intros _. destruct Q' as (R1 & _). lia.
    + split; [exact (connected_quiet _ _ H Q)|].
      intros _. destruct Q as (R1 & _). lia.
  - (* the page is left *)
    injection Hs as <-.
    pose proof (flushUserSpeechBuffer_quiet ts p p (quiet_refl p)) as Q.
    pose proof (connected_quiet _ _ H Q) as Hc.
    assert (Ha : reconnectAttempts (conn (disconnect ts p)) = reconnectAttempts (conn p)).
    { unfold disconnect. destruct Q as (Q1 & _).
      destruct (websocket (conn (flushUserSpeechBuffer ts p))); [|exact Q1].
      destruct (readyStateOf _ _) as [[| | |]|]; simpl; exact Q1. }
    split; [|intros _; simpl; lia].
    unfold disconnect.
    destruct (websocket (conn (flushUserSpeechBuffer ts p))) as [i|]; [|exact Hc].
    destruct (readyStateOf i (flushUserSpeechBuffer ts p)) as [old|] eqn:Er.
    + assert (Hm : connected
                     (match old with
                      | CLOSED => flushUserSpeechBuffer ts p
                      | _ => setReadyState i CLOSING (flushUserSpeechBuffer ts p)
                      end)).
      { destruct old; try exact Hc;
          pose proof (setReadyState_live i CLOSING _ _ Er) as L; simpl in L;
          apply (connected_shrink (flushUserSpeechBuffer ts p));
          try reflexivity; try exact Hc; lia. }
      revert Hm. apply connected_shrink; destruct old; reflexivity || lia.
    + revert Hc. apply connected_shrink; reflexivity || lia.
Qed.

Lemma run_connected (events : list Event) (p p' : State) :
  connected p -> run functionResponseIn p events = Some p' -> connected p'.
Proof.
  revert p. induction events as [|e events IH]; intros p H Hr; simpl in Hr.
  - now injection Hr as <-.
  - destruct (step functionResponseIn p e) as [q|] eqn:Es; [|discriminate].
    apply (IH q); [|exact Hr]. exact (proj1 (step_connected p q e H Es)).
Qed.

Lemma run_attempts (events : list Event) (p p' : State) :
  connected p -> run functionResponseIn p events = Some p' ->
  forallb (fun e => negb (isOpenEvent e)) events = true ->
  reconnectAttempts (conn p')
  = reconnectAttempts (conn p)
    + Z.of_nat (reconnectAttemptsIn functionResponseIn p events).
Proof.
  revert p. induction events as [|e events IH]; intros p H Hr Hno; simpl in Hr, Hno |- *.
  - injection Hr as <-. lia.
  - destruct (step functionResponseIn p e) as [q|] eqn:Es; [|discriminate].
    apply andb_true_iff in Hno. destruct Hno as [He Hno].
    apply negb_true_iff in He.
    destruct (step_connected p q e H Es) as [Hq Ha].
    rewrite (IH q Hq Hr Hno), (Ha He).
    destruct (isReconnectAttempt p e); lia.
Qed.

Lemma init_connected (ts : string) (constructs : bool) (lines0 : list Line)
    (page0 : Page) :
  connected (init ts constructs lines0 page0).
Proof.
  unfold init.
  apply (connected_quiet (connectWebSocket ts constructs (constructed lines0 page0)));
    [|apply addConsoleMessage_quiet, quiet_refl].
  apply connectWebSocket_idle.
  unfold idle, fieldsOk, liveSockets, pendingReconnects. simpl.
  repeat split; lia.
Qed.
End Runs.

(** C3.  The reconnect delay starts at 1000 ms.  A call of
    [scheduleReconnect] that sets the timer replaces the delay [d] by
    [min(2 d, 30000)]; a call that sets none leaves it.  The open event of
    a socket sets the delay to 1000 and the attempts to 0.  In every state
    the panel reaches, the delay is at least 1000 and at most 30000. *)
Theorem C3_reconnect_backoff (functionResponseIn : string -> option YapResponse)
    (ts : string) (p : State) :
  (forall lines0 page0, reconnectDelay (conn (constructed lines0 page0)) = 1000)
  /\ (reconnectAttempts (conn p) < maxReconnectAttempts (conn p) ->
      reconnectDelay (conn (scheduleReconnect ts p))
      = Z.min (2 * reconnectDelay (conn p)) 30000)
  /\ (maxReconnectAttempts (conn p) <= reconnectAttempts (conn p) ->
      reconnectDelay (conn (scheduleReconnect ts p)) = reconnectDelay (conn p))
  /\ (reconnectDelay (conn (onopen ts p)) = 1000
      /\ reconnectAttempts (conn (onopen ts p)) = 0)
  /\ (forall ts0 constructs lines0 page0 events,
         run functionResponseIn (init ts0 constructs lines0 page0) events = Some p ->
         1000 <= reconnectDelay (conn p) <= 30000).
Proof.
  split; [reflexivity|]. split; [|split; [|split]].
  - intros Hlt. destruct (scheduleReconnect_cases ts p) as [[Hge _] | [_ H]]; [lia|].
    cbv zeta in H. tauto.
  - intros Hge. destruct (scheduleReconnect_cases ts p) as [[_ E] | [Hlt _]]; [|lia].
    rewrite E.
    pose proof (updateWebSocketStatus_quiet "failed" p _
                  (addConsoleMessage_quiet ts "error"
                     "Max reconnection attempts reached. Please refresh the page." true
                     p p (quiet_refl p))) as (_ & _ & Q3 & _).
    exact Q3.
  - split; reflexivity.
  - intros ts0 constructs lines0 page0 events Hr.
    pose proof (run_connected functionResponseIn events _ p
                  (init_connected ts0 constructs lines0 page0) Hr)
      as ((_ & _ & D) & _).
    exact D.
Qed.

(** The panel on a page with an empty console; the server is down, so
    the first socket closes and the first reconnect timer runs. *)
Definition noResponses : string -> option YapResponse := fun _ => None.

Definition started : State := init "12:00:00" true [] plainPage.

Definition firstFailure : list Event :=
  [SocketError 1 "12:00:01"; SocketCloses 1 "12:00:01"; TimerRuns 2 "12:00:02" true].

Definition afterFirstFailure : State :=
  match run noResponses started firstFailure with
  | Some p => p
  | None => started
  end.

Lemma firstFailure_runs : run noResponses started firstFailure = Some afterFirstFailure.
Proof.
  vm_compute. reflexivity.
Qed.

Lemma C3_reconnect_backoff_witness :
  reconnectAttempts (conn afterFirstFailure) < maxReconnectAttempts (conn afterFirstFailure)
  /\ reconnectDelay (conn (scheduleReconnect "12:00:03" afterFirstFailure))
     = Z.min (2 * reconnectDelay (conn afterFirstFailure)) 30000
  /\ 1000 <= reconnectDelay (conn afterFirstFailure) <= 30000.
Proof.
  assert (H : reconnectAttempts (conn afterFirstFailure)
              < maxReconnectAttempts (conn afterFirstFailure)) by (vm_compute; reflexivity).
  destruct (C3_reconnect_backoff noResponses "12:00:03" afterFirstFailure)
    as (_ & H1 & _ & _ & H2).
  split; [exact H|]. split; [exact (H1 H)|].
  exact (H2 "12:00:00" true [] plainPage firstFailure firstFailure_runs).
Defined.

(** C4.  [scheduleReconnect] sets the reconnect timer only when fewer
    than [maxReconnectAttempts] attempts were made, and the maximum is 5;
    otherwise it shows the status [Failed] and sets no timer.  In every
    state the panel reaches, at most 5 attempts are counted, and in a run
    from such a state in which no socket opens at most 5 reconnect
    attempts are made. *)
Theorem C4_reconnect_bounded (functionResponseIn : string -> option YapResponse)
    (ts : string) (p : State) :
  (forall lines0 page0, maxReconnectAttempts (conn (constructed lines0 page0)) = 5)
  /\ (reconnectAttempts (conn p) < maxReconnectAttempts (conn p) ->
      timers (browser (scheduleReconnect ts p))
      = timers (browser p)
        ++ [mkTimer (nextId (browser p)) (reconnectDelay (conn p)) Reconnect])
  /\ (maxReconnectAttempts (conn p) <= reconnectAttempts (conn p) ->
      timers (browser (scheduleReconnect ts p)) = timers (browser p)
      /\ wsStatus_text (conn (scheduleReconnect ts p)) = "Failed")
  /\ (forall ts0 constructs lines0 page0 events,
         run functionResponseIn (init ts0 constructs lines0 page0) events = Some p ->
         maxReconnectAttempts (conn p) = 5
         /\ 0 <= reconnectAttempts (conn p) <= 5
         /\ forall more p',
             run functionResponseIn p more = Some p' ->
             forallb (fun e => negb (isOpenEvent e)) more = true ->
             (reconnectAttemptsIn functionResponseIn p more <= 5)%nat).
Proof.
  split; [reflexivity|]. split; [|split].
  - intros Hlt. destruct (scheduleReconnect_cases ts p) as [[Hge _] | [_ H]]; [lia|].
    cbv zeta in H. tauto.
  - intros Hge. destruct (scheduleReconnect_cases ts p) as [[_ E] | [Hlt _]]; [|lia].
    rewrite E. split; reflexivity.
  - intros ts0 constructs lines0 page0 events Hr.
    pose proof (run_connected functionResponseIn events _ p
                  (init_connected ts0 constructs lines0 page0) Hr) as Hc.
    pose proof Hc as ((M & A & D) & _).
    split; [exact M|]. split; [exact A|].
    intros more p' Hmore Hno.
    pose proof (run_attempts functionResponseIn more p p' Hc Hmore Hno) as E.
    destruct (run_connected functionResponseIn more p p' Hc Hmore) as ((_ & A' & _) & _).
    lia.
Qed.

(** Five failures in a row: the sixth close finds the attempts used
    up. *)
Definition fiveFailures : list Event :=
  [SocketCloses 1 "12:00:01"; TimerRuns 2 "12:00:02" true;
   SocketCloses 3 "12:00:03"; TimerRuns 4 "12:00:05" true;
   SocketCloses 5 "12:00:06"; TimerRuns 6 "12:00:10" true;
   SocketCloses 7 "12:00:11"; TimerRuns 8 "12:00:19" true;
   SocketCloses 9 "12:00:20"; TimerRuns 10 "12:00:36" true;
   SocketCloses 11 "12:00:37"].

Lemma C4_reconnect_bounded_witness :
  run noResponses started [] = Some started
  /\ forallb (fun e => negb (isOpenEvent e)) fiveFailures = true
  /\ option_map (fun p => (reconnectAttempts (conn p), wsStatus_text (conn p),
                           timers (browser p)))
       (run noResponses started fiveFailures)
     = Some (5, "Failed", [])
  /\ (reconnectAttemptsIn noResponses started fiveFailures <= 5)%nat.
Proof.
  split; [reflexivity|]. split; [reflexivity|]. split; [vm_compute; reflexivity|].
  destruct (C4_reconnect_bounded noResponses "12:00:00" started) as (_ & _ & _ & H).
  destruct (H "12:00:00" true [] plainPage [] eq_refl) as (_ & _ & Hruns).
  destruct (run noResponses started fiveFailures) as [p'|] eqn:E.
  - exact (Hruns fiveFailures p' E eq_refl).
  - vm_compute in E. discriminate E.
Defined.

End PanelFacts.

(* ================================================================== *)
(** * More of the memory manager: pages, categories, loading *)
(* ================================================================== *)

Module MemoryMore.
Import Js MemoryUI MemoryFacts.

(** ** Pages *)

Definition countOf (s : State) : Z := Z.of_nat (List.length (filteredMemories s)).

Lemma totalPages_bounds (n : Z) :
  0 <= n -> (ceilDiv n 20 - 1) * 20 < n <= ceilDiv n 20 * 20 \/ (n = 0 /\ ceilDiv n 20 = 0).
Proof.
  intros Hn. unfold ceilDiv.
  destruct (Z.eq_dec n 0) as [-> | Hne]; [right; split; reflexivity|].
  left. pose proof (Z.div_mod (n + 20 - 1) 20 ltac:(lia)) as E.
  pose proof (Z.mod_pos_bound (n + 20 - 1) 20 ltac:(lia)) as B. lia.
Qed.

Lemma totalPagesOf_bounds (s : State) :
  (filteredMemories s = [] /\ totalPagesOf s = 0)
  \/ (filteredMemories s <> []
      /\ (totalPagesOf s - 1) * 20 < countOf s <= totalPagesOf s * 20
      /\ 1 <= totalPagesOf s).
Proof.
  unfold totalPagesOf, countOf, itemsPerPage.
  destruct (filteredMemories s) as [|m l] eqn:E.
  - left. split; reflexivity.
  - right. split; [discriminate|].
    destruct (totalPages_bounds (Z.of_nat (List.length (m :: l))) ltac:(lia))
      as [H | [H _]]; [|simpl in H; lia].
    split; [exact H|]. simpl List.length in *. lia.
Qed.

Lemma updatePagination_frame (s : State) :
  let s' := updatePagination s in
  tableView (elements s') = tableView (elements s)
  /\ filters (elements s') = filters (elements s)
  /\ modals (elements s') = modals (elements s)
  /\ currentSort s' = currentSort s
  /\ isAnyModalOpen s' = isAnyModalOpen s
  /\ isViewingMemory s' = isViewingMemory s
  /\ lastViewMemoryTime s' = lastViewMemoryTime s.
Proof.
  unfold updatePagination.
  destruct ((_ <? currentPage s) && _); [now repeat split|].
  destruct (currentPage s <? 1); now repeat split.
Qed.

Lemma updatePagination_page (s : State) :
  currentPage (updatePagination s)
  = if (totalPagesOf s <? currentPage s) && (0 <? totalPagesOf s) then totalPagesOf s
    else if currentPage s <? 1 then 1 else currentPage s.
Proof.
  unfold updatePagination, totalPagesOf.
  destruct ((_ <? currentPage s) && _); [reflexivity|].
  destruct (currentPage s <? 1); reflexivity.
Qed.

Lemma updatePagination_buttons (s : State) :
  let s' := updatePagination s in
  let v := pageView (elements s') in
  prevPageBtn_disabled v = (currentPage s' <=? 1)
  /\ nextPageBtn_disabled v = (totalPagesOf s <=? currentPage s')
  /\ paginationContainer_hidden v = (totalPagesOf s <=? 1).
Proof.
  unfold updatePagination, totalPagesOf.
  destruct ((_ <? currentPage s) && _); [now repeat split|].
  destruct (currentPage s <? 1); now repeat split.
Qed.

(** X1.  [updatePagination] brings the current page into range: it is
    at least 1, and at most the number of pages when there is a memory to
    show; a page that is in range stays.  "Previous" is disabled exactly
    on the first page, "next" exactly on the last page or beyond, and the
    pagination bar is hidden when there is at most one page. *)
Theorem X1_updatePagination_clamps (s : State) :
  let s' := updatePagination s in
  totalPagesOf s' = totalPagesOf s
  /\ 1 <= currentPage s'
  /\ (filteredMemories s <> [] -> currentPage s' <= totalPagesOf s)
  /\ (1 <= currentPage s <= totalPagesOf s -> currentPage s' = currentPage s)
  /\ prevPageBtn_disabled (pageView (elements s')) = (currentPage s' <=? 1)
  /\ nextPageBtn_disabled (pageView (elements s')) = (totalPagesOf s <=? currentPage s')
  /\ paginationContainer_hidden (pageView (elements s')) = (totalPagesOf s <=? 1).
Proof.
  intros s'. subst s'.
  pose proof (updatePagination_page s) as Hp.
  pose proof (updatePagination_buttons s) as (B1 & B2 & B3).
  split.
  { unfold totalPagesOf. now rewrite (proj1 (updatePagination_memories s)). }
  split; [|split; [|split]].
  - rewrite Hp.
    destruct (Z.ltb_spec (totalPagesOf s) (currentPage s)),
             (Z.ltb_spec 0 (totalPagesOf s)),
             (Z.ltb_spec (currentPage s) 1); simpl; lia.
  - intros Hne. rewrite Hp.
    destruct (totalPagesOf_bounds s) as [[E _] | (_ & _ & H1)]; [contradiction|].
    destruct (Z.ltb_spec (totalPagesOf s) (currentPage s)),
             (Z.ltb_spec 0 (totalPagesOf s)),
             (Z.ltb_spec (currentPage s) 1); simpl; lia.
  - intros H. rewrite Hp.
    destruct (Z.ltb_spec (totalPagesOf s) (currentPage s)),
             (Z.ltb_spec 0 (totalPagesOf s)),
             (Z.ltb_spec (currentPage s) 1); simpl; lia.
  - repeat split; assumption.
Qed.

(** Page 7 is current and two memories are left. *)
Definition farPageState : State :=
  set_currentPage 7
    (set_filteredMemories [memoryA; memoryB]
       (set_currentMemories [memoryA; memoryB] (initialState emptyForm))).

Lemma X1_updatePagination_clamps_witness :
  filteredMemories farPageState <> []
  /\ currentPage (updatePagination farPageState) <= totalPagesOf farPageState
  /\ 1 <= currentPage (updatePagination farPageState).
Proof.
  assert (H : filteredMemories farPageState <> []) by discriminate.
  destruct (X1_updatePagination_clamps farPageState) as (_ & H1 & H2 & _).
  split; [exact H|]. split; [exact (H2 H) | exact H1].
Defined.

(** ** The rows of the table *)

Lemma firstn_skipn_add {X : Type} (a b : nat) (l : list X) :
  firstn a l ++ firstn b (skipn a l) = firstn (a + b) l.
Proof.
  revert l. induction a as [|a IH]; intros l; [reflexivity|].
  destruct l as [|x l]; simpl.
  - now rewrite firstn_nil.
  - now rewrite IH.
Qed.

(** Cutting a list into pieces of [c] and gluing the first [m] pieces
    gives its first [c * m] elements. *)
Lemma chunks_concat {X : Type} (c m : nat) (l : list X) :
  List.concat (map (fun i => firstn c (skipn (c * i) l)) (seq 0 m)) = firstn (c * m) l.
Proof.
  induction m as [|m IH].
  - now rewrite Nat.mul_0_r.
  - rewrite seq_S, map_app, List.concat_app, IH. simpl.
    rewrite app_nil_r, firstn_skipn_add. f_equal. lia.
Qed.

(** The slice of page [k + 1]. *)
Lemma slice_page {X : Type} (l : list X) (k : Z) :
  0 <= k ->
  slice l (k * 20) (k * 20 + 20) = firstn 20 (skipn (Z.to_nat (k * 20)) l).
Proof.
  intros Hk. unfold slice.
  destruct (Z.ltb_spec (k * 20) 0) as [H | _]; [lia|].
  destruct (Z.ltb_spec (k * 20 + 20) 0) as [H | _]; [lia|].
  set (len := Z.of_nat (List.length l)).
  destruct (Z.le_gt_cases len (k * 20)) as [Hbig | Hsmall].
  - rewrite (Z.min_r (k * 20) len) by lia.
    rewrite (Z.min_r (k * 20 + 20) len) by lia.
    rewrite Z.sub_diag, Z.max_r by lia.
    rewrite (skipn_all2 (n := Z.to_nat (k * 20)) l) by (subst len; lia).
    rewrite firstn_nil. reflexivity.
  - rewrite (Z.min_l (k * 20) len) by lia.
    destruct (Z.le_gt_cases (k * 20 + 20) len) as [Hfull | Hpart].
    + rewrite (Z.min_l (k * 20 + 20) len) by lia.
      replace (Z.to_nat (Z.max (k * 20 + 20 - k * 20) 0)) with 20%nat by lia.
      reflexivity.
    + rewrite (Z.min_r (k * 20 + 20) len) by lia.
      rewrite !firstn_all2; try reflexivity; rewrite length_skipn; subst len; lia.
Qed.

Lemma renderMemoryTable_view (s : State) :
  let v := tableView (elements (renderMemoryTable s)) in
  (filteredMemories s = [] ->
   emptyState_hidden v = false /\ memoryTableContainer_hidden v = true
   /\ memoryTableBody v = memoryTableBody (tableView (elements s))
   /\ paginationContainer_hidden (pageView (elements (renderMemoryTable s))) = true)
  /\ (filteredMemories s <> [] ->
      emptyState_hidden v = true /\ memoryTableContainer_hidden v = false
      /\ memoryTableBody v
         = slice (filteredMemories s) ((currentPage s - 1) * 20)
             ((currentPage s - 1) * 20 + 20)).
Proof.
  unfold renderMemoryTable, itemsPerPage.
  destruct (filteredMemories s) as [|m l] eqn:E; simpl List.length.
  - simpl. split; [now repeat split | intros H; contradiction].
  - destruct (Z.eqb_spec (Z.of_nat (S (List.length l))) 0) as [H | _]; [lia|].
    split; [discriminate|]. intros _. now repeat split.
Qed.

Lemma renderMemoryTable_frame (s : State) :
  let s' := renderMemoryTable s in
  currentPage s' = currentPage s /\ currentSort s' = currentSort s
  /\ filters (elements s') = filters (elements s)
  /\ modals (elements s') = modals (elements s)
  /\ isAnyModalOpen s' = isAnyModalOpen s /\ isViewingMemory s' = isViewingMemory s
  /\ lastViewMemoryTime s' = lastViewMemoryTime s.
Proof.
  unfold renderMemoryTable. destruct (_ =? 0); now repeat split.
Qed.

(** The rows of the page [page] of a list. *)
Definition rowsOfPage (l : list Memory) (page : Z) : list Memory :=
  firstn 20 (skipn (Z.to_nat ((page - 1) * 20)) l).

Lemma rowsOfPage_some (l : list Memory) (page : Z) :
  1 <= page -> (page - 1) * 20 < Z.of_nat (List.length l) ->
  rowsOfPage l page <> [] /\ (List.length (rowsOfPage l page) <= 20)%nat.
Proof.
  intros H1 H2. unfold rowsOfPage. split.
  - intros E. apply (f_equal (@List.length Memory)) in E.
    rewrite length_firstn, length_skipn in E.
    change (List.length (@nil Memory)) with 0%nat in E. lia.
  - rewrite length_firstn. lia.
Qed.

Section Shown.
Variable Date_parse : string -> option Z.

(** X2.  After [applyFiltersAndSearch], when a memory passes the
    filters the table is visible and holds exactly the rows of the
    current page of the sorted result: at least one row and at most 20;
    when none passes, the empty state is shown, the table and the
    pagination bar are hidden and the rows of the table are left as they
    were. *)
Theorem X2_applyFiltersAndSearch_shows_page (s : State) :
  let s' := applyFiltersAndSearch Date_parse s in
  let v := tableView (elements s') in
  (filteredMemories s' <> [] ->
   memoryTableBody v = rowsOfPage (filteredMemories s') (currentPage s')
   /\ memoryTableBody v <> []
   /\ (List.length (memoryTableBody v) <= 20)%nat
   /\ 1 <= currentPage s' <= totalPagesOf s'
   /\ memoryTableContainer_hidden v = false /\ emptyState_hidden v = true)
  /\ (filteredMemories s' = [] ->
      memoryTableContainer_hidden v = true /\ emptyState_hidden v = false
      /\ paginationContainer_hidden (pageView (elements s')) = true
      /\ memoryTableBody v = memoryTableBody (tableView (elements s))).
Proof.
  intros s' v. subst v s'. unfold applyFiltersAndSearch.
  set (s1 := applySorting Date_parse _).
  set (s2 := updatePagination s1).
  assert (Hf : filteredMemories (renderMemoryTable s2) = filteredMemories s2)
    by apply renderMemoryTable_memories.
  assert (Hp : currentPage (renderMemoryTable s2) = currentPage s2)
    by apply renderMemoryTable_frame.
  assert (Ht : totalPagesOf (renderMemoryTable s2) = totalPagesOf s2)
    by (unfold totalPagesOf; now rewrite Hf).
  rewrite Hf, Hp, Ht.
  destruct (renderMemoryTable_view s2) as [Hempty Hsome].
  split.
  - intros Hne. destruct (Hsome Hne) as (H1 & H2 & H3).
    assert (Hne1 : filteredMemories s1 <> []).
    { unfold s2 in Hne. now rewrite (proj1 (updatePagination_memories s1)) in Hne. }
    assert (Hrange : 1 <= currentPage s2 <= totalPagesOf s2).
    { unfold s2. rewrite updatePagination_page.
      assert (E : totalPagesOf (updatePagination s1) = totalPagesOf s1)
        by (unfold totalPagesOf; now rewrite (proj1 (updatePagination_memories s1))).
      rewrite E.
      destruct (totalPagesOf_bounds s1) as [[E0 _] | (_ & _ & Hpos)]; [contradiction|].
      destruct (Z.ltb_spec (totalPagesOf s1) (currentPage s1)),
               (Z.ltb_spec 0 (totalPagesOf s1)),
               (Z.ltb_spec (currentPage s1) 1); cbn [andb]; lia. }
    destruct (totalPagesOf_bounds s2) as [[E0 _] | (_ & Hb & _)]; [contradiction|].
    unfold countOf in Hb.
    rewrite H3, slice_page by lia.
    fold (rowsOfPage (filteredMemories s2) (currentPage s2)).
    destruct (rowsOfPage_some (filteredMemories s2) (currentPage s2)) as [R1 R2];
      try nia.
    repeat split; try assumption; lia.
  - intros He. destruct (Hempty He) as (H1 & H2 & H3 & H4).
    repeat split; try assumption.
    rewrite H3. unfold s2.
    rewrite (proj1 (updatePagination_frame s1)). reflexivity.
Qed.
End Shown.

Definition twoMemoriesState : State :=
  set_currentPage 4 (set_currentMemories [memoryB; memoryA] (initialState emptyForm)).

Lemma X2_applyFiltersAndSearch_shows_page_witness :
  filteredMemories (applyFiltersAndSearch noDates twoMemoriesState) <> []
  /\ memoryTableBody (tableView (elements (applyFiltersAndSearch noDates twoMemoriesState)))
     <> [].
Proof.
  assert (H : filteredMemories (applyFiltersAndSearch noDates twoMemoriesState) <> [])
    by (vm_compute; discriminate).
  split; [exact H|].
  exact (proj1 (proj2 (proj1 (X2_applyFiltersAndSearch_shows_page noDates twoMemoriesState)
                         H))).
Defined.

(** X3.  [changePage] ignores a page that is not between 1 and the
    number of pages; for a page in that range it makes the page current
    and puts its rows in the table.  The pages 1 to the last, shown one
    after the other, are the filtered memories in order: no memory is left
    out and none is shown twice. *)
Theorem X3_changePage_partition (s : State) :
  (forall page, page < 1 \/ totalPagesOf s < page -> changePage page s = s)
  /\ (forall page, 1 <= page <= totalPagesOf s ->
        currentPage (changePage page s) = page
        /\ filteredMemories (changePage page s) = filteredMemories s
        /\ memoryTableBody (tableView (elements (changePage page s)))
           = rowsOfPage (filteredMemories s) page
        /\ memoryTableBody (tableView (elements (changePage page s))) <> [])
  /\ List.concat (map (fun k => memoryTableBody
                             (tableView (elements (changePage (Z.of_nat k) s))))
               (seq 1 (Z.to_nat (totalPagesOf s))))
     = filteredMemories s.
Proof.
  assert (Hin : forall page, 1 <= page <= totalPagesOf s ->
            currentPage (changePage page s) = page
            /\ filteredMemories (changePage page s) = filteredMemories s
            /\ memoryTableBody (tableView (elements (changePage page s)))
               = rowsOfPage (filteredMemories s) page
            /\ memoryTableBody (tableView (elements (changePage page s))) <> []).
  { intros page Hr. unfold changePage.
    destruct (Z.leb_spec 1 page) as [_ | H]; [|lia].
    destruct (Z.leb_spec page (totalPagesOf s)) as [_ | H]; [|lia]. simpl andb. cbv iota.
    set (s1 := set_currentPage page s).
    assert (Hf1 : filteredMemories s1 = filteredMemories s) by reflexivity.
    destruct (totalPagesOf_bounds s) as [[_ E0] | (Hne & Hb & _)]; [lia|].
    assert (Hf2 : filteredMemories (renderMemoryTable s1) = filteredMemories s)
      by (rewrite (proj1 (renderMemoryTable_memories s1)); exact Hf1).
    assert (Ht : totalPagesOf (renderMemoryTable s1) = totalPagesOf s)
      by (unfold totalPagesOf; now rewrite Hf2).
    assert (Hc : currentPage (renderMemoryTable s1) = page)
      by (rewrite (proj1 (renderMemoryTable_frame s1)); reflexivity).
    destruct (renderMemoryTable_view s1) as [_ Hsome].
    destruct (Hsome Hne) as (_ & _ & Hrows).
    change (currentPage s1) with page in Hrows. rewrite Hf1, slice_page in Hrows by lia.
    fold (rowsOfPage (filteredMemories s) page) in Hrows.
    split.
    { rewrite updatePagination_page, Ht, Hc.
      destruct (Z.ltb_spec (totalPagesOf s) page), (Z.ltb_spec 0 (totalPagesOf s)),
               (Z.ltb_spec page 1); cbn [andb]; lia. }
    split.
    { rewrite (proj1 (updatePagination_memories _)). exact Hf2. }
    rewrite (proj1 (updatePagination_frame _)), Hrows.
    split; [reflexivity|].
    unfold countOf in Hb. apply rowsOfPage_some; nia. }
  split; [|split; [exact Hin|]].
  - intros page Hout. unfold changePage.
    destruct (Z.leb_spec 1 page), (Z.leb_spec page (totalPagesOf s)); cbn [andb];
      try reflexivity; lia.
  - destruct (totalPagesOf_bounds s) as [[E E0] | (Hne & Hb & Hpos)].
    + rewrite E0, E. reflexivity.
    + set (m := Z.to_nat (totalPagesOf s)).
      rewrite (map_ext_in _ (fun k => rowsOfPage (filteredMemories s) (Z.of_nat k))).
      * rewrite <- seq_shift, map_map.
        rewrite (map_ext _ (fun i => firstn 20 (skipn (20 * i) (filteredMemories s)))).
        { rewrite chunks_concat. apply firstn_all2. unfold countOf in Hb. lia. }
        intros i. unfold rowsOfPage. do 2 f_equal. lia.
      * intros k Hk. apply in_seq in Hk. apply Hin. lia.
Qed.

Definition fortyOneState : State :=
  set_filteredMemories (repeat memoryA 41)
    (set_currentMemories (repeat memoryA 41) (initialState emptyForm)).

Lemma X3_changePage_partition_witness :
  1 <= 3 <= totalPagesOf fortyOneState
  /\ changePage 4 fortyOneState = fortyOneState
  /\ currentPage (changePage 3 fortyOneState) = 3
  /\ memoryTableBody (tableView (elements (changePage 3 fortyOneState))) = [memoryA].
Proof.
  assert (H : 1 <= 3 <= totalPagesOf fortyOneState) by (vm_compute; split; discriminate).
  assert (H4 : 4 < 1 \/ totalPagesOf fortyOneState < 4) by (right; vm_compute; reflexivity).
  destruct (X3_changePage_partition fortyOneState) as (Hout & Hin & _).
  destruct (Hin 3 H) as (H1 & _ & H3 & _).
  split; [exact H|]. split; [exact (Hout 4 H4)|]. split; [exact H1|].
  rewrite H3. vm_compute. reflexivity.
Defined.

(** ** Sorting by a header *)

Definition flipped (d : Direction) : Direction :=
  match d with asc => desc | desc => asc end.

Section Headers.
Variable Date_parse : string -> option Z.

Lemma handleSort_sort (fld : string) (s : State) :
  currentSort (handleSort Date_parse fld s)
  = if (field (currentSort s) =? fld)%string
    then mkSort (field (currentSort s)) (flipped (direction (currentSort s)))
    else mkSort fld asc.
Proof.
  unfold handleSort.
  rewrite (proj1 (proj2 (renderMemoryTable_frame _))). unfold applySorting.
  destruct (field (currentSort s) =? fld)%string; reflexivity.
Qed.

(** X4.  [handleSort] on the header of the field already sorted by
    flips the direction, so a second click restores it; on another header
    it sorts by that field, ascending.  When the new comparison is
    consistent on the list (it is unless a date of the list is
    invalid), the list it leaves is in the order of the new comparison
    and keeps the memories that compare equal in the order they had.
    The current page and [currentMemories] are as before. *)
Theorem X4_handleSort_header (fld : string) (s : State) :
  let s' := handleSort Date_parse fld s in
  let cmp := compareFn Date_parse (currentSort s') in
  (field (currentSort s) = fld ->
   currentSort s' = mkSort fld (flipped (direction (currentSort s)))
   /\ currentSort (handleSort Date_parse fld s') = currentSort s)
  /\ (field (currentSort s) <> fld -> currentSort s' = mkSort fld asc)
  /\ (consistentOn cmp (filteredMemories s) ->
      StronglySorted (inOrder cmp) (filteredMemories s')
      /\ keepsTies cmp (filteredMemories s) (filteredMemories s'))
  /\ currentPage s' = currentPage s
  /\ currentMemories s' = currentMemories s.
Proof.
  intros s' cmp. subst s' cmp. split; [|split; [|split; [|split]]].
  - intros E. rewrite !handleSort_sort.
    rewrite (proj2 (String.eqb_eq _ _) E). cbn [field direction].
    rewrite E, String.eqb_refl. split; [reflexivity|].
    destruct (currentSort s) as [f d]. simpl in E. subst f. now destruct d.
  - intros E. rewrite handleSort_sort. now rewrite (proj2 (String.eqb_neq _ _) E).
  - unfold handleSort.
    rewrite (proj1 (renderMemoryTable_memories _)).
    rewrite (proj1 (proj2 (renderMemoryTable_frame _))).
    unfold applySorting. cbn [filteredMemories set_filteredMemories currentSort].
    set (s1 := if (field (currentSort s) =? fld)%string then _ else _).
    replace (filteredMemories s1) with (filteredMemories s)
      by (subst s1; now destruct (_ =? _)%string).
    intros Hc.
    pose proof (compareFn_antisym Date_parse (currentSort s1)) as Ha.
    pose proof (compareFn_trans Date_parse (currentSort s1)) as Ht.
    split; [now apply sort_ordered | now apply sort_keepsTies].
  - unfold handleSort. rewrite (proj1 (renderMemoryTable_frame _)).
    unfold applySorting. destruct (_ =? _)%string; reflexivity.
  - unfold handleSort. rewrite (proj2 (renderMemoryTable_memories _)).
    unfold applySorting. destruct (_ =? _)%string; reflexivity.
Qed.
End Headers.

Lemma X4_handleSort_header_witness :
  field (currentSort tiedState) = "access_count"
  /\ currentSort (handleSort noDates "access_count" tiedState) = mkSort "access_count" asc
  /\ currentSort (handleSort noDates "access_count"
                    (handleSort noDates "access_count" tiedState))
     = currentSort tiedState
  /\ consistentOn (compareFn noDates (mkSort "access_count" asc)) [memoryA; memoryB]
  /\ filter (tied (compareFn noDates (mkSort "access_count" asc)) memoryA)
       (filteredMemories (handleSort noDates "access_count" tiedState))
     = [memoryA; memoryB].
Proof.
  assert (H : field (currentSort tiedState) = "access_count") by reflexivity.
  assert (C : consistentOn (compareFn noDates (mkSort "access_count" asc))
                [memoryA; memoryB]).
  { apply compareFn_consistent, comparison_consistent.
    intros E. vm_compute in E. discriminate E. }
  destruct (X4_handleSort_header noDates "access_count" tiedState) as (H1 & _ & H3 & _).
  destruct (H1 H) as (Ha & Hb).
  split; [exact H|]. split; [exact Ha|]. split; [exact Hb|]. split; [exact C|].
  destruct (H3 C) as (_ & Hk).
  exact (Hk memoryA (or_introl eq_refl)).
Defined.

(** ** The category filter *)

Lemma unique_In (l seen : list string) (x : string) :
  In x (unique seen l) <-> In x l /\ ~ In x seen.
Proof.
  revert seen. induction l as [|y l IH]; intros seen; simpl; [tauto|].
  destruct (existsb (String.eqb y) seen) eqn:E.
  - apply existsb_exists in E. destruct E as (z & Hz & Ez).
    apply String.eqb_eq in Ez. subst z. rewrite IH. intuition congruence.
  - assert (Hy : ~ In y seen).
    { intros Hin. apply Bool.not_true_iff_false in E. apply E.
      apply existsb_exists. exists y. split; [exact Hin | apply String.eqb_refl]. }
    simpl. rewrite IH. simpl.
    destruct (string_dec y x) as [-> | Hne]; intuition congruence.
Qed.

Lemma unique_NoDup (l seen : list string) : NoDup (unique seen l).
Proof.
  revert seen. induction l as [|y l IH]; intros seen; simpl; [constructor|].
  destruct (existsb (String.eqb y) seen); [apply IH|].
  constructor; [|apply IH]. rewrite unique_In. simpl. tauto.
Qed.

Lemma defaultCompare_sign (a b : string) :
  defaultCompare a b = sign (String.compare a b).
Proof.
  unfold defaultCompare, strLt, strGt. now destruct (String.compare a b).
Qed.

Lemma defaultCompare_antisym (a b : string) : defaultCompare b a = - defaultCompare a b.
Proof.
  rewrite !defaultCompare_sign, (String.compare_antisym b a).
  now destruct (String.compare a b).
Qed.

Lemma defaultCompare_trans (a b c : string) :
  defaultCompare a b < 0 -> defaultCompare b c < 0 -> defaultCompare a c < 0.
Proof.
  rewrite !defaultCompare_sign, !sign_neg. apply string_compare_lt_trans.
Qed.

Lemma NoDup_noTies (l : list string) : NoDup l -> noTies defaultCompare l.
Proof.
  induction 1 as [|x l Hx Hl IH]; constructor; [|exact IH].
  apply Forall_forall. intros y Hy E. rewrite defaultCompare_sign in E.
  destruct (String.compare x y) eqn:C; try discriminate.
  apply String.compare_eq_iff in C. subst y. contradiction.
Qed.

(** X5.  After [updateCategoryFilter] the options of the category
    filter are the categories of [currentMemories], each once, in strictly
    increasing order of their code units; the category that was chosen
    stays chosen when it is still among them and "all categories" is
    chosen otherwise; the search box and the type filter are as before. *)
Theorem X5_updateCategoryFilter_options (s : State) :
  let f := filters (elements s) in
  let f' := filters (elements (updateCategoryFilter s)) in
  (forall c, In c (categoryFilter_options f') <->
             exists m, In m (currentMemories s) /\ category m = c)
  /\ StronglySorted (fun a b => String.compare a b = Lt) (categoryFilter_options f')
  /\ (In (categoryFilter_value f) (categoryFilter_options f') ->
      categoryFilter_value f' = categoryFilter_value f)
  /\ (~ In (categoryFilter_value f) (categoryFilter_options f') ->
      categoryFilter_value f' = "")
  /\ searchInput_value f' = searchInput_value f
  /\ memoryTypeFilter_value f' = memoryTypeFilter_value f
  /\ currentMemories (updateCategoryFilter s) = currentMemories s.
Proof.
  intros f f'. subst f f'. unfold updateCategoryFilter. simpl.
  set (cats := sort defaultCompare (unique [] (map category (currentMemories s)))).
  split; [|split; [|split; [|split]]].
  - intros c. unfold cats. split.
    + intros H. apply (Permutation_in _ (sort_perm defaultCompare _)) in H.
      apply unique_In in H. destruct H as [H _].
      apply in_map_iff in H. destruct H as (m & Hm & Hin). now exists m.
    + intros (m & Hin & Hm).
      apply (Permutation_in _ (Permutation_sym (sort_perm defaultCompare _))).
      apply unique_In. split; [|simpl; tauto].
      apply in_map_iff. now exists m.
  - assert (H : StronglySorted (before defaultCompare) cats).
    { apply sort_StronglySorted.
      - apply defaultCompare_antisym.
      - apply defaultCompare_trans.
      - apply NoDup_noTies, unique_NoDup. }
    revert H. apply StronglySorted_ind; [constructor|].
    intros a l Hl IH Ha. constructor; [exact IH|].
    revert Ha. apply Forall_impl. intros b. unfold before.
    rewrite defaultCompare_sign. apply sign_neg.
  - intros Hin.
    destruct (existsb (String.eqb (categoryFilter_value (filters (elements s)))) cats)
      eqn:E; [reflexivity|].
    apply Bool.not_true_iff_false in E. exfalso. apply E.
    apply existsb_exists. eexists. split; [exact Hin | apply String.eqb_refl].
  - intros Hnot.
    destruct (existsb (String.eqb (categoryFilter_value (filters (elements s)))) cats)
      eqn:E; [|reflexivity].
    apply existsb_exists in E. destruct E as (c & Hc & Ec).
    apply String.eqb_eq in Ec. subst c. contradiction.
  - repeat split.
Qed.

(** The category [notes] was chosen, and no memory has it any more. *)
Definition staleCategoryState : State :=
  upd_elements (set_filters (mkFilters "" "" "notes" ["general"; "notes"]))
    (set_currentMemories [memoryB; memoryA] (initialState emptyForm)).

Lemma X5_updateCategoryFilter_options_witness :
  ~ In "notes" (categoryFilter_options
                  (filters (elements (updateCategoryFilter staleCategoryState))))
  /\ categoryFilter_value (filters (elements (updateCategoryFilter staleCategoryState))) = ""
  /\ categoryFilter_options (filters (elements (updateCategoryFilter staleCategoryState)))
     = ["general"].
Proof.
  assert (H : ~ In (categoryFilter_value (filters (elements staleCategoryState)))
                (categoryFilter_options
                   (filters (elements (updateCategoryFilter staleCategoryState))))).
  { vm_compute. intros [E | []]. discriminate E. }
  destruct (X5_updateCategoryFilter_options staleCategoryState) as (_ & _ & _ & H4 & _).
  split; [exact H|]. split; [exact (H4 H)|]. vm_compute. reflexivity.
Defined.

(** ** Loading *)

(** The data of an answer [loadMemories] takes: the request resolved
    with a JSON content type and an [ok] status, the body parsed, and
    [success] is set. *)
Definition accepted (answer : Fetched ListData) : option ListData :=
  match answer with
  | Resolved r =>
      if isJson (contentType r) && ok r then
        match json r with
        | ParsedAs d => if list_success d then Some d else None
        | ParseError _ => None
        end
      else None
  | Rejected _ => None
  end.

(** The same for [loadMemoryStats], whose answer must hold [stats]. *)
Definition acceptedStats (answer : Fetched StatsData) : option Stats :=
  match answer with
  | Resolved r =>
      if isJson (contentType r) && ok r then
        match json r with
        | ParsedAs d => if stats_success d then stats d else None
        | ParseError _ => None
        end
      else None
  | Rejected _ => None
  end.

Definition listRequest (API_BASE : string) (s : State) : Request :=
  mkRequest "GET" (API_BASE +++ "/api/memory/list") (listParams s) false None.

Definition statsRequest (API_BASE : string) : Request :=
  mkRequest "GET" (API_BASE +++ "/api/memory/stats") [] false None.

Section LoadingFacts.
Variable Date_parse : string -> option Z.
Variable API_BASE : string.

Lemma applyFiltersAndSearch_none (s : State) :
  currentMemories s = [] ->
  filteredMemories (applyFiltersAndSearch Date_parse s) = []
  /\ emptyState_hidden (tableView (elements (applyFiltersAndSearch Date_parse s))) = false
  /\ memoryTableContainer_hidden
       (tableView (elements (applyFiltersAndSearch Date_parse s))) = true.
Proof.
  intros E.
  pose proof (applyFiltersAndSearch_filtered Date_parse s) as P.
  rewrite E in P. simpl in P. apply Permutation_sym, Permutation_nil in P.
  split; [exact P|].
  unfold applyFiltersAndSearch in *.
  match goal with
  | |- context [renderMemoryTable ?x] =>
      destruct (renderMemoryTable_view x) as [Hempty _];
      rewrite (proj1 (renderMemoryTable_memories x)) in P;
      destruct (Hempty P) as (H1 & H2 & _)
  end.
  split; assumption.
Qed.

Lemma hideLoading_frame (s : State) :
  loadingState_hidden (tableView (elements (hideLoading s))) = true
  /\ currentMemories (hideLoading s) = currentMemories s
  /\ filteredMemories (hideLoading s) = filteredMemories s
  /\ emptyState_hidden (tableView (elements (hideLoading s)))
     = emptyState_hidden (tableView (elements s)).
Proof.
  now repeat split.
Qed.

Lemma loadMemories_try_accepted (answer : Fetched ListData) (s : State) :
  match accepted answer with
  | Some data =>
      loadMemories_try Date_parse answer s
      = (applyFiltersAndSearch Date_parse
           (updateCategoryFilter (set_currentMemories (list_memories data) s)),
         [showToast "Memories loaded successfully" "success" 5000], Normal)
  | None => exists msg, loadMemories_try Date_parse answer s = (s, [], Throw msg)
  end.
Proof.
  unfold accepted, loadMemories_try.
  destruct answer as [msg | r]; [eauto|].
  destruct (isJson (contentType r)); simpl; [|eauto].
  destruct (ok r); simpl; [|eauto].
  destruct (json r) as [msg | d]; [eauto|].
  destruct (list_success d); eauto.
Qed.

Lemma loadMemories_accepted (env : Env) (answer : Fetched ListData) (s : State)
    (data : ListData) :
  refreshBlocked env s = false -> accepted answer = Some data ->
  loadMemories Date_parse API_BASE env answer s
  = (hideLoading
       (applyFiltersAndSearch Date_parse
          (updateCategoryFilter (set_currentMemories (list_memories data) (showLoading s)))),
     [Fetch (listRequest API_BASE s);
      ShowToast "Memories loaded successfully" "success" 5000]).
Proof.
  intros Hopen Ha. unfold loadMemories. rewrite Hopen.
  pose proof (loadMemories_try_accepted answer (showLoading s)) as H.
  rewrite Ha in H. rewrite H. reflexivity.
Qed.

Lemma loadMemories_refused (env : Env) (answer : Fetched ListData) (s : State) :
  refreshBlocked env s = false -> accepted answer = None ->
  exists msg,
    loadMemories Date_parse API_BASE env answer s
    = (hideLoading
         (applyFiltersAndSearch Date_parse (set_currentMemories [] (showLoading s))),
       [Fetch (listRequest API_BASE s);
        ShowToast ("Failed to load memories: " +++ msg) "error" 10000]).
Proof.
  intros Hopen Ha. unfold loadMemories. rewrite Hopen.
  pose proof (loadMemories_try_accepted answer (showLoading s)) as H.
  rewrite Ha in H. destruct H as [msg H]. exists msg. rewrite H. reflexivity.
Qed.

(** X6.  A call of [loadMemories] that the guard lets through sends
    exactly one request, a [GET] of the list with the limit 1000 and the
    chosen filters, and hides the loading indicator at the end.  When the
    answer is taken, [currentMemories] becomes the memories received and a
    success toast is shown; in every other case (the request fails, the
    answer is not JSON or not [ok], the body does not parse, [success] is
    not set) both [currentMemories] and [filteredMemories] are emptied, the
    empty state is shown and one error toast stays for 10000 ms. *)
Theorem X6_loadMemories_outcomes (env : Env) (answer : Fetched ListData) (s : State) :
  refreshBlocked env s = false ->
  let result := loadMemories Date_parse API_BASE env answer s in
  let s' := fst result in
  requests (snd result) = [listRequest API_BASE s]
  /\ loadingState_hidden (tableView (elements s')) = true
  /\ match accepted answer with
     | Some data =>
         currentMemories s' = list_memories data
         /\ snd result
            = [Fetch (listRequest API_BASE s);
               ShowToast "Memories loaded successfully" "success" 5000]
     | None =>
         currentMemories s' = [] /\ filteredMemories s' = []
         /\ emptyState_hidden (tableView (elements s')) = false
         /\ exists msg,
             snd result
             = [Fetch (listRequest API_BASE s);
                ShowToast ("Failed to load memories: " +++ msg) "error" 10000]
     end.
Proof.
  intros Hopen result s'. subst s' result.
  destruct (accepted answer) as [data|] eqn:Ha.
  - rewrite (loadMemories_accepted env answer s data Hopen Ha). cbn [fst snd].
    destruct (hideLoading_frame
                (applyFiltersAndSearch Date_parse
                   (updateCategoryFilter
                      (set_currentMemories (list_memories data) (showLoading s)))))
      as (F1 & F2 & _).
    rewrite F1, F2, applyFiltersAndSearch_current. repeat split.
  - destruct (loadMemories_refused env answer s Hopen Ha) as [msg E].
    rewrite E. cbn [fst snd].
    set (s1 := set_currentMemories [] (showLoading s)).
    destruct (applyFiltersAndSearch_none s1 eq_refl) as (H1 & H2 & _).
    destruct (hideLoading_frame (applyFiltersAndSearch Date_parse s1))
      as (F1 & F2 & F3 & F4).
    rewrite F1, F2, F3, F4, H1, H2, applyFiltersAndSearch_current.
    repeat split. exists msg. reflexivity.
Qed.

Lemma loadMemoryStats_normal (env : Env) (answer : Fetched StatsData) (s : State) :
  snd (loadMemoryStats API_BASE env answer s) = Normal.
Proof.
  unfold loadMemoryStats. destruct (refreshBlocked env s); [reflexivity|].
  destruct (loadMemoryStats_try answer s) as [s1 [|msg]]; reflexivity.
Qed.

Lemma loadMemoryStats_requests (env : Env) (answer : Fetched StatsData) (s : State) :
  requests (snd (fst (loadMemoryStats API_BASE env answer s)))
  = if refreshBlocked env s then [] else [statsRequest API_BASE].
Proof.
  unfold loadMemoryStats. destruct (refreshBlocked env s); [reflexivity|].
  destruct (loadMemoryStats_try answer s) as [s1 [|msg]]; [reflexivity|].
  cbn [fst snd]. destruct (negb _ && negb _); reflexivity.
Qed.

Lemma retry_is_single_attempt (answers : Z -> Env * Fetched StatsData) (s : State) :
  loadMemoryStatsWithRetry API_BASE answers s
  = loadMemoryStats API_BASE (fst (answers 1)) (snd (answers 1)) s
  /\ snd (loadMemoryStatsWithRetry API_BASE answers s) = Normal
  /\ (List.length (requests (snd (fst (loadMemoryStatsWithRetry API_BASE answers s))))
      <= 1)%nat.
Proof.
  assert (E : loadMemoryStatsWithRetry API_BASE answers s
              = loadMemoryStats API_BASE (fst (answers 1)) (snd (answers 1)) s).
  { unfold loadMemoryStatsWithRetry. cbn [loadMemoryStatsWithRetry_loop].
    change (1 <=? 3) with true. cbv iota.
    pose proof (loadMemoryStats_normal (fst (answers 1)) (snd (answers 1)) s) as N.
    destruct (loadMemoryStats API_BASE (fst (answers 1)) (snd (answers 1)) s)
      as [[s1 effects] completion].
    simpl in N. subst completion. reflexivity. }
  split; [exact E|]. rewrite E. split; [apply loadMemoryStats_normal|].
  rewrite loadMemoryStats_requests. destruct (refreshBlocked _ s); simpl; lia.
Qed.

(** X7.  [loadMemoryStats] never throws: whatever goes wrong is caught
    inside it.  So [loadMemoryStatsWithRetry] never retries: it does what
    the one call of [loadMemoryStats] with the first answer does, sends at
    most one request, sets no timer for a pause, and completes
    normally. *)
Theorem X7_stats_retry_is_single_attempt (answers : Z -> Env * Fetched StatsData)
    (s : State) :
  loadMemoryStatsWithRetry API_BASE answers s
  = loadMemoryStats API_BASE (fst (answers 1)) (snd (answers 1)) s
  /\ snd (loadMemoryStatsWithRetry API_BASE answers s) = Normal
  /\ (List.length (requests (snd (fst (loadMemoryStatsWithRetry API_BASE answers s))))
      <= 1)%nat
  /\ (forall cb delay,
         ~ In (SetTimeout cb delay)
             (snd (fst (loadMemoryStatsWithRetry API_BASE answers s))))
  /\ (forall env answer, snd (loadMemoryStats API_BASE env answer s) = Normal).
Proof.
  destruct (retry_is_single_attempt answers s) as (E & N & R).
  split; [exact E|]. split; [exact N|]. split; [exact R|].
  split; [|intros; apply loadMemoryStats_normal].
  intros cb delay. rewrite E. unfold loadMemoryStats.
  destruct (refreshBlocked _ s); [intros []|].
  destruct (loadMemoryStats_try _ s) as [s1 [|msg]]; cbn [fst snd].
  - intros [H | []]. discriminate H.
  - destruct (negb _ && negb _); cbn [In]; intros H; intuition discriminate.
Qed.

Lemma loadMemoryStats_try_accepted (answer : Fetched StatsData) (s : State) :
  match acceptedStats answer with
  | Some st =>
      loadMemoryStats_try answer s
      = (setStatsTexts (countText (total st)) (countText (long_term st))
           (countText (short_term st)) (countText (quick_note st)) s, Normal)
  | None => exists msg, loadMemoryStats_try answer s = (s, Throw msg)
  end.
Proof.
  unfold acceptedStats, loadMemoryStats_try.
  destruct answer as [msg | r]; [eauto|].
  destruct (isJson (contentType r)); simpl; [|eauto].
  destruct (json r) as [msg | d]; [destruct (ok r); eauto|].
  destruct (ok r); simpl; [|eauto].
  destruct (stats_success d); [|eauto].
  destruct (stats d); eauto.
Qed.

(** X8.  A call of [loadMemoryStats] that the guard lets through sends
    one [GET] of the statistics and writes nothing but the four counters:
    the counts of the answer when it is taken, with 0 for a count that is
    missing, and a dash in each of the four in every other case. *)
Theorem X8_loadMemoryStats_counters (env : Env) (answer : Fetched StatsData) (s : State) :
  refreshBlocked env s = false ->
  let result := loadMemoryStats API_BASE env answer s in
  requests (snd (fst result)) = [statsRequest API_BASE]
  /\ fst (fst result)
     = match acceptedStats answer with
       | Some st =>
           setStatsTexts (countText (total st)) (countText (long_term st))
             (countText (short_term st)) (countText (quick_note st)) s
       | None => setStatsTexts "-" "-" "-" "-" s
       end.
Proof.
  intros Hopen result. subst result.
  split; [rewrite loadMemoryStats_requests; now rewrite Hopen|].
  unfold loadMemoryStats. rewrite Hopen.
  pose proof (loadMemoryStats_try_accepted answer s) as H.
  destruct (acceptedStats answer) as [st|].
  - rewrite H. reflexivity.
  - destruct H as [msg H]. rewrite H. reflexivity.
Qed.

Lemma loadMemories_requests (env : Env) (answer : Fetched ListData) (s : State) :
  requests (snd (loadMemories Date_parse API_BASE env answer s))
  = if refreshBlocked env s then [] else [listRequest API_BASE s].
Proof.
  unfold loadMemories. destruct (refreshBlocked env s); [reflexivity|].
  pose proof (loadMemories_try_accepted answer (showLoading s)) as H.
  destruct (accepted answer).
  - rewrite H. reflexivity.
  - destruct H as [msg H]. rewrite H. reflexivity.
Qed.

Lemma startedTogether_perm (effects1 effects2 : list Effect) :
  Permutation (startedTogether effects1 effects2) (effects1 ++ effects2).
Proof.
  unfold startedTogether.
  destruct effects1 as [|r1 rest1]; [reflexivity|].
  destruct effects2 as [|r2 rest2]; [reflexivity|].
  cbn [app]. apply perm_skip. apply Permutation_middle.
Qed.

Lemma requests_startedTogether (effects1 effects2 : list Effect) :
  Permutation (requests (startedTogether effects1 effects2))
    (requests effects1 ++ requests effects2).
Proof.
  rewrite <- requests_app. unfold requests.
  apply Permutation_flat_map, startedTogether_perm.
Qed.

(** X9.  [refreshData] never throws, sends at most two requests, both
    of them [GET]s, and when its guard lets it through it leaves the
    refresh button without its [loading] mark. *)
Theorem X9_refreshData_safe (env envList : Env) (answerList : Fetched ListData)
    (answersStats : Z -> Env * Fetched StatsData) (s : State) :
  let result := refreshData Date_parse API_BASE env envList answerList answersStats s in
  snd result = Normal
  /\ (List.length (requests (snd (fst result))) <= 2)%nat
  /\ Forall (fun r => method r = "GET") (requests (snd (fst result)))
  /\ (refreshBlocked env s = false ->
      refreshBtn_loading (elements (fst (fst result))) = false).
Proof.
  intros result. subst result. unfold refreshData.
  destruct (refreshBlocked env s).
  { cbn [fst snd]. repeat split; try discriminate; [simpl; lia | constructor]. }
  set (s0 := upd_elements (set_refreshBtn_loading true) s).
  pose proof (loadMemories_requests envList answerList s0) as R1.
  destruct (loadMemories Date_parse API_BASE envList answerList s0) as [s1 effects1].
  cbn [snd] in R1.
  destruct (retry_is_single_attempt answersStats s1) as (E & N & _).
  pose proof (loadMemoryStats_requests (fst (answersStats 1)) (snd (answersStats 1)) s1)
    as R2.
  rewrite <- E in R2.
  destruct (loadMemoryStatsWithRetry API_BASE answersStats s1) as [[s2 effects2] completion].
  cbn [fst snd] in *. subst completion.
  pose proof (requests_startedTogether effects1 effects2) as P.
  rewrite R1, R2 in P.
  split; [reflexivity|].
  rewrite (Permutation_length P).
  split; [|split; [|reflexivity]].
  - destruct (refreshBlocked envList s0), (refreshBlocked (fst (answersStats 1)) s1);
      simpl; lia.
  - apply (Permutation_Forall (Permutation_sym P)).
    destruct (refreshBlocked envList s0), (refreshBlocked (fst (answersStats 1)) s1);
      repeat constructor.
Qed.
End LoadingFacts.

(** The page as it is first opened, asked to load at time 100000. *)
Definition openedState : State := initialState emptyForm.

Definition quietEnv : Env := mkEnv 100000 false.

Definition statsAnswer : Fetched StatsData :=
  Resolved (mkResponse (Some "application/json") true 200 "OK"
              (ParsedAs (mkStatsData true (Some (mkStats (Some 5) (Some 3) None (Some 2)))
                           None None))).

Lemma X6_loadMemories_outcomes_witness :
  refreshBlocked quietEnv openedState = false
  /\ requests (snd (loadMemories noDates "http://localhost:8000" quietEnv listAnswer
                      openedState))
     = [listRequest "http://localhost:8000" openedState]
  /\ currentMemories (fst (loadMemories noDates "http://localhost:8000" quietEnv
                             (Rejected "Failed to fetch") openedState)) = [].
Proof.
  assert (H : refreshBlocked quietEnv openedState = false) by (vm_compute; reflexivity).
  split; [exact H|]. split.
  - exact (proj1 (X6_loadMemories_outcomes noDates "http://localhost:8000" quietEnv
                    listAnswer openedState H)).
  - exact (proj1 (proj2 (proj2 (X6_loadMemories_outcomes noDates "http://localhost:8000"
                                  quietEnv (Rejected "Failed to fetch") openedState H)))).
Defined.

Lemma X8_loadMemoryStats_counters_witness :
  refreshBlocked quietEnv openedState = false
  /\ fst (fst (loadMemoryStats "http://localhost:8000" quietEnv statsAnswer openedState))
     = setStatsTexts "5" "3" "0" "2" openedState.
Proof.
  assert (H : refreshBlocked quietEnv openedState = false) by (vm_compute; reflexivity).
  split; [exact H|].
  exact (proj2 (X8_loadMemoryStats_counters "http://localhost:8000" quietEnv statsAnswer
                  openedState H)).
Defined.

Lemma X9_refreshData_safe_witness :
  refreshBlocked quietEnv openedState = false
  /\ refreshBtn_loading
       (elements
          (fst (fst (refreshData noDates "http://localhost:8000" quietEnv quietEnv
                       listAnswer (fun _ => (quietEnv, statsAnswer)) openedState))))
     = false.
Proof.
  assert (H : refreshBlocked quietEnv openedState = false) by (vm_compute; reflexivity).
  split; [exact H|].
  exact (proj2 (proj2 (proj2 (X9_refreshData_safe noDates "http://localhost:8000" quietEnv
                                quietEnv listAnswer (fun _ => (quietEnv, statsAnswer))
                                openedState))) H).
Defined.

End MemoryMore.

(* ================================================================== *)
(** * Facts about the dialogs *)
(* ================================================================== *)

Module DialogFacts.
Import Js MemoryUI MemoryFacts MemoryDialogs.

(** ** Closing a dialog and the refresh guard *)

(** A state left by one of the closing functions at time [t]. *)
Definition closedAt (t : Z) (s : State) : Prop :=
  isAnyModalOpen s = false /\ isViewingMemory s = false
  /\ lastViewMemoryTime s = t - 12000.

Lemma closedAt_blocked (t : Z) (s : State) (env : Env) :
  closedAt t s -> now env < t + 3000 -> refreshBlocked env s = true.
Proof.
  intros (_ & _ & L) H. apply guard_blocks. right; right; left. rewrite L. lia.
Qed.

Lemma closeMemoryModal_closedAt (t : Z) (s : State) : closedAt t (closeMemoryModal t s).
Proof. repeat split. Qed.

Lemma closeDeleteModal_closedAt (t : Z) (s : State) : closedAt t (closeDeleteModal t s).
Proof. repeat split. Qed.

Lemma closeViewModal_closedAt (t : Z) (s : State) : closedAt t (closeViewModal t s).
Proof. repeat split. Qed.

Lemma closeAllModals_closedAt (t1 t2 t3 t : Z) (s : State) :
  closedAt t (closeAllModals t1 t2 t3 t s)
  /\ modals (elements (closeAllModals t1 t2 t3 t s)) = mkModals true true true.
Proof. repeat split. Qed.

(** X10.  Each of the four closing functions, run at time [t], clears
    the two flags that guard the refresh, and a refresh asked for less
    than 3000 ms later does nothing.  After [closeAllModals] the guard
    holds a later refresh back only when the page still has a modal that
    is not hidden. *)
Theorem X10_closing_holds_refresh_3s (t1 t2 t3 t : Z) (s : State) (env : Env) :
  (forall s',
      In s' [closeMemoryModal t s; closeDeleteModal t s; closeViewModal t s;
             closeAllModals t1 t2 t3 t s] ->
      isAnyModalOpen s' = false /\ isViewingMemory s' = false
      /\ (now env < t + 3000 -> refreshBlocked env s' = true))
  /\ refreshBlocked env (closeAllModals t1 t2 t3 t s)
     = (now env <? t + 3000) || modalInDocument env.
Proof.
  split.
  - intros s' Hin.
    assert (C : closedAt t s').
    { simpl in Hin. destruct Hin as [E | [E | [E | [E | []]]]]; subst s'.
      - apply closeMemoryModal_closedAt.
      - apply closeDeleteModal_closedAt.
      - apply closeViewModal_closedAt.
      - apply closeAllModals_closedAt. }
    split; [apply C|]. split; [apply C|]. intros H. now apply closedAt_blocked with t.
  - unfold refreshBlocked. cbn.
    replace (now env - (t - 12000) <? 15000) with (now env <? t + 3000).
    + destruct (now env <? t + 3000); [reflexivity|]. now rewrite orb_false_r.
    + destruct (Z.ltb_spec (now env) (t + 3000)), (Z.ltb_spec (now env - (t - 12000)) 15000);
        try reflexivity; lia.
Qed.

Lemma X10_closing_holds_refresh_3s_witness :
  now (mkEnv 101000 false) < 100000 + 3000
  /\ refreshBlocked (mkEnv 101000 false) (closeViewModal 100000 viewedState) = true
  /\ refreshBlocked (mkEnv 103000 false) (closeAllModals 99997 99998 99999 100000 viewedState)
     = false.
Proof.
  assert (H : now (mkEnv 101000 false) < 100000 + 3000) by (simpl; lia).
  split; [exact H|]. split.
  - apply (proj1 (X10_closing_holds_refresh_3s 0 0 0 100000 viewedState
                    (mkEnv 101000 false)) (closeViewModal 100000 viewedState)).
    + simpl. auto.
    + exact H.
  - rewrite (proj2 (X10_closing_holds_refresh_3s 99997 99998 99999 100000 viewedState
                      (mkEnv 103000 false))).
    reflexivity.
Defined.

Section Held.
Variable Date_parse : string -> option Z.
Variable API_BASE : string.

Lemma refreshData_blocked (env envList : Env) (answerList : Fetched ListData)
    (answersStats : Z -> Env * Fetched StatsData) (s : State) :
  refreshBlocked env s = true ->
  refreshData Date_parse API_BASE env envList answerList answersStats s = (s, [], Normal).
Proof.
  intros H. unfold refreshData. now rewrite H.
Qed.

Lemma handleFormSubmit_scheduled (t : Z) (answer : Fetched SaveData) (s : State) :
  In (SetTimeout CallRefreshData 100)
     (snd (fst (handleFormSubmit API_BASE t answer s))) ->
  closedAt t (fst (fst (handleFormSubmit API_BASE t answer s))).
Proof.
  unfold handleFormSubmit. cbv zeta.
  destruct (readMemoryData (newFormData (elements s))) as [md | msg]; [|intros []].
  destruct (negb (truthy (md_key md))).
  { cbn. intros [H | []]. discriminate H. }
  destruct (negb (truthy (md_content md))).
  { cbn. intros [H | []]. discriminate H. }
  unfold handleFormSubmit_try.
  destruct answer as [msg | response].
  { cbn. intros [H | [H | []]]; discriminate H. }
  destruct (json response) as [msg | data].
  { cbn. intros [H | [H | []]]; discriminate H. }
  destruct (save_success data).
  - intros _. repeat split.
  - cbn. intros [H | [H | []]]; discriminate H.
Qed.

(** X11.  When [handleFormSubmit] schedules the refresh of the table
    (100 ms after a successful save), it has just closed the form at time
    [t], and so a refresh that runs less than 3000 ms after [t], the
    scheduled one when its timer is on time, sends no request and leaves
    the table as it was before the save. *)
Theorem X11_refresh_after_save_is_held (t : Z)
    (answer : Fetched SaveData) (s : State) (env envList : Env)
    (answerList : Fetched ListData) (answersStats : Z -> Env * Fetched StatsData) :
  let result := handleFormSubmit API_BASE t answer s in
  let s' := fst (fst result) in
  In (SetTimeout CallRefreshData 100) (snd (fst result)) ->
  now env < t + 3000 ->
  refreshData Date_parse API_BASE env envList answerList answersStats s' = (s', [], Normal)
  /\ memoryTableBody (tableView (elements s')) = memoryTableBody (tableView (elements s)).
Proof.
  intros result s' Hin Ht. subst s' result. split.
  - apply refreshData_blocked. apply closedAt_blocked with t; [|exact Ht].
    now apply handleFormSubmit_scheduled.
  - clear Hin Ht. unfold handleFormSubmit. cbv zeta.
    destruct (readMemoryData (newFormData (elements s))) as [md | msg]; [|reflexivity].
    destruct (negb (truthy (md_key md))); [reflexivity|].
    destruct (negb (truthy (md_content md))); [reflexivity|].
    unfold handleFormSubmit_try.
    destruct answer as [msg | response]; [reflexivity|].
    destruct (json response) as [msg | data]; [reflexivity|].
    destruct (save_success data); reflexivity.
Qed.
End Held.

Lemma X11_refresh_after_save_is_held_witness :
  In (SetTimeout CallRefreshData 100)
     (snd (fst (handleFormSubmit "http://localhost:8000" 200000 saved
                  (typeIntoForm filledForm untiedState))))
  /\ now (mkEnv 200100 false) < 200000 + 3000
  /\ requests
       (snd (fst (refreshData noDates "http://localhost:8000" (mkEnv 200100 false)
                    (mkEnv 200100 false) listAnswer (fun _ => (mkEnv 200100 false, Rejected "x"))
                    (fst (fst (handleFormSubmit "http://localhost:8000" 200000
                                 saved (typeIntoForm filledForm untiedState)))))))
     = [].
Proof.
  assert (H1 : In (SetTimeout CallRefreshData 100)
                 (snd (fst (handleFormSubmit "http://localhost:8000" 200000
                              saved (typeIntoForm filledForm untiedState)))))
    by (vm_compute; auto).
  assert (H2 : now (mkEnv 200100 false) < 200000 + 3000) by (simpl; lia).
  split; [exact H1|]. split; [exact H2|].
  rewrite (proj1 (X11_refresh_after_save_is_held noDates "http://localhost:8000"
                    200000 saved (typeIntoForm filledForm untiedState)
                    (mkEnv 200100 false)
                    (mkEnv 200100 false) listAnswer
                    (fun _ => (mkEnv 200100 false, Rejected "x")) H1 H2)).
  reflexivity.
Defined.

(** ** Opening a dialog *)

(** The memory of an answer the two loading dialogs take: the body
    parses, [success] is set and [memory] is there. *)
Definition loaded (answer : Fetched MemoryAnswer) : option Memory :=
  match answer with
  | Resolved r =>
      match json r with
      | ParsedAs d => if get_success d then get_memory d else None
      | ParseError _ => None
      end
  | Rejected _ => None
  end.



Section Opening.
Variable API_BASE : string.
Variable toLocaleString : string -> string.


End Opening.

Definition loadedAnswer : Fetched MemoryAnswer :=
  Resolved (mkResponse (Some "application/json") true 200 "OK"
              (ParsedAs (mkMemoryAnswer true (Some memoryC) None))).

Definition emptyPage : Page :=
  mkPage (initialState emptyForm) (mkFormLabels "" "")
    (mkDeleteDialog "" "" "" None false)
    (mkViewDialog "" "" "" "" "" "" "" "" (TagsText "") None)
    (mkOverlay true "") (mkStatusLine "status-dot" "").


(** ** Saving what was opened for editing *)

Section SaveAfterEdit.
Variable API_BASE : string.

Lemma editMemory_opened (t : Z) (key_ : string) (answer : Fetched MemoryAnswer)
    (p : Page) (memory : Memory) :
  loaded answer = Some memory ->
  let s' := script (fst (editMemory API_BASE t key_ answer p)) in
  isEditMode s' = true /\ editingKey s' = Some key_
  /\ memoryKey_disabled (elements s') = true
  /\ memoryKey_value (memoryForm (elements s')) = key memory.
Proof.
  intros L. unfold loaded in L. unfold editMemory, editMemory_try.
  destruct answer as [msg | response]; [discriminate L|].
  destruct (json response) as [msg | data]; [discriminate L|].
  destruct (get_success data); [|discriminate L].
  rewrite L. repeat split.
Qed.

Lemma typeIntoForm_frame (v : FormControls) (s : State) :
  isEditMode (typeIntoForm v s) = isEditMode s
  /\ editingKey (typeIntoForm v s) = editingKey s
  /\ memoryKey_disabled (elements (typeIntoForm v s)) = memoryKey_disabled (elements s)
  /\ (memoryKey_disabled (elements s) = true ->
      memoryKey_value (memoryForm (elements (typeIntoForm v s)))
      = memoryKey_value (memoryForm (elements s))).
Proof.
  unfold typeIntoForm. repeat split. intros H. rewrite H. reflexivity.
Qed.

(** X14.  Once [editMemory] has opened a memory, the page is in edit
    mode for the key that was asked for and the key control is disabled,
    so the form data of a submission has no key: whatever the user
    types into the form, [handleFormSubmit] throws on reading the key,
    before the two checks, and sends no request, shows no toast and
    leaves the form open as it is. *)
Theorem X14_save_after_edit_throws (t t' : Z) (key_ : string)
    (answer : Fetched MemoryAnswer) (p : Page) (v : FormControls)
    (saveAnswer : Fetched SaveData) (memory : Memory) :
  loaded answer = Some memory ->
  let opened := typeIntoForm v (script (fst (editMemory API_BASE t key_ answer p))) in
  isEditMode opened = true
  /\ editingKey opened = Some key_
  /\ memoryKey_value (memoryForm (elements opened)) = key memory
  /\ formData_get "key" (newFormData (elements opened)) = None
  /\ handleFormSubmit API_BASE t' saveAnswer opened = (opened, [], Throw trimOfNull).
Proof.
  intros L opened.
  destruct (editMemory_opened t key_ answer p memory L) as (E1 & E2 & E3 & E4).
  destruct (typeIntoForm_frame v (script (fst (editMemory API_BASE t key_ answer p))))
    as (F1 & F2 & F3 & F4).
  assert (D : memoryKey_disabled (elements opened) = true)
    by (subst opened; now rewrite F3).
  split; [subst opened; now rewrite F1|].
  split; [subst opened; now rewrite F2|].
  split; [subst opened; now rewrite (F4 E3)|].
  split.
  - unfold newFormData. rewrite D. reflexivity.
  - now apply handleFormSubmit_disabled.
Qed.
End SaveAfterEdit.

Lemma X14_save_after_edit_throws_witness :
  loaded loadedAnswer = Some memoryC
  /\ handleFormSubmit "http://localhost:8000" 200000 saved
       (typeIntoForm filledForm
          (script (fst (editMemory "http://localhost:8000" 100000 "c" loadedAnswer
                          emptyPage))))
     = (typeIntoForm filledForm
          (script (fst (editMemory "http://localhost:8000" 100000 "c" loadedAnswer
                          emptyPage))),
        [], Throw "Cannot read properties of null (reading 'trim')").
Proof.
  split; [reflexivity|].
  apply (X14_save_after_edit_throws "http://localhost:8000" 100000 200000 "c"
           loadedAnswer emptyPage filledForm saved memoryC).
  reflexivity.
Defined.

(** ** The tags, from the memory to the form and back *)

(** No code unit of [t] is [c]. *)
Fixpoint without (c : ascii) (t : string) : Prop :=
  match t with
  | EmptyString => True
  | String a t' => a <> c /\ without c t'
  end.

(** A tag as [handleFormSubmit] produces them: trimmed, not empty,
    with no comma. *)
Definition cleanTag (t : string) : Prop :=
  trim t = t /\ t <> "" /\ without "," t.

Lemma split_without (c : ascii) (t : string) :
  without c t -> split c t = [t].
Proof.
  induction t as [|a t IH]; [reflexivity|]. intros [Ha Ht]. cbn [split].
  apply Ascii.eqb_neq in Ha. rewrite Ha, (IH Ht). reflexivity.
Qed.

Lemma split_app (c : ascii) (t rest : string) :
  without c t -> split c (t +++ String c rest) = t :: split c rest.
Proof.
  induction t as [|a t IH]; intros Ht.
  - cbn [String.append split]. now rewrite Ascii.eqb_refl.
  - destruct Ht as [Ha Ht]. cbn [String.append split].
    apply Ascii.eqb_neq in Ha. rewrite Ha, (IH Ht). reflexivity.
Qed.

Lemma without_app (c : ascii) (t u : string) :
  without c t -> without c u -> without c (t +++ u).
Proof.
  induction t as [|a t IH]; intros Ht Hu; [exact Hu|].
  destruct Ht as [Ha Ht]. split; [exact Ha | now apply IH].
Qed.

Lemma append_assoc (a b c : string) : (a +++ b) +++ c = a +++ b +++ c.
Proof.
  induction a as [|x a IH]; [reflexivity|]. cbn [String.append]. now rewrite IH.
Qed.

(** Splitting the joined text gives the first tag and the others with
    the space before them. *)
Lemma split_join (pre t : string) (l : list string) :
  without "," pre -> without "," t -> Forall (without ",") l ->
  split "," (pre +++ join ", " (t :: l))
  = (pre +++ t) :: map (fun x => " " +++ x) l.
Proof.
  revert pre t. induction l as [|u l IH]; intros pre t Hp Ht Hl.
  - cbn [join String.concat map]. apply split_without. now apply without_app.
  - inversion Hl as [|? ? Hu Hl']; subst.
    change (join ", " (t :: u :: l)) with (t +++ ", " +++ join ", " (u :: l)).
    rewrite <- append_assoc.
    change (", " +++ join ", " (u :: l)) with (String "," (" " +++ join ", " (u :: l))).
    rewrite split_app by now apply without_app.
    rewrite (IH " " u); [reflexivity | | assumption | assumption].
    split; [discriminate | exact I].
Qed.

Lemma trim_space (t : string) : trim (String " " t) = trim t.
Proof. reflexivity. Qed.

Lemma tags_back (l : list string) :
  Forall cleanTag l -> l <> [] ->
  filter truthy (map trim (split "," (join ", " l))) = l.
Proof.
  intros Hl Hne. destruct l as [|t l]; [congruence|].
  inversion Hl as [|? ? Ht Hl']; subst.
  change (join ", " (t :: l)) with (EmptyString +++ join ", " (t :: l)).
  rewrite split_join; [|exact I|apply Ht|].
  - cbn [String.append map filter].
    destruct Ht as (Tt & Nt & _). rewrite Tt. apply truthy_true in Nt. rewrite Nt.
    f_equal. clear -Hl'. induction Hl' as [|u l (Tu & Nu & _) _ IH]; [reflexivity|].
    cbn [map filter]. rewrite trim_space, Tu. apply truthy_true in Nu. rewrite Nu.
    now rewrite IH.
  - clear -Hl'. induction Hl' as [|u l (_ & _ & Wu) _ IH]; constructor; assumption.
Qed.

(** X15.  The tags of a request are read back from the text of the
    tags field: when the add form passes the two checks and its tags
    field holds tags that are trimmed, not empty and free of commas,
    joined by a comma and a space (the text [editMemory] writes for the
    tags of a memory), the one request carries exactly these tags, in
    order, and [null] when there is none. *)
Theorem X15_tags_round_trip (API_BASE : string) (t : Z) (answer : Fetched SaveData)
    (s : State) (l : list string) :
  memoryKey_disabled (elements s) = false ->
  trim (memoryKey_value (memoryForm (elements s))) <> "" ->
  trim (memoryContent_value (memoryForm (elements s))) <> "" ->
  Forall cleanTag l ->
  memoryTags_value (memoryForm (elements s)) = join ", " l ->
  exists r,
    requests (snd (fst (handleFormSubmit API_BASE t answer s))) = [r]
    /\ option_map md_tags (body r)
       = Some (match l with [] => None | _ :: _ => Some l end).
Proof.
  intros D K C Hclean Htags.
  apply truthy_true in K. apply truthy_true in C.
  destruct (handleFormSubmit_requests API_BASE t answer s D K C) as [_ R].
  exists (saveRequest API_BASE s (memoryDataOf (memoryForm (elements s)))).
  split; [exact R|].
  unfold saveRequest. destruct (isEditMode s); cbn [body option_map md_tags memoryDataOf];
    rewrite Htags; unfold tagsOf.
  all: destruct l as [|x l]; [reflexivity|].
  all: assert (N : join ", " (x :: l) <> "")
         by (inversion Hclean as [|? ? (_ & Nt & _) _]; subst;
             destruct x as [|a x]; [congruence|]; destruct l; discriminate).
  all: apply String.eqb_neq in N; rewrite N; do 2 f_equal.
  all: rewrite <- (tags_back (x :: l) Hclean) at 2 by discriminate.
  all: apply filter_ext; intros u; unfold truthy; reflexivity.
Qed.

Definition taggedForm : FormControls :=
  mkFormControls "drink" "likes tea" "general" "long_term" "tea, hot drinks".

Lemma X15_tags_round_trip_witness :
  Forall cleanTag ["tea"; "hot drinks"]
  /\ exists r,
       requests (snd (fst (handleFormSubmit "http://localhost:8000" 200000 saved
                             (typeIntoForm taggedForm addingState)))) = [r]
       /\ option_map md_tags (body r) = Some (Some ["tea"; "hot drinks"]).
Proof.
  assert (H : Forall cleanTag ["tea"; "hot drinks"]).
  { repeat constructor; try discriminate. }
  split; [exact H|].
  apply (X15_tags_round_trip "http://localhost:8000" 200000 saved
           (typeIntoForm taggedForm addingState) ["tea"; "hot drinks"]).
  - reflexivity.
  - vm_compute. discriminate.
  - vm_compute. discriminate.
  - exact H.
  - reflexivity.
Defined.

(** ** Deleting *)

Lemma find_key (key_ : string) (l : list Memory) (m : Memory) :
  find (fun m => (key m =? key_)%string) l = Some m -> In m l /\ key m = key_.
Proof.
  intros H. apply find_some in H. destruct H as [Hin E].
  split; [exact Hin | now apply String.eqb_eq].
Qed.

Lemma find_no_key (key_ : string) (l : list Memory) :
  find (fun m => (key m =? key_)%string) l = None <-> ~ In key_ (map key l).
Proof.
  induction l as [|m l IH]; [simpl; tauto|]. cbn [find map In].
  destruct (String.eqb_spec (key m) key_) as [E | N].
  - split; [discriminate | intros H; exfalso; apply H; now left].
  - rewrite IH. tauto.
Qed.

(** X16.  [deleteMemory] does nothing for a key that no loaded memory
    has.  For the key of a loaded memory it shows the delete dialog with
    that key, stores the key on the confirm button and sets the flag that
    holds every refresh back. *)
Theorem X16_deleteMemory_opens (key_ : string) (p : Page) :
  (~ In key_ (map key (currentMemories (script p))) -> deleteMemory key_ p = p)
  /\ (In key_ (map key (currentMemories (script p))) ->
      let p' := deleteMemory key_ p in
      deleteModal_hidden (modals (elements (script p'))) = false
      /\ deleteMemoryKey_text (deleteDialog p') = key_
      /\ confirmDeleteBtn_memoryKey (deleteDialog p') = Some key_
      /\ isAnyModalOpen (script p') = true
      /\ currentMemories (script p') = currentMemories (script p)
      /\ forall env, refreshBlocked env (script p') = true).
Proof.
  unfold deleteMemory. split.
  - intros H. apply find_no_key in H. now rewrite H.
  - intros H.
    destruct (find (fun m => (key m =? key_)%string) (currentMemories (script p)))
      as [memory|] eqn:F.
    + apply find_key in F. destruct F as [_ K].
      cbn -[refreshBlocked]. repeat split; try assumption.
    + apply find_no_key in F. contradiction.
Qed.

Definition listedPage : Page :=
  set_script (set_currentMemories [memoryA; memoryB] (initialState emptyForm)) emptyPage.

Lemma X16_deleteMemory_opens_witness :
  ~ In "zz" (map key (currentMemories (script listedPage)))
  /\ In "b" (map key (currentMemories (script listedPage)))
  /\ deleteMemory "zz" listedPage = listedPage
  /\ confirmDeleteBtn_memoryKey (deleteDialog (deleteMemory "b" listedPage)) = Some "b".
Proof.
  assert (H1 : ~ In "zz" (map key (currentMemories (script listedPage)))).
  { simpl. intros [H | [H | []]]; discriminate H. }
  assert (H2 : In "b" (map key (currentMemories (script listedPage)))).
  { simpl. auto. }
  split; [exact H1|]. split; [exact H2|]. split.
  - exact (proj1 (X16_deleteMemory_opens "zz" listedPage) H1).
  - destruct (proj2 (X16_deleteMemory_opens "b" listedPage) H2) as (_ & _ & K & _).
    exact K.
Defined.

(** The key [confirmDelete] works with. *)
Definition keyOf (event : DeleteArg) (p : Page) : option string :=
  match event with
  | ClickOnConfirm => confirmDeleteBtn_memoryKey (deleteDialog p)
  | KeyString k => Some k
  | OtherArg => None
  end.

(** The answer to a [DELETE] is taken: it parses and [success] is
    set. *)
Definition deleted (answer : Fetched SaveData) : bool :=
  match answer with
  | Resolved r =>
      match json r with
      | ParsedAs d => save_success d
      | ParseError _ => false
      end
  | Rejected _ => false
  end.

Section Deleting.
Variable Date_parse : string -> option Z.
Variable API_BASE : string.

(** X17.  [confirmDelete] never throws.  Without a key, or with the
    empty key, it shows one error toast, sends nothing and changes
    nothing.  With a key it sends exactly one request, a [DELETE] of the
    memory with the key escaped, and takes the [loading] mark off the
    button at the end.  When the answer is taken the delete dialog is
    closed and the refresh is scheduled 100 ms later, which the guard then
    holds back for 3000 ms; in every other case one error toast is shown
    and the dialog stays open as it was. *)
Theorem X17_confirmDelete_outcomes (event : DeleteArg) (t : Z)
    (answer : Fetched SaveData) (p : Page) :
  let result := confirmDelete API_BASE event t answer p in
  let p' := fst result in
  match keyOf event p with
  | None | Some EmptyString =>
      result = (p, [ShowToast "Error: No memory key specified" "error" 5000])
  | Some k =>
      requests (snd result) = [memoryRequest API_BASE "DELETE" k]
      /\ confirmDeleteBtn_loading (deleteDialog p') = false
      /\ if deleted answer then
           snd result
           = [Fetch (memoryRequest API_BASE "DELETE" k);
              ShowToast "Memory deleted successfully" "success" 5000;
              SetTimeout CallRefreshData 100]
           /\ deleteModal_hidden (modals (elements (script p'))) = true
           /\ isAnyModalOpen (script p') = false
           /\ forall env envList answerList answersStats,
               now env < t + 3000 ->
               refreshData Date_parse API_BASE env envList answerList answersStats
                 (script p')
               = (script p', [], Normal)
         else
           (exists msg,
               snd result
               = [Fetch (memoryRequest API_BASE "DELETE" k);
                  ShowToast ("Failed to delete memory: " +++ msg) "error" 5000])
           /\ script p' = script p
      end.
Proof.
  intros result p'. subst p' result. unfold confirmDelete. fold (keyOf event p).
  destruct (keyOf event p) as [[|a k]|]; [reflexivity| |reflexivity].
  cbn [truthy String.eqb negb]. unfold confirmDelete_try, deleted.
  destruct answer as [msg | response].
  { cbn. repeat split; eauto. }
  destruct (json response) as [msg | data].
  { cbn. repeat split; eauto. }
  destruct (save_success data).
  - cbn -[refreshData]. repeat split.
    intros env envList answerList answersStats H.
    apply refreshData_blocked. apply closedAt_blocked with t; [|exact H].
    repeat split.
  - cbn. repeat split; eauto.
Qed.
End Deleting.

Lemma X17_confirmDelete_outcomes_witness :
  now (mkEnv 200100 false) < 200000 + 3000
  /\ refreshData noDates "http://localhost:8000" (mkEnv 200100 false) (mkEnv 200100 false)
       listAnswer (fun _ => (mkEnv 200100 false, Rejected "x"))
       (script (fst (confirmDelete "http://localhost:8000" ClickOnConfirm 200000 saved
                       (deleteMemory "b" listedPage))))
     = (script (fst (confirmDelete "http://localhost:8000" ClickOnConfirm 200000 saved
                       (deleteMemory "b" listedPage))), [], Normal).
Proof.
  assert (H : now (mkEnv 200100 false) < 200000 + 3000) by (simpl; lia).
  split; [exact H|].
  pose proof (X17_confirmDelete_outcomes noDates "http://localhost:8000" ClickOnConfirm
                200000 saved (deleteMemory "b" listedPage)) as X.
  cbv zeta in X.
  change (keyOf ClickOnConfirm (deleteMemory "b" listedPage)) with (Some "b") in X.
  change (deleted saved) with true in X. cbv iota in X.
  destruct X as (_ & _ & _ & _ & _ & G).
  exact (G (mkEnv 200100 false) (mkEnv 200100 false) listAnswer
           (fun _ => (mkEnv 200100 false, Rejected "x")) H).
Defined.

(** ** The keyboard *)

(** A dialog is open as far as the shortcut for the refresh can
    tell. *)
Definition dialogOpen (s : State) : bool :=
  isAnyModalOpen s || isViewingMemory s
  || negb (memoryModal_hidden (modals (elements s)))
  || negb (viewModal_hidden (modals (elements s)))
  || negb (deleteModal_hidden (modals (elements s))).

Section Keyboard.
Variable Date_parse : string -> option Z.
Variable API_BASE : string.

(** X18.  [Escape], with any modifier, hides the three dialogs, clears
    the two flags and resets the form, and sends nothing.  The refresh
    shortcut ([r] with Ctrl or Meta) never sends a request while a dialog
    is open: it shows one warning toast for 3000 ms and changes
    nothing. *)
Theorem X18_handleKeyboardShortcuts (e : KeyEvent) (t1 t2 t3 t : Z) (env envList : Env)
    (answerList : Fetched ListData) (answersStats : Z -> Env * Fetched StatsData)
    (p : Page) :
  let result :=
    handleKeyboardShortcuts Date_parse API_BASE e t1 t2 t3 t env envList answerList
      answersStats p in
  (ev_key e = "Escape" ->
   let s' := script (fst result) in
   snd result = []
   /\ modals (elements s') = mkModals true true true
   /\ isAnyModalOpen s' = false /\ isViewingMemory s' = false
   /\ isEditMode s' = false /\ editingKey s' = None
   /\ memoryForm (elements s') = memoryForm_defaults (elements (script p)))
  /\ (ev_key e = "r" -> ctrlKey e || metaKey e = true -> dialogOpen (script p) = true ->
      result = (p, [ShowToast "Cannot refresh while modal is open" "warning" 3000])).
Proof.
  intros result. subst result. unfold handleKeyboardShortcuts. split.
  - intros E. rewrite E. cbn [String.eqb Ascii.eqb Bool.eqb andb]. cbn. repeat split.
  - intros E M O. rewrite E, M. cbn [String.eqb Ascii.eqb Bool.eqb andb].
    fold (dialogOpen (script p)). now rewrite O.
Qed.
End Keyboard.

Lemma X18_handleKeyboardShortcuts_witness :
  ev_key (mkKeyEvent "r" true false) = "r"
  /\ dialogOpen (script (openAddMemoryModal emptyPage)) = true
  /\ handleKeyboardShortcuts noDates "http://localhost:8000" (mkKeyEvent "r" true false)
       1 2 3 4 MemoryMore.quietEnv MemoryMore.quietEnv listAnswer (fun _ => (MemoryMore.quietEnv, Rejected "x"))
       (openAddMemoryModal emptyPage)
     = (openAddMemoryModal emptyPage,
        [ShowToast "Cannot refresh while modal is open" "warning" 3000]).
Proof.
  split; [reflexivity|]. split; [reflexivity|].
  apply (X18_handleKeyboardShortcuts noDates "http://localhost:8000"
           (mkKeyEvent "r" true false) 1 2 3 4 MemoryMore.quietEnv MemoryMore.quietEnv listAnswer
           (fun _ => (MemoryMore.quietEnv, Rejected "x")) (openAddMemoryModal emptyPage));
    reflexivity.
Defined.

(** ** Adding *)

Section Adding.
Variable API_BASE : string.

(** X19.  [openAddMemoryModal] shows the form reset, with the category
    [general] and the type [long_term], the key field enabled, and leaves
    edit mode, whatever was edited before: a form that then passes the
    two checks of [handleFormSubmit] is sent as one [POST] to
    [/api/memory].  No refresh runs while the form is open. *)
Theorem X19_openAddMemoryModal_posts (p : Page) (v : FormControls) (t : Z)
    (answer : Fetched SaveData) :
  trim (memoryKey_value v) <> "" -> trim (memoryContent_value v) <> "" ->
  let s' := script (openAddMemoryModal p) in
  let d := memoryForm_defaults (elements (script p)) in
  requests (snd (fst (handleFormSubmit API_BASE t answer (typeIntoForm v s'))))
  = [mkRequest "POST" (API_BASE +++ "/api/memory") [] true (Some (memoryDataOf v))]
  /\ memoryForm (elements s')
     = mkFormControls (memoryKey_value d) (memoryContent_value d) "general" "long_term"
         (memoryTags_value d)
  /\ memoryKey_disabled (elements s') = false
  /\ memoryModal_hidden (modals (elements s')) = false
  /\ forall env, refreshBlocked env s' = true.
Proof.
  intros K C s' d. subst s' d.
  apply truthy_true in K. apply truthy_true in C.
  split; [|repeat split].
  apply (handleFormSubmit_requests API_BASE t answer
           (typeIntoForm v (script (openAddMemoryModal p))) eq_refl K C).
Qed.
End Adding.

Definition editingPage : Page := set_script editingState emptyPage.

Lemma X19_openAddMemoryModal_posts_witness :
  isEditMode (script editingPage) = true
  /\ memoryKey_disabled (elements (script editingPage)) = true
  /\ requests
       (snd (fst (handleFormSubmit "http://localhost:8000" 200000 saved
                    (typeIntoForm filledForm (script (openAddMemoryModal editingPage))))))
     = [mkRequest "POST" "http://localhost:8000/api/memory" [] true
          (Some (mkMemoryData "drink" "likes tea" "general" (Some "long_term")
                   (Some ["tea"; "hot"])))].
Proof.
  split; [reflexivity|]. split; [reflexivity|].
  apply (X19_openAddMemoryModal_posts "http://localhost:8000" editingPage filledForm 200000
           saved); vm_compute; discriminate.
Defined.

(** ** The start of the page *)

Section Start.
Variable Date_parse : string -> option Z.
Variable API_BASE : string.

Lemma checkApiStatus_normal (answer : Fetched StatusData) (p : Page) :
  snd (checkApiStatus API_BASE answer p) = Normal
  /\ script (fst (fst (checkApiStatus API_BASE answer p))) = script p
  /\ requests (snd (fst (checkApiStatus API_BASE answer p)))
     = [mkRequest "GET" (API_BASE +++ "/api/chat/status") [] false None].
Proof.
  unfold checkApiStatus, checkApiStatus_try.
  destruct answer as [msg | response]; [repeat split|].
  destruct (negb (isJson (contentType response))); [repeat split|].
  destruct (json response) as [msg | data]; [repeat split|].
  destruct (status_success data); repeat split.
Qed.

(** X20.  [checkApiStatus], [loadMemories] and
    [loadMemoryStatsWithRetry] catch what goes wrong inside them, so the
    [catch] of [testConnection] is never entered: whatever the server
    answers, and also when it cannot be reached, [testConnection] ends
    with the connection error panel hidden.  It sends the status request
    first and at most three requests in all. *)
Theorem X20_testConnection_never_shows_error (answerStatus : Fetched StatusData)
    (envList : Env) (answerList : Fetched ListData)
    (answersStats : Z -> Env * Fetched StatsData) (p : Page) :
  let result :=
    testConnection Date_parse API_BASE answerStatus envList answerList answersStats p in
  connectionErrorState_hidden (tableView (elements (script (fst result)))) = true
  /\ hd_error (requests (snd result))
     = Some (mkRequest "GET" (API_BASE +++ "/api/chat/status") [] false None)
  /\ (List.length (requests (snd result)) <= 3)%nat.
Proof.
  intros result. subst result. unfold testConnection.
  destruct (checkApiStatus_normal answerStatus p) as (N & S & R).
  destruct (checkApiStatus API_BASE answerStatus p) as [[p0 effects0] completion0].
  cbn [fst snd] in N, S, R. subst completion0. cbv beta iota zeta.
  pose proof (MemoryMore.loadMemories_requests Date_parse API_BASE envList answerList
                (script p0)) as R1.
  destruct (loadMemories Date_parse API_BASE envList answerList (script p0))
    as [s1 effects1].
  cbn [snd] in R1. cbv beta iota zeta.
  destruct (MemoryMore.retry_is_single_attempt API_BASE answersStats s1) as (E & N & _).
  pose proof (MemoryMore.loadMemoryStats_requests API_BASE (fst (answersStats 1))
                (snd (answersStats 1)) s1) as R2.
  rewrite <- E in R2.
  destruct (loadMemoryStatsWithRetry API_BASE answersStats s1)
    as [[s2 effects2] completion].
  cbn [fst snd] in *. subst completion. cbv beta iota zeta. cbn [fst snd].
  pose proof (MemoryMore.requests_startedTogether effects1 effects2) as P.
  rewrite R1, R2 in P.
  rewrite !requests_app, R.
  split; [reflexivity|]. split; [reflexivity|].
  cbn [app List.length]. rewrite (Permutation_length P).
  destruct (refreshBlocked envList (script p0)),
    (refreshBlocked (fst (answersStats 1)) s1); simpl; lia.
Qed.
End Start.

(** ** Relative times *)

Section RelativeTime.
Variable Date_parse : string -> option Z.
Variable toLocaleDateString : string -> string.

(** X21.  For a date that parses, [formatRelativeTime] shows the whole
    number of minutes, hours or days that have passed: [Just now] below
    one minute (also for a date in the future), minutes from 1 to 59,
    hours from 1 to 23, days from 1 to 29, and the local date from 30
    days on.  A date that does not parse is shown as the local date
    text. *)
Theorem X21_formatRelativeTime_bands (now : Z) (dateString : string) :
  let result := formatRelativeTime Date_parse toLocaleDateString now dateString in
  match Date_parse dateString with
  | None => result = toLocaleDateString dateString
  | Some date =>
      let d := now - date in
      (d < 60000 -> result = "Just now")
      /\ (60000 <= d < 3600000 ->
          result = ofZ (d / 60000) +++ "m ago" /\ 1 <= d / 60000 <= 59)
      /\ (3600000 <= d < 86400000 ->
          result = ofZ (d / 3600000) +++ "h ago" /\ 1 <= d / 3600000 <= 23)
      /\ (86400000 <= d < 2592000000 ->
          result = ofZ (d / 86400000) +++ "d ago" /\ 1 <= d / 86400000 <= 29)
      /\ (2592000000 <= d -> result = toLocaleDateString dateString)
  end.
Proof.
  intros result. subst result. unfold formatRelativeTime.
  destruct (Date_parse dateString) as [date|]; [|reflexivity].
  cbv zeta. set (d := now - date).
  assert (Hh : d / 60000 / 60 = d / 3600000) by (rewrite Z.div_div by lia; reflexivity).
  assert (Hd : d / 60000 / 60 / 24 = d / 86400000).
  { rewrite Hh. rewrite Z.div_div by lia. reflexivity. }
  rewrite Hd, Hh.
  assert (M : forall k, 0 < k -> forall a, (d / k <? a) = (d <? a * k)).
  { intros k Hk a. destruct (Z.ltb_spec (d / k) a), (Z.ltb_spec d (a * k));
      try reflexivity; exfalso.
    - apply (Z.div_le_mono _ _ k) in H0; [|lia]. rewrite Z.div_mul in H0 by lia. lia.
    - assert (d / k < a); [|lia]. apply Z.div_lt_upper_bound; lia. }
  rewrite !M by lia.
  change (1 * 60000) with 60000. change (60 * 60000) with 3600000.
  change (24 * 3600000) with 86400000. change (30 * 86400000) with 2592000000.
  assert (B : forall k lo hi, 0 < k -> lo * k <= d < hi * k -> lo <= d / k <= hi - 1).
  { intros k lo hi Hk [H1 H2]. split.
    - apply Z.div_le_lower_bound; lia.
    - assert (d / k < hi); [|lia]. apply Z.div_lt_upper_bound; lia. }
  destruct (Z.ltb_spec d 60000) as [L1 | L1].
  { repeat split; intros; try reflexivity; lia. }
  destruct (Z.ltb_spec d 3600000) as [L2 | L2].
  { repeat split; intros; try reflexivity; try lia; apply (B 60000 1 60); lia. }
  destruct (Z.ltb_spec d 86400000) as [L3 | L3].
  { repeat split; intros; try reflexivity; try lia; apply (B 3600000 1 24); lia. }
  destruct (Z.ltb_spec d 2592000000) as [L4 | L4].
  { repeat split; intros; try reflexivity; try lia; apply (B 86400000 1 30); lia. }
  repeat split; intros; try reflexivity; lia.
Qed.
End RelativeTime.

(** A parser that reads every date as the time 1000000. *)
Definition fixedDate : string -> option Z := fun _ => Some 1000000.

Lemma X21_formatRelativeTime_bands_witness :
  3600000 <= 8200005 - 1000000 < 86400000
  /\ formatRelativeTime fixedDate (fun d => d) 8200005 "2025-01-01T00:00:00" = "2h ago".
Proof.
  assert (H : 3600000 <= 8200005 - 1000000 < 86400000) by lia.
  split; [exact H|].
  exact (proj1 (proj1 (proj2 (proj2 (X21_formatRelativeTime_bands fixedDate (fun d => d)
                                       8200005 "2025-01-01T00:00:00"))) H)).
Defined.

End DialogFacts.

(* ================================================================== *)
(** * The search box and the filters of the memory manager *)
(* ================================================================== *)

Module SearchFacts.
Import Js MemoryUI MemoryFacts.

(** The two select filters as one test. *)
Definition passesSelects (s : State) (m : Memory) : bool :=
  (if truthy (memoryTypeFilter_value (filters (elements s)))
   then (memory_type m =? memoryTypeFilter_value (filters (elements s)))%string
   else true)
  && (if truthy (categoryFilter_value (filters (elements s)))
      then (category m =? categoryFilter_value (filters (elements s)))%string
      else true).

Section Searching.
Variable Date_parse : string -> option Z.

Lemma applySorting_frame (s : State) :
  currentPage (applySorting Date_parse s) = currentPage s
  /\ elements (applySorting Date_parse s) = elements s
  /\ currentMemories (applySorting Date_parse s) = currentMemories s
  /\ List.length (filteredMemories (applySorting Date_parse s))
     = List.length (filteredMemories s).
Proof.
  unfold applySorting. cbn. repeat split.
  apply Permutation_length, sort_perm.
Qed.

Lemma firstPage (s : State) :
  currentPage s = 1 ->
  let s' := applyFiltersAndSearch Date_parse s in
  currentPage s' = 1
  /\ (filteredMemories s' <> [] ->
      memoryTableBody (tableView (elements s')) = firstn 20 (filteredMemories s')).
Proof.
  intros H1 s'. subst s'. unfold applyFiltersAndSearch.
  set (s0 := set_filteredMemories _ s).
  assert (P0 : currentPage s0 = 1) by exact H1.
  set (s1 := applySorting Date_parse s0).
  assert (P1 : currentPage s1 = 1).
  { subst s1. now rewrite (proj1 (applySorting_frame s0)). }
  set (s2 := updatePagination s1).
  assert (P2 : currentPage s2 = 1).
  { subst s2. rewrite MemoryMore.updatePagination_page, P1.
    destruct (Z.ltb_spec (totalPagesOf s1) 1), (Z.ltb_spec 0 (totalPagesOf s1));
      simpl; try reflexivity; lia. }
  destruct (MemoryMore.renderMemoryTable_frame s2) as (F & _).
  split; [now rewrite F|].
  rewrite (proj1 (renderMemoryTable_memories s2)). intros Hne.
  destruct (MemoryMore.renderMemoryTable_view s2) as (_ & V).
  destruct (V Hne) as (_ & _ & B). rewrite B, P2.
  change ((1 - 1) * 20) with (0 * 20). rewrite MemoryMore.slice_page by lia.
  reflexivity.
Qed.

Lemma applyFiltersAndSearch_filters (s : State) :
  filters (elements (applyFiltersAndSearch Date_parse s)) = filters (elements s).
Proof.
  unfold applyFiltersAndSearch.
  set (s0 := set_filteredMemories _ s).
  set (s1 := applySorting Date_parse s0).
  set (s2 := updatePagination s1).
  destruct (MemoryMore.renderMemoryTable_frame s2) as (_ & _ & F2 & _).
  destruct (MemoryMore.updatePagination_frame s1) as (_ & F1 & _).
  fold s2 in F1. rewrite F2, F1. subst s1.
  now rewrite (proj1 (proj2 (applySorting_frame s0))).
Qed.

(** X22.  A new search, a change of a filter and the clearing of the
    search box all return to page 1 and show the first 20 of the memories
    that pass.  [clearSearch] empties the search box, after which the
    list holds exactly the loaded memories that pass the two select
    filters, each as often as it was loaded. *)
Theorem X22_search_shows_first_page (s : State) :
  (forall s',
      In s' [handleSearch Date_parse s; handleFilterChange Date_parse s;
             clearSearch Date_parse s] ->
      currentPage s' = 1
      /\ (filteredMemories s' <> [] ->
          memoryTableBody (tableView (elements s')) = firstn 20 (filteredMemories s')))
  /\ searchInput_value (filters (elements (clearSearch Date_parse s))) = ""
  /\ Permutation (filteredMemories (clearSearch Date_parse s))
       (filter (passesSelects s) (currentMemories s)).
Proof.
  split; [|split].
  - intros s' Hin. simpl in Hin.
    destruct Hin as [E | [E | [E | []]]]; subst s'; now apply firstPage.
  - unfold clearSearch, handleSearch. rewrite applyFiltersAndSearch_filters. reflexivity.
  - unfold clearSearch, handleSearch.
    match goal with
    | |- Permutation (filteredMemories (applyFiltersAndSearch Date_parse ?x)) _ =>
        pose proof (applyFiltersAndSearch_filtered Date_parse x) as P;
        replace (filter (keeps x) (currentMemories x))
          with (filter (passesSelects s) (currentMemories s)) in P; [exact P|]
    end.
    apply filter_ext. intros m. reflexivity.
Qed.
End Searching.

Lemma X22_search_shows_first_page_witness :
  filteredMemories (handleSearch noDates MemoryMore.twoMemoriesState) <> []
  /\ currentPage MemoryMore.twoMemoriesState = 4
  /\ currentPage (handleSearch noDates MemoryMore.twoMemoriesState) = 1
  /\ memoryTableBody (tableView (elements (handleSearch noDates MemoryMore.twoMemoriesState)))
     = firstn 20 (filteredMemories (handleSearch noDates MemoryMore.twoMemoriesState)).
Proof.
  assert (H : filteredMemories (handleSearch noDates MemoryMore.twoMemoriesState) <> [])
    by (vm_compute; discriminate).
  destruct (proj1 (X22_search_shows_first_page noDates MemoryMore.twoMemoriesState)
              (handleSearch noDates MemoryMore.twoMemoriesState)) as (P & B).
  { simpl. auto. }
  split; [exact H|]. split; [reflexivity|]. split; [exact P | exact (B H)].
Defined.

End SearchFacts.

(* ================================================================== *)
(** * More about the control panel, [api/webui/script.js] *)
(* ================================================================== *)

Module PanelMore.
Import Js Panel PanelControls PanelFacts.

(** ** One connection at a time *)

(** X23.  In every state the panel reaches from [init] through socket
    events, timer runs and messages, at most one of these exists: a
    WebSocket that is not closed, a reconnect timer that is pending.  So
    the panel never holds two connections, and never waits to reconnect
    while a socket is still there. *)
Theorem X23_single_connection (functionResponseIn : string -> option YapResponse)
    (ts0 : string) (constructs : bool) (lines0 : list Line) (page0 : Page)
    (events : list Event) (p : State) :
  run functionResponseIn (init ts0 constructs lines0 page0) events = Some p ->
  (liveSockets p + pendingReconnects p <= 1)%nat.
Proof.
  intros Hr.
  pose proof (run_connected functionResponseIn events _ p
                (init_connected ts0 constructs lines0 page0) Hr) as (_ & H & _).
  exact H.
Qed.

Lemma X23_single_connection_witness :
  run noResponses (init "12:00:00" true [] plainPage) firstFailure = Some afterFirstFailure
  /\ (liveSockets afterFirstFailure + pendingReconnects afterFirstFailure <= 1)%nat.
Proof.
  split; [exact firstFailure_runs|].
  exact (X23_single_connection noResponses "12:00:00" true [] plainPage firstFailure
           afterFirstFailure firstFailure_runs).
Defined.

(** ** The yap mode switch *)

(** The switch shows what the panel believes. *)
Definition agrees (p : State) : Prop :=
  yapModeToggle_checked (page p) = yapModeEnabled p.

(** [q] has the switch and the belief of [p]. *)
Definition sameSwitch (p q : State) : Prop :=
  yapModeToggle_checked (page q) = yapModeToggle_checked (page p)
  /\ yapModeEnabled q = yapModeEnabled p.

Lemma sameSwitch_refl (p : State) : sameSwitch p p.
Proof. now split. Qed.

Lemma sameSwitch_agrees (p q : State) : sameSwitch p q -> agrees p -> agrees q.
Proof.
  unfold sameSwitch, agrees. intros [H1 H2] H. congruence.
Qed.

Lemma sameSwitch_frame (p q q' : State) :
  page q' = page q -> yapModeEnabled q' = yapModeEnabled q ->
  sameSwitch p q -> sameSwitch p q'.
Proof.
  unfold sameSwitch. intros -> ->. auto.
Qed.

Lemma addConsoleMessage_same (ts type message : string) (newLine : bool) (p q : State) :
  sameSwitch p q -> sameSwitch p (addConsoleMessage ts type message newLine q).
Proof.
  destruct (addConsoleMessage_frame ts type message newLine q) as (_ & _ & _ & P & Y).
  now apply sameSwitch_frame.
Qed.

Lemma updateWebSocketStatus_same (status : string) (p q : State) :
  sameSwitch p q -> sameSwitch p (updateWebSocketStatus status q).
Proof.
  apply sameSwitch_frame; unfold updateWebSocketStatus;
    repeat match goal with |- context [if ?c then _ else _] => destruct c end;
    reflexivity.
Qed.

Lemma showToast_same (type message : string) (p q : State) :
  sameSwitch p q -> sameSwitch p (showToast type message q).
Proof.
  unfold sameSwitch. auto.
Qed.

Lemma set_speech_same (v : Speech) (p q : State) :
  sameSwitch p q -> sameSwitch p (set_speech v q).
Proof.
  now apply sameSwitch_frame.
Qed.

Lemma clearTimeout_same (id : nat) (p q : State) :
  sameSwitch p q -> sameSwitch p (clearTimeout id q).
Proof.
  now apply sameSwitch_frame.
Qed.

Lemma flushUserSpeechBuffer_same (ts : string) (p q : State) :
  sameSwitch p q -> sameSwitch p (flushUserSpeechBuffer ts q).
Proof.
  intros H. unfold flushUserSpeechBuffer.
  destruct (userSpeechBuffer (speech q)); [exact H|].
  apply set_speech_same.
  match goal with |- context [if ?c then _ else _] => destruct c end.
  - apply addConsoleMessage_same.
    destruct (userSpeechBufferTimeout (speech q)); [|exact H].
    now apply set_speech_same, clearTimeout_same.
  - destruct (userSpeechBufferTimeout (speech q)); [|exact H].
    now apply set_speech_same, clearTimeout_same.
Qed.

Lemma scheduleReconnect_same (ts : string) (p q : State) :
  sameSwitch p q -> sameSwitch p (scheduleReconnect ts q).
Proof.
  intros H. unfold scheduleReconnect.
  destruct (_ <=? _).
  - now apply updateWebSocketStatus_same, addConsoleMessage_same.
  - now apply (sameSwitch_frame p q).
Qed.

Lemma connectWebSocket_same (ts : string) (constructs : bool) (p q : State) :
  sameSwitch p q -> sameSwitch p (connectWebSocket ts constructs q).
Proof.
  intros H. unfold connectWebSocket.
  match goal with |- context [if ?c then q else _] => destruct c end; [exact H|].
  destruct constructs.
  - apply (sameSwitch_frame p (updateWebSocketStatus "connecting" q));
      [reflexivity | reflexivity |].
    now apply updateWebSocketStatus_same.
  - now apply scheduleReconnect_same, updateWebSocketStatus_same, addConsoleMessage_same,
      updateWebSocketStatus_same.
Qed.

Lemma updateYapModeFromResponse_agrees (ts : string) (r : option YapResponse) (p : State) :
  agrees p -> agrees (updateYapModeFromResponse ts r p).
Proof.
  intros H. unfold updateYapModeFromResponse.
  destruct r as [r|]; [|exact H].
  destruct (yap_mode_enabled r) as [b|]; [|exact H].
  destruct (negb _); [|exact H].
  set (p1 := set_yapModeEnabled b _).
  assert (A1 : agrees p1) by reflexivity.
  assert (A2 : agrees (addConsoleMessage ts "success"
                         ("Yap mode toggle updated: "
                            +++ (if b then "enabled" else "disabled")) true
                         (showToast "info"
                            ("Yap mode automatically "
                               +++ (if b then "enabled" else "disabled")) p1))).
  { apply (sameSwitch_agrees p1); [|exact A1].
    apply addConsoleMessage_same, showToast_same, sameSwitch_refl. }
  destruct (yap_message r) as [m|]; [|exact A2].
  destruct (truthy m); [|exact A2].
  apply (sameSwitch_agrees _ _ (addConsoleMessage_same ts "info" _ true _ _
                                  (sameSwitch_refl _)) A2).
Qed.

Section Switch.
Variable functionResponseIn : string -> option YapResponse.
Variable apiUrl : string.

Lemma dispatch_agrees (ts id : string) (m : WsMessage) (p : State) :
  agrees p -> agrees (dispatch functionResponseIn ts id m p).
Proof.
  intros H.
  assert (S : forall q, sameSwitch p q -> agrees q).
  { intros q Hq. now apply (sameSwitch_agrees p). }
  assert (C : forall text q, agrees q -> agrees (checkForFunctionResponse functionResponseIn
                                                   ts text q)).
  { intros text q Hq. unfold checkForFunctionResponse.
    destruct (functionResponseIn text); [|exact Hq].
    now apply updateYapModeFromResponse_agrees. }
  unfold dispatch, handleFunctionResponse.
  repeat match goal with
         | |- context [if (?a =? ?b)%string then _ else _] => destruct (a =? b)%string
         end;
    try exact H;
    try (now apply S, addConsoleMessage_same, sameSwitch_refl).
  - now apply updateYapModeFromResponse_agrees.
  - apply S.
    destruct (setTimeout FlushSpeech _ _) as [q' t] eqn:E.
    apply (sameSwitch_frame p q'); [reflexivity | reflexivity |].
    unfold setTimeout in E. injection E as <- _.
    destruct (userSpeechBufferTimeout _); now apply (sameSwitch_frame p p), sameSwitch_refl.
  - apply C, S, addConsoleMessage_same, sameSwitch_refl.
  - apply C, S, addConsoleMessage_same, sameSwitch_refl.
  - assert (A : agrees (checkForFunctionResponse functionResponseIn ts (data_message m)
                          (addConsoleMessage ts "system" (data_message m) true p))).
    { apply C, S, addConsoleMessage_same, sameSwitch_refl. }
    destruct (truthy _ && _); [|exact A].
    apply (sameSwitch_agrees _ _ (sameSwitch_frame _ _ _ eq_refl eq_refl (sameSwitch_refl _))
             A).
Qed.

Lemma step_agrees (p p' : State) (e : Event) :
  agrees p -> step functionResponseIn p e = Some p' -> agrees p'.
Proof.
  intros H Hs.
  assert (S : forall q, sameSwitch p q -> agrees q).
  { intros q Hq. now apply (sameSwitch_agrees p). }
  assert (R : forall i r, sameSwitch p (setReadyState i r p)).
  { intros i r. now apply (sameSwitch_frame p p), sameSwitch_refl. }
  assert (T : forall id, sameSwitch p (clearTimeout id p)).
  { intros id. now apply (sameSwitch_frame p p), sameSwitch_refl. }
  destruct e as [i ts | i ts id m | i ts | i ts | id ts c | ts]; simpl in Hs.
  - destruct (readyStateOf i p) as [[| | |]|]; try discriminate. injection Hs as <-.
    apply S. unfold onopen.
    apply (sameSwitch_frame p
             (updateWebSocketStatus "connected"
                (addConsoleMessage ts "system"
                   "WebSocket connected - Real-time monitoring active" true
                   (setReadyState i OPEN p)))); [reflexivity | reflexivity |].
    apply updateWebSocketStatus_same, addConsoleMessage_same, R.
  - destruct (readyStateOf i p) as [[| | |]|]; try discriminate. injection Hs as <-.
    unfold onmessage, handleWebSocketMessage. destruct m as [m|]; [|exact H].
    apply dispatch_agrees. destruct (negb _); [|exact H].
    apply S, flushUserSpeechBuffer_same, sameSwitch_refl.
  - destruct (readyStateOf i p) as [[| | |]|]; try discriminate; injection Hs as <-;
      apply S; unfold onerror;
      apply updateWebSocketStatus_same, addConsoleMessage_same, sameSwitch_refl.
  - destruct (readyStateOf i p) as [[| | |]|]; try discriminate; injection Hs as <-;
      apply S; unfold onclose;
      apply scheduleReconnect_same, updateWebSocketStatus_same, addConsoleMessage_same, R.
  - destruct (find _ _) as [t|]; [|discriminate]. injection Hs as <-.
    apply S. destruct (callback t); cbn [runCallback].
    + unfold reconnectCallback.
      apply connectWebSocket_same, addConsoleMessage_same.
      now apply (sameSwitch_frame p (clearTimeout id p)).
    + apply flushUserSpeechBuffer_same, T.
    + apply T.
  - injection Hs as <-. apply S. unfold disconnect.
    pose proof (flushUserSpeechBuffer_same ts p p (sameSwitch_refl p)) as F.
    destruct (websocket (conn (flushUserSpeechBuffer ts p))) as [i|]; [|exact F].
    apply (sameSwitch_frame p
             (match readyStateOf i (flushUserSpeechBuffer ts p) with
              | Some CLOSED | None => flushUserSpeechBuffer ts p
              | Some _ => setReadyState i CLOSING (flushUserSpeechBuffer ts p)
              end)); [reflexivity | reflexivity |].
    destruct (readyStateOf i _) as [[| | |]|]; try exact F;
      now apply (sameSwitch_frame p (flushUserSpeechBuffer ts p)).
Qed.

Lemma sendMessage_called_same (messageType : option string) (p : State) :
  sameSwitch p (fst (fst (sendMessage_called apiUrl messageType p))).
Proof.
  unfold sendMessage_called. destruct (negb _); [now split|].
  destruct messageType; now split.
Qed.

Lemma sendMessage_answered_same (ts : string) (request : ChatRequest)
    (outcome : Outcome) (p : State) :
  sameSwitch p (sendMessage_answered ts request outcome p).
Proof.
  unfold sendMessage_answered, tryCatchFinally, ifSuccess, reportError.
  destruct outcome as [msg | msg | data]; try (now split).
  destruct (success data); now split.
Qed.

Lemma sendQuickMessage_answered_same (ts : string) (request : ChatRequest)
    (outcome : Outcome) (p : State) :
  sameSwitch p (sendQuickMessage_answered ts request outcome p).
Proof.
  unfold sendQuickMessage_answered, tryCatchFinally, ifSuccess, reportError.
  destruct outcome as [msg | msg | data]; try (now split).
  destruct (success data); now split.
Qed.

(** X24.  The yap mode switch and the panel's [yapModeEnabled] agree
    after [loadYapModeStatus], and stay in agreement through every socket
    event, message, timer run and through both parts of [sendMessage]
    and of [sendQuickMessage].  [toggleYapMode] leaves both as they are
    when it is called.  When its answer has come, from whatever state
    the page is in by then: on a failure the switch is put back to the
    panel's value, so the two agree; on success the panel takes the
    requested value and the switch is left alone, so the two agree
    exactly when the switch still shows the requested value, which a
    message handled in between may have changed. *)
Theorem X24_yap_switch_agrees (p : State) :
  agrees (loadYapModeStatus p)
  /\ (agrees p ->
      (forall events p', run functionResponseIn p events = Some p' -> agrees p')
      /\ (forall messageType,
             agrees (fst (fst (sendMessage_called apiUrl messageType p))))
      /\ (forall ts request outcome,
             agrees (sendMessage_answered ts request outcome p))
      /\ (forall message,
             agrees (fst (fst (sendQuickMessage_called apiUrl message p))))
      /\ (forall ts request outcome,
             agrees (sendQuickMessage_answered ts request outcome p)))
  /\ (forall enabled,
         sameSwitch p (fst (fst (toggleYapMode_called apiUrl enabled p))))
  /\ (forall ts enabled outcome,
         let p' := toggleYapMode_answered ts enabled outcome p in
         match failureOf "Failed to toggle yap mode" outcome with
         | Some _ => agrees p' /\ yapModeEnabled p' = yapModeEnabled p
         | None =>
             yapModeEnabled p' = enabled
             /\ yapModeToggle_checked (page p') = yapModeToggle_checked (page p)
             /\ (agrees p' <-> yapModeToggle_checked (page p) = enabled)
         end).
Proof.
  split; [reflexivity|]. split; [|split].
  - intros H.
    assert (S : forall q, sameSwitch p q -> agrees q).
    { intros q Hq. now apply (sameSwitch_agrees p). }
    split; [|split; [|split; [|split]]].
    + intros events. revert p H S. induction events as [|e events IH];
        intros p H _ p' Hr; simpl in Hr.
      * now injection Hr as <-.
      * destruct (step functionResponseIn p e) as [q|] eqn:Es; [|discriminate].
        assert (Hq : agrees q) by now apply (step_agrees p q e).
        apply (IH q Hq); [|exact Hr].
        intros r Hr'. now apply (sameSwitch_agrees q).
    + intros messageType. apply S, sendMessage_called_same.
    + intros ts request outcome. apply S, sendMessage_answered_same.
    + intros message. apply S. now split.
    + intros ts request outcome. apply S, sendQuickMessage_answered_same.
  - intros enabled. now split.
  - intros ts enabled outcome p'. subst p'.
    unfold toggleYapMode_answered, tryCatchFinally, ifSuccess, failureOf, agrees.
    destruct outcome as [msg | msg | data]; cbn; [auto | auto |].
    destruct (success data); cbn; [|auto].
    repeat split; auto.
Qed.
End Switch.

(** The switch is clicked on and [toggleYapMode] has sent its request;
    before the answer, the socket opens and delivers the response of a
    function that turned yap mode off; then the answer comes, with
    [success] true. *)
Definition clicked : State :=
  fst (fst (toggleYapMode_called "http://localhost:8000" true
              (set_yapModeToggle true (loadYapModeStatus started)))).

Definition yapTurnedOff : WsMessage :=
  mkWsMessage "function_response" "" "" (mkCallData "" "")
    (mkResponseData "toggle_yap_mode" (Some true) (Some "Yap mode disabled") "{}"
       (mkYapResponse (Some false) (Some "Yap mode disabled")))
    "12:00:02".

Definition overtaken : option State :=
  run noResponses clicked
    [SocketOpens 1 "12:00:01"; SocketMessage 1 "12:00:02" "r1" (Some yapTurnedOff)].

Lemma X24_yap_switch_agrees_witness :
  agrees typedState
  /\ agrees (sendMessage_answered "11:00:00"
               (mkChatRequest "http://localhost:8000/api/chat/send" "hello Gabriel" false true)
               serverDown typedState)
  /\ agrees (toggleYapMode_answered "11:00:00" true serverDown
               (set_yapModeToggle true typedState))
  /\ (exists q,
         overtaken = Some q
         /\ agrees q
         /\ yapModeToggle_checked (page q) = false
         /\ yapModeEnabled
              (toggleYapMode_answered "12:00:03" true (Answers (mkReply true None)) q)
            = true
         /\ ~ agrees (toggleYapMode_answered "12:00:03" true (Answers (mkReply true None))
                        q)).
Proof.
  assert (A : agrees typedState) by reflexivity.
  split; [exact A|]. split; [|split].
  - destruct (X24_yap_switch_agrees noResponses "http://localhost:8000" typedState)
      as (_ & H & _).
    destruct (H A) as (_ & _ & H3 & _). apply H3.
  - destruct (X24_yap_switch_agrees noResponses "http://localhost:8000"
                (set_yapModeToggle true typedState)) as (_ & _ & _ & H).
    exact (proj1 (H "11:00:00" true serverDown)).
  - destruct overtaken as [q|] eqn:E; [|vm_compute in E; discriminate E].
    exists q.
    assert (Sw : yapModeToggle_checked (page q) = false).
    { vm_compute in E. injection E as <-. reflexivity. }
    assert (Ag : agrees q).
    { vm_compute in E. injection E as <-. reflexivity. }
    destruct (X24_yap_switch_agrees noResponses "http://localhost:8000" q)
      as (_ & _ & _ & H).
    destruct (H "12:00:03" true (Answers (mkReply true None))) as (H1 & _ & H3).
    split; [reflexivity|]. split; [exact Ag|]. split; [exact Sw|].
    split; [exact H1|].
    intros Hag. apply (proj1 H3) in Hag. congruence.
Defined.

(** ** Grouping the speech of the user *)

(** Timer and socket identifiers are fresh: every pending timer has an
    identifier below the next one. *)
Definition fresh (p : State) : Prop :=
  Forall (fun t => (timer_id t < nextId (browser p))%nat) (timers (browser p)).

Lemma fresh_frame (q q' : State) : browser q' = browser q -> fresh q -> fresh q'.
Proof.
  unfold fresh. now intros ->.
Qed.

Lemma addConsoleMessage_fresh (ts type message : string) (newLine : bool) (q : State) :
  fresh q -> fresh (addConsoleMessage ts type message newLine q).
Proof.
  destruct (addConsoleMessage_frame ts type message newLine q) as (_ & B & _).
  now apply fresh_frame.
Qed.

Lemma updateWebSocketStatus_fresh (status : string) (q : State) :
  fresh q -> fresh (updateWebSocketStatus status q).
Proof.
  apply fresh_frame. unfold updateWebSocketStatus.
  repeat match goal with |- context [if ?c then _ else _] => destruct c end; reflexivity.
Qed.

Lemma clearTimeout_fresh (id : nat) (q : State) : fresh q -> fresh (clearTimeout id q).
Proof.
  unfold fresh, clearTimeout. cbn. intros H.
  apply Forall_forall. intros t Ht. apply filter_In in Ht.
  rewrite Forall_forall in H. now apply H.
Qed.

Lemma setTimeout_fresh (cb : Callback) (ms : Z) (q : State) :
  fresh q -> fresh (fst (setTimeout cb ms q)).
Proof.
  unfold fresh, setTimeout. cbn. intros H. apply Forall_app. split.
  - eapply Forall_impl; [|exact H]. cbn. intros t Ht. lia.
  - constructor; [cbn; lia | constructor].
Qed.

Lemma set_speech_fresh (v : Speech) (q : State) : fresh q -> fresh (set_speech v q).
Proof.
  now apply fresh_frame.
Qed.

Lemma flushUserSpeechBuffer_fresh (ts : string) (q : State) :
  fresh q -> fresh (flushUserSpeechBuffer ts q).
Proof.
  intros H. unfold flushUserSpeechBuffer.
  destruct (userSpeechBuffer (speech q)); [exact H|].
  apply set_speech_fresh.
  match goal with |- context [if ?c then _ else _] => destruct c end.
  - apply addConsoleMessage_fresh.
    destruct (userSpeechBufferTimeout (speech q)); [|exact H].
    now apply set_speech_fresh, clearTimeout_fresh.
  - destruct (userSpeechBufferTimeout (speech q)); [|exact H].
    now apply set_speech_fresh, clearTimeout_fresh.
Qed.

Lemma scheduleReconnect_fresh (ts : string) (q : State) :
  fresh q -> fresh (scheduleReconnect ts q).
Proof.
  intros H. unfold scheduleReconnect.
  destruct (_ <=? _).
  - now apply updateWebSocketStatus_fresh, addConsoleMessage_fresh.
  - pose proof (setTimeout_fresh Reconnect (reconnectDelay (conn q)) q H) as F.
    destruct (setTimeout Reconnect (reconnectDelay (conn q)) q) as [q' t].
    now apply (fresh_frame q').
Qed.

Lemma connectWebSocket_fresh (ts : string) (constructs : bool) (q : State) :
  fresh q -> fresh (connectWebSocket ts constructs q).
Proof.
  intros H. unfold connectWebSocket.
  match goal with |- context [if ?c then q else _] => destruct c end; [exact H|].
  destruct constructs.
  - apply updateWebSocketStatus_fresh with (status := "connecting") in H.
    revert H. generalize (updateWebSocketStatus "connecting" q). intros r H.
    unfold fresh in *. cbn. eapply Forall_impl; [|exact H]. cbn. intros t Ht. lia.
  - now apply scheduleReconnect_fresh, updateWebSocketStatus_fresh, addConsoleMessage_fresh,
      updateWebSocketStatus_fresh.
Qed.

Lemma updateYapModeFromResponse_fresh (ts : string) (r : option YapResponse) (q : State) :
  fresh q -> fresh (updateYapModeFromResponse ts r q).
Proof.
  intros H. unfold updateYapModeFromResponse.
  destruct r as [r|]; [|exact H].
  destruct (yap_mode_enabled r) as [b|]; [|exact H].
  destruct (negb _); [|exact H].
  set (p1 := set_yapModeEnabled b _).
  assert (A1 : fresh p1) by exact H.
  assert (A2 : fresh (addConsoleMessage ts "success"
                        ("Yap mode toggle updated: "
                           +++ (if b then "enabled" else "disabled")) true
                        (showToast "info"
                           ("Yap mode automatically "
                              +++ (if b then "enabled" else "disabled")) p1))).
  { apply addConsoleMessage_fresh. exact A1. }
  destruct (yap_message r) as [m|]; [|exact A2].
  destruct (truthy m); [|exact A2].
  now apply addConsoleMessage_fresh.
Qed.

Section Grouping.
Variable functionResponseIn : string -> option YapResponse.

Lemma dispatch_fresh (ts id : string) (m : WsMessage) (p : State) :
  fresh p -> fresh (dispatch functionResponseIn ts id m p).
Proof.
  intros H.
  assert (C : forall text q, fresh q -> fresh (checkForFunctionResponse functionResponseIn
                                                 ts text q)).
  { intros text q Hq. unfold checkForFunctionResponse.
    destruct (functionResponseIn text); [|exact Hq].
    now apply updateYapModeFromResponse_fresh. }
  unfold dispatch, handleFunctionResponse.
  repeat match goal with
         | |- context [if (?a =? ?b)%string then _ else _] => destruct (a =? b)%string
         end;
    try exact H;
    try (now apply addConsoleMessage_fresh).
  - now apply updateYapModeFromResponse_fresh.
  - match goal with
    | |- context [setTimeout FlushSpeech ?d ?q] =>
        pose proof (setTimeout_fresh FlushSpeech d q) as F;
        destruct (setTimeout FlushSpeech d q) as [q' t]
    end.
    apply set_speech_fresh, F.
    destruct (userSpeechBufferTimeout _); [apply clearTimeout_fresh|]; exact H.
  - now apply C, addConsoleMessage_fresh.
  - now apply C, addConsoleMessage_fresh.
  - assert (A : fresh (checkForFunctionResponse functionResponseIn ts (data_message m)
                         (addConsoleMessage ts "system" (data_message m) true p))).
    { now apply C, addConsoleMessage_fresh. }
    destruct (truthy _ && _); [|exact A].
    now apply setTimeout_fresh.
Qed.

Lemma step_fresh (p p' : State) (e : Event) :
  fresh p -> step functionResponseIn p e = Some p' -> fresh p'.
Proof.
  intros H Hs.
  assert (R : forall i r, fresh (setReadyState i r p)) by (intros; exact H).
  destruct e as [i ts | i ts id m | i ts | i ts | id ts c | ts]; simpl in Hs.
  - destruct (readyStateOf i p) as [[| | |]|]; try discriminate. injection Hs as <-.
    unfold onopen.
    apply (fresh_frame
             (updateWebSocketStatus "connected"
                (addConsoleMessage ts "system"
                   "WebSocket connected - Real-time monitoring active" true
                   (setReadyState i OPEN p)))); [reflexivity|].
    apply updateWebSocketStatus_fresh, addConsoleMessage_fresh, R.
  - destruct (readyStateOf i p) as [[| | |]|]; try discriminate. injection Hs as <-.
    unfold onmessage, handleWebSocketMessage. destruct m as [m|]; [|exact H].
    apply dispatch_fresh. destruct (negb _); [|exact H].
    now apply flushUserSpeechBuffer_fresh.
  - destruct (readyStateOf i p) as [[| | |]|]; try discriminate; injection Hs as <-;
      unfold onerror; now apply updateWebSocketStatus_fresh, addConsoleMessage_fresh.
  - destruct (readyStateOf i p) as [[| | |]|]; try discriminate; injection Hs as <-;
      unfold onclose;
      apply scheduleReconnect_fresh, updateWebSocketStatus_fresh, addConsoleMessage_fresh, R.
  - destruct (find _ _) as [t|]; [|discriminate]. injection Hs as <-.
    pose proof (clearTimeout_fresh id p H) as T.
    destruct (callback t); cbn [runCallback].
    + unfold reconnectCallback. apply connectWebSocket_fresh, addConsoleMessage_fresh.
      exact T.
    + now apply flushUserSpeechBuffer_fresh.
    + exact T.
  - injection Hs as <-. unfold disconnect.
    pose proof (flushUserSpeechBuffer_fresh ts p H) as F.
    destruct (websocket (conn (flushUserSpeechBuffer ts p))) as [i|]; [|exact F].
    destruct (readyStateOf i _) as [[| | |]|]; exact F.
Qed.

Lemma run_fresh (events : list Event) (p p' : State) :
  fresh p -> run functionResponseIn p events = Some p' -> fresh p'.
Proof.
  revert p. induction events as [|e events IH]; intros p H Hr; simpl in Hr.
  - now injection Hr as <-.
  - destruct (step functionResponseIn p e) as [q|] eqn:Es; [|discriminate].
    apply (IH q); [|exact Hr]. now apply (step_fresh p q e).
Qed.

Lemma init_fresh (ts : string) (constructs : bool) (lines0 : list Line) (page0 : Page) :
  fresh (init ts constructs lines0 page0).
Proof.
  unfold init. apply addConsoleMessage_fresh, connectWebSocket_fresh. constructor.
Qed.
End Grouping.

(** The messages of a burst, each with the clock time and the fresh
    identifier of its handling. *)
Definition Arrival : Type := (string * string * WsMessage)%type.

Definition isTranscription (a : Arrival) : Prop :=
  msg_type (snd a) = "user_input_transcription".

Definition heardText (l : list Arrival) : string :=
  trim (join " " (map (fun a => data_text (snd a)) l)).

Section Burst.
Variable functionResponseIn : string -> option YapResponse.

(** The handler run on each message in turn. *)
Definition handleAll (l : list Arrival) (p : State) : State :=
  fold_left
    (fun q a => handleWebSocketMessage functionResponseIn (fst (fst a)) (snd (fst a)) (snd a) q)
    l p.

Lemma hear_one (ts id : string) (m : WsMessage) (p : State) :
  msg_type m = "user_input_transcription" ->
  let q := handleWebSocketMessage functionResponseIn ts id m p in
  consoleOutput q = consoleOutput p /\ conn q = conn p /\ page q = page p
  /\ sockets (browser q) = sockets (browser p)
  /\ userSpeechBuffer (speech q)
     = userSpeechBuffer (speech p) ++ [mkSpeechItem (data_text m) (msg_timestamp m)]
  /\ userSpeechBufferTimeout (speech q) = Some (nextId (browser p))
  /\ userSpeechGroupingDelay (speech q) = userSpeechGroupingDelay (speech p)
  /\ timers (browser q)
     = withoutFlushTimer p
       ++ [mkTimer (nextId (browser p)) (userSpeechGroupingDelay (speech p)) FlushSpeech]
  /\ nextId (browser q) = S (nextId (browser p)).
Proof.
  intros Hm q. subst q.
  unfold handleWebSocketMessage, isBuffered, dispatch, withoutFlushTimer. rewrite Hm.
  cbn [String.eqb Ascii.eqb Bool.eqb orb andb negb].
  destruct p as [a y c [buf [t|] gd] co pg [so ti nx]]; cbn; repeat split.
Qed.

(** The state of the panel while a burst of speech is being heard:
    since [p], nothing was written, the buffer took [items] and one flush
    timer, [k], was added. *)
Definition hearing (p q : State) (k : nat) (items : list SpeechItem) : Prop :=
  consoleOutput q = consoleOutput p /\ conn q = conn p /\ page q = page p
  /\ sockets (browser q) = sockets (browser p)
  /\ userSpeechBuffer (speech q) = userSpeechBuffer (speech p) ++ items
  /\ userSpeechBufferTimeout (speech q) = Some k
  /\ userSpeechGroupingDelay (speech q) = userSpeechGroupingDelay (speech p)
  /\ timers (browser q)
     = timers (browser p) ++ [mkTimer k (userSpeechGroupingDelay (speech p)) FlushSpeech]
  /\ (nextId (browser p) <= k < nextId (browser q))%nat.

Lemma filter_fresh (k : nat) (l : list Timer) (n : nat) :
  Forall (fun t => (timer_id t < n)%nat) l -> (n <= k)%nat ->
  filter (fun t => negb (Nat.eqb (timer_id t) k)) l = l
  /\ find (fun t => Nat.eqb (timer_id t) k) l = None.
Proof.
  intros H Hk. induction H as [|t l Ht _ [IH1 IH2]]; [now split|].
  cbn [filter find]. destruct (Nat.eqb_spec (timer_id t) k) as [E | N]; [lia|].
  cbn [negb]. now rewrite IH1, IH2.
Qed.

Lemma find_none_app {X : Type} (f : X -> bool) (l l' : list X) :
  find f l = None -> find f (l ++ l') = find f l'.
Proof.
  induction l as [|x l IH]; [reflexivity|]. cbn [find app].
  destruct (f x); [discriminate | exact IH].
Qed.

Lemma hearing_more (p q : State) (k : nat) (items : list SpeechItem) (a : Arrival) :
  fresh p -> hearing p q k items -> isTranscription a ->
  hearing p (handleAll [a] q) (nextId (browser q))
    (items ++ [mkSpeechItem (data_text (snd a)) (msg_timestamp (snd a))]).
Proof.
  intros F (H1 & H2 & H3 & H4 & H5 & H6 & H7 & H8 & H9) Ha.
  destruct a as [[ts id] m]. cbn [handleAll fold_left fst snd] in *.
  destruct (hear_one ts id m q Ha) as (Q1 & Q2 & Q3 & Q4 & Q5 & Q6 & Q7 & Q8 & Q9).
  unfold hearing. rewrite Q1, Q2, Q3, Q4, Q5, Q6, Q7, Q8, Q9, H5, H7. 
  repeat split; try assumption; try lia.
  - now rewrite app_assoc.
  - unfold withoutFlushTimer. rewrite H6, H8, filter_app.
    destruct (filter_fresh k (timers (browser p)) (nextId (browser p)) F (proj1 H9))
      as [E _].
    rewrite E. cbn [filter timer_id]. rewrite Nat.eqb_refl. cbn [negb].
    now rewrite app_nil_r.
Qed.

Lemma hearing_first (p : State) (a : Arrival) :
  userSpeechBufferTimeout (speech p) = None -> isTranscription a ->
  hearing p (handleAll [a] p) (nextId (browser p))
    [mkSpeechItem (data_text (snd a)) (msg_timestamp (snd a))].
Proof.
  intros Hn Ha. destruct a as [[ts id] m]. cbn [handleAll fold_left fst snd] in *.
  destruct (hear_one ts id m p Ha) as (Q1 & Q2 & Q3 & Q4 & Q5 & Q6 & Q7 & Q8 & Q9).
  unfold hearing. rewrite Q1, Q2, Q3, Q4, Q5, Q6, Q7, Q8, Q9.
  unfold withoutFlushTimer. rewrite Hn. repeat split; lia.
Qed.

Lemma hearing_all (p : State) (a : Arrival) (l : list Arrival) :
  fresh p -> userSpeechBufferTimeout (speech p) = None ->
  Forall isTranscription (a :: l) ->
  exists k,
    hearing p (handleAll (a :: l) p) k
      (map (fun a => mkSpeechItem (data_text (snd a)) (msg_timestamp (snd a))) (a :: l)).
Proof.
  intros F Hn Hall. inversion Hall as [|? ? Ha Hl]; subst. clear Hall.
  change (handleAll (a :: l) p) with (handleAll l (handleAll [a] p)).
  pose proof (hearing_first p a Hn Ha) as H.
  change (map _ (a :: l))
    with ([mkSpeechItem (data_text (snd a)) (msg_timestamp (snd a))]
          ++ map (fun a => mkSpeechItem (data_text (snd a)) (msg_timestamp (snd a))) l).
  revert H. generalize (handleAll [a] p) (nextId (browser p))
    [mkSpeechItem (data_text (snd a)) (msg_timestamp (snd a))].
  induction Hl as [|b l Hb _ IH]; intros q k items H.
  - exists k. now rewrite app_nil_r.
  - change (handleAll (b :: l) q) with (handleAll l (handleAll [b] q)).
    cbn [map]. 
    replace (items ++ mkSpeechItem (data_text (snd b)) (msg_timestamp (snd b))
                     :: map (fun a => mkSpeechItem (data_text (snd a)) (msg_timestamp (snd a))) l)
      with ((items ++ [mkSpeechItem (data_text (snd b)) (msg_timestamp (snd b))])
            ++ map (fun a => mkSpeechItem (data_text (snd a)) (msg_timestamp (snd a))) l)
      by (now rewrite <- app_assoc).
    eapply IH. apply (hearing_more p q k items b F H Hb).
Qed.

(** X25.  Speech is grouped: while messages of the type
    [user_input_transcription] keep coming, starting with an empty buffer
    and no flush timer, nothing is written to the console and exactly one
    flush timer is pending, the one of the last message, with the grouping
    delay.  When that timer runs, or when the buffer is flushed before the
    next message of another kind, the whole burst becomes one line: the
    texts in order, joined by single spaces and trimmed, or no line when
    that text is empty.  Afterwards the buffer is empty and the timers are
    those from before the burst.  Timer identifiers are fresh in every
    state the panel reaches. *)
Theorem X25_speech_is_grouped (p : State) (a : Arrival) (l : list Arrival) :
  (forall ts0 constructs lines0 page0 events,
      run functionResponseIn (init ts0 constructs lines0 page0) events = Some p -> fresh p)
  /\ (fresh p ->
      userSpeechBuffer (speech p) = [] -> userSpeechBufferTimeout (speech p) = None ->
      Forall isTranscription (a :: l) ->
      let q := handleAll (a :: l) p in
      consoleOutput q = consoleOutput p
      /\ exists k,
          timers (browser q)
          = timers (browser p)
            ++ [mkTimer k (userSpeechGroupingDelay (speech p)) FlushSpeech]
          /\ forall ts q',
              (q' = flushUserSpeechBuffer ts q
               \/ exists c, step functionResponseIn q (TimerRuns k ts c) = Some q') ->
              consoleOutput q'
              = (if (heardText (a :: l) =? "")%string then consoleOutput p
                 else trimConsole
                        (consoleOutput p
                         ++ [mkLine ["console-line"; "user-speech"] ts
                               (Message ("[User Speech]: " +++ heardText (a :: l)))]))
              /\ userSpeechBuffer (speech q') = []
              /\ userSpeechBufferTimeout (speech q') = None
              /\ timers (browser q') = timers (browser p)).
Proof.
  split.
  { intros ts0 constructs lines0 page0 events Hr.
    apply (run_fresh functionResponseIn events _ p (init_fresh ts0 constructs lines0 page0)
             Hr). }
  intros F Hb Hn Hall q. subst q.
  destruct (hearing_all p a l F Hn Hall) as (k & H1 & H2 & H3 & H4 & H5 & H6 & H7 & H8 & H9).
  set (q := handleAll (a :: l) p) in *.
  split; [exact H1|]. exists k. split; [exact H8|].
  rewrite Hb in H5. cbn [app] in H5.
  assert (T : combinedTextOf q = heardText (a :: l)).
  { unfold combinedTextOf, heardText. rewrite H5, map_map. reflexivity. }
  destruct (filter_fresh k (timers (browser p)) (nextId (browser p)) F (proj1 H9))
    as [E1 E2].
  assert (W : forall r, userSpeechBufferTimeout (speech r) = Some k ->
                        timers (browser r) = timers (browser q) \/
                        timers (browser r) = timers (browser p) ->
                        withoutFlushTimer r = timers (browser p)).
  { intros r Hr [Ht | Ht]; unfold withoutFlushTimer; rewrite Hr, Ht.
    - rewrite H8, filter_app, E1. cbn [filter timer_id]. rewrite Nat.eqb_refl.
      cbn [negb]. now rewrite app_nil_r.
    - exact E1. }
  intros ts q' [-> | [c Hs]].
  - assert (Hne : userSpeechBuffer (speech q) <> []) by (rewrite H5; discriminate).
    destruct (flushUserSpeechBuffer_nonempty ts q Hne) as (C & B & O & Tm & _).
    rewrite C, B, O, Tm, H1. unfold speechLine. rewrite T.
    repeat split. apply W; [exact H6 | now left].
  - cbn [step] in Hs. rewrite H8, (find_none_app _ _ _ E2) in Hs.
    cbn [find timer_id] in Hs. rewrite Nat.eqb_refl in Hs.
    cbn [callback runCallback] in Hs. injection Hs as <-.
    set (r := clearTimeout k q).
    assert (Hne : userSpeechBuffer (speech r) <> []).
    { change (userSpeechBuffer (speech r)) with (userSpeechBuffer (speech q)).
      rewrite H5. discriminate. }
    destruct (flushUserSpeechBuffer_nonempty ts r Hne) as (C & B & O & Tm & _).
    rewrite C, B, O, Tm. unfold speechLine.
    change (combinedTextOf r) with (combinedTextOf q). rewrite T.
    change (consoleOutput r) with (consoleOutput q). rewrite H1.
    repeat split. apply W; [exact H6|]. right.
    unfold r, clearTimeout. cbn [browser set_browser timers].
    rewrite H8, filter_app, E1. cbn [filter timer_id]. rewrite Nat.eqb_refl.
    cbn [negb]. now rewrite app_nil_r.
Qed.
End Burst.

Definition heard (t : string) : Arrival :=
  ("12:00:05", "1",
   mkWsMessage "user_input_transcription" "" t (mkCallData "" "")
     (mkResponseData "" None None "" (mkYapResponse None None)) "t").

Lemma X25_speech_is_grouped_witness :
  fresh started
  /\ Forall isTranscription [heard "hello"; heard " there "]
  /\ consoleOutput (handleAll noResponses [heard "hello"; heard " there "] started)
     = consoleOutput started
  /\ heardText [heard "hello"; heard " there "] = "hello  there".
Proof.
  assert (F : fresh started).
  { exact (proj1 (X25_speech_is_grouped noResponses started (heard "") [])
             "12:00:00" true [] plainPage [] eq_refl). }
  assert (T : Forall isTranscription [heard "hello"; heard " there "]).
  { repeat constructor. }
  split; [exact F|]. split; [exact T|]. split; [|reflexivity].
  exact (proj1 (proj2 (X25_speech_is_grouped noResponses started (heard "hello")
                         [heard " there "]) F eq_refl eq_refl T)).
Defined.

(** ** Streamed answers *)

(** A line of the class [response] that holds a text. *)
Definition responseText (l : Line) : option string :=
  if contains "console-line" l && contains "response" l then
    match content l with
    | Message t => Some t
    | _ => None
    end
  else None.

Definition isTextChunk (a : Arrival) : Prop := msg_type (snd a) = "text_chunk".

(** The texts of the chunks, one after the other. *)
Definition chunkText (l : list Arrival) : string :=
  fold_right (fun a t => data_text (snd a) +++ t) "" l.

(** The console after the text [t] was streamed onto [lines] at the
    time [ts]: the text goes to the end of the last line when that line
    is a response, and into a new line otherwise. *)
Definition streamedOnto (ts t : string) (lines : list Line) : list Line :=
  let fresh_line :=
    trimConsole
      (lines ++ [mkLine ["console-line"; "response"] ts (Message ("Gabriel: " +++ t))]) in
  match lastElementChild lines with
  | Some lastLine =>
      match responseText lastLine with
      | Some old =>
          removelast lines
          ++ [mkLine (classList lastLine) (timestamp lastLine) (Message (old +++ t))]
      | None => fresh_line
      end
  | None => fresh_line
  end.

Lemma substring_all (t : string) (k : nat) : substring 0 (k + String.length t) t = t.
Proof.
  induction t as [|c t IH]; [now destruct k|].
  cbn [String.length]. rewrite Nat.add_succ_r. cbn [substring]. now rewrite IH.
Qed.

Lemma substring_after (pat t : string) (k : nat) :
  substring (String.length pat) (k + String.length t) (pat +++ t) = t.
Proof.
  induction pat as [|c pat IH]; [apply substring_all|].
  cbn [String.length String.append substring]. exact IH.
Qed.

Lemma length_append (a b : string) :
  String.length (a +++ b) = (String.length a + String.length b)%nat.
Proof.
  induction a as [|c a IH]; [reflexivity|]. cbn [String.length String.append].
  now rewrite IH.
Qed.

Lemma prefix_append (pat t : string) : prefix pat (pat +++ t) = true.
Proof.
  induction pat as [|c pat IH]; [now destruct t|].
  cbn [String.append prefix]. destruct (Ascii.ascii_dec c c); [exact IH | congruence].
Qed.

Lemma replace_prefix (t : string) : replace "Gabriel: " "" ("Gabriel: " +++ t) = t.
Proof.
  assert (E : forall u, replace "Gabriel: " "" u
                        = if prefix "Gabriel: " u
                          then "" +++ substring (String.length "Gabriel: ")
                                        (String.length u) u
                          else match u with
                               | EmptyString => EmptyString
                               | String c u' => String c (replace "Gabriel: " "" u')
                               end).
  { intros u. destruct u; reflexivity. }
  rewrite E, prefix_append, length_append. apply substring_after.
Qed.
Lemma lastElementChild_snoc (lines : list Line) (l : Line) :
  lastElementChild (lines ++ [l]) = Some l.
Proof.
  unfold lastElementChild. rewrite map_app. cbn [map]. apply last_last.
Qed.

(** Trimming after a line was added keeps that line. *)
Lemma trimConsole_snoc (lines : list Line) (l : Line) :
  trimConsole (lines ++ [l])
  = (if 1000 <? Z.of_nat (List.length lines + 1) then tl lines else lines) ++ [l].
Proof.
  unfold trimConsole. rewrite length_app. cbn [List.length].
  destruct (Z.ltb_spec 1000 (Z.of_nat (List.length lines + 1))); [|reflexivity].
  destruct lines as [|x lines]; [cbn in *; lia | reflexivity].
Qed.

Lemma append_nil_r (t : string) : t +++ "" = t.
Proof.
  induction t as [|c t IH]; [reflexivity|]. cbn [String.append]. now rewrite IH.
Qed.

Lemma string_app_assoc (a b c : string) : (a +++ b) +++ c = a +++ b +++ c.
Proof.
  induction a as [|x a IH]; [reflexivity|]. cbn [String.append]. now rewrite IH.
Qed.

(** Streaming [t'] after [t] is streaming [t +++ t']. *)
Lemma streamedOnto_twice (ts ts' t t' : string) (lines : list Line) :
  streamedOnto ts' t' (streamedOnto ts t lines) = streamedOnto ts (t +++ t') lines.
Proof.
  assert (N : forall rest,
             streamedOnto ts' t'
               (rest ++ [mkLine ["console-line"; "response"] ts
                           (Message ("Gabriel: " +++ t))])
             = rest ++ [mkLine ["console-line"; "response"] ts
                          (Message ("Gabriel: " +++ t +++ t'))]).
  { intros rest. unfold streamedOnto at 1. rewrite lastElementChild_snoc.
    cbn [responseText contains classList existsb String.eqb Ascii.eqb Bool.eqb orb andb
           content timestamp].
    rewrite removelast_last, string_app_assoc. reflexivity. }
  unfold streamedOnto at 2 3.
  destruct (lastElementChild lines) as [lastLine|] eqn:El.
  - destruct (responseText lastLine) as [old|] eqn:Er.
    + unfold streamedOnto. rewrite lastElementChild_snoc.
      assert (R : responseText (mkLine (classList lastLine) (timestamp lastLine)
                                  (Message (old +++ t))) = Some (old +++ t)).
      { unfold responseText, contains in Er |- *. cbn [classList content].
        destruct (existsb (String.eqb "console-line") (classList lastLine)
                  && existsb (String.eqb "response") (classList lastLine));
          [reflexivity | discriminate Er]. }
      rewrite R, removelast_last, string_app_assoc. reflexivity.
    + rewrite !trimConsole_snoc, N. reflexivity.
  - rewrite !trimConsole_snoc, N. reflexivity.
Qed.

Lemma streamedOnto_length (ts t : string) (lines : list Line) :
  (List.length (streamedOnto ts t lines) <= List.length lines + 1)%nat.
Proof.
  assert (F : (List.length
                 (trimConsole
                    (lines ++ [mkLine ["console-line"; "response"] ts
                                 (Message ("Gabriel: " +++ t))]))
               <= List.length lines + 1)%nat).
  { etransitivity; [apply trimConsole_shorter|]. rewrite length_app. simpl. lia. }
  unfold streamedOnto.
  destruct (lastElementChild lines) as [lastLine|] eqn:El; [|exact F].
  destruct (responseText lastLine); [|exact F].
  rewrite (replaced_last_length _ _ _ El). lia.
Qed.

Section Streaming.
Variable functionResponseIn : string -> option YapResponse.

Lemma chunk_one (ts id : string) (m : WsMessage) (p : State) :
  msg_type m = "text_chunk" -> functionResponseIn (data_text m) = None ->
  userSpeechBuffer (speech p) = [] ->
  handleWebSocketMessage functionResponseIn ts id m p
  = addConsoleMessage ts "response" ("Gabriel: " +++ data_text m) false p.
Proof.
  intros Hm Hf Hb.
  unfold handleWebSocketMessage, isBuffered, dispatch, checkForFunctionResponse.
  rewrite Hm. cbn [String.eqb Ascii.eqb Bool.eqb orb andb negb].
  rewrite (flushUserSpeechBuffer_empty ts p Hb), Hf. reflexivity.
Qed.

Lemma addConsoleMessage_chunk (ts t : string) (p : State) :
  consoleOutput (addConsoleMessage ts "response" ("Gabriel: " +++ t) false p)
  = streamedOnto ts t (consoleOutput p).
Proof.
  unfold addConsoleMessage, streamedOnto, responseText.
  cbn [negb andb String.eqb Ascii.eqb Bool.eqb].
  destruct (lastElementChild (consoleOutput p)) as [lastLine|]; [|reflexivity].
  destruct (contains "console-line" lastLine && contains "response" lastLine);
    [|reflexivity].
  destruct (content lastLine); try reflexivity.
  cbn [consoleOutput set_consoleOutput]. now rewrite replace_prefix.
Qed.

(** X26.  Streamed text grows one line: consecutive [text_chunk]
    messages (none of which holds a function response, and with no speech
    waiting in the buffer) leave the console as one chunk with all their
    texts would.  The texts go, in order and without the [Gabriel: ]
    prefix, to the end of the last line when that line is a response
    line, also the line of a complete response; otherwise they form one
    new line that starts with [Gabriel: ] and carries the time of the
    first chunk.  So any number of chunks adds at most one line, and
    nothing but the console changes. *)
Theorem X26_chunks_grow_one_line (p : State) (a : Arrival) (l : list Arrival) :
  userSpeechBuffer (speech p) = [] ->
  Forall isTextChunk (a :: l) ->
  Forall (fun a => functionResponseIn (data_text (snd a)) = None) (a :: l) ->
  let q := handleAll functionResponseIn (a :: l) p in
  consoleOutput q = streamedOnto (fst (fst a)) (chunkText (a :: l)) (consoleOutput p)
  /\ (List.length (consoleOutput q) <= List.length (consoleOutput p) + 1)%nat
  /\ conn q = conn p /\ browser q = browser p /\ speech q = speech p /\ page q = page p.
Proof.
  intros Hb Hc Hf q. subst q.
  assert (G : consoleOutput (handleAll functionResponseIn (a :: l) p)
              = streamedOnto (fst (fst a)) (chunkText (a :: l)) (consoleOutput p)
              /\ conn (handleAll functionResponseIn (a :: l) p) = conn p
              /\ browser (handleAll functionResponseIn (a :: l) p) = browser p
              /\ speech (handleAll functionResponseIn (a :: l) p) = speech p
              /\ page (handleAll functionResponseIn (a :: l) p) = page p).
  { revert p a Hb Hc Hf. induction l as [|b l IH]; intros p a Hb Hc Hf.
    - destruct a as [[ts id] m]. inversion Hc as [|? ? Hm _]; subst.
      inversion Hf as [|? ? Hn _]; subst. cbn [handleAll fold_left fst snd] in *.
      rewrite (chunk_one ts id m p Hm Hn Hb).
      destruct (addConsoleMessage_frame ts "response" ("Gabriel: " +++ data_text m) false p)
        as (C & B & S & P & _).
      rewrite addConsoleMessage_chunk. unfold chunkText. cbn [fold_right snd].
      rewrite append_nil_r. auto.
    - destruct a as [[ts id] m]. inversion Hc as [|? ? Hm Hc']; subst.
      inversion Hf as [|? ? Hn Hf']; subst.
      change (handleAll functionResponseIn ((ts, id, m) :: b :: l) p)
        with (handleAll functionResponseIn (b :: l)
                (handleWebSocketMessage functionResponseIn ts id m p)).
      cbn [fst snd] in *. rewrite (chunk_one ts id m p Hm Hn Hb).
      destruct (addConsoleMessage_frame ts "response" ("Gabriel: " +++ data_text m) false p)
        as (C & B & S & P & _).
      set (p1 := addConsoleMessage ts "response" ("Gabriel: " +++ data_text m) false p) in *.
      assert (Hb1 : userSpeechBuffer (speech p1) = []) by (rewrite S; exact Hb).
      destruct (IH p1 b Hb1 Hc' Hf') as (I1 & I2 & I3 & I4 & I5).
      rewrite I1, I2, I3, I4, I5. subst p1. rewrite addConsoleMessage_chunk.
      rewrite streamedOnto_twice. auto. }
  destruct G as (G1 & G2 & G3 & G4 & G5).
  split; [exact G1|]. split; [|auto]. rewrite G1. apply streamedOnto_length.
Qed.
End Streaming.

Definition chunk (ts t : string) : Arrival :=
  (ts, "1",
   mkWsMessage "text_chunk" "" t (mkCallData "" "")
     (mkResponseData "" None None "" (mkYapResponse None None)) "t").

Lemma X26_chunks_grow_one_line_witness :
  userSpeechBuffer (speech smallConsole) = []
  /\ Forall isTextChunk [chunk "09:00:02" "lo,"; chunk "09:00:03" " world"]
  /\ consoleOutput
       (handleAll noResponses [chunk "09:00:02" "lo,"; chunk "09:00:03" " world"]
          smallConsole)
     = [mkLine ["console-line"; "system"] "09:00:00" (Message "Console cleared");
        mkLine ["console-line"; "response"] "09:00:01" (Message "Gabriel: Hello, world")].
Proof.
  assert (C : Forall isTextChunk [chunk "09:00:02" "lo,"; chunk "09:00:03" " world"]).
  { repeat constructor. }
  assert (N : Forall (fun a => noResponses (data_text (snd a)) = None)
                [chunk "09:00:02" "lo,"; chunk "09:00:03" " world"]).
  { repeat constructor. }
  split; [reflexivity|]. split; [exact C|].
  rewrite (proj1 (X26_chunks_grow_one_line noResponses smallConsole (chunk "09:00:02" "lo,")
                    [chunk "09:00:03" " world"] eq_refl C N)).
  vm_compute. reflexivity.
Defined.

(** ** The status badges: [checkStatus] *)

Section Status.
Variable apiUrl : string.

(** X27.  After [checkStatus] the first badge reads [Gabriel Online]
    exactly when [/health] answered [healthy] with an active session and
    the request of the chat status did not fail as well, and [Gabriel
    Offline] otherwise; the second reads [Connected] exactly when both
    requests were answered and the chat status has [success] set, and
    [Disconnected] otherwise.  So a failure of the second request also
    shows Gabriel as offline.  The chat status is asked only after
    [/health] answered, and the VRChat status only after both did. *)
Theorem X27_checkStatus_badges (health : Got (option Health))
    (chat : Got (option ChatStatus)) (b : Badges) :
  let result := checkStatus apiUrl health chat b in
  let healthy :=
    match health with
    | Gets (Some data) => (health_status data =? "healthy")%string && session_active data
    | _ => false
    end in
  let answered :=
    match health, chat with
    | Gets (Some _), Gets (Some chatData) => Some (chat_success chatData)
    | _, _ => None
    end in
  statusText_text (fst result)
  = (if healthy && (match answered with Some _ => true | None => false end)
     then "Gabriel Online" else "Gabriel Offline")
  /\ apiStatus_text (fst result)
     = (match answered with Some true => "Connected" | _ => "Disconnected" end)
  /\ snd result
     = [apiUrl +++ "/health"]
       ++ (match health with Gets (Some _) => [apiUrl +++ "/api/chat/status"] | _ => [] end)
       ++ (match answered with
           | Some _ => [apiUrl +++ "/api/vrchat/controls/status"]
           | None => []
           end).
Proof.
  intros result healthy answered. subst result healthy answered. unfold checkStatus.
  destruct health as [msg | [data|]]; [now repeat split | | now repeat split].
  destruct chat as [msg | [chatData|]].
  - rewrite andb_false_r. now repeat split.
  - rewrite andb_true_r.
    destruct ((health_status data =? "healthy")%string && session_active data);
      destruct (chat_success chatData); now repeat split.
  - rewrite andb_false_r. now repeat split.
Qed.
End Status.

Lemma checkStatus_second_failure :
  fst (checkStatus "http://localhost:8000" (Gets (Some (mkHealth "healthy" true)))
         (Throws "Failed to fetch") (mkBadges "" "" "" ""))
  = mkBadges "status-dot offline" "Gabriel Offline" "api-status-badge offline"
      "Disconnected".
Proof.
  reflexivity.
Qed.

(** ** The V2 mode switch: [loadV2ModeStatus], [toggleV2Mode] *)

Section V2Mode.
Variable apiUrl : string.

End V2Mode.


End PanelMore.
